(** * BroBuild: the compatibility and auto-build engine

    A shallow embedding of the engine of the BroBuild PC part picker
    ([engine/checker.py], [engine/database.py], [engine/autobuilder.py],
    [engine/partlist.py]) and the properties of it that the design
    document states.

    Conventions of the embedding:
    - a Python [str] is a [string] of ASCII characters (case folding,
      [\s], [\d] and [\w] are the ASCII classes; bytes above 127 are
      letters of no class);
    - a JSON value of the catalogue is a [value]: null, a boolean, an
      integer, a string or a list (the catalogue holds no JSON floats:
      prices are whole Rupiah);
    - a Python [dict] read by key is a [gmap]; a dict that is iterated
      (the master spec map) is an association list in insertion order;
    - a Python [float] is an IEEE 754 binary64 number, [spec_float] with
      precision 53 and maximal exponent 1024;
    - a call that can raise returns a [result]. *)

From Stdlib Require Import ZArith Lia String Ascii List Sorted SpecFloat DecimalString
  DecimalZ.
From stdpp Require Import gmap strings list.

Set Warnings "-register-all".

Local Open Scope string_scope.
Local Open Scope Z_scope.

(* ===================================================================== *)
(** * Exceptions *)
(* ===================================================================== *)

Inductive exn_kind : Type :=
  | TypeError | ValueError | KeyError | IndexError | OverflowError
  | AttributeError | ZeroDivisionError.

(** An exception carries the text that [str(e)] gives (CPython wording). *)
Record exn : Type := MkExn { exn_kind_of : exn_kind; exn_msg : string }.

Inductive result (A : Type) : Type :=
  | Ok (a : A)
  | Raise (e : exn).
Arguments Ok {A} a.
Arguments Raise {A} e.

#[global] Instance result_ret : MRet result := fun _ a => Ok a.
#[global] Instance result_bind : MBind result := fun _ _ f m =>
  match m with Ok a => f a | Raise e => Raise e end.

Definition is_ok {A} (r : result A) : bool :=
  match r with Ok _ => true | Raise _ => false end.

(* ===================================================================== *)
(** * Strings *)
(* ===================================================================== *)

Module Str.

Definition code (a : ascii) : N := N_of_ascii a.

(** [\s] of an [re] pattern on [str], within ASCII: tab, LF, VT, FF, CR,
    the separators 0x1c-0x1f and the space. *)
Definition is_space (a : ascii) : bool :=
  let n := code a in
  ((9 <=? n) && (n <=? 13) || (28 <=? n) && (n <=? 32))%N.

Definition is_digit (a : ascii) : bool :=
  let n := code a in ((48 <=? n) && (n <=? 57))%N.

Definition is_upper (a : ascii) : bool :=
  let n := code a in ((65 <=? n) && (n <=? 90))%N.

Definition is_lower (a : ascii) : bool :=
  let n := code a in ((97 <=? n) && (n <=? 122))%N.

(** [\w] within ASCII. *)
Definition is_word (a : ascii) : bool :=
  is_digit a || is_upper a || is_lower a || (code a =? 95)%N.

Definition lower_char (a : ascii) : ascii :=
  if is_upper a then ascii_of_N (code a + 32) else a.

(** [s.lower()] *)
Fixpoint lower (s : string) : string :=
  match s with
  | EmptyString => EmptyString
  | String a r => String (lower_char a) (lower r)
  end.

Fixpoint filter (p : ascii -> bool) (s : string) : string :=
  match s with
  | EmptyString => EmptyString
  | String a r => if p a then String a (filter p r) else filter p r
  end.

Fixpoint forallb (p : ascii -> bool) (s : string) : bool :=
  match s with
  | EmptyString => true
  | String a r => p a && forallb p r
  end.

(** [re.sub(r'\s+', '', s)] *)
Definition remove_spaces (s : string) : string :=
  filter (fun a => negb (is_space a)) s.

(** [s.startswith(p)] *)
Definition startswith (s p : string) : bool := String.prefix p s.

Fixpoint drop (n : nat) (s : string) : string :=
  match n, s with
  | O, _ => s
  | S n', String _ r => drop n' r
  | S _, EmptyString => EmptyString
  end.

Fixpoint take (n : nat) (s : string) : string :=
  match n, s with
  | S n', String a r => String a (take n' r)
  | _, _ => EmptyString
  end.

(** [sub in s] *)
Fixpoint contains (sub s : string) : bool :=
  startswith s sub ||
  match s with
  | EmptyString => false
  | String _ r => contains sub r
  end.

(** [s.replace(old, new)] for a non-empty [old]: occurrences are
    replaced left to right, without overlap.  [fuel] bounds the
    characters still to scan. *)
Fixpoint replace_aux (fuel : nat) (old new s : string) : string :=
  match fuel with
  | O => s
  | S fuel' =>
      match s with
      | EmptyString => EmptyString
      | String a r =>
          if startswith s old
          then new +:+ replace_aux fuel' old new (drop (String.length old) s)
          else String a (replace_aux fuel' old new r)
      end
  end.

Definition replace (old new s : string) : string :=
  replace_aux (String.length s) old new s.

(** The longest prefix of [s] made of characters of class [p]. *)
Fixpoint span (p : ascii -> bool) (s : string) : string :=
  match s with
  | String a r => if p a then String a (span p r) else EmptyString
  | EmptyString => EmptyString
  end.

(** [re.search(lit + r'(\d+)', s)]: group 1 of the leftmost match. *)
Fixpoint search_lit_digits (lit s : string) : option string :=
  let here :=
    if startswith s lit
    then match span is_digit (drop (String.length lit) s) with
         | EmptyString => None
         | d => Some d
         end
    else None in
  match here with
  | Some d => Some d
  | None =>
      match s with
      | EmptyString => None
      | String _ r => search_lit_digits lit r
      end
  end.

(** [re.search(r'(\d{4})', s)]: the leftmost four consecutive digits. *)
Fixpoint search_4digits (s : string) : option string :=
  match s with
  | EmptyString => None
  | String _ r =>
      let d := take 4 s in
      if (String.length d =? 4)%nat && forallb is_digit d
      then Some d
      else search_4digits r
  end.

(** [re.findall(r'\b\w+\b', s)]: the maximal runs of word characters,
    left to right.  [cur] is the run being read, reversed. *)
Fixpoint words_aux (cur : list ascii) (s : string) : list string :=
  let flush := match cur with
               | [] => []
               | _ => [string_of_list_ascii (rev cur)]
               end in
  match s with
  | EmptyString => flush
  | String a r =>
      if is_word a then words_aux (a :: cur) r
      else flush ++ words_aux [] r
  end.

Definition findall_words (s : string) : list string := words_aux [] s.

Fixpoint join (sep : string) (l : list string) : string :=
  match l with
  | [] => EmptyString
  | [x] => x
  | x :: r => x +:+ sep +:+ join sep r
  end.

(** [str(z)] of an integer. *)
Definition of_Z (z : Z) : string := NilZero.string_of_int (Z.to_int z).

End Str.

(* ===================================================================== *)
(** * Values of the catalogue *)
(* ===================================================================== *)

(** What [json.load] yields for a field of a part. *)
Inductive value : Type :=
  | VNone
  | VBool (b : bool)
  | VInt (z : Z)
  | VStr (s : string)
  | VList (l : list value).

(** A part of the catalogue: a Python [dict] from field names to values. *)
Abbreviation record := (gmap string value).

(** [bool(v)] *)
Definition truthy (v : value) : bool :=
  match v with
  | VNone => false
  | VBool b => b
  | VInt z => negb (z =? 0)%Z
  | VStr s => negb (String.eqb s "")
  | VList l => match l with [] => false | _ => true end
  end.

(** [a or b] *)
Definition py_or (a b : value) : value := if truthy a then a else b.

(** [d.get(k)], [d.get(k, dflt)] and [k in d] *)
Definition get (d : record) (k : string) : value := default VNone (d !! k).
Definition get_or (d : record) (k : string) (dflt : value) : value :=
  default dflt (d !! k).
Definition has_key (k : string) (d : record) : bool :=
  match d !! k with Some _ => true | None => false end.

(** [bool(d)] of an optional dict: [None] and the empty dict are false. *)
Definition present (o : option record) : bool :=
  match o with
  | Some d => negb (bool_decide (d = ∅))
  | None => false
  end.

Definition type_name (v : value) : string :=
  match v with
  | VNone => "NoneType"
  | VBool _ => "bool"
  | VInt _ => "int"
  | VStr _ => "str"
  | VList _ => "list"
  end.

Module Repr.

Definition hex_digit (n : N) : ascii :=
  ascii_of_N (if (n <? 10)%N then 48 + n else 87 + n).

Definition dquote : ascii := ascii_of_N 34.

Definition quote_of (s : string) : ascii :=
  if Str.contains "'" s && negb (Str.contains (String dquote EmptyString) s)
  then dquote else "'"%char.

Definition escape_char (q a : ascii) : string :=
  let n := Str.code a in
  if Ascii.eqb a q || Ascii.eqb a "\"%char then String "\"%char (String a EmptyString)
  else if (n =? 9)%N then "\t"
  else if (n =? 10)%N then "\n"
  else if (n =? 13)%N then "\r"
  else if (n <? 32)%N || (n =? 127)%N
       then String "\"%char (String "x"%char
              (String (hex_digit (n / 16)) (String (hex_digit (n mod 16)) EmptyString)))
  else String a EmptyString.

Fixpoint escape (q : ascii) (s : string) : string :=
  match s with
  | EmptyString => EmptyString
  | String a r => escape_char q a +:+ escape q r
  end.

(** [repr(s)] of a string. *)
Definition of_string (s : string) : string :=
  let q := quote_of s in
  String q (escape q s +:+ String q EmptyString).

(** [repr(v)] *)
Fixpoint of_value (v : value) : string :=
  match v with
  | VNone => "None"
  | VBool b => if b then "True" else "False"
  | VInt z => Str.of_Z z
  | VStr s => of_string s
  | VList l => "[" +:+ Str.join ", " (List.map of_value l) +:+ "]"
  end.

End Repr.

(** [str(v)], which is what an f-string field [{v}] inserts. *)
Definition py_str (v : value) : string :=
  match v with
  | VStr s => s
  | _ => Repr.of_value v
  end.

Definition raise {A} (k : exn_kind) (msg : string) : result A :=
  Raise (MkExn k msg).

(** The integer that a value is in arithmetic and comparisons: booleans
    are the integers 0 and 1. *)
Definition as_int (v : value) : option Z :=
  match v with
  | VInt z => Some z
  | VBool b => Some (if b then 1 else 0)
  | _ => None
  end.

(** [a == b] on catalogue values: values of different kinds are unequal,
    except that booleans compare as integers. *)
Fixpoint value_eqb (a b : value) : bool :=
  match a, b with
  | VNone, VNone => true
  | VStr s, VStr t => String.eqb s t
  | VList l, VList m =>
      (fix list_eqb (l m : list value) : bool :=
         match l, m with
         | [], [] => true
         | x :: l', y :: m' => value_eqb x y && list_eqb l' m'
         | _, _ => false
         end) l m
  | (VInt _ | VBool _), (VInt _ | VBool _) =>
      match as_int a, as_int b with
      | Some x, Some y => (x =? y)%Z
      | _, _ => false
      end
  | _, _ => false
  end.

(** [x in c]: substring test when [c] is a string (the left operand
    must then be a string too), membership when [c] is a list. *)
Definition py_in (x c : value) : result bool :=
  match c with
  | VStr s =>
      match x with
      | VStr sub => Ok (Str.contains sub s)
      | _ => raise TypeError
               ("'in <string>' requires string as left operand, not " +:+ type_name x)
      end
  | VList l => Ok (existsb (value_eqb x) l)
  | _ => raise TypeError
           ("argument of type '" +:+ type_name c +:+ "' is not iterable")
  end.

(** [v[0]] *)
Definition py_index0 (v : value) : result value :=
  match v with
  | VList (x :: _) => Ok x
  | VList [] => raise IndexError "list index out of range"
  | VStr (String a _) => Ok (VStr (String a EmptyString))
  | VStr EmptyString => raise IndexError "string index out of range"
  | _ => raise TypeError ("'" +:+ type_name v +:+ "' object is not subscriptable")
  end.

(** ** [int(v)] *)

Definition digit_val (a : ascii) : Z := Z.of_N (Str.code a) - 48.

(** Decimal digits with single underscores between digits. *)
Fixpoint parse_digits (acc : Z) (after_digit : bool) (s : string) : option Z :=
  match s with
  | EmptyString => if after_digit then Some acc else None
  | String a r =>
      if Str.is_digit a then parse_digits (10 * acc + digit_val a) true r
      else if Ascii.eqb a "_"%char && after_digit
           then match r with
                | String b _ => if Str.is_digit b then parse_digits acc false r else None
                | EmptyString => None
                end
      else None
  end.

Fixpoint rstrip_aux (s : string) : string :=
  match s with
  | EmptyString => EmptyString
  | String a r =>
      match rstrip_aux r with
      | EmptyString => if Str.is_space a then EmptyString else String a EmptyString
      | r' => String a r'
      end
  end.

Fixpoint lstrip (s : string) : string :=
  match s with
  | String a r => if Str.is_space a then lstrip r else s
  | EmptyString => EmptyString
  end.

(** [s.strip()] *)
Definition strip (s : string) : string := rstrip_aux (lstrip s).

Definition parse_int (s : string) : option Z :=
  match strip s with
  | String "-"%char r => Z.opp <$> parse_digits 0 false r
  | String "+"%char r => parse_digits 0 false r
  | t => parse_digits 0 false t
  end.

(** [int(v)] for a catalogue value (the interpreter's limit on the length
    of a decimal literal is not part of the model). *)
Definition py_int (v : value) : result Z :=
  match v with
  | VInt z => Ok z
  | VBool b => Ok (if b then 1 else 0)
  | VStr s =>
      match parse_int s with
      | Some z => Ok z
      | None => raise ValueError
                  ("invalid literal for int() with base 10: " +:+ Repr.of_string s)
      end
  | _ => raise TypeError
           ("int() argument must be a string, a bytes-like object or a real number, not '"
            +:+ type_name v +:+ "'")
  end.

(* ===================================================================== *)
(** * Numbers: Python [int] and [float] *)
(* ===================================================================== *)

Module Float.

Definition prec : Z := 53.
Definition emax : Z := 1024.

Definition mul : spec_float -> spec_float -> spec_float := SFmul prec emax.
Definition div : spec_float -> spec_float -> spec_float := SFdiv prec emax.
Definition add : spec_float -> spec_float -> spec_float := SFadd prec emax.
Definition sub : spec_float -> spec_float -> spec_float := SFsub prec emax.

(** The binary64 number nearest to an integer (ties to even). *)
Definition nearest (z : Z) : spec_float := binary_normalize prec emax z 0 false.

(** [float(z)]: the conversion that mixed arithmetic applies to an [int]. *)
Definition of_Z (z : Z) : result spec_float :=
  match nearest z with
  | S754_infinity _ => raise OverflowError "int too large to convert to float"
  | f => Ok f
  end.

(** The value of the decimal literal [n/d], for [n] and [d] that are
    binary64 numbers themselves: division rounds correctly. *)
Definition literal (n d : Z) : spec_float := div (nearest n) (nearest d).

Definition c_0_7 : spec_float := Eval vm_compute in literal 7 10.
Definition c_0_10 : spec_float := Eval vm_compute in literal 1 10.
Definition c_0_15 : spec_float := Eval vm_compute in literal 15 100.
Definition c_0_20 : spec_float := Eval vm_compute in literal 2 10.
Definition c_0_35 : spec_float := Eval vm_compute in literal 35 100.
Definition c_0_40 : spec_float := Eval vm_compute in literal 4 10.
Definition c_0 : spec_float := S754_zero false.

Definition signed (s : bool) (m : positive) : Z := if s then Z.neg m else Z.pos m.

(** Exact comparison of a float with an integer (Python compares the
    two without rounding the integer); [None] for a NaN. *)
Definition compare_Z (f : spec_float) (z : Z) : option comparison :=
  match f with
  | S754_nan => None
  | S754_infinity s => Some (if s then Lt else Gt)
  | S754_zero _ => Some (0 ?= z)
  | S754_finite s m e =>
      Some (if 0 <=? e then signed s m * 2 ^ e ?= z
            else signed s m ?= z * 2 ^ (- e))
  end.

(** Exact comparison of two floats. *)
Definition compare (f g : spec_float) : option comparison :=
  match f, g with
  | S754_nan, _ | _, S754_nan => None
  | S754_infinity s, S754_infinity t =>
      Some (match s, t with
            | true, false => Lt | false, true => Gt | _, _ => Eq end)
  | S754_infinity s, _ => Some (if s then Lt else Gt)
  | _, S754_infinity t => Some (if t then Gt else Lt)
  | S754_zero _, S754_zero _ => Some Eq
  | S754_zero _, S754_finite t _ _ => Some (if t then Gt else Lt)
  | S754_finite s _ _, S754_zero _ => Some (if s then Lt else Gt)
  | S754_finite s m e, S754_finite t n k =>
      let b := Z.min e k in
      Some (signed s m * 2 ^ (e - b) ?= signed t n * 2 ^ (k - b))
  end.

(** [int(f)]: truncation towards zero. *)
Definition trunc (f : spec_float) : result Z :=
  match f with
  | S754_nan => raise ValueError "cannot convert float NaN to integer"
  | S754_infinity _ => raise OverflowError "cannot convert float infinity to integer"
  | S754_zero _ => Ok 0
  | S754_finite s m e =>
      Ok (if 0 <=? e then signed s m * 2 ^ e
          else Z.quot (signed s m) (2 ^ (- e)))
  end.

End Float.

Inductive num : Type :=
  | NInt (z : Z)
  | NFloat (f : spec_float).

Module Num.

Definition to_float (n : num) : result spec_float :=
  match n with
  | NInt z => Float.of_Z z
  | NFloat f => Ok f
  end.

Definition arith (iop : Z -> Z -> Z) (fop : spec_float -> spec_float -> spec_float)
    (a b : num) : result num :=
  match a, b with
  | NInt x, NInt y => Ok (NInt (iop x y))
  | _, _ => fa ← to_float a; fb ← to_float b; Ok (NFloat (fop fa fb))
  end.

Definition add : num -> num -> result num := arith Z.add Float.add.
Definition sub : num -> num -> result num := arith Z.sub Float.sub.
Definition mul : num -> num -> result num := arith Z.mul Float.mul.

(** [a / b] with a float among the operands (the program never divides
    an [int] by an [int]). *)
Definition div (a b : num) : result num :=
  fa ← to_float a; fb ← to_float b;
  match fb with
  | S754_zero _ => raise ZeroDivisionError "float division by zero"
  | _ => Ok (NFloat (Float.div fa fb))
  end.

(** Python's ordering of numbers is exact across [int] and [float];
    [None] when a NaN takes part, for which every comparison is false. *)
Definition compare (a b : num) : option comparison :=
  match a, b with
  | NInt x, NInt y => Some (x ?= y)
  | NFloat f, NInt y => Float.compare_Z f y
  | NInt x, NFloat g => CompOpp <$> Float.compare_Z g x
  | NFloat f, NFloat g => Float.compare f g
  end.

Definition ltb (a b : num) : bool :=
  match compare a b with Some Lt => true | _ => false end.
Definition leb (a b : num) : bool :=
  match compare a b with Some (Lt | Eq) => true | _ => false end.
Definition gtb (a b : num) : bool := ltb b a.

End Num.

(** A catalogue value used as a number: integers and booleans are. *)
Definition as_num (v : value) : option num := NInt <$> as_int v.

(** [v <= n] for a catalogue value and a number. *)
Definition value_le_num (v : value) (n : num) : result bool :=
  match as_num v with
  | Some x => Ok (Num.leb x n)
  | None => raise TypeError
              ("'<=' not supported between instances of '" +:+ type_name v +:+ "' and '"
               +:+ match n with NInt _ => "int" | NFloat _ => "float" end +:+ "'")
  end.

(** [n < v] for a number and a catalogue value. *)
Definition num_lt_value (n : num) (v : value) : result bool :=
  match as_num v with
  | Some x => Ok (Num.ltb n x)
  | None => raise TypeError
              ("'<' not supported between instances of '"
               +:+ match n with NInt _ => "int" | NFloat _ => "float" end
               +:+ "' and '" +:+ type_name v +:+ "'")
  end.

(* ===================================================================== *)
(** * checker.py *)
(* ===================================================================== *)

(** [_normalize_socket(socket_str)].  The same function is written out
    three times in the source (in checker.py, in autobuilder.py and as a
    method of [PartDatabase]); the three bodies are identical. *)
Definition _normalize_socket (socket_str : value) : result (option string) :=
  if negb (truthy socket_str) then Ok None
  else
    match socket_str with
    | VStr raw =>
        let s := Str.lower (Str.remove_spaces raw) in
        if Str.contains "am4" s then Ok (Some "am4")
        else if Str.contains "am5" s then Ok (Some "am5")
        else if Str.contains "lga" s then
          match Str.search_lit_digits "lga" s with
          | Some d => Ok (Some d)
          | None => Ok (Some s)
          end
        else if Str.contains "intel" s || Str.contains "socket" s then
          match Str.search_4digits s with
          | Some d => Ok (Some d)
          | None => Ok (Some s)
          end
        else
          Ok (Some (Str.replace "socket" ""
                      (Str.replace "intel" "" (Str.replace "amd" "" s))))
    | _ => raise TypeError
             ("expected string or bytes-like object, got '"
              +:+ type_name socket_str +:+ "'")
    end.

(** [str(x)] of what [_normalize_socket] returns. *)
Definition str_of_socket (o : option string) : string :=
  match o with Some s => s | None => "None" end.

(** ** partlist.py *)

Record PartList : Type := MkPartList { parts : gmap string (option record) }.

(** [PartList()] *)
Definition new_PartList : PartList :=
  MkPartList (list_to_map
    [("cpu", None); ("gpu", None); ("motherboard", None);
     ("ram", None); ("psu", None); ("case", None)]).

(** [part_list.parts.get(k)] *)
Definition slot (pl : PartList) (k : string) : option record :=
  mjoin (parts pl !! k).

(** [add_part(part_type, part_data)]: the slot is assigned first; the
    message printed afterwards reads [part_data['name']] and raises
    [KeyError] when the part has no name. *)
Definition add_part (pl : PartList) (part_type : string) (part_data : record)
    : PartList * result unit :=
  if bool_decide (is_Some (parts pl !! part_type)) then
    (MkPartList (<[part_type := Some part_data]> (parts pl)),
     if has_key "name" part_data then Ok tt else raise KeyError "'name'")
  else (pl, Ok tt).

(** ** [CompatibilityChecker.check_build] *)

Definition warn_socket_unknown : string :=
  "⚠️ Could not check CPU<->Mobo socket (One or both parts are missing 'socket' data).".

Definition warn_socket_mismatch (cpu_socket mobo_socket : option string) : string :=
  "❌ INCOMPATIBLE: CPU socket (" +:+ str_of_socket cpu_socket
  +:+ ") does not match motherboard socket (" +:+ str_of_socket mobo_socket +:+ ")!".

Definition warn_ram_unknown : string :=
  "⚠️ Could not check RAM<->CPU type (CPU/Mobo DB missing 'Architecture - Memory Support')".

Definition warn_ram_mismatch (ram_type : string) (mem_support : value) : string :=
  "❌ INCOMPATIBLE: RAM type (" +:+ ram_type
  +:+ ") does not match CPU/Mobo support (" +:+ py_str mem_support +:+ ")!".

Definition warn_psu_unknown : string :=
  "⚠️ Could not check PSU (PSU DB missing 'wattage')".

Definition warn_psu_risky (total_power psu_power min_safe_psu : Z) : string :=
  "❌ RISKY: Estimated power draw (~" +:+ Str.of_Z total_power
  +:+ "W) is >70% of PSU capacity (" +:+ Str.of_Z psu_power
  +:+ "W)! Recommend at least " +:+ Str.of_Z min_safe_psu +:+ "W.".

Definition warn_psu_exceeds (total_power psu_power : Z) : string :=
  "❌ INCOMPATIBLE: Estimated power draw (" +:+ Str.of_Z total_power
  +:+ "W) exceeds PSU capacity (" +:+ Str.of_Z psu_power +:+ "W)!".

Definition warn_psu_error (e : exn) : string :=
  "⚠️ Could not check PSU wattage: " +:+ exn_msg e.

Definition no_warnings : list string := [].

(** Rule 1: CPU and motherboard socket. *)
Definition check_socket (cpu mobo : option record) : result (list string) :=
  match cpu, mobo with
  | Some c, Some m =>
      if present cpu && present mobo then
        let cpu_socket_raw := py_or (get c "Physical - Socket") (get c "socket") in
        let mobo_socket_raw := py_or (get m "socket") (get m "Physical - Socket") in
        if negb (truthy cpu_socket_raw) || negb (truthy mobo_socket_raw)
        then Ok [warn_socket_unknown]
        else
          cpu_socket ← _normalize_socket cpu_socket_raw;
          mobo_socket ← _normalize_socket mobo_socket_raw;
          if bool_decide (cpu_socket ≠ mobo_socket)
          then Ok [warn_socket_mismatch cpu_socket mobo_socket]
          else Ok no_warnings
      else Ok no_warnings
  | _, _ => Ok no_warnings
  end.

(** Rule 2: RAM generation against the memory support of CPU or board. *)
Definition check_memory (cpu mobo ram : option record) : result (list string) :=
  match ram with
  | Some r =>
      if present ram && (present cpu || present mobo) then
        let ram_speed_data := get_or r "speed" (VList [VInt 0; VInt 0]) in
        g ← py_index0 ram_speed_data;
        let ram_type := "DDR" +:+ py_str g in
        let mem_support :=
          match cpu with
          | Some c => if present cpu
                      then get_or c "Architecture - Memory Support" (VStr "NOT_FOUND")
                      else VStr "NOT_FOUND"
          | None => VStr "NOT_FOUND"
          end in
        nf ← py_in (VStr "NOT_FOUND") mem_support;
        let mem_support :=
          match mobo with
          | Some m => if (nf : bool) && present mobo
                      then get_or m "Architecture - Memory Support" (VStr "NOT_FOUND")
                      else mem_support
          | None => mem_support
          end in
        nf ← py_in (VStr "NOT_FOUND") mem_support;
        if (nf : bool) then Ok [warn_ram_unknown]
        else
          ok ← py_in (VStr ram_type) mem_support;
          if negb (ok : bool) then Ok [warn_ram_mismatch ram_type mem_support] else Ok no_warnings
      else Ok no_warnings
  | None => Ok no_warnings
  end.

(** [int(part.get(key, 0)) if part else 0] *)
Definition tdp_of (part : option record) (key : string) : result Z :=
  match part with
  | Some d => if present part then py_int (get_or d key (VInt 0)) else Ok 0
  | None => Ok 0
  end.

(** [psu_power * 0.7 < total_power] *)
Definition over_70_percent (psu_power total_power : Z) : result bool :=
  x ← Num.mul (NInt psu_power) (NFloat Float.c_0_7);
  Ok (Num.ltb x (NInt total_power)).

(** [int(total_power / 0.7)] *)
Definition min_safe_psu (total_power : Z) : result Z :=
  q ← Num.div (NInt total_power) (NFloat Float.c_0_7);
  match q with
  | NFloat f => Float.trunc f
  | NInt z => Ok z
  end.

(** The body of the [try] block of rule 3. *)
Definition power_body (cpu gpu : option record) (p : record) : result (list string) :=
  cpu_power ← tdp_of cpu "Performance - TDP";
  gpu_power ← tdp_of gpu "Board Design - TDP";
  let other_power := 100 in
  let total_power := cpu_power + gpu_power + other_power in
  psu_power ← py_int (get_or p "wattage" (VInt 0));
  if (psu_power : Z) =? 0 then Ok [warn_psu_unknown]
  else
    risky ← over_70_percent psu_power total_power;
    if (risky : bool) then
      m ← min_safe_psu total_power;
      Ok [warn_psu_risky total_power psu_power m]
    else if total_power >? psu_power
    then Ok [warn_psu_exceeds total_power psu_power]
    else Ok no_warnings.

(** Rule 3: PSU wattage against the estimated draw; any exception of the
    body becomes a warning. *)
Definition check_power (cpu gpu psu : option record) : list string :=
  match psu with
  | Some p =>
      if present psu && (present cpu || present gpu) then
        match power_body cpu gpu p with
        | Ok ws => ws
        | Raise e => [warn_psu_error e]
        end
      else []
  | None => []
  end.

Definition check_build (part_list : PartList) : result (list string) :=
  let cpu := slot part_list "cpu" in
  let mobo := slot part_list "motherboard" in
  let gpu := slot part_list "gpu" in
  let psu := slot part_list "psu" in
  let ram := slot part_list "ram" in
  w1 ← check_socket cpu mobo;
  w2 ← check_memory cpu mobo ram;
  Ok ((w1 : list string) ++ (w2 : list string) ++ check_power cpu gpu psu)%list.

(* ===================================================================== *)
(** * database.py *)
(* ===================================================================== *)

(** A [frozenset] of keywords. *)
Abbreviation keywords := (gset string).

(** The master spec map of one kind of chip: a dict from keyword sets to
    records of the master table, in insertion order.  The dict holds the
    very objects of the master table, so an entry is kept as the index of
    its record in that table and read through the table when used. *)
Abbreviation spec_map := (list (keywords * nat)).

Record PartDatabase : Type := MkPartDatabase {
  data : gmap string (list record);
  master_spec_maps : gmap string spec_map
}.

Definition junk_words : keywords :=
  list_to_set ["amd"; "intel"; "geforce"; "radeon"; "gb"; "tb"; "mhz";
               "ddr4"; "ddr5"; "nvidia"].

(** [normalize_search_term(term)] *)
Definition normalize_search_term (term : value) : result keywords :=
  match term with
  | VStr t => Ok (list_to_set (Str.findall_words (Str.lower t)) ∖ junk_words)
  | _ => raise AttributeError
           ("'" +:+ type_name term +:+ "' object has no attribute 'lower'")
  end.

(** [d[key] = v] on a dict in insertion order: an existing key keeps its
    place and takes the new value, a new key goes last. *)
Fixpoint dict_set (key : keywords) (v : nat) (d : spec_map) : spec_map :=
  match d with
  | [] => [(key, v)]
  | (k, v') :: r =>
      if bool_decide (k = key) then (k, v) :: r else (k, v') :: dict_set key v r
  end.

(** The loop of [build_master_spec_maps] over one master table, from the
    record of index [i] on. *)
Fixpoint build_spec_map (i : nat) (table : list record) (acc : spec_map)
    : result spec_map :=
  match table with
  | [] => Ok acc
  | part :: rest =>
      key ← normalize_search_term (get_or part "Name" (VStr ""));
      build_spec_map (S i) rest (dict_set key i acc)
  end.

Definition master_table (map_key : string) : string :=
  if String.eqb map_key "cpu" then "master_cpu_database" else "master_gpu_database".

(** [build_master_spec_maps()] *)
Definition build_master_spec_maps (d : gmap string (list record))
    : result (gmap string spec_map) :=
  m1 ← match d !! "master_cpu_database" with
       | Some table => mc ← build_spec_map 0 table []; Ok (<["cpu" := mc]> ∅)
       | None => Ok ∅
       end;
  match d !! "master_gpu_database" with
  | Some table => mg ← build_spec_map 0 table []; Ok (<["gpu" := mg]> m1)
  | None => Ok m1
  end.

(** [PartDatabase(json_folder_path)], for the tables [d] read from disk. *)
Definition new_PartDatabase (d : gmap string (list record)) : result PartDatabase :=
  m ← build_master_spec_maps d; Ok (MkPartDatabase d m).

(** The record an entry of a master spec map stands for. *)
Definition master_record (db : PartDatabase) (map_key : string) (j : nat)
    : option record :=
  table ← data db !! master_table map_key; table !! j.

(** [master_key_set.issubset(search_words)] *)
Definition primary_rule (master_key_set search_words : keywords) : bool :=
  bool_decide (master_key_set ⊆ search_words).

(** [all(word in search_words for word in master_key_set)] *)
Definition fallback_rule (master_key_set search_words : keywords) : bool :=
  List.forallb (fun word => bool_decide (word ∈ search_words))
               (elements master_key_set).

(** One [for ... in map.items(): if rule(...): return master_part] loop. *)
Definition first_match (rule : keywords -> keywords -> bool)
    (m : spec_map) (search_words : keywords) : option nat :=
  snd <$> List.find (fun kv => rule (fst kv) search_words) m.

(** ['cpu' if 'cpu' in master_db_key else 'gpu'] *)
Definition map_key_of (master_db_key : string) : string :=
  if Str.contains "cpu" master_db_key then "cpu" else "gpu".

(** [find_master_spec(master_db_key, product_name, product_chipset)] *)
Definition find_master_spec (db : PartDatabase) (master_db_key : string)
    (product_name product_chipset : value) : result (option record) :=
  let map_key := map_key_of master_db_key in
  match master_spec_maps db !! map_key with
  | None => Ok None
  | Some m =>
      let search_term := py_or product_chipset product_name in
      search_words ← normalize_search_term search_term;
      if bool_decide (search_words = ∅) then Ok None
      else
        match first_match primary_rule m search_words with
        | Some j => Ok (master_record db map_key j)
        | None =>
            match first_match fallback_rule m search_words with
            | Some j => Ok (master_record db map_key j)
            | None => Ok None
            end
        end
  end.

(** [for spec_key in specs_to_copy: if spec_key in master_spec:
    product[spec_key] = master_spec[spec_key]] *)
Fixpoint copy_specs (specs_to_copy : list string) (master_spec product : record)
    : record :=
  match specs_to_copy with
  | [] => product
  | spec_key :: rest =>
      copy_specs rest master_spec
        (match master_spec !! spec_key with
         | Some v => <[spec_key := v]> product
         | None => product
         end)
  end.

(** The body of the loop of [enrich_product_database] for one product:
    the product as the pass leaves it. *)
Definition enrich_product (db : PartDatabase)
    (product_key master_db_key match_field : string) (specs_to_copy : list string)
    (product : record) : result record :=
  let search_term := get product match_field in
  let search_term :=
    if negb (truthy search_term) && String.eqb product_key "video-card"
    then get product "chipset" else search_term in
  if negb (truthy search_term) then Ok product
  else
    master_spec ← find_master_spec db master_db_key
                    (get product "name") (get product "chipset");
    if present master_spec
    then Ok (copy_specs specs_to_copy (default ∅ master_spec) product)
    else Ok product.

Definition set_product (db : PartDatabase) (product_key : string) (i : nat)
    (product : record) : PartDatabase :=
  MkPartDatabase
    (<[product_key := <[i := product]> (default [] (data db !! product_key))]> (data db))
    (master_spec_maps db).

(** The loop over the products of index [i], [i+1], ... ([n] of them):
    each product is updated in place, so a later iteration reads what an
    earlier one wrote. *)
Fixpoint enrich_loop (n i : nat) (db : PartDatabase)
    (product_key master_db_key match_field : string) (specs_to_copy : list string)
    : result PartDatabase :=
  match n with
  | O => Ok db
  | S n' =>
      match data db !! product_key ≫= (.!! i) with
      | None => Ok db
      | Some product =>
          product' ← enrich_product db product_key master_db_key match_field
                       specs_to_copy product;
          enrich_loop n' (S i) (set_product db product_key i product')
            product_key master_db_key match_field specs_to_copy
      end
  end.

(** [enrich_product_database(product_key, master_db_key, match_field,
    specs_to_copy)]: the database after the pass; an exception aborts the
    start-up of the application. *)
Definition enrich_product_database (db : PartDatabase)
    (product_key master_db_key match_field : string) (specs_to_copy : list string)
    : result PartDatabase :=
  match data db !! product_key, data db !! master_db_key with
  | Some products, Some _ =>
      enrich_loop (length products) 0 db
        product_key master_db_key match_field specs_to_copy
  | _, _ => Ok db
  end.

(** ** [passes_constraints] *)

(** Rule 1 of [passes_constraints]: [true] when the part is not rejected. *)
Definition socket_rule (part constraints : record) : result bool :=
  match constraints !! "socket" with
  | None => Ok true
  | Some constraint_raw =>
      let part_socket_raw := py_or (get part "socket") (get part "Physical - Socket") in
      if truthy part_socket_raw then
        constraint_socket ← _normalize_socket constraint_raw;
        part_socket ← _normalize_socket part_socket_raw;
        Ok (bool_decide (part_socket = constraint_socket))
      else Ok true
  end.

(** [constraint_mem_type.startswith(ram_mem_type)] *)
Definition py_startswith (c : value) (p : string) : result bool :=
  match c with
  | VStr s => Ok (Str.startswith s p)
  | _ => raise AttributeError
           ("'" +:+ type_name c +:+ "' object has no attribute 'startswith'")
  end.

(** Rule 2: the memory type. *)
Definition memory_rule (part constraints : record) : result bool :=
  match constraints !! "memory_type" with
  | None => Ok true
  | Some constraint_mem_type =>
      if has_key "speed" part && has_key "modules" part then
        let part_speed := get_or part "speed" (VList [VInt 0; VInt 0]) in
        g ← py_index0 part_speed;
        if value_eqb g (VInt 0) then Ok false
        else
          let ram_mem_type := "DDR" +:+ py_str g in
          py_startswith constraint_mem_type ram_mem_type
      else if has_key "Architecture - Memory Support" part then
        let part_mem := get part "Architecture - Memory Support" in
        if negb (truthy part_mem) then Ok false
        else py_in constraint_mem_type part_mem
      else Ok true
  end.

(** Rule 3: the wattage of a PSU; [ValueError] and [TypeError] reject the
    part, any other exception leaves the function. *)
Definition power_rule (part constraints : record) : result bool :=
  match constraints !! "estimated_power" with
  | None => Ok true
  | Some estimated_power =>
      if has_key "wattage" part then
        let body :=
          psu_power ← py_int (get_or part "wattage" (VInt 0));
          x ← Num.mul (NInt psu_power) (NFloat Float.c_0_7);
          short ← num_lt_value x estimated_power;
          Ok (negb short) in
        match body with
        | Ok b => Ok b
        | Raise e =>
            match exn_kind_of e with
            | ValueError | TypeError => Ok false
            | _ => Raise e
            end
        end
      else Ok true
  end.

Definition passes_constraints (part constraints : record) : result bool :=
  ok ← socket_rule part constraints;
  if negb (ok : bool) then Ok false
  else
    ok ← memory_rule part constraints;
    if negb (ok : bool) then Ok false
    else power_rule part constraints.

(** ** [search_parts] *)

(** [keyword in v.lower()] *)
Definition keyword_in_lower (keyword : string) (v : value) : result bool :=
  match v with
  | VStr s => Ok (Str.contains keyword (Str.lower s))
  | _ => raise AttributeError
           ("'" +:+ type_name v +:+ "' object has no attribute 'lower'")
  end.

(** A list comprehension or filtering loop whose test can raise. *)
Fixpoint filter_result {A} (f : A -> result bool) (l : list A) : result (list A) :=
  match l with
  | [] => Ok []
  | x :: r =>
      b ← f x;
      r' ← filter_result f r;
      Ok (if (b : bool) then x :: r' else r')
  end.

(** The two steps of the loop body of [search_parts] for one part. *)
Definition search_match (part_type keyword : string) (constraints part : record)
    : result bool :=
  ok ← passes_constraints part constraints;
  if negb (ok : bool) then Ok false
  else
    name_match ← keyword_in_lower keyword (get_or part "name" (VStr ""));
    chipset_match ←
      (if String.eqb part_type "video-card"
       then keyword_in_lower keyword (get_or part "chipset" (VStr ""))
       else Ok false);
    Ok ((name_match : bool) || (chipset_match : bool)).

Definition search_parts (db : PartDatabase) (part_type keyword : string)
    (constraints : record) : result (list record) :=
  match data db !! part_type with
  | None => Ok []
  | Some catalogue =>
      filter_result (search_match part_type (Str.lower keyword) constraints) catalogue
  end.

(* ===================================================================== *)
(** * autobuilder.py *)
(* ===================================================================== *)

Record splits : Type := MkSplits {
  split_cpu : spec_float; split_gpu : spec_float; split_motherboard : spec_float;
  split_ram : spec_float; split_other : spec_float
}.

Definition GAMING_SPLITS : splits :=
  MkSplits Float.c_0_20 Float.c_0_40 Float.c_0_15 Float.c_0_15 Float.c_0_10.
Definition WORKSTATION_SPLITS : splits :=
  MkSplits Float.c_0_35 Float.c_0_20 Float.c_0_15 Float.c_0_20 Float.c_0_10.

(** [mem_support.split(',')[0].strip()] *)
Fixpoint before_comma (s : string) : string :=
  match s with
  | EmptyString => EmptyString
  | String a r => if Ascii.eqb a ","%char then EmptyString else String a (before_comma r)
  end.

Definition first_token (mem_support : value) : result string :=
  match mem_support with
  | VStr s => Ok (strip (before_comma s))
  | _ => raise AttributeError
           ("'" +:+ type_name mem_support +:+ "' object has no attribute 'split'")
  end.

Definition socket_value (o : option string) : value :=
  match o with Some s => VStr s | None => VNone end.

(** Step 1 of [_get_constraints]: the socket. *)
Definition socket_from (part : option record) (field : string) (constraints : record)
    : result record :=
  let raw := get (default ∅ part) field in
  if truthy raw
  then n ← _normalize_socket raw; Ok (<["socket" := socket_value n]> constraints)
  else Ok constraints.

Definition socket_constraint (cpu mobo : option record) (constraints : record)
    : result record :=
  if present cpu then socket_from cpu "Physical - Socket" constraints
  else if present mobo then socket_from mobo "socket" constraints
  else Ok constraints.

(** Step 2: the memory type. *)
Definition memory_constraint (cpu : option record) (constraints : record)
    : result record :=
  match cpu with
  | Some c =>
      let mem_support := get c "Architecture - Memory Support" in
      if present cpu && truthy mem_support then
        ddr5 ← py_in (VStr "DDR5") mem_support;
        if (ddr5 : bool) then Ok (<["memory_type" := VStr "DDR5"]> constraints)
        else
          ddr4 ← py_in (VStr "DDR4") mem_support;
          if (ddr4 : bool) then Ok (<["memory_type" := VStr "DDR4"]> constraints)
          else
            t ← first_token mem_support;
            Ok (<["memory_type" := VStr t]> constraints)
      else Ok constraints
  | None => Ok constraints
  end.

(** Step 3: the estimated power; whatever the [try] block raises is
    swallowed and the constraint is then left out. *)
Definition power_constraint (cpu gpu : option record) (constraints : record) : record :=
  let body :=
    cpu_power ← tdp_of cpu "Performance - TDP";
    gpu_power ← tdp_of gpu "Board Design - TDP";
    if ((cpu_power : Z) >? 0) || ((gpu_power : Z) >? 0)
    then Ok (<["estimated_power" := VInt (cpu_power + gpu_power + 100)]> constraints)
    else Ok constraints in
  match body with
  | Ok c => c
  | Raise _ => constraints
  end.

(** [AutoBuilder._get_constraints(build)] *)
Definition _get_constraints (build : PartList) : result record :=
  let cpu := slot build "cpu" in
  let mobo := slot build "motherboard" in
  c1 ← socket_constraint cpu mobo ∅;
  c2 ← memory_constraint cpu c1;
  Ok (power_constraint cpu (slot build "gpu") c2).

(** ** [_pick_part] *)

(** [p.get('price') and p.get('price') <= budget], as a truth value. *)
Definition affordable (budget : num) (p : record) : result bool :=
  let price := get p "price" in
  if truthy price then value_le_num price budget else Ok false.

(** ["DDR5" in p.get('Architecture - Memory Support', '')] *)
Definition mentions_ddr5 (p : record) : result bool :=
  py_in (VStr "DDR5") (get_or p "Architecture - Memory Support" (VStr "")).

(** The sort key [x['price']] of a part that passed [affordable]. *)
Definition price_key (p : record) : Z := default 0 (as_int (get p "price")).

(** [sorted(l, key=..., reverse=True)]: a stable sort into descending
    order of the key, here by insertion from the right. *)
Fixpoint insert_desc {A} (key : A -> Z) (x : A) (l : list A) : list A :=
  match l with
  | [] => [x]
  | y :: r => if key x <? key y then y :: insert_desc key x r else x :: l
  end.

Fixpoint sorted_desc {A} (key : A -> Z) (l : list A) : list A :=
  match l with
  | [] => []
  | x :: r => insert_desc key x (sorted_desc key r)
  end.

Definition _pick_part (db : PartDatabase) (json_key : string) (budget : num)
    (constraints : record) : result (option record) :=
  all_parts ← search_parts db json_key "" constraints;
  affordable_parts ← filter_result (affordable budget) all_parts;
  match affordable_parts with
  | [] => Ok None
  | _ =>
      affordable_parts ←
        (if String.eqb json_key "cpu" then
           ddr5_parts ← filter_result mentions_ddr5 affordable_parts;
           match ddr5_parts with
           | [] => Ok affordable_parts
           | _ => Ok ddr5_parts
           end
         else Ok affordable_parts);
      Ok (head (sorted_desc price_key affordable_parts))
  end.

(** ** [run_auto_build] *)

Definition msg_no_cpu : string := "Failed to find a CPU within budget.".
Definition msg_no_mobo (cpu : record) (constraints : record) : string :=
  "Failed to find a compatible Mobo for " +:+ py_str (get cpu "name")
  +:+ " (Socket: " +:+ py_str (get constraints "socket") +:+ ").".
Definition msg_no_ram (constraints : record) : string :=
  "Failed to find compatible RAM (Type: " +:+ py_str (get constraints "memory_type") +:+ ").".
Definition msg_no_gpu : string := "Failed to find a GPU within budget.".
Definition msg_no_psu : string := "Failed to find a suitable PSU.".

(** [budget - part.get('price', budget)] *)
Definition saved (budget : num) (part : record) : result num :=
  match part !! "price" with
  | None => Num.sub budget budget
  | Some v =>
      match as_num v with
      | Some price => Num.sub budget price
      | None => raise TypeError
                  ("unsupported operand type(s) for -: 'float' and '"
                   +:+ type_name v +:+ "'")
      end
  end.

(** [build.add_part(k, part)] inside [run_auto_build]: the build goes on
    only when the call returns. *)
Definition add (build : PartList) (k : string) (part : record) : result PartList :=
  let '(build', r) := add_part build k part in _ ← r; Ok build'.

(** [if case: build.add_part("case", case)] *)
Definition with_case (build : PartList) (case : option record) : result PartList :=
  match case with
  | Some c => if present (Some c) then add build "case" c else Ok build
  | None => Ok build
  end.

(** [run_auto_build(total_budget, purpose)].  A part that [_pick_part]
    returns has a price and so is a non-empty dict: [if not cpu] and the
    like hold for [None] only. *)
Definition run_auto_build (db : PartDatabase) (total_budget : num) (purpose : string)
    : result (option PartList * list string) :=
  let build := new_PartList in
  let sp := if String.eqb purpose "gaming" then GAMING_SPLITS else WORKSTATION_SPLITS in
  b_cpu ← Num.mul total_budget (NFloat (split_cpu sp));
  b_gpu ← Num.mul total_budget (NFloat (split_gpu sp));
  b_motherboard ← Num.mul total_budget (NFloat (split_motherboard sp));
  b_ram ← Num.mul total_budget (NFloat (split_ram sp));
  b_other ← Num.mul total_budget (NFloat (split_other sp));
  let budget_rollover := NFloat Float.c_0 in
  (* 1. CPU *)
  cpu ← _pick_part db "cpu" b_cpu ∅;
  match cpu with
  | None => Ok (None, [msg_no_cpu])
  | Some cpu =>
  build ← add build "cpu" cpu;
  s ← saved b_cpu cpu;
  budget_rollover ← Num.add budget_rollover s;
  (* 2. motherboard *)
  constraints ← _get_constraints build;
  mobo ← _pick_part db "motherboard" b_motherboard constraints;
  match mobo with
  | None => Ok (None, [msg_no_mobo cpu constraints])
  | Some mobo =>
  build ← add build "motherboard" mobo;
  s ← saved b_motherboard mobo;
  budget_rollover ← Num.add budget_rollover s;
  (* 3. RAM *)
  constraints ← _get_constraints build;
  ram ← _pick_part db "memory" b_ram constraints;
  match ram with
  | None => Ok (None, [msg_no_ram constraints])
  | Some ram =>
  build ← add build "ram" ram;
  s ← saved b_ram ram;
  budget_rollover ← Num.add budget_rollover s;
  (* 4. GPU *)
  gpu_budget_final ← Num.add b_gpu budget_rollover;
  gpu ← _pick_part db "video-card" gpu_budget_final ∅;
  match gpu with
  | None => Ok (None, [msg_no_gpu])
  | Some gpu =>
  build ← add build "gpu" gpu;
  (* 5. PSU and case *)
  other_budget_each ← Num.div b_other (NInt 2);
  constraints ← _get_constraints build;
  psu ← _pick_part db "power-supply" other_budget_each constraints;
  match psu with
  | None => Ok (None, [msg_no_psu])
  | Some psu =>
  build ← add build "psu" psu;
  case ← _pick_part db "case" other_budget_each ∅;
  build ← with_case build case;
  (* 6. final check *)
  warnings ← check_build build;
  Ok (Some build, warnings)
  end end end end end.

(* ===================================================================== *)
(** * app.py *)
(* ===================================================================== *)

(** [int(part.get(key) or 0) if part else 0] *)
Definition tdp_or_0 (part : option record) (key : string) : result Z :=
  match part with
  | Some d => if present part then py_int (py_or (get d key) (VInt 0)) else Ok 0
  | None => Ok 0
  end.

(** Step 3 of [get_build_constraints]: [ValueError] and [TypeError] are
    swallowed, any other exception leaves the function. *)
Definition power_constraint_web (cpu gpu : option record) (constraints : record)
    : result record :=
  let body :=
    cpu_power ← tdp_or_0 cpu "Performance - TDP";
    gpu_power ← tdp_or_0 gpu "Board Design - TDP";
    if ((cpu_power : Z) >? 0) || ((gpu_power : Z) >? 0)
    then Ok (<["estimated_power" := VInt (cpu_power + gpu_power + 100)]> constraints)
    else Ok constraints in
  match body with
  | Ok c => Ok c
  | Raise e =>
      match exn_kind_of e with
      | ValueError | TypeError => Ok constraints
      | _ => Raise e
      end
  end.

(** [get_build_constraints(build_dict)], for the dict [build_dict['parts']]
    of the session.  Steps 1 and 2 are, line for line, those of
    [AutoBuilder._get_constraints]. *)
Definition get_build_constraints (build_parts : gmap string (option record))
    : result record :=
  let cpu := mjoin (build_parts !! "cpu") in
  let mobo := mjoin (build_parts !! "motherboard") in
  let gpu := mjoin (build_parts !! "gpu") in
  c1 ← socket_constraint cpu mobo ∅;
  c2 ← memory_constraint cpu c1;
  power_constraint_web cpu gpu c2.

(* ===================================================================== *)
(** * memory_json_fixer.py *)
(* ===================================================================== *)

(** The body of the loop of [fix_memory_data] for one record: the record
    as the loop leaves it, and whether it was counted as fixed.
    [isinstance(speed, int)] holds for booleans too; the list that
    replaces an integer speed holds the speed as it was. *)
Definition fix_speed (part : record) : record * bool :=
  let speed := get part "speed" in
  match as_int speed with
  | Some z =>
      (<["speed" := VList [VInt (if z >? 4000 then 5 else 4); speed]]> part, true)
  | None =>
      match speed with
      | VNone => (<["speed" := VList [VInt 0; VInt 0]]> part, true)
      | _ => (part, false)
      end
  end.

(** The loop of [fix_memory_data] over the records of [memory.json]: the
    records after the loop and [fixed_count]. *)
Fixpoint fix_memory_loop (data : list record) : list record * nat :=
  match data with
  | [] => ([], O)
  | part :: rest =>
      let '(part', fixed) := fix_speed part in
      let '(rest', n) := fix_memory_loop rest in
      (part' :: rest', if (fixed : bool) then S n else n)
  end.

(** [fix_memory_data()], as a function of the content of [memory.json]:
    the content of the file afterwards.  The file is written only when a
    record was fixed. *)
Definition fix_memory_data (file : list record) : list record :=
  let '(data, fixed_count) := fix_memory_loop file in
  if (fixed_count =? 0)%nat then file else data.

(* ===================================================================== *)
(** * partlist.py: the total price *)
(* ===================================================================== *)

(** ** [float(v)] *)

Module PyFloat.

(** The white space that [float()] skips around a literal: tab to
    carriage return, and the space. *)
Definition is_c_space (a : ascii) : bool :=
  let n := Str.code a in ((9 <=? n) && (n <=? 13) || (n =? 32))%N.

Fixpoint c_rstrip (s : string) : string :=
  match s with
  | EmptyString => EmptyString
  | String a r =>
      match c_rstrip r with
      | EmptyString => if is_c_space a then EmptyString else String a EmptyString
      | r' => String a r'
      end
  end.

Fixpoint c_lstrip (s : string) : string :=
  match s with
  | String a r => if is_c_space a then c_lstrip r else s
  | EmptyString => EmptyString
  end.

(** The rest of a [digitpart], [digit (["_"] digit)*], after a digit:
    [acc] is the number read so far and [n] the count of its digits;
    returned with what follows the digits. *)
Fixpoint digits_rest (acc : Z) (n : nat) (s : string) : Z * nat * string :=
  match s with
  | String a r =>
      if Str.is_digit a then digits_rest (10 * acc + digit_val a) (S n) r
      else if Ascii.eqb a "_" then
        match r with
        | String b r' =>
            if Str.is_digit b then digits_rest (10 * acc + digit_val b) (S n) r'
            else (acc, n, s)
        | EmptyString => (acc, n, s)
        end
      else (acc, n, s)
  | EmptyString => (acc, n, s)
  end.

(** A [digitpart] at the head of [s], appended to the digits [acc]. *)
Definition digitpart (acc : Z) (s : string) : option (Z * nat * string) :=
  match s with
  | String a r =>
      if Str.is_digit a then Some (digits_rest (10 * acc + digit_val a) 1 r) else None
  | EmptyString => None
  end.

(** [[digitpart] "." digitpart | digitpart ["."]]: the digits as an
    integer [m] and the decimal exponent [k] of the number [m * 10^k],
    with what follows. *)
Definition number (s : string) : option (Z * Z * string) :=
  match digitpart 0 s with
  | Some (i, _, String "." r) =>
      match digitpart i r with
      | Some (m, nf, r') => Some (m, - Z.of_nat nf, r')
      | None => Some (i, 0, r)
      end
  | Some (i, _, r) => Some (i, 0, r)
  | None =>
      match s with
      | String "." r =>
          match digitpart 0 r with
          | Some (m, nf, r') => Some (m, - Z.of_nat nf, r')
          | None => None
          end
      | _ => None
      end
  end.

(** [[("e" | "E") ["+" | "-"] digitpart]] up to the end of the string. *)
Definition exponent (s : string) : option Z :=
  match s with
  | EmptyString => Some 0
  | String c r =>
      if Ascii.eqb c "e" || Ascii.eqb c "E" then
        let '(neg, r1) :=
          match r with
          | String "-" r1 => (true, r1)
          | String "+" r1 => (false, r1)
          | _ => (false, r)
          end in
        match digitpart 0 r1 with
        | Some (e, _, EmptyString) => Some (if (neg : bool) then - e else e)
        | _ => None
        end
      else None
  end.

(** The binary64 number nearest to [(-1)^neg * m * 10^k], ties to even:
    for [k < 0] the correctly rounded quotient of two integers. *)
Definition of_decimal (neg : bool) (m k : Z) : spec_float :=
  match m with
  | Zpos p =>
      if 0 <=? k
      then binary_normalize Float.prec Float.emax (Float.signed neg p * 10 ^ k) 0 false
      else SFdiv Float.prec Float.emax
             (S754_finite neg p 0) (S754_finite false (Z.to_pos (10 ^ (- k))) 0)
  | _ => S754_zero neg
  end.

(** [float(s)] of a string; [None] stands for [ValueError]. *)
Definition parse (s : string) : option spec_float :=
  let t := c_rstrip (c_lstrip s) in
  let '(neg, u) :=
    match t with
    | String "-" r => (true, r)
    | String "+" r => (false, r)
    | _ => (false, t)
    end in
  let lu := Str.lower u in
  if String.eqb lu "inf" || String.eqb lu "infinity" then Some (S754_infinity neg)
  else if String.eqb lu "nan" then Some S754_nan
  else
    match number u with
    | Some (m, k, r) =>
        match exponent r with
        | Some e => Some (of_decimal neg m (k + e))
        | None => None
        end
    | None => None
    end.

End PyFloat.

(** [float(v)] for a catalogue value. *)
Definition py_float (v : value) : result spec_float :=
  match v with
  | VInt z => Float.of_Z z
  | VBool b => Float.of_Z (if b then 1 else 0)
  | VStr s =>
      match PyFloat.parse s with
      | Some f => Ok f
      | None => raise ValueError
                  ("could not convert string to float: " +:+ Repr.of_string s)
      end
  | _ => raise TypeError
           ("float() argument must be a string or a real number, not '"
            +:+ type_name v +:+ "'")
  end.

(** ** [PartList.get_total_price] *)

(** The keys of [self.parts], in the order in which [__init__] creates
    them; [add_part] assigns to existing keys only, which keeps the keys
    and their order. *)
Definition slot_order : list string :=
  ["cpu"; "gpu"; "motherboard"; "ram"; "psu"; "case"].

(** What one part adds to the total: [float(part['price'])] when the part
    is there and has a price that is not empty, nothing otherwise or when
    the conversion raises [ValueError] or [TypeError]; any other
    exception leaves the method. *)
Definition price_term (part : option record) : result (option spec_float) :=
  match part with
  | Some d =>
      if present part && truthy (get d "price") then
        match py_float (get d "price") with
        | Ok f => Ok (Some f)
        | Raise e =>
            match exn_kind_of e with
            | ValueError | TypeError => Ok None
            | _ => Raise e
            end
        end
      else Ok None
  | None => Ok None
  end.

(** The loop [for part in self.parts.values(): ... total += ...]. *)
Fixpoint total_loop (total : num) (l : list (option record)) : result num :=
  match l with
  | [] => Ok total
  | part :: rest =>
      t ← price_term part;
      match t with
      | Some f => total' ← Num.add total (NFloat f); total_loop total' rest
      | None => total_loop total rest
      end
  end.

(** [get_total_price()]: the integer [0] when no part adds to the total,
    a float otherwise. *)
Definition get_total_price (pl : PartList) : result num :=
  total_loop (NInt 0) (List.map (slot pl) slot_order).

(* ===================================================================== *)
(** * app.py: amounts as the pages show and read them *)
(* ===================================================================== *)

(** What a template hands to the [commas] filter: a field of a part or
    an [int], or the float that a total is. *)
Inductive amount : Type :=
  | AValue (v : value)
  | AFloat (f : spec_float).

Definition amount_of_num (n : num) : amount :=
  match n with
  | NInt z => AValue (VInt z)
  | NFloat f => AFloat f
  end.

(** The digits of [format(n, ',')]: a comma before every group of three
    digits, counted from the right. *)
Fixpoint commas_digits (s : string) : string :=
  match s with
  | EmptyString => EmptyString
  | String a r =>
      if (0 <? String.length r)%nat && (String.length r mod 3 =? 0)%nat
      then String a (String "," (commas_digits r))
      else String a (commas_digits r)
  end.

(** [f"{z:,}"] *)
Definition commas (z : Z) : string :=
  (if z <? 0 then "-" else EmptyString) +:+ commas_digits (Str.of_Z (Z.abs z)).

(** [format_commas(value)].  [int()] of a float truncates; it raises
    [ValueError] on a NaN, whose [str] is then returned, and
    [OverflowError] on an infinity, which the filter does not catch. *)
Definition format_commas (value : amount) : result string :=
  match value with
  | AValue VNone => Ok "(Price N/A)"
  | AValue v =>
      match py_int v with
      | Ok z => Ok (commas z)
      | Raise e =>
          match exn_kind_of e with
          | ValueError | TypeError => Ok (py_str v)
          | _ => Raise e
          end
      end
  | AFloat S754_nan => Ok "nan"
  | AFloat f => z ← Float.trunc f; Ok (commas z)
  end.

(** [int(re.sub(r'[^\d]', '', budget_str))] of [run_build], for a string
    whose decimal digits are the ASCII ones. *)
Definition parse_budget (budget_str : string) : result Z :=
  py_int (VStr (Str.filter Str.is_digit budget_str)).

(** What [run_build] answers with: a line of text, or the result page
    with the build, the warnings and the budget. *)
Inductive page : Type :=
  | PText (s : string)
  | PBuildResult (build : option PartList) (warnings : list string) (total_budget : Z).

(** [run_build()] on the fields [budget] and [purpose] of the form, each
    of them [None] when the form does not have it. *)
Definition run_build (db : PartDatabase) (budget purpose_field : option string)
    : result page :=
  let budget_str := default "0" budget in
  let purpose := default "gaming" purpose_field in
  match parse_budget budget_str with
  | Raise e =>
      match exn_kind_of e with
      | ValueError => Ok (PText "Invalid budget. Please go back and enter a number.")
      | _ => Raise e
      end
  | Ok total_budget =>
      if total_budget <? 5000000
      then Ok (PText "Budget too low. Please go back and enter at least 5jt.")
      else
        '(build, warnings) ← run_auto_build db (NInt total_budget) purpose;
        Ok (PBuildResult build warnings total_budget)
  end.

(** ** The build of the session *)

(** [session['build']]: the dict of the parts by slot, as the list of its
    items in the order of the dict, and the total. *)
Record web_build : Type := MkWebBuild {
  wb_parts : list (string * option record);
  wb_total : num
}.

(** The build that [manual_builder] puts into a session without one. *)
Definition fresh_web_build : web_build :=
  MkWebBuild
    [("cpu", None); ("gpu", None); ("motherboard", None);
     ("ram", None); ("psu", None); ("case", None)]
    (NFloat Float.c_0).

Definition json_key_map : gmap string string :=
  list_to_map
    [("cpu", "cpu"); ("gpu", "video-card"); ("motherboard", "motherboard");
     ("ram", "memory"); ("psu", "power-supply"); ("case", "case")].

(** [d[key] = v] on the items of a dict: an existing key keeps its place
    and takes the new value, a new key goes last. *)
Fixpoint parts_assign (key : string) (v : option record)
    (items : list (string * option record)) : list (string * option record) :=
  match items with
  | [] => [(key, v)]
  | (k, v') :: r =>
      if String.eqb k key then (k, v) :: r else (k, v') :: parts_assign key v r
  end.

(** The loop [for part in build['parts'].values(): ... total += ...] of
    [select_part]: what [float()] raises leaves the loop. *)
Fixpoint web_total_loop (total : num) (l : list (option record)) : result num :=
  match l with
  | [] => Ok total
  | part :: rest =>
      match part with
      | Some d =>
          if present part && truthy (get d "price") then
            f ← py_float (get d "price");
            total' ← Num.add total (NFloat f);
            web_total_loop total' rest
          else web_total_loop total rest
      | None => web_total_loop total rest
      end
  end.

(** [db.search_parts(json_key, part_name, {})] when either argument may
    be [None]: [None] is no category of the data, and [None.lower()]
    raises when the category is there. *)
Definition search_by_name (db : PartDatabase) (json_key part_name : option string)
    : result (list record) :=
  match json_key with
  | Some k =>
      match data db !! k, part_name with
      | None, _ => Ok []
      | Some _, Some n => search_parts db k n ∅
      | Some _, None =>
          raise AttributeError "'NoneType' object has no attribute 'lower'"
      end
  | None => Ok []
  end.

(** [select_part()] on the fields [part_type] and [part_name] of the
    form: the build of the session afterwards. *)
Definition select_part (db : PartDatabase) (session_build : option web_build)
    (part_type part_name : option string) : result (option web_build) :=
  let json_key := part_type ≫= (json_key_map !!.) in
  all_parts ← search_by_name db json_key part_name;
  part_data ←
    match all_parts with
    | first :: _ =>
        match first !! "name" with
        | Some name =>
            Ok (if value_eqb name (from_option VStr VNone part_name)
                then Some first else None)
        | None => raise KeyError "'name'"
        end
    | [] => Ok None
    end;
  match part_data, part_type with
  | Some d, Some t =>
      if present part_data then
        match session_build with
        | Some build =>
            let items := parts_assign t (Some d) (wb_parts build) in
            total ← web_total_loop (NInt 0) (List.map snd items);
            Ok (Some (MkWebBuild items total))
        | None => raise TypeError "'NoneType' object is not subscriptable"
        end
      else Ok session_build
  | _, _ => Ok session_build
  end.

(* ===================================================================== *)
(** * main.py *)
(* ===================================================================== *)

(** [cpu_socket.replace("AMD Socket ", "").replace("Intel Socket ", "")] *)
Definition bare_socket (cpu_socket : value) : result string :=
  match cpu_socket with
  | VStr s =>
      Ok (Str.replace "Intel Socket " EmptyString
            (Str.replace "AMD Socket " EmptyString s))
  | _ => raise AttributeError
           ("'" +:+ type_name cpu_socket +:+ "' object has no attribute 'replace'")
  end.

(** The block [if cpu:] of [build_search_constraints]. *)
Definition cli_cpu_constraints (cpu : option record) (constraints : record)
    : result record :=
  match cpu with
  | Some c =>
      if present cpu then
        let cpu_socket := get c "Architecture - Socket" in
        c1 ← (if truthy cpu_socket
              then s ← bare_socket cpu_socket; Ok (<["socket" := VStr s]> constraints)
              else Ok constraints);
        let cpu_mem := get c "Architecture - Memory Support" in
        if truthy cpu_mem
        then t ← first_token cpu_mem; Ok (<["memory_type" := VStr t]> c1)
        else Ok c1
      else Ok constraints
  | None => Ok constraints
  end.

(** The block [if mobo:]: the socket of the motherboard as it is. *)
Definition cli_mobo_constraints (mobo : option record) (constraints : record) : record :=
  match mobo with
  | Some m =>
      if present mobo && truthy (get m "socket")
      then <["socket" := get m "socket"]> constraints
      else constraints
  | None => constraints
  end.

(** The power of a part: 0 unless the part has a TDP, and [guess] when
    [int()] fails on it with [ValueError] or [TypeError]. *)
Definition tdp_or_guess (part : option record) (key : string) (guess : Z) : result Z :=
  match part with
  | Some d =>
      if present part && truthy (get d key) then
        match py_int (get d key) with
        | Ok z => Ok z
        | Raise e =>
            match exn_kind_of e with
            | ValueError | TypeError => Ok guess
            | _ => Raise e
            end
        end
      else Ok 0
  | None => Ok 0
  end.

Definition cli_power_constraint (cpu gpu : option record) (constraints : record)
    : result record :=
  cpu_power ← tdp_or_guess cpu "Performance - TDP" 100;
  gpu_power ← tdp_or_guess gpu "Board Design - TDP" 250;
  if ((cpu_power : Z) >? 0) || ((gpu_power : Z) >? 0)
  then Ok (<["estimated_power" := VInt (cpu_power + gpu_power + 100)]> constraints)
  else Ok constraints.

(** [BroBuildApp.build_search_constraints()] on the build [part_list]. *)
Definition build_search_constraints (part_list : PartList) : result record :=
  let cpu := slot part_list "cpu" in
  let mobo := slot part_list "motherboard" in
  let gpu := slot part_list "gpu" in
  c1 ← cli_cpu_constraints cpu ∅;
  cli_power_constraint cpu gpu (cli_mobo_constraints mobo c1).

(* ===================================================================== *)
(** * Definitions that the statements below refer to *)
(* ===================================================================== *)

(** Socket normalisation as the design document words it: rules (a) to
    (d) tried one after the other, a rule that finds nothing passing on
    to the next. *)
Definition strip_vendor_words (s : string) : string :=
  Str.replace "socket" "" (Str.replace "intel" "" (Str.replace "amd" "" s)).

Definition normalize_socket_spec (raw : string) : string :=
  let s := Str.lower (Str.remove_spaces raw) in
  if Str.contains "am4" s then "am4"
  else if Str.contains "am5" s then "am5"
  else
    match Str.search_lit_digits "lga" s with
    | Some d => d
    | None =>
        match (if Str.contains "intel" s || Str.contains "socket" s
               then Str.search_4digits s else None) with
        | Some d => d
        | None => strip_vendor_words s
        end
    end.


(** ** The pick rule in the words of the design document *)

(** A test that returned [True]. *)
Definition yes (r : result bool) : bool :=
  match r with Ok true => true | _ => false end.

(** The records of the category that pass the constraint set with a
    nonzero price within the budget, in catalogue order. *)
Definition survivors (db : PartDatabase) (json_key : string) (budget : num)
    (constraints : record) : list record :=
  List.filter
    (fun p => yes (search_match json_key "" constraints p) && yes (affordable budget p))
    (default [] (data db !! json_key)).

Definition ddr5_survivors (db : PartDatabase) (json_key : string) (budget : num)
    (constraints : record) : list record :=
  List.filter (fun p => yes (mentions_ddr5 p)) (survivors db json_key budget constraints).

(** The records the final choice is made among. *)
Definition pool (db : PartDatabase) (json_key : string) (budget : num)
    (constraints : record) : list record :=
  if String.eqb json_key "cpu"
  then match ddr5_survivors db json_key budget constraints with
       | [] => survivors db json_key budget constraints
       | d => d
       end
  else survivors db json_key budget constraints.

(** [r] is the highest-priced element of [l], the first one in the order
    of [l] among those of the highest price. *)
Definition first_highest (key : record -> Z) (l : list record) (r : record) : Prop :=
  exists l1 l2, l = (l1 ++ r :: l2)%list /\
    Forall (fun x => key x < key r) l1 /\ Forall (fun x => key x <= key r) l2.

(** The pool as C3 words it for a CPU without DDR5 survivors: "only the
    DDR4-capable survivors". *)
Definition ddr4_survivors (db : PartDatabase) (json_key : string) (budget : num)
    (constraints : record) : list record :=
  List.filter
    (fun p => yes (py_in (VStr "DDR4") (get_or p "Architecture - Memory Support" (VStr ""))))
    (survivors db json_key budget constraints).

(** No test of [_pick_part] raises on the catalogue: the constraint and
    keyword tests on every record, the price test on those that passed,
    and for a CPU the DDR5 test on the survivors. *)
Definition pick_total (db : PartDatabase) (json_key : string) (budget : num)
    (constraints : record) : Prop :=
  let cat := default [] (data db !! json_key) in
  Forall (fun p => is_ok (search_match json_key "" constraints p) = true) cat /\
  Forall (fun p => yes (search_match json_key "" constraints p) = true ->
                   is_ok (affordable budget p) = true) cat /\
  (json_key = "cpu" ->
   Forall (fun p => is_ok (mentions_ddr5 p) = true)
          (survivors db json_key budget constraints)).

(** ** The budgets of a run in the words of the design document *)

Definition splits_of (purpose : string) : splits :=
  if String.eqb purpose "gaming" then GAMING_SPLITS else WORKSTATION_SPLITS.

(** The share [total_budget * weight] of a category, for the total budget
    as a float. *)
Definition share (total : spec_float) (weight : spec_float) : num :=
  NFloat (Float.mul total weight).

(** The original GPU split plus the accumulated savings of the CPU, the
    motherboard and the RAM picks, each saving being the split of the
    category minus the price of the part chosen for it.  The sums are
    Python sums of floats, accumulated from [0.0] in the order of the
    picks. *)
Definition gpu_budget (total : spec_float) (sp : splits) (cpu mobo ram : record)
    : result num :=
  s_cpu ← saved (share total (split_cpu sp)) cpu;
  s_mobo ← saved (share total (split_motherboard sp)) mobo;
  s_ram ← saved (share total (split_ram sp)) ram;
  r ← Num.add (NFloat Float.c_0) s_cpu;
  r ← Num.add r s_mobo;
  r ← Num.add r s_ram;
  Num.add (share total (split_gpu sp)) r.

(** ** The stages of a run

    [run_outcome db total sp res]: the run over [db] with the total budget
    [total] (as a float) and the splits [sp] returns [res].  One
    constructor for each [return] of [run_auto_build]; the [after_...]
    predicates say that a stage went through. *)

Section Run.

Variable db : PartDatabase.
Variable total : spec_float.
Variable sp : splits.

(** [budget_rollover += budget - part.get('price', budget)] *)
Definition rolled_over (budget : num) (part : record) (rollover rollover' : num) : Prop :=
  exists s, saved budget part = Ok s /\ Num.add rollover s = Ok rollover'.

Definition after_cpu (cpu : record) (build : PartList) (rollover : num)
    (constraints : record) : Prop :=
  _pick_part db "cpu" (share total (split_cpu sp)) ∅ = Ok (Some cpu) /\
  add new_PartList "cpu" cpu = Ok build /\
  rolled_over (share total (split_cpu sp)) cpu (NFloat Float.c_0) rollover /\
  _get_constraints build = Ok constraints.

Definition after_mobo (build1 : PartList) (rollover1 : num) (constraints1 : record)
    (mobo : record) (build : PartList) (rollover : num) (constraints : record) : Prop :=
  _pick_part db "motherboard" (share total (split_motherboard sp)) constraints1
    = Ok (Some mobo) /\
  add build1 "motherboard" mobo = Ok build /\
  rolled_over (share total (split_motherboard sp)) mobo rollover1 rollover /\
  _get_constraints build = Ok constraints.

Definition after_ram (build2 : PartList) (rollover2 : num) (constraints2 : record)
    (ram : record) (build : PartList) (rollover : num) (gpu_budget_final : num) : Prop :=
  _pick_part db "memory" (share total (split_ram sp)) constraints2 = Ok (Some ram) /\
  add build2 "ram" ram = Ok build /\
  rolled_over (share total (split_ram sp)) ram rollover2 rollover /\
  Num.add (share total (split_gpu sp)) rollover = Ok gpu_budget_final.

Definition after_gpu (build3 : PartList) (gpu_budget_final : num)
    (gpu : record) (build : PartList) (other_budget_each : num) (constraints : record)
    : Prop :=
  _pick_part db "video-card" gpu_budget_final ∅ = Ok (Some gpu) /\
  add build3 "gpu" gpu = Ok build /\
  Num.div (share total (split_other sp)) (NInt 2) = Ok other_budget_each /\
  _get_constraints build = Ok constraints.

Inductive run_outcome : option PartList * list string -> Prop :=
  | run_no_cpu :
      _pick_part db "cpu" (share total (split_cpu sp)) ∅ = Ok None ->
      run_outcome (None, [msg_no_cpu])
  | run_no_mobo cpu b1 r1 c1 :
      after_cpu cpu b1 r1 c1 ->
      _pick_part db "motherboard" (share total (split_motherboard sp)) c1 = Ok None ->
      run_outcome (None, [msg_no_mobo cpu c1])
  | run_no_ram cpu b1 r1 c1 mobo b2 r2 c2 :
      after_cpu cpu b1 r1 c1 -> after_mobo b1 r1 c1 mobo b2 r2 c2 ->
      _pick_part db "memory" (share total (split_ram sp)) c2 = Ok None ->
      run_outcome (None, [msg_no_ram c2])
  | run_no_gpu cpu b1 r1 c1 mobo b2 r2 c2 ram b3 r3 bg :
      after_cpu cpu b1 r1 c1 -> after_mobo b1 r1 c1 mobo b2 r2 c2 ->
      after_ram b2 r2 c2 ram b3 r3 bg ->
      _pick_part db "video-card" bg ∅ = Ok None ->
      run_outcome (None, [msg_no_gpu])
  | run_no_psu cpu b1 r1 c1 mobo b2 r2 c2 ram b3 r3 bg gpu b4 ob c4 :
      after_cpu cpu b1 r1 c1 -> after_mobo b1 r1 c1 mobo b2 r2 c2 ->
      after_ram b2 r2 c2 ram b3 r3 bg -> after_gpu b3 bg gpu b4 ob c4 ->
      _pick_part db "power-supply" ob c4 = Ok None ->
      run_outcome (None, [msg_no_psu])
  | run_done cpu b1 r1 c1 mobo b2 r2 c2 ram b3 r3 bg gpu b4 ob c4 psu b5 case b6 ws :
      after_cpu cpu b1 r1 c1 -> after_mobo b1 r1 c1 mobo b2 r2 c2 ->
      after_ram b2 r2 c2 ram b3 r3 bg -> after_gpu b3 bg gpu b4 ob c4 ->
      _pick_part db "power-supply" ob c4 = Ok (Some psu) ->
      add b4 "psu" psu = Ok b5 ->
      _pick_part db "case" ob ∅ = Ok case ->
      with_case b5 case = Ok b6 ->
      check_build b6 = Ok ws ->
      run_outcome (Some b6, ws).

End Run.

(** The failure messages of [run_auto_build]. *)
Definition is_failure_message (m : string) : Prop :=
  m = msg_no_cpu \/ (exists cpu cs, m = msg_no_mobo cpu cs) \/
  (exists cs, m = msg_no_ram cs) \/ m = msg_no_gpu \/ m = msg_no_psu.

(** A build with a part in each of the five required slots. *)
Definition complete (build : PartList) : Prop :=
  is_Some (slot build "cpu") /\ is_Some (slot build "motherboard") /\
  is_Some (slot build "ram") /\ is_Some (slot build "gpu") /\
  is_Some (slot build "psu").

(** ** Enrichment: what a pass reads *)

(** [self.data[product_key][j]] *)
Definition product_at (db : PartDatabase) (product_key : string) (j : nat)
    : option record :=
  data db !! product_key ≫= (.!! j).

(** Two databases with the same master spec maps and the same master
    table behind the map that [master_db_key] selects. *)
Definition same_master (master_db_key : string) (db db' : PartDatabase) : Prop :=
  master_spec_maps db = master_spec_maps db' /\
  data db !! master_table (map_key_of master_db_key)
  = data db' !! master_table (map_key_of master_db_key).

(** ** binary64 rounding *)

(** The result of a rounding to a 53-bit mantissa [m] with exponent [e]:
    the number, or the infinity when the exponent is out of range. *)
Definition round_pack (m e : Z) : spec_float :=
  if e <=? 971 then S754_finite false (Z.to_pos m) e else S754_infinity false.

(** The mantissa of the float [0.7], which is [mantissa_0_7 * 2^-53]. *)
Definition mantissa_0_7 : positive := 6305039478318694.

(** A warning of the "exceeds PSU capacity" branch of the power rule. *)
Definition is_exceeds_warning (s : string) : bool :=
  Str.startswith s "❌ INCOMPATIBLE: Estimated power draw (".

(** ** Sample data *)

Definition mk_record (fields : list (string * value)) : record := list_to_map fields.

(** A build with the given parts in its slots. *)
Definition build_of (l : list (string * record)) : PartList :=
  fold_left (fun pl kr => fst (add_part pl (fst kr) (snd kr))) l new_PartList.

(** CPU of 100 W, GPU of 200 W, PSU of 500 W: a total draw of 400 W. *)
Definition psu_500 : record :=
  mk_record [("name", VStr "psu"); ("wattage", VInt 500)].

Definition build_500_400 : PartList :=
  build_of [("cpu", mk_record [("name", VStr "cpu"); ("Performance - TDP", VInt 100)]);
            ("gpu", mk_record [("name", VStr "gpu"); ("Board Design - TDP", VInt 200)]);
            ("psu", psu_500)].

(** A CPU and a motherboard of the socket AM3+, the socket of the CPU
    written with the vendor words. *)
Definition cpu_am3 : record :=
  mk_record [("name", VStr "FX-8350"); ("Physical - Socket", VStr "AMD Socket AM3+")].
Definition board_am3 : record :=
  mk_record [("name", VStr "970 board"); ("socket", VStr "AM3+")].
Definition build_am3 : PartList :=
  build_of [("cpu", cpu_am3); ("motherboard", board_am3)].

(** A PSU of a negative wattage, with a CPU of a negative TDP. *)
Definition build_negative_wattage : PartList :=
  build_of [("cpu", mk_record [("name", VStr "cpu"); ("Performance - TDP", VInt (-108))]);
            ("psu", mk_record [("name", VStr "psu"); ("wattage", VInt (-10))])].

(** A CPU whose TDP does not parse, with a GPU of 200 W. *)
Definition build_bad_tdp : PartList :=
  build_of [("cpu", mk_record [("name", VStr "cpu"); ("Performance - TDP", VStr "65 W")]);
            ("gpu", mk_record [("name", VStr "gpu"); ("Board Design - TDP", VInt 200)])].

(** CPU of 65 W and GPU of 200 W. *)
Definition build_65_200 : PartList :=
  build_of [("cpu", mk_record [("name", VStr "cpu"); ("Performance - TDP", VInt 65)]);
            ("gpu", mk_record [("name", VStr "gpu"); ("Board Design - TDP", VInt 200)])].

(** Two CPUs without DDR5 support, the dearer one on DDR3. *)
Definition cpu_ddr3 : record :=
  mk_record [("name", VStr "Phenom II X4"); ("price", VInt 100);
             ("Architecture - Memory Support", VStr "DDR3")].
Definition cpu_ddr4 : record :=
  mk_record [("name", VStr "Ryzen 5 3600"); ("price", VInt 50);
             ("Architecture - Memory Support", VStr "DDR4")].

Definition db_ddr3_ddr4 : PartDatabase :=
  MkPartDatabase {[ "cpu" := [cpu_ddr3; cpu_ddr4] ]} ∅.

(** A small catalogue on which a gaming run of 15,000,000 goes through. *)
Definition sample_cpu : record :=
  mk_record [("name", VStr "AMD Ryzen 5 5600X"); ("price", VInt 2000000);
             ("Physical - Socket", VStr "AMD Socket AM4");
             ("Architecture - Memory Support", VStr "DDR4");
             ("Performance - TDP", VInt 65)].

Definition board_am4 : record :=
  mk_record [("name", VStr "MSI B550M"); ("price", VInt 1500000); ("socket", VStr "AM4")].
Definition board_lga1700 : record :=
  mk_record [("name", VStr "ASRock B660M"); ("price", VInt 1600000);
             ("socket", VStr "LGA1700")].

Definition ram_ddr4 : record :=
  mk_record [("name", VStr "Kit DDR4-3200"); ("price", VInt 900000);
             ("speed", VList [VInt 4; VInt 3200]); ("modules", VList [VInt 2; VInt 8])].
Definition ram_ddr5 : record :=
  mk_record [("name", VStr "Kit DDR5-5600"); ("price", VInt 1000000);
             ("speed", VList [VInt 5; VInt 5600]); ("modules", VList [VInt 2; VInt 16])].
Definition gpu_4060 : record :=
  mk_record [("name", VStr "RTX 4060"); ("price", VInt 7000000);
             ("Board Design - TDP", VInt 115)].
Definition gpu_4070 : record :=
  mk_record [("name", VStr "RTX 4070"); ("price", VInt 9500000);
             ("Board Design - TDP", VInt 200)].
Definition psu_650 : record :=
  mk_record [("name", VStr "PSU 650W"); ("price", VInt 700000); ("wattage", VInt 650)].
Definition case_mid : record :=
  mk_record [("name", VStr "Mid tower"); ("price", VInt 500000)].

Definition sample_tables (boards : list record) : gmap string (list record) :=
  list_to_map
    [("cpu", [sample_cpu]); ("motherboard", boards);
     ("memory", [ram_ddr4; ram_ddr5]); ("video-card", [gpu_4060; gpu_4070]);
     ("power-supply", [psu_650]); ("case", [case_mid])].

Definition sample_db : PartDatabase :=
  MkPartDatabase (sample_tables [board_am4; board_lga1700]) ∅.

(** The build that the run returns: the GPU at 7,000,000 is above the GPU
    split of 6,000,000 and within it plus the 3,100,000 saved before. *)
Definition sample_build : PartList :=
  build_of [("cpu", sample_cpu); ("motherboard", board_am4); ("ram", ram_ddr4);
            ("gpu", gpu_4060); ("psu", psu_650); ("case", case_mid)].

(** The same catalogue with no AM4 motherboard. *)
Definition db_no_am4_board : PartDatabase :=
  MkPartDatabase (sample_tables [board_lga1700]) ∅.

(** The constraints that the sample CPU gives rise to. *)
Definition sample_constraints : record :=
  list_to_map [("socket", VStr "am4"); ("memory_type", VStr "DDR4");
               ("estimated_power", VInt 165)].

(** A graphics card listed without chipset, and a master table in which
    the record of one chip names another chip as its [chipset]. *)
Definition card_4060 : record :=
  mk_record [("name", VStr "Asus Dual RTX 4060"); ("price", VInt 5000000)].
Definition master_4060 : record :=
  mk_record [("Name", VStr "GeForce RTX 4060"); ("chipset", VStr "GeForce RTX 4070");
             ("Board Design - TDP", VInt 115)].
Definition master_4070 : record :=
  mk_record [("Name", VStr "GeForce RTX 4070"); ("Board Design - TDP", VInt 200)].

Definition tables_chipset (card : record) : gmap string (list record) :=
  list_to_map [("video-card", [card]);
               ("master_gpu_database", [master_4060; master_4070])].

Definition maps_chipset : gmap string spec_map :=
  {[ "gpu" := [({[ "rtx"; "4060" ]}, 0%nat); ({[ "rtx"; "4070" ]}, 1%nat)] ]}.

Definition db_chipset (card : record) : PartDatabase :=
  MkPartDatabase (tables_chipset card) maps_chipset.

(** The card after one pass and after two passes of the enrichment that
    app.py runs on the graphics cards. *)
Definition card_4060_once : record :=
  mk_record [("name", VStr "Asus Dual RTX 4060"); ("price", VInt 5000000);
             ("chipset", VStr "GeForce RTX 4070"); ("Board Design - TDP", VInt 115)].
Definition card_4060_twice : record :=
  mk_record [("name", VStr "Asus Dual RTX 4060"); ("price", VInt 5000000);
             ("chipset", VStr "GeForce RTX 4070"); ("Board Design - TDP", VInt 200)].

(** The card after a pass that copies the TDP only. *)
Definition card_4060_tdp : record :=
  mk_record [("name", VStr "Asus Dual RTX 4060"); ("price", VInt 5000000);
             ("Board Design - TDP", VInt 115)].

Definition gpu_specs_to_copy : list string :=
  ["Board Design - TDP"; "Memory - Memory Size"; "chipset"].

(** A DDR5 kit with a CPU of the given memory support. *)
Definition build_ddr5_kit (mem_support : string) : PartList :=
  build_of [("cpu", mk_record [("name", VStr "cpu");
                               ("Architecture - Memory Support", VStr mem_support)]);
            ("ram", mk_record [("name", VStr "kit"); ("speed", VList [VInt 5; VInt 6000])])].

(* ===================================================================== *)
(** * Definitions that the further statements refer to *)
(* ===================================================================== *)

(** ** Searching and picking *)

(** The field [field] of [p] is a string that contains [keyword], letter
    case aside ([dflt] of [p.get(field, '')] being the empty string). *)
Definition field_mentions (p : record) (field keyword : string) : Prop :=
  exists s, get_or p field (VStr "") = VStr s /\
            Str.contains (Str.lower keyword) (Str.lower s) = true.

(** The price of [p] is a nonzero number that is at most [budget]. *)
Definition within_budget (budget : num) (p : record) : Prop :=
  exists price, as_num (get p "price") = Some price /\
                truthy (get p "price") = true /\ Num.leb price budget = true.

(** ** The kinds of warnings of [check_build] *)

Definition is_risky_warning (s : string) : bool :=
  Str.startswith s "❌ RISKY: ".

Definition is_socket_mismatch (s : string) : bool :=
  Str.startswith s "❌ INCOMPATIBLE: CPU socket (".

Definition is_ram_mismatch (s : string) : bool :=
  Str.startswith s "❌ INCOMPATIBLE: RAM type (".

(** ** The socket entry of a constraint set *)

(** The constraint set [cs] gives the socket as the normalisation of
    [raw], or gives no socket when [raw] is empty or missing. *)
Definition socket_entry (raw : value) (cs : record) : Prop :=
  if truthy raw
  then exists n, _normalize_socket raw = Ok (Some n) /\ cs !! "socket" = Some (VStr n)
  else cs !! "socket" = None.

(** ** Well-typed fields *)

(** A field that is empty in the sense of [if not v], or a string. *)
Definition str_or_falsy (v : value) : Prop :=
  truthy v = false \/ exists s, v = VStr s.

(** The field [f] of [p], when [p] has it, is a string. *)
Definition str_if_given (p : record) (f : string) : Prop :=
  forall v, p !! f = Some v -> exists s, v = VStr s.

(** ** TDP fields *)

(** The TDP field [key] of [part], when given, is an integer, a boolean,
    a string that is not empty or a list that is not empty: it is not
    one of the empty values [None], [''] and [[]], which [x or 0] turns
    into [0] and on which [int()] fails, and it is no other kind of JSON
    value (a float, an object). *)
Definition tdp_given (part : option record) (key : string) : Prop :=
  forall d v, part = Some d -> d !! key = Some v ->
    (exists z, as_int v = Some z) \/
    (exists s, v = VStr s /\ s <> EmptyString) \/
    (exists x l, v = VList (x :: l)).

(** A CPU whose TDP is [null], with a GPU of 200 W. *)
Definition build_null_tdp : PartList :=
  build_of [("cpu", mk_record [("name", VStr "cpu"); ("Performance - TDP", VNone)]);
            ("gpu", mk_record [("name", VStr "gpu"); ("Board Design - TDP", VInt 200)])].

(** The parts of [build_65_200]. *)
Definition cpu_65 : record :=
  mk_record [("name", VStr "cpu"); ("Performance - TDP", VInt 65)].
Definition gpu_200 : record :=
  mk_record [("name", VStr "gpu"); ("Board Design - TDP", VInt 200)].

(** ** What enrichment leaves alone *)

(** [p'] is [p] with some of the fields [specs] set or overwritten:
    every other field is as it was and no field is lost. *)
Definition record_frame (specs : list string) (p p' : record) : Prop :=
  (forall f, f ∉ specs -> p' !! f = p !! f) /\
  (forall f, is_Some (p !! f) -> is_Some (p' !! f)).

(** [db'] is [db] with the products of category [product_key] changed
    within [record_frame]: the same tables of the same lengths, the same
    master spec maps. *)
Definition database_frame (product_key : string) (specs : list string)
    (db db' : PartDatabase) : Prop :=
  master_spec_maps db' = master_spec_maps db /\
  (forall k, k <> product_key -> data db' !! k = data db !! k) /\
  option_Forall2 (Forall2 (record_frame specs))
    (data db !! product_key) (data db' !! product_key).

(** ** The master spec maps *)

(** The keyword set under which a master record is filed. *)
Definition master_key (part : record) : result keywords :=
  normalize_search_term (get_or part "Name" (VStr "")).

(** The GPU map of [maps_chipset]. *)
Definition maps_chipset_gpu : spec_map :=
  [({[ "rtx"; "4060" ]}, 0%nat); ({[ "rtx"; "4070" ]}, 1%nat)].

(** A master table whose first record has no name. *)
Definition master_nameless : record := mk_record [("Board Design - TDP", VInt 999)].

Definition tables_nameless : gmap string (list record) :=
  list_to_map [("video-card", [card_4060]);
               ("master_gpu_database", [master_nameless; master_4060])].

Definition db_nameless : PartDatabase :=
  MkPartDatabase tables_nameless
    {[ "gpu" := [(∅, 0%nat); ({[ "rtx"; "4060" ]}, 1%nat)] ]}.

(** A kit as the unrepaired [memory.json] lists it: the speed is a number. *)
Definition kit_raw_5600 : record :=
  mk_record [("name", VStr "Kit 5600"); ("price", VInt 1000000);
             ("speed", VInt 5600); ("modules", VList [VInt 2; VInt 16])].

(** ** Prices as whole numbers *)

(** The price of the part in a slot as a whole number: 0 for an empty
    slot and for a part without price. *)
Definition int_price (part : option record) : Z :=
  match part with
  | Some d => default 0 (as_int (get d "price"))
  | None => 0
  end.

Definition price_sum (pl : PartList) : Z :=
  fold_right Z.add 0 (List.map (fun k => int_price (slot pl k)) slot_order).

(** The price of a part, when it is given and not [null], is a whole
    number that is not negative. *)
Definition whole_price (part : option record) : Prop :=
  forall d, part = Some d ->
    get d "price" = VNone \/ exists z, as_int (get d "price") = Some z /\ 0 <= z.

(** The total for the whole number [s]: the integer [0] that the loop
    starts from, or the float of [s]. *)
Definition total_of (s : Z) : num :=
  if s =? 0 then NInt 0 else NFloat (Float.nearest s).

(** The sample catalogue with a second PSU, dearer and of 350 W: 70% of
    350 W is below the draw of 280 W of the sample build, so the PSU
    filter rejects it, although it is the dearest PSU within the budget. *)
Definition psu_350 : record :=
  mk_record [("name", VStr "PSU 350W"); ("price", VInt 740000); ("wattage", VInt 350)].

Definition db_two_psus : PartDatabase :=
  MkPartDatabase
    (<["power-supply" := [psu_350; psu_650]]> (sample_tables [board_am4; board_lga1700])) ∅.

Definition build_psu_350 : PartList :=
  build_of [("cpu", sample_cpu); ("motherboard", board_am4); ("ram", ram_ddr4);
            ("gpu", gpu_4060); ("psu", psu_350); ("case", case_mid)].

(** The sample catalogue with a PSU of unknown wattage: the run goes
    through and the final check warns about the PSU. *)
Definition psu_unrated : record :=
  mk_record [("name", VStr "PSU no-name"); ("price", VInt 400000)].

Definition db_psu_unrated : PartDatabase :=
  MkPartDatabase
    (<["power-supply" := [psu_unrated]]> (sample_tables [board_am4; board_lga1700])) ∅.

Definition build_psu_unrated : PartList :=
  build_of [("cpu", sample_cpu); ("motherboard", board_am4); ("ram", ram_ddr4);
            ("gpu", gpu_4060); ("psu", psu_unrated); ("case", case_mid)].

(** ** Amounts and the command-line builder *)

(** [s] without its commas. *)
Definition without_commas (s : string) : string :=
  Str.filter (fun a => negb (Ascii.eqb a ",")) s.

(** The value of a decimal numeral, digit by digit from [acc]. *)
Fixpoint horner (acc : Z) (d : Decimal.uint) : Z :=
  match d with
  | Decimal.Nil => acc
  | Decimal.D0 l => horner (10 * acc + 0) l
  | Decimal.D1 l => horner (10 * acc + 1) l
  | Decimal.D2 l => horner (10 * acc + 2) l
  | Decimal.D3 l => horner (10 * acc + 3) l
  | Decimal.D4 l => horner (10 * acc + 4) l
  | Decimal.D5 l => horner (10 * acc + 5) l
  | Decimal.D6 l => horner (10 * acc + 6) l
  | Decimal.D7 l => horner (10 * acc + 7) l
  | Decimal.D8 l => horner (10 * acc + 8) l
  | Decimal.D9 l => horner (10 * acc + 9) l
  end.

(** The interpreter converts between [int] and [str] up to 4300 digits
    unless it is told otherwise; the statements on amounts stay within
    that. *)
Definition within_digit_limit (z : Z) : Prop := Z.abs z < 10 ^ 4300.

(** No character of [s] is outside ASCII. *)
Definition ascii_only (s : string) : bool :=
  Str.forallb (fun a => (Str.code a <? 128)%N) s.

(** The separators 28 to 31, which [str.strip] removes, are no white
    space for [int()] on an ASCII string. *)
Definition no_separator (s : string) : bool :=
  Str.forallb (fun a => negb ((28 <=? Str.code a)%N && (Str.code a <=? 31)%N)) s.

(** A string that [int()] is given is within the limit, in ASCII and
    without separators. *)
Definition readable (v : value) : Prop :=
  match v with
  | VStr s =>
      Z.of_nat (String.length s) <= 4300 /\ ascii_only s = true /\ no_separator s = true
  | _ => True
  end.

Definition too_low_text : string :=
  "Budget too low. Please go back and enter at least 5jt.".

Definition invalid_text : string :=
  "Invalid budget. Please go back and enter a number.".

(** The field [key] of the part in a slot; [None] for an empty slot. *)
Definition field_of (part : option record) (key : string) : value :=
  get (default ∅ part) key.

Definition is_str (v : value) : bool :=
  match v with VStr _ => true | _ => false end.

(** A field that is given and on which a method of [str] fails. *)
Definition not_a_string (v : value) : bool := truthy v && negb (is_str v).

(** A TDP that is given and that [int()] does not read. *)
Definition unreadable (v : value) : bool := truthy v && negb (is_ok (py_int v)).

(** What [int()] raises on the TDP, when it raises, is caught by
    [except (ValueError, TypeError)]. *)
Definition tdp_catchable (v : value) : Prop :=
  forall e, py_int v = Raise e ->
    exn_kind_of e = ValueError \/ exn_kind_of e = TypeError.

(** A CPU with a TDP that [int()] does not read, and a GPU of 200 W. *)
Definition build_tdp_text : PartList :=
  build_of [("cpu", mk_record [("name", VStr "cpu"); ("Performance - TDP", VStr "65 W")]);
            ("gpu", gpu_200)].

(** The fresh build of a session with the RTX 4060 of the sample
    catalogue as its GPU. *)
Definition web_build_4060 : web_build :=
  MkWebBuild
    [("cpu", None); ("gpu", Some gpu_4060); ("motherboard", None);
     ("ram", None); ("psu", None); ("case", None)]
    (NFloat (Float.nearest 7000000)).

(** A catalogue that lists the RTX 4060 Ti before the RTX 4060. *)
Definition gpu_4060_ti : record :=
  mk_record [("name", VStr "RTX 4060 Ti"); ("price", VInt 8000000)].

Definition db_ti_first : PartDatabase :=
  MkPartDatabase {[ "video-card" := [gpu_4060_ti; gpu_4060] ]} ∅.

(* ===================================================================== *)
(** * Properties *)
(* ===================================================================== *)

(** Closes [l = r] by evaluating [l] to the value [r]. *)
Ltac vm_refl :=
  match goal with
  | |- ?l = ?r => exact (@eq_refl _ r <: l = r)
  end.

(** ** Sanity checks of the string primitives *)

Example lower_ex : Str.lower "LGA 1700" = "lga 1700".
Proof. reflexivity. Qed.

Example replace_ex : Str.replace "amd" "" "amdxamdamd7" = "x7".
Proof. reflexivity. Qed.

Example findall_ex :
  Str.findall_words "amd ryzen-5 5600x (tray)" = ["amd"; "ryzen"; "5"; "5600x"; "tray"].
Proof. reflexivity. Qed.

Example search_lga_ex : Str.search_lit_digits "lga" "lgax-lga1700v2" = Some "1700".
Proof. reflexivity. Qed.

Example search_4digits_ex : Str.search_4digits "socket12-34567" = Some "3456".
Proof. reflexivity. Qed.

Example of_Z_ex : Str.of_Z 572 = "572" /\ Str.of_Z 0 = "0" /\ Str.of_Z (-10) = "-10".
Proof. repeat split; reflexivity. Qed.

(* ===================================================================== *)
(** ** Socket normalisation *)
(* ===================================================================== *)

Lemma append_cons (a : ascii) (s t : string) :
  String a s +:+ t = String a (s +:+ t).
Proof. reflexivity. Qed.

Lemma startswith_app (p s : string) : Str.startswith (p +:+ s) p = true.
Proof.
  unfold Str.startswith. induction p as [|a p IH]; simpl.
  - destruct s; reflexivity.
  - destruct (ascii_dec a a) as [_|N]; [exact IH | contradiction].
Qed.

Lemma startswith_split (s p : string) :
  Str.startswith s p = true -> s = p +:+ Str.drop (String.length p) s.
Proof.
  unfold Str.startswith. revert s. induction p as [|a p IH]; intros s H; simpl.
  - reflexivity.
  - destruct s as [|b s]; simpl in H; [discriminate|].
    destruct (ascii_dec a b) as [->|N]; [|discriminate].
    rewrite append_cons. cbn [String.length Str.drop]. f_equal. apply IH, H.
Qed.

Lemma contains_unfold (sub s : string) :
  Str.contains sub s =
  Str.startswith s sub
  || match s with EmptyString => false | String _ r => Str.contains sub r end.
Proof. destruct s; reflexivity. Qed.

(** [sub in s] holds exactly when [s] is [pre + sub + post]. *)
Lemma contains_spec (sub s : string) :
  Str.contains sub s = true <-> exists pre post, s = pre +:+ sub +:+ post.
Proof.
  split.
  - induction s as [|a s IH]; rewrite contains_unfold; intros H;
      apply orb_true_iff in H as [H|H]; try discriminate.
    + apply startswith_split in H. exists "". eexists. exact H.
    + apply startswith_split in H. exists "". eexists. exact H.
    + destruct (IH H) as (pre & post & ->). exists (String a pre), post. reflexivity.
  - intros (pre & post & ->). induction pre as [|a pre IH].
    + rewrite contains_unfold. change ("" +:+ sub +:+ post) with (sub +:+ post).
      rewrite startswith_app. reflexivity.
    + rewrite contains_unfold, append_cons, IH. apply orb_true_r.
Qed.

Lemma span_digits (s : string) : Str.forallb Str.is_digit (Str.span Str.is_digit s) = true.
Proof.
  induction s as [|a s IH]; simpl; [reflexivity|].
  destruct (Str.is_digit a) eqn:E; simpl; [rewrite E; exact IH | reflexivity].
Qed.

Lemma span_split (p : ascii -> bool) (s : string) :
  exists post, s = Str.span p s +:+ post /\
               match post with String a _ => p a = false | EmptyString => True end.
Proof.
  induction s as [|a s (post & E & Hp)]; simpl.
  - exists "". split; reflexivity.
  - destruct (p a) eqn:Ea.
    + exists post. split; [rewrite append_cons; f_equal; exact E | exact Hp].
    + exists (String a s). split; [reflexivity | exact Ea].
Qed.

(** What [re.search(lit + r'(\d+)', s)] finds: an occurrence of [lit]
    followed by the longest run of digits there, and that run is not
    empty. *)
Lemma search_lit_digits_sound (lit s d : string) :
  Str.search_lit_digits lit s = Some d ->
  d <> "" /\ Str.forallb Str.is_digit d = true /\
  exists pre post, s = pre +:+ lit +:+ d +:+ post /\
    match post with String a _ => Str.is_digit a = false | EmptyString => True end.
Proof.
  induction s as [|a s IH].
  - cbn [Str.search_lit_digits]. destruct (Str.startswith "" lit) eqn:E; [|discriminate].
    destruct (Str.span Str.is_digit (Str.drop (String.length lit) "")) eqn:E2; [discriminate|].
    destruct lit; simpl in E2; discriminate.
  - cbn [Str.search_lit_digits].
    destruct (Str.startswith (String a s) lit) eqn:E.
    + destruct (Str.span Str.is_digit (Str.drop (String.length lit) (String a s))) as [|c d'] eqn:E2.
      * intros H. destruct (IH H) as (Hd & Hdig & pre & post & -> & Hp).
        repeat split; try assumption. exists (String a pre), post. split; [reflexivity|exact Hp].
      * intros [= <-]. split; [discriminate|]. split; [rewrite <- E2; apply span_digits|].
        destruct (span_split Str.is_digit (Str.drop (String.length lit) (String a s)))
          as (post & Es & Hp).
        exists "", post. split; [|exact Hp].
        apply startswith_split in E. rewrite E2 in Es. rewrite Es in E.
        exact E.
    + intros H. destruct (IH H) as (Hd & Hdig & pre & post & -> & Hp).
      repeat split; try assumption. exists (String a pre), post. split; [reflexivity|exact Hp].
Qed.

Lemma search_lit_digits_contains (lit s d : string) :
  Str.search_lit_digits lit s = Some d -> Str.contains lit s = true.
Proof.
  intros H. apply search_lit_digits_sound in H as (_ & _ & pre & post & -> & _).
  apply contains_spec. eauto.
Qed.

Lemma take_drop (n : nat) (s : string) : s = Str.take n s +:+ Str.drop n s.
Proof.
  revert s. induction n as [|n IHn]; intros [|b t]; try reflexivity.
  cbn [Str.take Str.drop]. rewrite append_cons. f_equal. apply IHn.
Qed.

(** What [re.search(r'(\d{4})', s)] finds: four digits that occur in [s]. *)
Lemma search_4digits_sound (s d : string) :
  Str.search_4digits s = Some d ->
  String.length d = 4%nat /\ Str.forallb Str.is_digit d = true /\ Str.contains d s = true.
Proof.
  induction s as [|a s IH]; [discriminate|].
  cbn [Str.search_4digits].
  destruct ((String.length (Str.take 4 (String a s)) =? 4)%nat
            && Str.forallb Str.is_digit (Str.take 4 (String a s))) eqn:E.
  - intros [= <-]. apply andb_true_iff in E as [E1 E2].
    apply Nat.eqb_eq in E1. repeat split; try assumption.
    apply contains_spec. exists "", (Str.drop 4 (String a s)).
    apply (take_drop 4).
  - intros H. destruct (IH H) as (H1 & H2 & H3). repeat split; try assumption.
    rewrite contains_unfold, H3. apply orb_true_r.
Qed.

Lemma truthy_VStr (raw : string) : raw <> "" -> truthy (VStr raw) = true.
Proof.
  intros H. simpl. destruct (String.eqb raw "") eqn:E; [|reflexivity].
  apply String.eqb_eq in E. contradiction.
Qed.

(** C6: the vendor words are not always stripped.  When [intel] or
    [socket] occurs and no run of four digits is found, the code returns
    the cleaned string as it is; the stripping of [amd], [intel] and
    [socket] is only reached by a string with neither word.  The CPU
    socket ["AMD Socket AM3+"] normalises to ["amdsocketam3+"], the
    motherboard socket ["AM3+"] to ["am3+"], where the rules of the
    document give ["am3+"] for both: the checker reports a mismatch for a
    CPU and a motherboard of the same socket, and the search rejects the
    motherboard.  In the same way ["Socket 939"] gives ["socket939"], not
    ["939"]. *)
Lemma C6_socket_words_not_stripped :
  _normalize_socket (VStr "AMD Socket AM3+") = Ok (Some "amdsocketam3+") /\
  _normalize_socket (VStr "AM3+") = Ok (Some "am3+") /\
  normalize_socket_spec "AMD Socket AM3+" = "am3+" /\
  normalize_socket_spec "AM3+" = "am3+" /\
  check_build build_am3
  = Ok ["❌ INCOMPATIBLE: CPU socket (amdsocketam3+) does not match motherboard socket (am3+)!"] /\
  (exists cs, _get_constraints (build_of [("cpu", cpu_am3)]) = Ok cs /\
              passes_constraints board_am3 cs = Ok false) /\
  _normalize_socket (VStr "Socket 939") = Ok (Some "socket939") /\
  normalize_socket_spec "Socket 939" = "939".
Proof.
  split; [vm_refl|]. split; [vm_refl|]. split; [vm_refl|]. split; [vm_refl|].
  split; [vm_refl|]. split; [|split; vm_refl].
  exists {[ "socket" := VStr "amdsocketam3+" ]}. split; vm_refl.
Qed.

(** What the code does, rule by rule: on a non-empty string, with [s]
    the input without whitespace and in lower case, the result is ["am4"] if [s] contains
    [am4], else ["am5"] if it contains [am5]; else, if [s] contains [lga],
    the digits after the first [lga] that digits follow, and [s] itself if
    there is none; else, if [s] contains [intel] or [socket], the first run
    of four digits, and [s] itself (not stripped) if there is none; else
    [s] without the substrings [amd], [intel], [socket].  The empty
    string gives [None]; ["LGA1700"], ["Socket AM4"] and ["AM5"] give
    ["1700"], ["am4"] and ["am5"]. *)
Lemma normalize_socket_rules :
  (forall raw : string, raw <> "" ->
     let s := Str.lower (Str.remove_spaces raw) in
     exists r, _normalize_socket (VStr raw) = Ok (Some r) /\
       (Str.contains "am4" s = true -> r = "am4") /\
       (Str.contains "am4" s = false -> Str.contains "am5" s = true -> r = "am5") /\
       (Str.contains "am4" s = false -> Str.contains "am5" s = false ->
          (forall d, Str.search_lit_digits "lga" s = Some d -> r = d) /\
          (Str.contains "lga" s = true ->
             Str.search_lit_digits "lga" s = None -> r = s) /\
          (Str.contains "lga" s = false ->
             (Str.contains "intel" s || Str.contains "socket" s = true ->
                (forall d, Str.search_4digits s = Some d -> r = d) /\
                (Str.search_4digits s = None -> r = s)) /\
             (Str.contains "intel" s || Str.contains "socket" s = false ->
                r = strip_vendor_words s)))) /\
  _normalize_socket (VStr "") = Ok None /\
  _normalize_socket (VStr "LGA1700") = Ok (Some "1700") /\
  _normalize_socket (VStr "Socket AM4") = Ok (Some "am4") /\
  _normalize_socket (VStr "AM5") = Ok (Some "am5").
Proof.
  split; [|repeat split; reflexivity].
  intros raw Hraw s. unfold _normalize_socket.
  rewrite (truthy_VStr raw Hraw). cbn [negb]. fold s.
  destruct (Str.contains "am4" s) eqn:A4.
  { eexists. split; [reflexivity|]. repeat split; intros; congruence. }
  destruct (Str.contains "am5" s) eqn:A5.
  { eexists. split; [reflexivity|]. repeat split; intros; congruence. }
  destruct (Str.contains "lga" s) eqn:L.
  { destruct (Str.search_lit_digits "lga" s) as [d|] eqn:S;
      (eexists; split; [reflexivity|]); repeat split; intros; congruence. }
  assert (S : Str.search_lit_digits "lga" s = None).
  { destruct (Str.search_lit_digits "lga" s) as [d|] eqn:S; [|reflexivity].
    apply search_lit_digits_contains in S. congruence. }
  destruct (Str.contains "intel" s || Str.contains "socket" s) eqn:I.
  { destruct (Str.search_4digits s) as [d|] eqn:D;
      (eexists; split; [reflexivity|]); repeat split; intros; congruence. }
  eexists. split; [reflexivity|]. repeat split; intros; congruence.
Qed.

Example normalize_socket_rules_1200 :
  "Intel Socket 1200" <> "" /\
  exists r, _normalize_socket (VStr "Intel Socket 1200") = Ok (Some r) /\ r = "1200".
Proof.
  split; [discriminate|].
  destruct (proj1 normalize_socket_rules "Intel Socket 1200") as (r & Hr & _ & _ & H);
    [discriminate|].
  exists r. split; [exact Hr|].
  destruct (H eq_refl eq_refl) as (_ & _ & H3).
  destruct (H3 eq_refl) as (H4 & _).
  destruct (H4 eq_refl) as (H5 & _).
  apply H5. reflexivity.
Defined.

(* ===================================================================== *)
(** ** Master spec matching: the two rules *)
(* ===================================================================== *)

Lemma fallback_rule_true (master_key_set search_words : keywords) :
  fallback_rule master_key_set search_words = true <->
  master_key_set ⊆ search_words.
Proof.
  unfold fallback_rule. rewrite List.forallb_forall. split.
  - intros H w Hw. specialize (H w).
    rewrite bool_decide_eq_true in H. apply H.
    apply list_elem_of_In, elem_of_elements, Hw.
  - intros H w Hw. apply bool_decide_eq_true, H.
    apply elem_of_elements, list_elem_of_In, Hw.
Qed.

Lemma fallback_rule_is_primary_rule (master_key_set search_words : keywords) :
  fallback_rule master_key_set search_words = primary_rule master_key_set search_words.
Proof.
  unfold primary_rule.
  destruct (fallback_rule master_key_set search_words) eqn:F.
  - symmetry. apply bool_decide_eq_true, fallback_rule_true, F.
  - symmetry. apply bool_decide_eq_false. intros H.
    apply fallback_rule_true in H. congruence.
Qed.

Lemma first_match_ext (r1 r2 : keywords -> keywords -> bool) (m : spec_map)
    (search_words : keywords) :
  (forall k, r1 k search_words = r2 k search_words) ->
  first_match r1 m search_words = first_match r2 m search_words.
Proof.
  intros H. unfold first_match. f_equal.
  induction m as [|[k j] m IH]; simpl; [reflexivity|].
  rewrite H, IH. reflexivity.
Qed.

(** C8, as stated, fails: there is no keyword set of a record and of a
    reference entry that the fallback rule accepts and the subset rule
    rejects. *)
Lemma C8_counterexample_no_fallback_only_match :
  ~ exists master_key_set search_words : keywords,
      fallback_rule master_key_set search_words = true /\
      primary_rule master_key_set search_words = false.
Proof.
  intros (k & w & F & P). rewrite fallback_rule_is_primary_rule in F. congruence.
Qed.

(** C8, amended: the fallback rule (every keyword of the reference set is
    among the keywords of the record) is the subset rule: the two accept
    the same pairs of keyword sets, so the second loop of
    [find_master_spec] finds a reference exactly when the first one did,
    and never after the first one found none. *)
Theorem C8_fallback_rule_is_subset_rule :
  (forall master_key_set search_words : keywords,
     fallback_rule master_key_set search_words
     = primary_rule master_key_set search_words) /\
  (forall (m : spec_map) (search_words : keywords),
     first_match fallback_rule m search_words
     = first_match primary_rule m search_words) /\
  (forall db master_db_key product_name product_chipset m search_words,
     master_spec_maps db !! map_key_of master_db_key = Some m ->
     normalize_search_term (py_or product_chipset product_name) = Ok search_words ->
     first_match primary_rule m search_words = None ->
     find_master_spec db master_db_key product_name product_chipset = Ok None).
Proof.
  split; [exact fallback_rule_is_primary_rule|]. split.
  - intros m w. apply first_match_ext. intros k. apply fallback_rule_is_primary_rule.
  - intros db key name chipset m w Hm Hw Hp. unfold find_master_spec.
    rewrite Hm, Hw. cbn [mbind result_bind].
    rewrite (first_match_ext fallback_rule primary_rule m w), Hp
      by (intros k; apply fallback_rule_is_primary_rule).
    destruct (bool_decide (w = ∅)); reflexivity.
Qed.

Lemma C8_fallback_rule_is_subset_rule_witness :
  find_master_spec
    (MkPartDatabase ∅ {[ "cpu" := [({[ "ryzen"; "5"; "5600x" ]}, 0%nat)] ]})
    "master_cpu_database" (VStr "Intel Core i5-12400F") VNone = Ok None.
Proof.
  apply (proj2 (proj2 C8_fallback_rule_is_subset_rule)
           (MkPartDatabase ∅ {[ "cpu" := [({[ "ryzen"; "5"; "5600x" ]}, 0%nat)] ]})
           "master_cpu_database" (VStr "Intel Core i5-12400F") VNone
           [({[ "ryzen"; "5"; "5600x" ]}, 0%nat)]
           (list_to_set (Str.findall_words (Str.lower "Intel Core i5-12400F"))
              ∖ junk_words)).
  - vm_refl.
  - reflexivity.
  - vm_refl.
Defined.

(* ===================================================================== *)
(** ** The power rule of the checker: the recommended wattage *)
(* ===================================================================== *)

(** The least wattage [n] with [n * 0.7 >= t], that is [ceil(t / 0.7)]. *)
Lemma ceil_400_over_0_7 : 7 * 572 >= 10 * 400 /\ forall n, 7 * n >= 10 * 400 -> 572 <= n.
Proof. split; lia. Qed.

(** C1 at its own example (PSU of 500 W, draw of 400 W): the warning of
    [check_build] recommends 571 W, which is [int(400 / 0.7)], the
    quotient cut down; the claim names [ceil(400 / 0.7)], 572 W.  A PSU of
    the 571 W that the warning recommends is risky again by the very test
    of that branch, one of 572 W is not. *)
Theorem C1_risky_warning_names_571 :
  check_build build_500_400
  = Ok ["❌ RISKY: Estimated power draw (~400W) is >70% of PSU capacity (500W)! Recommend at least 571W."] /\
  check_build build_500_400 = Ok [warn_psu_risky 400 500 571] /\
  over_70_percent 500 400 = Ok true /\
  min_safe_psu 400 = Ok 571 /\
  over_70_percent 571 400 = Ok true /\
  over_70_percent 572 400 = Ok false.
Proof. repeat split; vm_compute; reflexivity. Qed.

(* ===================================================================== *)
(** ** Constraint derivation: the estimated power *)
(* ===================================================================== *)

Lemma socket_from_other (part : option record) (field k : string) (c c' : record) :
  k <> "socket" -> socket_from part field c = Ok c' -> c' !! k = c !! k.
Proof.
  intros Hk. unfold socket_from.
  destruct (truthy _); [|intros [= <-]; reflexivity].
  destruct (_normalize_socket _) as [n|e]; [|discriminate].
  cbn [mbind result_bind]. intros [= <-]. apply lookup_insert_ne. congruence.
Qed.

Lemma socket_constraint_other (cpu mobo : option record) (k : string) (c c' : record) :
  k <> "socket" -> socket_constraint cpu mobo c = Ok c' -> c' !! k = c !! k.
Proof.
  intros Hk. unfold socket_constraint.
  destruct (present cpu); [apply socket_from_other, Hk|].
  destruct (present mobo); [apply socket_from_other, Hk|].
  intros [= <-]. reflexivity.
Qed.

Lemma memory_constraint_other (cpu : option record) (k : string) (c c' : record) :
  k <> "memory_type" -> memory_constraint cpu c = Ok c' -> c' !! k = c !! k.
Proof.
  intros Hk. unfold memory_constraint.
  destruct cpu as [d|]; [|intros [= <-]; reflexivity].
  destruct (present (Some d) && truthy _); [|intros [= <-]; reflexivity].
  destruct (py_in (VStr "DDR5") _) as [[|]|e]; cbn [mbind result_bind]; try discriminate.
  { intros [= <-]. apply lookup_insert_ne. congruence. }
  destruct (py_in (VStr "DDR4") _) as [[|]|e]; cbn [mbind result_bind]; try discriminate.
  { intros [= <-]. apply lookup_insert_ne. congruence. }
  destruct (first_token _) as [t|e]; cbn [mbind result_bind]; try discriminate.
  intros [= <-]. apply lookup_insert_ne. congruence.
Qed.

(** How a TDP field is read: 0 for a part that is not selected or has no
    such field, [int(field)] otherwise. *)
Lemma tdp_of_cases (part : option record) (key : string) :
  (present part = false -> tdp_of part key = Ok 0) /\
  (forall d, part = Some d -> present part = true ->
     (d !! key = None -> tdp_of part key = Ok 0) /\
     (forall v, d !! key = Some v -> tdp_of part key = py_int v)).
Proof.
  split.
  - intros H. unfold tdp_of. destruct part; [rewrite H|]; reflexivity.
  - intros d -> H. unfold tdp_of, get_or. rewrite H.
    split; [intros ->; reflexivity | intros v ->; reflexivity].
Qed.

(** C2, as stated, fails: a TDP that does not parse suppresses the
    estimate.  With a CPU whose TDP is ["65 W"] and a GPU of 200 W the
    constraint set has no [estimated_power], where the claim gives 300. *)
Lemma C2_counterexample_unparseable_tdp :
  _get_constraints build_bad_tdp = Ok ∅ /\
  (∅ : record) !! "estimated_power" = None /\
  (∅ : record) !! "estimated_power" <> Some (VInt 300).
Proof. split; [vm_refl|]. split; [apply lookup_empty | rewrite lookup_empty; discriminate]. Qed.

(** C2, amended: the power step of [_get_constraints] raises nothing,
    whatever the TDP fields hold: the derivation returns whenever the
    socket step and the memory step return, with their entries as they
    left them, and an exception that leaves it is the exception of one of
    these two steps.  Whenever it returns, the constraint set has
    [estimated_power] exactly when [int()] succeeds on the TDP of the CPU
    and on that of the GPU (a part that is not selected, or that has no
    TDP field, counts as 0) and one of the two is positive; its value is
    then [cpu_tdp + gpu_tdp + 100].  A TDP on which [int()] fails leaves
    [estimated_power] out. *)
Theorem C2_estimated_power (build : PartList) :
  (forall c1 c2,
     socket_constraint (slot build "cpu") (slot build "motherboard") ∅ = Ok c1 ->
     memory_constraint (slot build "cpu") c1 = Ok c2 ->
     exists cs, _get_constraints build = Ok cs /\
       forall k, k <> "estimated_power" -> cs !! k = c2 !! k) /\
  (forall e, _get_constraints build = Raise e ->
     socket_constraint (slot build "cpu") (slot build "motherboard") ∅ = Raise e \/
     exists c1,
       socket_constraint (slot build "cpu") (slot build "motherboard") ∅ = Ok c1 /\
       memory_constraint (slot build "cpu") c1 = Raise e) /\
  (forall cs, _get_constraints build = Ok cs ->
     (forall c g,
        tdp_of (slot build "cpu") "Performance - TDP" = Ok c ->
        tdp_of (slot build "gpu") "Board Design - TDP" = Ok g ->
        cs !! "estimated_power"
        = if (c >? 0) || (g >? 0) then Some (VInt (c + g + 100)) else None) /\
     (is_ok (tdp_of (slot build "cpu") "Performance - TDP")
      && is_ok (tdp_of (slot build "gpu") "Board Design - TDP") = false ->
      cs !! "estimated_power" = None)).
Proof.
  assert (O : forall c2 k, k <> "estimated_power" ->
            power_constraint (slot build "cpu") (slot build "gpu") c2 !! k = c2 !! k).
  { intros c2 k Hk. unfold power_constraint.
    destruct (tdp_of (slot build "cpu") _) as [x|e]; cbn [mbind result_bind];
      [|reflexivity].
    destruct (tdp_of (slot build "gpu") _) as [y|e]; cbn [mbind result_bind];
      [|reflexivity].
    destruct ((x >? 0) || (y >? 0)); [|reflexivity].
    apply lookup_insert_ne. congruence. }
  unfold _get_constraints. split; [|split].
  - intros c1 c2 -> . cbn [mbind result_bind]. intros ->. cbn [mbind result_bind].
    eexists. split; [reflexivity|]. apply O.
  - intros e.
    destruct (socket_constraint _ _ ∅) as [c1|e1]; cbn [mbind result_bind].
    + destruct (memory_constraint _ c1) as [c2|e2] eqn:E2; cbn [mbind result_bind];
        [discriminate|].
      intros [= <-]. right. exists c1. split; [reflexivity | exact E2].
    + intros [= <-]. left. reflexivity.
  - intros cs.
    destruct (socket_constraint _ _ ∅) as [c1|e] eqn:E1; [|discriminate].
    cbn [mbind result_bind].
    destruct (memory_constraint _ c1) as [c2|e] eqn:E2; [|discriminate].
    cbn [mbind result_bind]. intros [= <-].
    assert (H0 : c2 !! "estimated_power" = None).
    { rewrite (memory_constraint_other _ "estimated_power" _ _ ltac:(discriminate) E2).
      rewrite (socket_constraint_other _ _ "estimated_power" _ _ ltac:(discriminate) E1).
      apply lookup_empty. }
    unfold power_constraint. split.
    + intros c g -> ->. cbn [mbind result_bind].
      destruct ((c >? 0) || (g >? 0)); [apply lookup_insert_eq | exact H0].
    + destruct (tdp_of (slot build "cpu") _) as [c|e]; cbn [mbind result_bind is_ok];
        [|intros _; exact H0].
      destruct (tdp_of (slot build "gpu") _) as [g|e]; cbn [mbind result_bind is_ok];
        [discriminate | intros _; exact H0].
Qed.

(** On the build with the CPU of TDP ["65 W"], on which [int()] fails:
    the two first steps return the empty set, so the derivation returns;
    it returns the empty set, without [estimated_power]. *)
Lemma C2_estimated_power_witness :
  exists cs, _get_constraints build_bad_tdp = Ok cs /\
    forall k, k <> "estimated_power" -> cs !! k = (∅ : record) !! k.
Proof.
  apply (proj1 (C2_estimated_power build_bad_tdp) ∅ ∅); vm_refl.
Defined.

(* ===================================================================== *)
(** ** Catalogue search: the memory-type constraint *)
(* ===================================================================== *)

Lemma passes_constraints_memory_only (part : record) (c : value) :
  passes_constraints part {[ "memory_type" := c ]}
  = memory_rule part {[ "memory_type" := c ]}.
Proof.
  unfold passes_constraints, socket_rule, power_rule.
  rewrite !lookup_singleton_ne by discriminate. cbn [mbind result_bind negb].
  destruct (memory_rule part _) as [[|]|e]; reflexivity.
Qed.

(** C5, as stated, fails for a record that is not RAM-shaped and exposes
    an empty memory-support field: the code rejects it for every
    constraint, the empty constraint string included, which is a
    substring of the empty field. *)
Lemma C5_counterexample_empty_support_field :
  passes_constraints (mk_record [("name", VStr "board");
                                 ("Architecture - Memory Support", VStr "")])
                     {[ "memory_type" := VStr "" ]} = Ok false /\
  Str.contains "" "" = true.
Proof. split; vm_compute; reflexivity. Qed.

(** C5, amended: under a [memory_type] constraint with string [c],
    - a RAM-shaped record (with a [modules] field and a [speed] list whose
      first element is the integer [g]) is excluded exactly when [g] is
      zero or ["DDR" + str(g)] is not a prefix of [c];
    - a record that is not RAM-shaped and exposes a memory-support string
      [m] is excluded exactly when [m] is empty or [c] is not a substring
      of [m];
    - a record of neither shape is never excluded;
    both for the memory rule under any constraint set and for
    [passes_constraints] when [memory_type] is the only constraint. *)
Theorem C5_memory_type_constraint (part : record) (c : string) :
  let ram_shaped := has_key "speed" part && has_key "modules" part in
  let excluded cs := passes_constraints part cs = Ok false in
  (forall g rest, ram_shaped = true ->
     part !! "speed" = Some (VList (VInt g :: rest)) ->
     (forall cs, cs !! "memory_type" = Some (VStr c) ->
        memory_rule part cs
        = Ok (negb ((g =? 0) || negb (Str.startswith c ("DDR" +:+ Str.of_Z g))))) /\
     (excluded {[ "memory_type" := VStr c ]} <->
        g = 0 \/ Str.startswith c ("DDR" +:+ Str.of_Z g) = false)) /\
  (forall m, ram_shaped = false ->
     part !! "Architecture - Memory Support" = Some (VStr m) ->
     (forall cs, cs !! "memory_type" = Some (VStr c) ->
        memory_rule part cs = Ok (negb (String.eqb m "" || negb (Str.contains c m)))) /\
     (excluded {[ "memory_type" := VStr c ]} <->
        m = "" \/ Str.contains c m = false)) /\
  (ram_shaped = false -> part !! "Architecture - Memory Support" = None ->
     (forall cs, memory_rule part cs = Ok true) /\
     ~ excluded {[ "memory_type" := VStr c ]}).
Proof.
  intros ram_shaped excluded. subst excluded. cbv beta.
  rewrite passes_constraints_memory_only.
  split; [|split].
  - intros g rest Hram Hspeed.
    assert (R : forall cs, cs !! "memory_type" = Some (VStr c) ->
      memory_rule part cs
      = Ok (negb ((g =? 0) || negb (Str.startswith c ("DDR" +:+ Str.of_Z g))))).
    { intros cs Hcs. unfold memory_rule. rewrite Hcs. fold ram_shaped. rewrite Hram.
      unfold get_or. rewrite Hspeed. cbn.
      destruct (g =? 0); [reflexivity|]. cbn.
      rewrite negb_involutive. reflexivity. }
    split; [exact R|].
    rewrite R by apply lookup_singleton_eq.
    destruct (g =? 0) eqn:G; cbn [orb negb].
    + apply Z.eqb_eq in G. split; [intros _; left; exact G | reflexivity].
    + apply Z.eqb_neq in G. rewrite negb_involutive.
      destruct (Str.startswith c _); split; intros H; try congruence.
      * destruct H; [contradiction|discriminate].
      * right. reflexivity.
  - intros m Hram Hm.
    assert (R : forall cs, cs !! "memory_type" = Some (VStr c) ->
      memory_rule part cs = Ok (negb (String.eqb m "" || negb (Str.contains c m)))).
    { intros cs Hcs. unfold memory_rule. rewrite Hcs. fold ram_shaped. rewrite Hram.
      unfold has_key, get. rewrite Hm. cbn.
      destruct (String.eqb m ""); cbn; [reflexivity|].
      rewrite negb_involutive. reflexivity. }
    split; [exact R|].
    rewrite R by apply lookup_singleton_eq.
    destruct (String.eqb m "") eqn:M; cbn [orb negb].
    + apply String.eqb_eq in M. split; [intros _; left; exact M | reflexivity].
    + apply String.eqb_neq in M. rewrite negb_involutive.
      destruct (Str.contains c m); split; intros H; try congruence.
      * destruct H; [contradiction|discriminate].
      * right. reflexivity.
  - intros Hram Hm.
    assert (R : forall cs, memory_rule part cs = Ok true).
    { intros cs. unfold memory_rule. destruct (cs !! "memory_type"); [|reflexivity].
      fold ram_shaped. rewrite Hram. unfold has_key. rewrite Hm. reflexivity. }
    split; [exact R|]. rewrite R. discriminate.
Qed.

Lemma C5_memory_type_constraint_witness :
  passes_constraints
    (mk_record [("name", VStr "stick"); ("modules", VList [VInt 2; VInt 16]);
                ("speed", VList [VInt 4; VInt 3200])])
    {[ "memory_type" := VStr "DDR5" ]} = Ok false.
Proof.
  apply (proj1 (C5_memory_type_constraint
                  (mk_record [("name", VStr "stick"); ("modules", VList [VInt 2; VInt 16]);
                              ("speed", VList [VInt 4; VInt 3200])]) "DDR5")
           4 [VInt 3200] eq_refl eq_refl).
  right. reflexivity.
Defined.

(* ===================================================================== *)
(** ** The pick rule *)
(* ===================================================================== *)

Lemma filter_result_ok {A} (f : A -> result bool) (l : list A) :
  Forall (fun x => is_ok (f x) = true) l ->
  filter_result f l = Ok (List.filter (fun x => yes (f x)) l).
Proof.
  induction 1 as [|x l Hx Hl IH]; [reflexivity|].
  cbn [filter_result List.filter]. rewrite IH.
  destruct (f x) as [[|]|e]; try discriminate; reflexivity.
Qed.

Lemma Forall_filter_impl {A} (P : A -> Prop) (g : A -> bool) (l : list A) :
  Forall (fun x => g x = true -> P x) l -> Forall P (List.filter g l).
Proof.
  induction 1 as [|x l Hx Hl IH]; cbn [List.filter]; [constructor|].
  destruct (g x) eqn:E; [constructor; auto | exact IH].
Qed.

Lemma filter_filter_andb {A} (f g : A -> bool) (l : list A) :
  List.filter g (List.filter f l) = List.filter (fun x => f x && g x) l.
Proof.
  induction l as [|x l IH]; cbn [List.filter]; [reflexivity|].
  destruct (f x); cbn [List.filter andb]; [destruct (g x)|]; rewrite IH; reflexivity.
Qed.

(** The head of the stable descending sort is the first of the elements
    of the highest key. *)
Lemma head_insert_desc {A} (key : A -> Z) (x : A) (l : list A) :
  head (insert_desc key x l)
  = match head l with
    | Some y => Some (if key x <? key y then y else x)
    | None => Some x
    end.
Proof. destruct l as [|y l]; cbn; [reflexivity|]. destruct (key x <? key y); reflexivity. Qed.

Lemma head_sorted_desc {A} (key : A -> Z) (l : list A) :
  match head (sorted_desc key l) with
  | None => l = []
  | Some r => exists l1 l2, l = (l1 ++ r :: l2)%list /\
      Forall (fun x => key x < key r) l1 /\ Forall (fun x => key x <= key r) l2
  end.
Proof.
  induction l as [|x l IH]; [reflexivity|].
  cbn [sorted_desc]. rewrite head_insert_desc.
  destruct (head (sorted_desc key l)) as [y|].
  - destruct IH as (l1 & l2 & -> & H1 & H2).
    destruct (key x <? key y) eqn:E.
    + apply Z.ltb_lt in E. exists (x :: l1), l2. repeat split; auto.
    + apply Z.ltb_ge in E. exists [], (l1 ++ y :: l2)%list. repeat split; auto.
      apply Forall_app. split.
      * eapply Forall_impl; [exact H1|]. cbv beta. intros; lia.
      * constructor; [exact E|]. eapply Forall_impl; [exact H2|]. cbv beta. intros; lia.
  - subst l. exists [], []. repeat split; constructor.
Qed.

(** The sort of the model is a sort: its output is a permutation of its
    input, in descending order of the key. *)
Lemma insert_desc_perm {A} (key : A -> Z) (x : A) (l : list A) :
  Permutation (insert_desc key x l) (x :: l).
Proof.
  induction l as [|y l IH]; cbn; [reflexivity|].
  destruct (key x <? key y); [|reflexivity].
  rewrite IH. apply perm_swap.
Qed.

Lemma sorted_desc_perm {A} (key : A -> Z) (l : list A) :
  Permutation (sorted_desc key l) l.
Proof.
  induction l as [|x l IH]; cbn; [reflexivity|].
  rewrite insert_desc_perm, IH. reflexivity.
Qed.

Lemma insert_desc_sorted {A} (key : A -> Z) (x : A) (l : list A) :
  StronglySorted (fun a b => key a >= key b) l ->
  StronglySorted (fun a b => key a >= key b) (insert_desc key x l).
Proof.
  induction 1 as [|y l Hl IH Hy]; cbn; [repeat constructor|].
  destruct (key x <? key y) eqn:E.
  - apply Z.ltb_lt in E. constructor; [exact IH|].
    rewrite insert_desc_perm. constructor; [lia | exact Hy].
  - apply Z.ltb_ge in E. constructor; [constructor; assumption|].
    constructor; [lia|]. eapply Forall_impl; [exact Hy|]. cbv beta. intros; lia.
Qed.

Lemma sorted_desc_sorted {A} (key : A -> Z) (l : list A) :
  StronglySorted (fun a b => key a >= key b) (sorted_desc key l).
Proof.
  induction l as [|x l IH]; cbn; [constructor | apply insert_desc_sorted, IH].
Qed.

Lemma search_parts_total (db : PartDatabase) (json_key : string) (constraints : record) :
  Forall (fun p => is_ok (search_match json_key "" constraints p) = true)
         (default [] (data db !! json_key)) ->
  search_parts db json_key "" constraints
  = Ok (List.filter (fun p => yes (search_match json_key "" constraints p))
                    (default [] (data db !! json_key))).
Proof.
  intros H. unfold search_parts. change (Str.lower "") with "".
  destruct (data db !! json_key) as [cat|]; [|reflexivity].
  apply filter_result_ok, H.
Qed.

(** Under [pick_total], [_pick_part] is the head of the sorted pool. *)
Lemma pick_part_pool (db : PartDatabase) (json_key : string) (budget : num)
    (constraints : record) :
  pick_total db json_key budget constraints ->
  _pick_part db json_key budget constraints
  = Ok (head (sorted_desc price_key (pool db json_key budget constraints))).
Proof.
  intros (H1 & H2 & H3). unfold _pick_part.
  rewrite (search_parts_total _ _ _ H1). cbn [mbind result_bind].
  rewrite filter_result_ok by (apply Forall_filter_impl, H2).
  cbn [mbind result_bind]. rewrite filter_filter_andb.
  fold (survivors db json_key budget constraints).
  unfold pool, ddr5_survivors.
  destruct (survivors db json_key budget constraints) as [|p0 surv] eqn:S.
  { destruct (String.eqb json_key "cpu"); reflexivity. }
  destruct (String.eqb json_key "cpu") eqn:K; [|reflexivity].
  apply String.eqb_eq in K. rewrite (filter_result_ok _ _ (H3 K)).
  cbn [mbind result_bind].
  destruct (List.filter _ (p0 :: surv)); reflexivity.
Qed.

Lemma pool_nil (db : PartDatabase) (json_key : string) (budget : num)
    (constraints : record) :
  pool db json_key budget constraints = [] <->
  survivors db json_key budget constraints = [].
Proof.
  unfold pool, ddr5_survivors.
  destruct (String.eqb json_key "cpu"); [|reflexivity].
  destruct (survivors db json_key budget constraints) as [|p0 surv]; [reflexivity|].
  destruct (List.filter _ (p0 :: surv)) eqn:E; [reflexivity|].
  split; discriminate.
Qed.

(** C3, as stated, fails in its last clause: for a CPU, when no survivor
    mentions DDR5, the choice is made among all the survivors, DDR4-capable
    or not.  Of a DDR3 CPU at 100 and a DDR4 CPU at 50 under a budget of
    200 the code picks the DDR3 one, which is not among the DDR4-capable
    survivors. *)
Lemma C3_counterexample_ddr3_cpu_picked :
  _pick_part db_ddr3_ddr4 "cpu" (NInt 200) ∅ = Ok (Some cpu_ddr3) /\
  ddr5_survivors db_ddr3_ddr4 "cpu" (NInt 200) ∅ = [] /\
  ddr4_survivors db_ddr3_ddr4 "cpu" (NInt 200) ∅ = [cpu_ddr4] /\
  get cpu_ddr3 "Architecture - Memory Support" = VStr "DDR3" /\
  py_in (VStr "DDR4") (get cpu_ddr3 "Architecture - Memory Support") = Ok false.
Proof. repeat split; vm_refl. Qed.

(** C3, amended: when no test raises on the catalogue, [_pick_part]
    returns [None] exactly when no record of the category passes the
    constraints with a nonzero price at most the sub-budget; otherwise it
    returns the highest-priced record of the pool, the first in catalogue
    order among those of the highest price.  The pool is the survivors
    that mention "DDR5" when the category is the CPU and there is one, and
    all the survivors otherwise (for a CPU too: no DDR4 test is made). *)
Theorem C3_pick_rule (db : PartDatabase) (json_key : string) (budget : num)
    (constraints : record) :
  pick_total db json_key budget constraints ->
  (_pick_part db json_key budget constraints = Ok None <->
   survivors db json_key budget constraints = []) /\
  (survivors db json_key budget constraints <> [] ->
   exists r, _pick_part db json_key budget constraints = Ok (Some r) /\
     first_highest price_key (pool db json_key budget constraints) r) /\
  (json_key = "cpu" -> ddr5_survivors db json_key budget constraints <> [] ->
   pool db json_key budget constraints = ddr5_survivors db json_key budget constraints) /\
  (json_key <> "cpu" \/ ddr5_survivors db json_key budget constraints = [] ->
   pool db json_key budget constraints = survivors db json_key budget constraints).
Proof.
  intros Ht. rewrite (pick_part_pool _ _ _ _ Ht).
  pose proof (head_sorted_desc price_key (pool db json_key budget constraints)) as Hh.
  pose proof (pool_nil db json_key budget constraints) as Hn.
  repeat split.
  - intros [= E]. rewrite E in Hh. apply Hn, Hh.
  - intros E. apply Hn in E. rewrite E. reflexivity.
  - intros Hs. destruct (head _) as [r|].
    + exists r. split; [reflexivity | exact Hh].
    + apply Hn in Hh. contradiction.
  - intros -> Hd. unfold pool. cbn [String.eqb].
    destruct (ddr5_survivors db "cpu" budget constraints); [contradiction|reflexivity].
  - intros [Hk|Hd]; unfold pool.
    + destruct (String.eqb json_key "cpu") eqn:K; [|reflexivity].
      apply String.eqb_eq in K. contradiction.
    + rewrite Hd. destruct (String.eqb json_key "cpu"); reflexivity.
Qed.

Lemma survivors_db_ddr3_ddr4 :
  survivors db_ddr3_ddr4 "cpu" (NInt 200) ∅ = [cpu_ddr3; cpu_ddr4].
Proof. vm_refl. Defined.

Lemma pick_total_db_ddr3_ddr4 : pick_total db_ddr3_ddr4 "cpu" (NInt 200) ∅.
Proof.
  split; [|split].
  - change (default [] (data db_ddr3_ddr4 !! "cpu")) with [cpu_ddr3; cpu_ddr4].
    repeat (constructor; [vm_refl|]). constructor.
  - change (default [] (data db_ddr3_ddr4 !! "cpu")) with [cpu_ddr3; cpu_ddr4].
    repeat (constructor; [intros _; vm_refl|]). constructor.
  - intros _. rewrite survivors_db_ddr3_ddr4.
    repeat (constructor; [vm_refl|]). constructor.
Defined.

Lemma C3_pick_rule_witness :
  pick_total db_ddr3_ddr4 "cpu" (NInt 200) ∅ /\
  exists r, _pick_part db_ddr3_ddr4 "cpu" (NInt 200) ∅ = Ok (Some r) /\
    first_highest price_key (pool db_ddr3_ddr4 "cpu" (NInt 200) ∅) r.
Proof.
  split; [exact pick_total_db_ddr3_ddr4|].
  apply (proj1 (proj2 (C3_pick_rule db_ddr3_ddr4 "cpu" (NInt 200) ∅
                         pick_total_db_ddr3_ddr4))).
  rewrite survivors_db_ddr3_ddr4. discriminate.
Defined.

(* ===================================================================== *)
(** ** The auto-builder: a run and its outcome *)
(* ===================================================================== *)

Lemma num_mul_float (t : num) (w : spec_float) :
  Num.mul t (NFloat w) = (tf ← Num.to_float t; Ok (share tf w)).
Proof. destruct t; reflexivity. Qed.

(** Inversion of [m ≫= f = Ok r]. *)
Ltac bind_inv H x E :=
  match type of H with
  | (?m ≫= _) = Ok _ =>
      destruct m as [x|?] eqn:E; cbn [mbind result_bind] in H; [|discriminate H]
  end.

(** Every return of [run_auto_build] is an outcome of the relation. *)
Lemma run_auto_build_outcome (db : PartDatabase) (total : num) (purpose : string)
    (res : option PartList * list string) :
  run_auto_build db total purpose = Ok res ->
  exists tf, Num.to_float total = Ok tf /\ run_outcome db tf (splits_of purpose) res.
Proof.
  intros H. unfold run_auto_build in H. rewrite !num_mul_float in H.
  fold (splits_of purpose) in H.
  destruct (Num.to_float total) as [tf|e] eqn:Etf;
    cbn [mbind result_bind] in H; [|discriminate H].
  exists tf. split; [reflexivity|].
  bind_inv H cpu Ecpu. destruct cpu as [cpu|];
    [|injection H as <-; apply run_no_cpu; exact Ecpu].
  bind_inv H b1 Eb1. bind_inv H s1 Es1. bind_inv H r1 Er1. bind_inv H c1 Ec1.
  assert (A1 : after_cpu db tf (splits_of purpose) cpu b1 r1 c1).
  { repeat split; try assumption. exists s1. split; assumption. }
  bind_inv H mobo Emobo. destruct mobo as [mobo|];
    [|injection H as <-; eapply run_no_mobo; eassumption].
  bind_inv H b2 Eb2. bind_inv H s2 Es2. bind_inv H r2 Er2. bind_inv H c2 Ec2.
  assert (A2 : after_mobo db tf (splits_of purpose) b1 r1 c1 mobo b2 r2 c2).
  { repeat split; try assumption. exists s2. split; assumption. }
  bind_inv H ram Eram. destruct ram as [ram|];
    [|injection H as <-; eapply run_no_ram; eassumption].
  bind_inv H b3 Eb3. bind_inv H s3 Es3. bind_inv H r3 Er3. bind_inv H bg Ebg.
  assert (A3 : after_ram db tf (splits_of purpose) b2 r2 c2 ram b3 r3 bg).
  { repeat split; try assumption. exists s3. split; assumption. }
  bind_inv H gpu Egpu. destruct gpu as [gpu|];
    [|injection H as <-; eapply run_no_gpu; eassumption].
  bind_inv H b4 Eb4. bind_inv H ob Eob. bind_inv H c4 Ec4.
  assert (A4 : after_gpu db tf (splits_of purpose) b3 bg gpu b4 ob c4).
  { repeat split; assumption. }
  bind_inv H psu Epsu. destruct psu as [psu|];
    [|injection H as <-; eapply run_no_psu; eassumption].
  bind_inv H b5 Eb5. bind_inv H case Ecase. bind_inv H b6 Eb6. bind_inv H ws Ews.
  injection H as <-. eapply run_done; eassumption.
Qed.

(** Every outcome of the relation is what [run_auto_build] returns. *)
Lemma run_outcome_auto_build (db : PartDatabase) (total : num) (purpose : string)
    (tf : spec_float) (res : option PartList * list string) :
  Num.to_float total = Ok tf ->
  run_outcome db tf (splits_of purpose) res ->
  run_auto_build db total purpose = Ok res.
Proof.
  intros Etf H. unfold run_auto_build. rewrite !num_mul_float, Etf.
  fold (splits_of purpose). cbn [mbind result_bind].
  destruct H as
    [ E1
    | cpu b1 r1 c1 (E1 & Eb1 & (s1 & Es1 & Er1) & Ec1) E2
    | cpu b1 r1 c1 mobo b2 r2 c2 (E1 & Eb1 & (s1 & Es1 & Er1) & Ec1)
        (E2 & Eb2 & (s2 & Es2 & Er2) & Ec2) E3
    | cpu b1 r1 c1 mobo b2 r2 c2 ram b3 r3 bg (E1 & Eb1 & (s1 & Es1 & Er1) & Ec1)
        (E2 & Eb2 & (s2 & Es2 & Er2) & Ec2) (E3 & Eb3 & (s3 & Es3 & Er3) & Ebg) E4
    | cpu b1 r1 c1 mobo b2 r2 c2 ram b3 r3 bg gpu b4 ob c4
        (E1 & Eb1 & (s1 & Es1 & Er1) & Ec1)
        (E2 & Eb2 & (s2 & Es2 & Er2) & Ec2) (E3 & Eb3 & (s3 & Es3 & Er3) & Ebg)
        (E4 & Eb4 & Eob & Ec4) E5
    | cpu b1 r1 c1 mobo b2 r2 c2 ram b3 r3 bg gpu b4 ob c4 psu b5 case b6 ws
        (E1 & Eb1 & (s1 & Es1 & Er1) & Ec1)
        (E2 & Eb2 & (s2 & Es2 & Er2) & Ec2) (E3 & Eb3 & (s3 & Es3 & Er3) & Ebg)
        (E4 & Eb4 & Eob & Ec4) E5 Eb5 Ecase Eb6 Ews ];
    rewrite E1; cbn [mbind result_bind]; try reflexivity;
    rewrite Eb1; cbn [mbind result_bind]; rewrite Es1; cbn [mbind result_bind];
    rewrite Er1; cbn [mbind result_bind]; rewrite Ec1; cbn [mbind result_bind];
    rewrite E2; cbn [mbind result_bind]; try reflexivity;
    rewrite Eb2; cbn [mbind result_bind]; rewrite Es2; cbn [mbind result_bind];
    rewrite Er2; cbn [mbind result_bind]; rewrite Ec2; cbn [mbind result_bind];
    rewrite E3; cbn [mbind result_bind]; try reflexivity;
    rewrite Eb3; cbn [mbind result_bind]; rewrite Es3; cbn [mbind result_bind];
    rewrite Er3; cbn [mbind result_bind]; rewrite Ebg; cbn [mbind result_bind];
    rewrite E4; cbn [mbind result_bind]; try reflexivity;
    rewrite Eb4; cbn [mbind result_bind]; rewrite Eob; cbn [mbind result_bind];
    rewrite Ec4; cbn [mbind result_bind];
    rewrite E5; cbn [mbind result_bind]; try reflexivity.
  rewrite Eb5; cbn [mbind result_bind]. rewrite Ecase; cbn [mbind result_bind].
  rewrite Eb6; cbn [mbind result_bind]. rewrite Ews. reflexivity.
Qed.

(** *** Slots of a build under [add_part] *)

Lemma add_inv (b : PartList) (k : string) (r : record) (b' : PartList) :
  add b k r = Ok b' ->
  (is_Some (parts b !! k) /\ is_Some (r !! "name") /\
   parts b' = <[k := Some r]> (parts b)) \/
  (parts b !! k = None /\ b' = b).
Proof.
  unfold add, add_part. case_bool_decide as Hk.
  - unfold has_key. destruct (r !! "name") eqn:En; cbn [mbind result_bind raise];
      [|discriminate].
    intros [= <-]. left. repeat split; [exact Hk | eauto].
  - cbn [mbind result_bind]. intros [= <-]. right. split; [|reflexivity].
    destruct (parts b !! k) eqn:E; [|reflexivity]. exfalso. apply Hk. eauto.
Qed.

Lemma add_slot_eq (b : PartList) (k : string) (r : record) (b' : PartList) :
  add b k r = Ok b' -> is_Some (parts b !! k) -> slot b' k = Some r.
Proof.
  intros H Hk. destruct (add_inv _ _ _ _ H) as [(_ & _ & E)|(E & _)].
  - unfold slot. rewrite E, lookup_insert_eq. reflexivity.
  - rewrite E in Hk. destruct Hk; discriminate.
Qed.

Lemma add_slot_ne (b : PartList) (k k' : string) (r : record) (b' : PartList) :
  add b k r = Ok b' -> k' <> k -> slot b' k' = slot b k'.
Proof.
  intros H Hk. destruct (add_inv _ _ _ _ H) as [(_ & _ & E)|(_ & ->)]; [|reflexivity].
  unfold slot. rewrite E, lookup_insert_ne by congruence. reflexivity.
Qed.

Lemma add_keys (b : PartList) (k k' : string) (r : record) (b' : PartList) :
  add b k r = Ok b' -> is_Some (parts b !! k') -> is_Some (parts b' !! k').
Proof.
  intros H Hk. destruct (add_inv _ _ _ _ H) as [(_ & _ & E)|(_ & ->)]; [|exact Hk].
  rewrite E. destruct (decide (k = k')) as [->|N].
  - rewrite lookup_insert_eq. eauto.
  - rewrite lookup_insert_ne by exact N. exact Hk.
Qed.

Lemma add_named (b : PartList) (k : string) (r : record) (b' : PartList) :
  add b k r = Ok b' -> is_Some (parts b !! k) -> is_Some (r !! "name").
Proof.
  intros H Hk. destruct (add_inv _ _ _ _ H) as [(_ & N & _)|(E & _)]; [exact N|].
  rewrite E in Hk. destruct Hk; discriminate.
Qed.

Lemma new_PartList_keys (k : string) :
  In k ["cpu"; "gpu"; "motherboard"; "ram"; "psu"; "case"] ->
  is_Some (parts new_PartList !! k).
Proof.
  cbn [In]. intros H.
  repeat (destruct H as [<-|H]; [exists None; vm_refl|]). destruct H.
Qed.

Lemma with_case_slot (b : PartList) (case : option record) (b' : PartList) (k : string) :
  with_case b case = Ok b' -> k <> "case" -> slot b' k = slot b k.
Proof.
  unfold with_case. destruct case as [c|]; [|intros [= <-]; reflexivity].
  destruct (present (Some c)); [|intros [= <-]; reflexivity].
  intros H Hk. exact (add_slot_ne _ _ _ _ _ H Hk).
Qed.

(** The slots of the build of a run that reached the PSU. *)
Lemma run_slots (db : PartDatabase) (tf : spec_float) (sp : splits)
    cpu b1 r1 c1 mobo b2 r2 c2 ram b3 r3 bg gpu b4 ob c4 psu b5 case b6 :
  after_cpu db tf sp cpu b1 r1 c1 -> after_mobo db tf sp b1 r1 c1 mobo b2 r2 c2 ->
  after_ram db tf sp b2 r2 c2 ram b3 r3 bg -> after_gpu db tf sp b3 bg gpu b4 ob c4 ->
  add b4 "psu" psu = Ok b5 -> with_case b5 case = Ok b6 ->
  slot b6 "cpu" = Some cpu /\ slot b6 "motherboard" = Some mobo /\
  slot b6 "ram" = Some ram /\ slot b6 "gpu" = Some gpu /\ slot b6 "psu" = Some psu.
Proof.
  intros (_ & A1 & _) (_ & A2 & _) (_ & A3 & _) (_ & A4 & _) A5 A6.
  assert (K : forall k, In k ["cpu"; "gpu"; "motherboard"; "ram"; "psu"; "case"] ->
            is_Some (parts new_PartList !! k) /\ is_Some (parts b1 !! k) /\
            is_Some (parts b2 !! k) /\ is_Some (parts b3 !! k) /\
            is_Some (parts b4 !! k)).
  { intros k Hk. pose proof (new_PartList_keys k Hk) as K0.
    pose proof (add_keys _ _ _ _ _ A1 K0) as K1.
    pose proof (add_keys _ _ _ _ _ A2 K1) as K2.
    pose proof (add_keys _ _ _ _ _ A3 K2) as K3.
    pose proof (add_keys _ _ _ _ _ A4 K3) as K4. tauto. }
  rewrite !(with_case_slot _ _ _ _ A6) by discriminate.
  repeat split.
  - rewrite (add_slot_ne _ _ _ _ _ A5), (add_slot_ne _ _ _ _ _ A4),
      (add_slot_ne _ _ _ _ _ A3), (add_slot_ne _ _ _ _ _ A2) by discriminate.
    apply (add_slot_eq _ _ _ _ A1). apply K. cbn; tauto.
  - rewrite (add_slot_ne _ _ _ _ _ A5), (add_slot_ne _ _ _ _ _ A4),
      (add_slot_ne _ _ _ _ _ A3) by discriminate.
    apply (add_slot_eq _ _ _ _ A2). apply K. cbn; tauto.
  - rewrite (add_slot_ne _ _ _ _ _ A5), (add_slot_ne _ _ _ _ _ A4) by discriminate.
    apply (add_slot_eq _ _ _ _ A3). apply K. cbn; tauto.
  - rewrite (add_slot_ne _ _ _ _ _ A5) by discriminate.
    apply (add_slot_eq _ _ _ _ A4). apply K. cbn; tauto.
  - apply (add_slot_eq _ _ _ _ A5). apply K. cbn; tauto.
Qed.

(* ===================================================================== *)
(** ** The auto-builder: the budget of the GPU pick *)
(* ===================================================================== *)

Lemma gpu_budget_of_stages (db : PartDatabase) (tf : spec_float) (sp : splits)
    cpu b1 r1 c1 mobo b2 r2 c2 ram b3 r3 bg :
  after_cpu db tf sp cpu b1 r1 c1 -> after_mobo db tf sp b1 r1 c1 mobo b2 r2 c2 ->
  after_ram db tf sp b2 r2 c2 ram b3 r3 bg ->
  gpu_budget tf sp cpu mobo ram = Ok bg.
Proof.
  intros (_ & _ & (s1 & S1 & R1) & _) (_ & _ & (s2 & S2 & R2) & _)
         (_ & _ & (s3 & S3 & R3) & G).
  unfold gpu_budget. rewrite S1, S2, S3. cbn [mbind result_bind].
  rewrite R1. cbn [mbind result_bind]. rewrite R2. cbn [mbind result_bind].
  rewrite R3. cbn [mbind result_bind]. exact G.
Qed.

(** The run from the GPU pick on, once the first three picks went
    through. *)
Lemma run_after_ram (db : PartDatabase) (total : num) (purpose : string)
    (tf : spec_float) cpu b1 r1 c1 mobo b2 r2 c2 ram b3 r3 bg :
  Num.to_float total = Ok tf ->
  after_cpu db tf (splits_of purpose) cpu b1 r1 c1 ->
  after_mobo db tf (splits_of purpose) b1 r1 c1 mobo b2 r2 c2 ->
  after_ram db tf (splits_of purpose) b2 r2 c2 ram b3 r3 bg ->
  run_auto_build db total purpose
  = (gpu ← _pick_part db "video-card" bg ∅;
     match gpu with
     | None => Ok (None, [msg_no_gpu])
     | Some gpu =>
         build ← add b3 "gpu" gpu;
         other_budget_each ← Num.div (share tf (split_other (splits_of purpose))) (NInt 2);
         constraints ← _get_constraints build;
         psu ← _pick_part db "power-supply" other_budget_each constraints;
         match psu with
         | None => Ok (None, [msg_no_psu])
         | Some psu =>
             build ← add build "psu" psu;
             case ← _pick_part db "case" other_budget_each ∅;
             build ← with_case build case;
             warnings ← check_build build;
             Ok (Some build, warnings)
         end
     end).
Proof.
  intros Etf (E1 & Eb1 & (s1 & Es1 & Er1) & Ec1) (E2 & Eb2 & (s2 & Es2 & Er2) & Ec2)
         (E3 & Eb3 & (s3 & Es3 & Er3) & Eg).
  unfold run_auto_build. rewrite !num_mul_float, Etf.
  fold (splits_of purpose). cbn [mbind result_bind].
  rewrite E1. cbn [mbind result_bind]. rewrite Eb1. cbn [mbind result_bind].
  rewrite Es1. cbn [mbind result_bind]. rewrite Er1. cbn [mbind result_bind].
  rewrite Ec1. cbn [mbind result_bind]. rewrite E2. cbn [mbind result_bind].
  rewrite Eb2. cbn [mbind result_bind]. rewrite Es2. cbn [mbind result_bind].
  rewrite Er2. cbn [mbind result_bind]. rewrite Ec2. cbn [mbind result_bind].
  rewrite E3. cbn [mbind result_bind]. rewrite Eb3. cbn [mbind result_bind].
  rewrite Es3. cbn [mbind result_bind]. rewrite Er3. cbn [mbind result_bind].
  rewrite Eg. cbn [mbind result_bind]. reflexivity.
Qed.

(** C4: the GPU is picked by [_pick_part] with the empty constraint set
    and with the budget [gpu_budget]: the GPU split of the total budget
    plus the savings (split minus price of the chosen part) of the CPU,
    the motherboard and the RAM picks, the sums being the float sums of
    the program.  In a run that returns a build, the GPU of the build is
    that pick.  In a run whose first three picks went through, what that
    pick gives decides the run: no GPU under that budget ends it with the
    GPU failure message, an exception of the pick is the exception of the
    run, and a GPU found is the GPU of the build that the run returns when
    the remaining stages go through. *)
Theorem C4_gpu_budget_is_split_plus_rollover
    (db : PartDatabase) (total : num) (purpose : string) :
  (forall build ws,
     run_auto_build db total purpose = Ok (Some build, ws) ->
     exists tf cpu mobo ram gpu bg,
       Num.to_float total = Ok tf /\
       slot build "cpu" = Some cpu /\ slot build "motherboard" = Some mobo /\
       slot build "ram" = Some ram /\ slot build "gpu" = Some gpu /\
       gpu_budget tf (splits_of purpose) cpu mobo ram = Ok bg /\
       _pick_part db "video-card" bg ∅ = Ok (Some gpu)) /\
  (forall tf cpu b1 r1 c1 mobo b2 r2 c2 ram b3 r3 bg,
     Num.to_float total = Ok tf ->
     after_cpu db tf (splits_of purpose) cpu b1 r1 c1 ->
     after_mobo db tf (splits_of purpose) b1 r1 c1 mobo b2 r2 c2 ->
     after_ram db tf (splits_of purpose) b2 r2 c2 ram b3 r3 bg ->
     gpu_budget tf (splits_of purpose) cpu mobo ram = Ok bg /\
     (_pick_part db "video-card" bg ∅ = Ok None ->
      run_auto_build db total purpose = Ok (None, [msg_no_gpu])) /\
     (forall e, _pick_part db "video-card" bg ∅ = Raise e ->
      run_auto_build db total purpose = Raise e) /\
     (forall gpu b4 ob c4 psu b5 case b6 ws,
        _pick_part db "video-card" bg ∅ = Ok (Some gpu) ->
        add b3 "gpu" gpu = Ok b4 ->
        Num.div (share tf (split_other (splits_of purpose))) (NInt 2) = Ok ob ->
        _get_constraints b4 = Ok c4 ->
        _pick_part db "power-supply" ob c4 = Ok (Some psu) ->
        add b4 "psu" psu = Ok b5 ->
        _pick_part db "case" ob ∅ = Ok case ->
        with_case b5 case = Ok b6 ->
        check_build b6 = Ok ws ->
        run_auto_build db total purpose = Ok (Some b6, ws) /\
        slot b6 "gpu" = Some gpu)).
Proof.
  split.
  - intros build ws H.
    destruct (run_auto_build_outcome _ _ _ _ H) as (tf & Etf & O).
    inversion O as [ | | | |
      | cpu b1 r1 c1 mobo b2 r2 c2 ram b3 r3 bg gpu b4 ob c4 psu b5 case b6 ws'
          A1 A2 A3 A4 E5 Eb5 Ecase Eb6 Ews ]; subst.
    destruct (run_slots _ _ _ _ _ _ _ _ _ _ _ _ _ _ _ _ _ _ _ _ _ _ _
                A1 A2 A3 A4 Eb5 Eb6) as (S1 & S2 & S3 & S4 & _).
    exists tf, cpu, mobo, ram, gpu, bg. repeat split; try assumption.
    + eapply gpu_budget_of_stages; eassumption.
    + apply A4.
  - intros tf cpu b1 r1 c1 mobo b2 r2 c2 ram b3 r3 bg Etf A1 A2 A3.
    pose proof (run_after_ram db total purpose tf _ _ _ _ _ _ _ _ _ _ _ _ Etf A1 A2 A3)
      as R.
    split; [eapply gpu_budget_of_stages; eassumption|]. split; [|split].
    + intros E. rewrite R, E. reflexivity.
    + intros e E. rewrite R, E. reflexivity.
    + intros gpu b4 ob c4 psu b5 case b6 ws Eg Eb4 Eob Ec4 Ep Eb5 Ecase Eb6 Ews.
      assert (A4 : after_gpu db tf (splits_of purpose) b3 bg gpu b4 ob c4)
        by (repeat split; assumption).
      split.
      * rewrite R, Eg. cbn [mbind result_bind]. rewrite Eb4. cbn [mbind result_bind].
        rewrite Eob. cbn [mbind result_bind]. rewrite Ec4. cbn [mbind result_bind].
        rewrite Ep. cbn [mbind result_bind]. rewrite Eb5. cbn [mbind result_bind].
        rewrite Ecase. cbn [mbind result_bind]. rewrite Eb6. cbn [mbind result_bind].
        rewrite Ews. reflexivity.
      * exact (proj1 (proj2 (proj2 (proj2
          (run_slots _ _ _ _ _ _ _ _ _ _ _ _ _ _ _ _ _ _ _ _ _ _ _
             A1 A2 A3 A4 Eb5 Eb6))))).
Qed.

Lemma sample_run :
  run_auto_build sample_db (NInt 15000000) "gaming" = Ok (Some sample_build, []).
Proof. vm_refl. Defined.

Example sample_gpu_budget :
  gpu_budget (Float.nearest 15000000) GAMING_SPLITS sample_cpu board_am4 ram_ddr4
  = Ok (NFloat (Float.nearest 9100000)).
Proof. vm_refl. Qed.

(** The first three stages of the sample run: the CPU at 2,000,000 of
    3,000,000, the motherboard at 1,500,000 of 2,250,000 and the RAM at
    900,000 of 2,250,000 save 3,100,000, so that the GPU is picked under
    6,000,000 + 3,100,000. *)
Lemma sample_after_cpu :
  after_cpu sample_db (Float.nearest 15000000) (splits_of "gaming")
    sample_cpu (build_of [("cpu", sample_cpu)]) (NFloat (Float.nearest 1000000))
    sample_constraints.
Proof.
  split; [vm_refl|]. split; [vm_refl|]. split; [|vm_refl].
  exists (NFloat (Float.nearest 1000000)). split; vm_refl.
Defined.

Lemma sample_after_mobo :
  after_mobo sample_db (Float.nearest 15000000) (splits_of "gaming")
    (build_of [("cpu", sample_cpu)]) (NFloat (Float.nearest 1000000)) sample_constraints
    board_am4 (build_of [("cpu", sample_cpu); ("motherboard", board_am4)])
    (NFloat (Float.nearest 1750000)) sample_constraints.
Proof.
  split; [vm_refl|]. split; [vm_refl|]. split; [|vm_refl].
  exists (NFloat (Float.nearest 750000)). split; vm_refl.
Defined.

Lemma sample_after_ram :
  after_ram sample_db (Float.nearest 15000000) (splits_of "gaming")
    (build_of [("cpu", sample_cpu); ("motherboard", board_am4)])
    (NFloat (Float.nearest 1750000)) sample_constraints
    ram_ddr4
    (build_of [("cpu", sample_cpu); ("motherboard", board_am4); ("ram", ram_ddr4)])
    (NFloat (Float.nearest 3100000)) (NFloat (Float.nearest 9100000)).
Proof.
  split; [vm_refl|]. split; [vm_refl|]. split; [|vm_refl].
  exists (NFloat (Float.nearest 1350000)). split; vm_refl.
Defined.

(** In the sample run the card at 7,000,000, above the GPU split of
    6,000,000, is the pick under 9,100,000 with no constraint, and it is
    the GPU of the build that [run_auto_build] returns. *)
Lemma C4_gpu_budget_is_split_plus_rollover_witness :
  _pick_part sample_db "video-card" (NFloat (Float.nearest 9100000)) ∅
  = Ok (Some gpu_4060) /\
  _pick_part sample_db "video-card"
    (share (Float.nearest 15000000) (split_gpu (splits_of "gaming"))) ∅ = Ok None /\
  run_auto_build sample_db (NInt 15000000) "gaming" = Ok (Some sample_build, []) /\
  slot sample_build "gpu" = Some gpu_4060.
Proof.
  assert (G : _pick_part sample_db "video-card" (NFloat (Float.nearest 9100000)) ∅
              = Ok (Some gpu_4060)) by vm_refl.
  split; [exact G|]. split; [vm_refl|].
  refine (proj2 (proj2 (proj2
    (proj2 (C4_gpu_budget_is_split_plus_rollover sample_db (NInt 15000000) "gaming")
       (Float.nearest 15000000) sample_cpu _ _ _ board_am4 _ _ _ ram_ddr4 _ _ _
       _ sample_after_cpu sample_after_mobo sample_after_ram)))
    gpu_4060
    (build_of [("cpu", sample_cpu); ("motherboard", board_am4); ("ram", ram_ddr4);
               ("gpu", gpu_4060)])
    (NFloat (Float.nearest 750000))
    (mk_record [("socket", VStr "am4"); ("memory_type", VStr "DDR4");
                ("estimated_power", VInt 280)])
    psu_650
    (build_of [("cpu", sample_cpu); ("motherboard", board_am4); ("ram", ram_ddr4);
               ("gpu", gpu_4060); ("psu", psu_650)])
    (Some case_mid) sample_build [] G _ _ _ _ _ _ _ _); vm_refl.
Defined.

(* ===================================================================== *)
(** ** The auto-builder: failure of a category *)
(* ===================================================================== *)

(** The socket rule is the first test of [search_parts]: a record it
    rejects is not returned, whatever its other fields hold. *)
Lemma socket_rule_rejects (part_type keyword : string) (cs part : record) :
  socket_rule part cs = Ok false -> search_match part_type keyword cs part = Ok false.
Proof.
  intros H. unfold search_match, passes_constraints. rewrite H. reflexivity.
Qed.

(** No record passes the tests of a pick: the pick returns [None]. *)
Lemma pick_part_none (db : PartDatabase) (json_key : string) (budget : num)
    (cs : record) :
  Forall (fun r => search_match json_key "" cs r = Ok false \/
                   (search_match json_key "" cs r = Ok true /\
                    affordable budget r = Ok false))
         (default [] (data db !! json_key)) ->
  _pick_part db json_key budget cs = Ok None.
Proof.
  intros H.
  assert (S : survivors db json_key budget cs = []).
  { unfold survivors. induction H as [|r l Hr Hl IH]; [reflexivity|].
    cbn [List.filter]. destruct Hr as [-> | [-> ->]]; exact IH. }
  assert (T : pick_total db json_key budget cs).
  { split; [|split].
    - eapply Forall_impl; [exact H|]. intros r [-> | [-> _]]; reflexivity.
    - eapply Forall_impl; [exact H|]. intros r [-> | [_ ->]]; [discriminate|reflexivity].
    - intros _. rewrite S. constructor. }
  rewrite (pick_part_pool _ _ _ _ T).
  apply pool_nil in S. rewrite S. reflexivity.
Qed.

Lemma normalize_socket_truthy (raw : value) (n : option string) :
  truthy raw = true -> _normalize_socket raw = Ok n -> exists s, n = Some s.
Proof.
  intros Ht En. unfold _normalize_socket in En. rewrite Ht in En. cbn [negb] in En.
  destruct raw; try discriminate.
  repeat match type of En with
         | (if ?c then _ else _) = _ => destruct c
         | match ?c with Some _ => _ | None => _ end = _ => destruct c
         end; injection En as <-; eauto.
Qed.

(** The socket constraint of a build with a CPU is the normalised socket
    of the CPU. *)
Lemma cpu_socket_constraint (b : PartList) (cpu cs : record) :
  slot b "cpu" = Some cpu -> is_Some (cpu !! "name") ->
  _get_constraints b = Ok cs ->
  truthy (get cpu "Physical - Socket") = true ->
  exists n, _normalize_socket (get cpu "Physical - Socket") = Ok (Some n) /\
            get cs "socket" = VStr n.
Proof.
  intros Hs Hn H Ht. unfold _get_constraints in H. rewrite Hs in H.
  assert (P : present (Some cpu) = true).
  { cbn. apply negb_true_iff, bool_decide_eq_false. intros ->.
    rewrite lookup_empty in Hn. destruct Hn; discriminate. }
  unfold socket_constraint in H. rewrite P in H. unfold socket_from in H.
  change (default ∅ (Some cpu)) with cpu in H. rewrite Ht in H.
  destruct (_normalize_socket (get cpu "Physical - Socket")) as [n|e] eqn:En;
    [|discriminate].
  cbn [mbind result_bind] in H.
  destruct (normalize_socket_truthy _ _ Ht En) as (s & ->).
  exists s. split; [reflexivity|].
  destruct (memory_constraint (Some cpu) _) as [c2|e] eqn:E2; [|discriminate].
  cbn [mbind result_bind] in H. injection H as <-.
  assert (L : c2 !! "socket" = Some (VStr s)).
  { rewrite (memory_constraint_other _ "socket" _ _ ltac:(discriminate) E2).
    apply lookup_insert_eq. }
  unfold get, power_constraint.
  destruct (tdp_of (Some cpu) _) as [x|]; cbn [mbind result_bind]; [|rewrite L; reflexivity].
  destruct (tdp_of (slot b "gpu") _) as [y|]; cbn [mbind result_bind];
    [|rewrite L; reflexivity].
  destruct ((x >? 0) || (y >? 0)); [rewrite lookup_insert_ne by discriminate|];
    rewrite L; reflexivity.
Qed.

(** C7: when the CPU stage of a run went through and every motherboard of
    the catalogue is rejected by the socket rule under the constraints
    derived from the chosen CPU, or is rejected by another test of the
    search, or is not affordable within the motherboard split, the run
    returns no build and one message, which carries the name of the CPU
    and the socket of the constraint set, the normalised socket of the
    CPU.  Whatever the catalogue, a run that returns gives either no build
    and one failure message, or a build with a part in each of the five
    required slots. *)
Theorem C7_no_partial_build (db : PartDatabase) (total : num) (purpose : string) :
  (forall tf cpu b1 r1 c1,
     Num.to_float total = Ok tf ->
     after_cpu db tf (splits_of purpose) cpu b1 r1 c1 ->
     Forall (fun r =>
               socket_rule r c1 = Ok false \/
               search_match "motherboard" "" c1 r = Ok false \/
               (search_match "motherboard" "" c1 r = Ok true /\
                affordable (share tf (split_motherboard (splits_of purpose))) r
                = Ok false))
            (default [] (data db !! "motherboard")) ->
     run_auto_build db total purpose
     = Ok (None, ["Failed to find a compatible Mobo for " +:+ py_str (get cpu "name")
                  +:+ " (Socket: " +:+ py_str (get c1 "socket") +:+ ")."]) /\
     is_Some (cpu !! "name") /\
     (truthy (get cpu "Physical - Socket") = true ->
      exists n, _normalize_socket (get cpu "Physical - Socket") = Ok (Some n) /\
                get c1 "socket" = VStr n)) /\
  (forall res,
     run_auto_build db total purpose = Ok res ->
     (fst res = None /\ exists m, snd res = [m] /\ is_failure_message m) \/
     (exists build, fst res = Some build /\ complete build)).
Proof.
  split.
  - intros tf cpu b1 r1 c1 Etf A1 Hm.
    assert (Hp : _pick_part db "motherboard"
                   (share tf (split_motherboard (splits_of purpose))) c1 = Ok None).
    { apply pick_part_none. eapply Forall_impl; [exact Hm|].
      intros r [H|[H|H]]; [left; apply socket_rule_rejects, H | left; exact H | right; exact H]. }
    split; [|split].
    + apply (run_outcome_auto_build _ _ _ tf _ Etf).
      exact (run_no_mobo _ _ _ cpu b1 r1 c1 A1 Hp).
    + destruct A1 as (_ & Ha & _).
      exact (add_named _ _ _ _ Ha (new_PartList_keys "cpu" ltac:(cbn; tauto))).
    + intros Ht. destruct A1 as (_ & Ha & _ & Hc).
      pose proof (new_PartList_keys "cpu" ltac:(cbn; tauto)) as K.
      exact (cpu_socket_constraint b1 cpu c1 (add_slot_eq _ _ _ _ Ha K)
               (add_named _ _ _ _ Ha K) Hc Ht).
  - intros res H.
    destruct (run_auto_build_outcome _ _ _ _ H) as (tf & Etf & O).
    destruct O as
      [ E1 | cpu b1 r1 c1 A1 E2 | cpu b1 r1 c1 mobo b2 r2 c2 A1 A2 E3
      | cpu b1 r1 c1 mobo b2 r2 c2 ram b3 r3 bg A1 A2 A3 E4
      | cpu b1 r1 c1 mobo b2 r2 c2 ram b3 r3 bg gpu b4 ob c4 A1 A2 A3 A4 E5
      | cpu b1 r1 c1 mobo b2 r2 c2 ram b3 r3 bg gpu b4 ob c4 psu b5 case b6 ws
          A1 A2 A3 A4 E5 Eb5 Ecase Eb6 Ews ].
    1-5: left; split; [reflexivity|]; eexists; split; [reflexivity|];
         unfold is_failure_message; eauto 8.
    right. exists b6. split; [reflexivity|].
    destruct (run_slots _ _ _ _ _ _ _ _ _ _ _ _ _ _ _ _ _ _ _ _ _ _ _
                A1 A2 A3 A4 Eb5 Eb6) as (S1 & S2 & S3 & S4 & S5).
    unfold complete. rewrite S1, S2, S3, S4, S5. eauto 10.
Qed.

Lemma after_cpu_no_am4_board :
  after_cpu db_no_am4_board (Float.nearest 15000000) (splits_of "gaming")
    sample_cpu (build_of [("cpu", sample_cpu)]) (NFloat (Float.nearest 1000000))
    sample_constraints.
Proof.
  split; [vm_refl|]. split; [vm_refl|]. split; [|vm_refl].
  exists (NFloat (Float.nearest 1000000)). split; vm_refl.
Defined.

Lemma boards_no_am4_board :
  default [] (data db_no_am4_board !! "motherboard") = [board_lga1700].
Proof. vm_refl. Defined.

Lemma C7_no_partial_build_witness :
  run_auto_build db_no_am4_board (NInt 15000000) "gaming"
  = Ok (None, ["Failed to find a compatible Mobo for " +:+ py_str (get sample_cpu "name")
               +:+ " (Socket: " +:+ py_str (get sample_constraints "socket") +:+ ")."]).
Proof.
  refine (proj1 (proj1 (C7_no_partial_build db_no_am4_board (NInt 15000000) "gaming")
            (Float.nearest 15000000) sample_cpu (build_of [("cpu", sample_cpu)])
            (NFloat (Float.nearest 1000000)) sample_constraints _
            after_cpu_no_am4_board _)).
  - vm_refl.
  - rewrite boards_no_am4_board. constructor; [|constructor]. left. vm_refl.
Defined.

Example no_am4_board_message :
  run_auto_build db_no_am4_board (NInt 15000000) "gaming"
  = Ok (None, ["Failed to find a compatible Mobo for AMD Ryzen 5 5600X (Socket: am4)."]).
Proof. vm_refl. Qed.

(* ===================================================================== *)
(** ** Enrichment *)
(* ===================================================================== *)

Example db_chipset_built :
  new_PartDatabase (tables_chipset card_4060) = Ok (db_chipset card_4060).
Proof. vm_refl. Qed.

(** C9, as stated, fails when the copied keys include [chipset] (as in the
    call of app.py for the graphics cards) or [name], the fields the match
    is made on: the first pass can change the field, and the second pass
    then finds another reference.  Here the first pass gives the card the
    TDP 115 and the chipset of the RTX 4070, the second pass the TDP 200. *)
Lemma C9_counterexample_chipset_copied :
  enrich_product_database (db_chipset card_4060)
    "video-card" "master_gpu_database" "name" gpu_specs_to_copy
  = Ok (db_chipset card_4060_once) /\
  enrich_product_database (db_chipset card_4060_once)
    "video-card" "master_gpu_database" "name" gpu_specs_to_copy
  = Ok (db_chipset card_4060_twice) /\
  db_chipset card_4060_twice <> db_chipset card_4060_once.
Proof.
  split; [vm_refl|]. split; [vm_refl|].
  intros H.
  apply (f_equal (fun d => get (default ∅ (head (default [] (data d !! "video-card"))))
                             "Board Design - TDP")) in H.
  vm_compute in H. discriminate H.
Qed.

Lemma copy_specs_lookup (specs : list string) (ms p : record) (k : string) :
  copy_specs specs ms p !! k
  = if bool_decide (k ∈ specs)
    then match ms !! k with Some v => Some v | None => p !! k end
    else p !! k.
Proof.
  revert p. induction specs as [|s rest IH]; intros p; cbn [copy_specs].
  - rewrite bool_decide_eq_false_2 by apply not_elem_of_nil. reflexivity.
  - rewrite IH. destruct (decide (k = s)) as [->|N].
    + rewrite (bool_decide_eq_true_2 (s ∈ s :: rest)) by apply list_elem_of_here.
      destruct (ms !! s) as [v|] eqn:E.
      * rewrite lookup_insert_eq. destruct (bool_decide (s ∈ rest)); reflexivity.
      * destruct (bool_decide (s ∈ rest)); reflexivity.
    + assert (Hk : bool_decide (k ∈ s :: rest) = bool_decide (k ∈ rest)).
      { apply bool_decide_ext. rewrite elem_of_cons. tauto. }
      rewrite Hk.
      assert (L : match ms !! s with
                  | Some v => <[s:=v]> p
                  | None => p
                  end !! k = p !! k).
      { destruct (ms !! s); [apply lookup_insert_ne; congruence | reflexivity]. }
      rewrite L. reflexivity.
Qed.

Lemma copy_specs_other (specs : list string) (ms p : record) (k : string) :
  k ∉ specs -> get (copy_specs specs ms p) k = get p k.
Proof.
  intros H. unfold get. rewrite copy_specs_lookup, bool_decide_eq_false_2 by exact H.
  reflexivity.
Qed.

Lemma copy_specs_idempotent (specs : list string) (ms p : record) :
  copy_specs specs ms (copy_specs specs ms p) = copy_specs specs ms p.
Proof.
  apply map_eq. intros k. rewrite !copy_specs_lookup.
  destruct (bool_decide (k ∈ specs)); [|reflexivity].
  destruct (ms !! k); reflexivity.
Qed.

Section Enrich.

Variables (product_key master_db_key match_field : string).
Variable specs_to_copy : list string.
Hypothesis Hname : "name" ∉ specs_to_copy.
Hypothesis Hchipset : "chipset" ∉ specs_to_copy.
Hypothesis Hkey : product_key <> master_table (map_key_of master_db_key).

Local Abbreviation enrich1 db :=
  (enrich_product db product_key master_db_key match_field specs_to_copy).
Local Abbreviation loop n i db :=
  (enrich_loop n i db product_key master_db_key match_field specs_to_copy).

Lemma find_master_spec_same (db db' : PartDatabase) (name chipset : value) :
  same_master master_db_key db db' ->
  find_master_spec db master_db_key name chipset
  = find_master_spec db' master_db_key name chipset.
Proof.
  intros [Hm Hd]. unfold find_master_spec, master_record. rewrite Hm, Hd. reflexivity.
Qed.

Lemma enrich_product_same (db db' : PartDatabase) (p : record) :
  same_master master_db_key db db' -> enrich1 db p = enrich1 db' p.
Proof.
  intros H. unfold enrich_product. rewrite (find_master_spec_same db db' _ _ H).
  reflexivity.
Qed.

(** A product that a pass has treated is left as it is by the pass. *)
Lemma enrich_product_fixed (db : PartDatabase) (p p' : record) :
  enrich1 db p = Ok p' -> enrich1 db p' = Ok p'.
Proof.
  unfold enrich_product.
  destruct (negb (truthy (if negb (truthy (get p match_field))
                             && String.eqb product_key "video-card"
                          then get p "chipset" else get p match_field))) eqn:E1.
  { intros [= <-]. rewrite E1. reflexivity. }
  destruct (find_master_spec db master_db_key (get p "name") (get p "chipset"))
    as [ms|e] eqn:F; [|discriminate].
  cbn [mbind result_bind]. destruct (present ms) eqn:P.
  - intros [= <-].
    rewrite (copy_specs_other _ _ _ "name" Hname),
            (copy_specs_other _ _ _ "chipset" Hchipset), F.
    cbn [mbind result_bind]. rewrite P, copy_specs_idempotent.
    match goal with |- (if ?c then _ else _) = _ => destruct c end; reflexivity.
  - intros [= <-]. rewrite E1, F. cbn [mbind result_bind]. rewrite P. reflexivity.
Qed.

Lemma product_at_lt (db : PartDatabase) (i j : nat) (p : record) :
  product_at db product_key i = None -> product_at db product_key j = Some p ->
  (j < i)%nat.
Proof.
  unfold product_at. destruct (data db !! product_key) as [l|]; cbn; [|discriminate].
  intros Hi Hj. apply lookup_ge_None in Hi. apply lookup_lt_Some in Hj. lia.
Qed.

Lemma set_product_at (db : PartDatabase) (i j : nat) (p q : record) :
  product_at db product_key i = Some q ->
  product_at (set_product db product_key i p) product_key j
  = if decide (i = j) then Some p else product_at db product_key j.
Proof.
  unfold product_at, set_product. cbn [data]. rewrite lookup_insert_eq.
  destruct (data db !! product_key) as [l|]; cbn; [|discriminate].
  intros Hi. destruct (decide (i = j)) as [<-|N].
  - apply list_lookup_insert_eq. eapply lookup_lt_Some, Hi.
  - apply list_lookup_insert_ne, N.
Qed.

Lemma set_product_other (db : PartDatabase) (i : nat) (p : record) (k : string) :
  k <> product_key -> data (set_product db product_key i p) !! k = data db !! k.
Proof. intros H. unfold set_product. cbn [data]. apply lookup_insert_ne. congruence. Qed.

Lemma set_product_same (db : PartDatabase) (i : nat) (p : record) :
  same_master master_db_key db (set_product db product_key i p).
Proof.
  split; [reflexivity|]. symmetry. apply set_product_other. congruence.
Qed.

Lemma set_product_id (db : PartDatabase) (i : nat) (p : record) :
  product_at db product_key i = Some p -> set_product db product_key i p = db.
Proof.
  unfold product_at, set_product. destruct db as [d m]. cbn [data master_spec_maps].
  destruct (d !! product_key) as [l|] eqn:E; cbn; [|discriminate].
  intros Hi. rewrite (list_insert_id _ _ _ Hi), (insert_id _ _ _ E). reflexivity.
Qed.

(** A pass over products that the pass leaves as they are changes
    nothing. *)
Lemma enrich_loop_fixed (n i : nat) (db : PartDatabase) :
  (forall j p, product_at db product_key j = Some p -> enrich1 db p = Ok p) ->
  loop n i db = Ok db.
Proof.
  intros H. revert i. induction n as [|n IH]; intros i; cbn [enrich_loop]; [reflexivity|].
  fold (product_at db product_key i).
  destruct (product_at db product_key i) as [p|] eqn:L; [|reflexivity].
  rewrite (H i p L). cbn [mbind result_bind].
  rewrite (set_product_id db i p L). apply IH.
Qed.

(** What a pass leaves: the master side untouched, the other tables
    untouched, and in the product table either the product that
    [enrich_product] makes of a product of the start, or a product outside
    the range of the pass. *)
Lemma enrich_loop_result (n i : nat) (db db' : PartDatabase) :
  loop n i db = Ok db' ->
  same_master master_db_key db db' /\
  (forall k, k <> product_key -> data db' !! k = data db !! k) /\
  (is_Some (data db !! product_key) -> is_Some (data db' !! product_key)) /\
  (forall j p', product_at db' product_key j = Some p' ->
     (exists p, enrich1 db p = Ok p') \/
     (product_at db product_key j = Some p' /\ (j < i \/ i + n <= j)%nat)).
Proof.
  revert i db. induction n as [|n IH]; intros i db; cbn [enrich_loop].
  { intros [= <-]. repeat split; auto. intros j p' H. right. split; [exact H|lia]. }
  fold (product_at db product_key i).
  destruct (product_at db product_key i) as [p|] eqn:L.
  2:{ intros [= <-]. repeat split; auto. intros j p' H. right. split; [exact H|].
      left. eapply product_at_lt; eassumption. }
  destruct (enrich1 db p) as [p1|e] eqn:E; [|discriminate].
  cbn [mbind result_bind]. intros H.
  destruct (IH _ _ H) as ((Hm & Hd) & Hk & Hs & Hj).
  pose proof (set_product_same db i p1) as [Sm Sd].
  repeat split.
  - congruence.
  - congruence.
  - intros k Hne. rewrite (Hk k Hne). apply set_product_other, Hne.
  - intros _. apply Hs. unfold set_product. cbn [data]. rewrite lookup_insert_eq. eauto.
  - intros j p' Hp. destruct (Hj j p' Hp) as [(q & Hq)|(Hq & Hr)].
    + left. exists q. rewrite (enrich_product_same db _ q (set_product_same db i p1)).
      exact Hq.
    + rewrite (set_product_at db i j p1 p L) in Hq.
      destruct (decide (i = j)) as [<-|N].
      * injection Hq as <-. left. exists p. exact E.
      * right. split; [exact Hq | lia].
Qed.

End Enrich.

(** C9, amended: for copied keys that include neither [name] nor
    [chipset], and a product table that is not the master table behind the
    consulted spec map, a pass of [enrich_product_database] that returns
    leaves a database on which the same pass returns that very database:
    every catalogue record is as it was after the first pass. *)
Theorem C9_enrichment_idempotent (db db1 : PartDatabase)
    (product_key master_db_key match_field : string) (specs_to_copy : list string) :
  "name" ∉ specs_to_copy -> "chipset" ∉ specs_to_copy ->
  product_key <> master_table (map_key_of master_db_key) ->
  enrich_product_database db product_key master_db_key match_field specs_to_copy
  = Ok db1 ->
  enrich_product_database db1 product_key master_db_key match_field specs_to_copy
  = Ok db1.
Proof.
  intros Hname Hchipset Hkey. unfold enrich_product_database.
  destruct (data db !! product_key) as [l|] eqn:El.
  2:{ intros [= <-]. rewrite El. reflexivity. }
  destruct (data db !! master_db_key) as [lm|] eqn:Em.
  2:{ intros [= <-]. rewrite El, Em. reflexivity. }
  intros H.
  destruct (enrich_loop_result product_key master_db_key match_field specs_to_copy
              Hkey _ _ _ _ H) as (Hs & Hk & Hp & Hj).
  (* the second pass runs over the same tables *)
  destruct (Hp ltac:(eauto)) as (l1 & El1). rewrite El1.
  assert (Em1 : is_Some (data db1 !! master_db_key)).
  { destruct (decide (master_db_key = product_key)) as [->|N]; [eauto|].
    rewrite (Hk _ N), Em. eauto. }
  destruct Em1 as (lm1 & ->).
  (* and every product it meets is one the first pass has treated *)
  apply enrich_loop_fixed. intros j p' Hp'.
  destruct (Hj j p' Hp') as [(p & Ep)|(Hq & Hr)].
  - rewrite <- (enrich_product_same product_key master_db_key match_field
                  specs_to_copy db db1 p' Hs).
    exact (enrich_product_fixed product_key master_db_key match_field specs_to_copy
             Hname Hchipset db p p' Ep).
  - exfalso. unfold product_at in Hq. rewrite El in Hq. cbn in Hq.
    apply lookup_lt_Some in Hq. lia.
Qed.

Lemma C9_enrichment_idempotent_witness :
  enrich_product_database (db_chipset card_4060_tdp)
    "video-card" "master_gpu_database" "name" ["Board Design - TDP"]
  = Ok (db_chipset card_4060_tdp).
Proof.
  apply (C9_enrichment_idempotent (db_chipset card_4060) (db_chipset card_4060_tdp)
           "video-card" "master_gpu_database" "name" ["Board Design - TDP"]).
  - rewrite list_elem_of_singleton. discriminate.
  - rewrite list_elem_of_singleton. discriminate.
  - vm_compute. discriminate.
  - vm_refl.
Defined.

(* ===================================================================== *)
(** ** binary64 rounding: bounds *)
(* ===================================================================== *)

Lemma pow2_succ (d : Z) : 0 <= d -> 2 ^ (d + 1) = 2 * 2 ^ d.
Proof. intros H. rewrite Z.pow_add_r by lia. lia. Qed.

Lemma pow2_pos (d : Z) : 0 <= d -> 0 < 2 ^ d.
Proof. intros H. apply Z.pow_pos_nonneg; lia. Qed.

Lemma digits2_pos_bounds (p : positive) :
  2 ^ (Z.pos (digits2_pos p) - 1) <= Z.pos p < 2 ^ Z.pos (digits2_pos p).
Proof.
  induction p as [p IH|p IH|]; cbn [digits2_pos]; [| |cbn; lia];
    rewrite Pos2Z.inj_succ; set (d := Z.pos (digits2_pos p)) in *;
    assert (Hd : 1 <= d) by (subst d; lia);
    replace (Z.succ d - 1) with ((d - 1) + 1) by lia;
    replace (Z.succ d) with (d + 1) by lia;
    rewrite !pow2_succ by lia; lia.
Qed.

(** Uniqueness of the number of digits. *)
Lemma digits2_unique (p : positive) (d : Z) :
  2 ^ (d - 1) <= Z.pos p < 2 ^ d -> Z.pos (digits2_pos p) = d.
Proof.
  intros [H1 H2]. pose proof (digits2_pos_bounds p) as [B1 B2].
  set (d' := Z.pos (digits2_pos p)) in *. assert (1 <= d') by (subst d'; lia).
  assert (0 < d). { destruct (Z_lt_le_dec 0 d) as [|N]; [assumption|].
    rewrite Z.pow_neg_r in H2 by lia || (destruct (Z.eq_dec d 0); subst; cbn in H2; lia). lia. }
  destruct (Z_lt_le_dec d d') as [L|L].
  - assert (2 ^ d <= 2 ^ (d' - 1)) by (apply Z.pow_le_mono_r; lia). lia.
  - destruct (Z_lt_le_dec d' d) as [L'|L']; [|lia].
    assert (2 ^ d' <= 2 ^ (d - 1)) by (apply Z.pow_le_mono_r; lia). lia.
Qed.

Lemma shr_1_m (mrs : shr_record) :
  0 <= shr_m mrs -> shr_m (shr_1 mrs) = shr_m mrs / 2 /\ 0 <= shr_m (shr_1 mrs).
Proof.
  destruct mrs as [m r s]. cbn [shr_m shr_1]. intros H.
  destruct m as [|[p|p|]|p]; cbn [shr_m]; try lia.
  all: split; try lia.
  - reflexivity.
  - rewrite Pos2Z.inj_xI. apply Z.div_unique with 1; lia.
  - rewrite Pos2Z.inj_xO. apply Z.div_unique with 0; lia.
  - reflexivity.
Qed.

Lemma pow2_xI (p : positive) : 2 ^ Z.pos p~1 = 2 * (2 ^ Z.pos p * 2 ^ Z.pos p).
Proof.
  assert (E : Z.pos p~1 = 1 + (Z.pos p + Z.pos p)) by lia.
  rewrite E, !Z.pow_add_r by lia. reflexivity.
Qed.

Lemma pow2_xO (p : positive) : 2 ^ Z.pos p~0 = 2 ^ Z.pos p * 2 ^ Z.pos p.
Proof.
  assert (E : Z.pos p~0 = Z.pos p + Z.pos p) by lia.
  rewrite E, !Z.pow_add_r by lia. reflexivity.
Qed.

Lemma iter_shr_m (p : positive) (mrs : shr_record) :
  0 <= shr_m mrs ->
  shr_m (SpecFloat.iter_pos shr_1 p mrs) = shr_m mrs / 2 ^ Z.pos p /\
  0 <= shr_m (SpecFloat.iter_pos shr_1 p mrs).
Proof.
  revert mrs. induction p as [p IH|p IH|]; intros mrs H; cbn [SpecFloat.iter_pos].
  - destruct (shr_1_m mrs H) as [E1 P1].
    destruct (IH _ P1) as [E2 P2]. destruct (IH _ P2) as [E3 P3].
    split; [|exact P3]. rewrite E3, E2, E1, pow2_xI.
    pose proof (pow2_pos (Z.pos p) ltac:(lia)).
    rewrite !Z.div_div by lia. reflexivity.
  - destruct (IH _ H) as [E2 P2]. destruct (IH _ P2) as [E3 P3].
    split; [|exact P3]. rewrite E3, E2, pow2_xO.
    pose proof (pow2_pos (Z.pos p) ltac:(lia)).
    rewrite !Z.div_div by lia. reflexivity.
  - destruct (shr_1_m mrs H) as [E1 P1]. split; [exact E1|exact P1].
Qed.

Lemma round_nearest_even_range (m : Z) (l : location) :
  m <= round_nearest_even m l <= m + 1.
Proof.
  destruct l as [|[| |]]; cbn [round_nearest_even]; try lia.
  destruct (Z.even m); lia.
Qed.

Lemma Zdigits2_unique (m d : Z) :
  0 < m -> 2 ^ (d - 1) <= m < 2 ^ d -> Zdigits2 m = d.
Proof.
  intros Hm H. destruct m as [|p|p]; try lia. cbn [Zdigits2].
  apply digits2_unique, H.
Qed.

Lemma shr_record_of_loc_m (m : Z) (l : location) : shr_m (shr_record_of_loc m l) = m.
Proof. destruct l as [|[| |]]; reflexivity. Qed.

(** A shift in the normal range: [d - 53] bits go. *)
Lemma shr_fexp_normal (m E d : Z) (l : location) :
  0 < m -> 2 ^ (d - 1) <= m < 2 ^ d -> 53 <= d -> -1074 <= d + E - 53 ->
  exists mrs, shr_fexp 53 1024 m E l = (mrs, E + (d - 53)) /\
              shr_m mrs = m / 2 ^ (d - 53).
Proof.
  intros Hm Hd H53 Hmin. unfold shr_fexp, fexp, emin.
  rewrite (Zdigits2_unique m d Hm Hd).
  replace (Z.max (d + E - 53) (3 - 1024 - 53) - E) with (d - 53) by lia.
  unfold shr. destruct (d - 53) as [|p|p] eqn:En; try lia.
  - exists (shr_record_of_loc m l). split; [f_equal; lia|].
    rewrite shr_record_of_loc_m. cbn. rewrite Z.div_1_r. reflexivity.
  - exists (SpecFloat.iter_pos shr_1 p (shr_record_of_loc m l)). split; [reflexivity|].
    destruct (iter_shr_m p (shr_record_of_loc m l)) as [E1 _].
    { rewrite shr_record_of_loc_m. lia. }
    rewrite E1, shr_record_of_loc_m. reflexivity.
Qed.

Lemma div_pow2_range (m d : Z) :
  53 <= d -> 2 ^ (d - 1) <= m < 2 ^ d ->
  2 ^ 52 <= m / 2 ^ (d - 53) < 2 ^ 53.
Proof.
  intros Hd [H1 H2]. pose proof (pow2_pos (d - 53) ltac:(lia)) as Hp.
  assert (E1 : 2 ^ (d - 1) = 2 ^ 52 * 2 ^ (d - 53)).
  { rewrite <- Z.pow_add_r by lia. f_equal. lia. }
  assert (E2 : 2 ^ d = 2 ^ 53 * 2 ^ (d - 53)).
  { rewrite <- Z.pow_add_r by lia. f_equal. lia. }
  split.
  - apply Z.div_le_lower_bound; lia.
  - apply Z.div_lt_upper_bound; lia.
Qed.

(** Rounding of a positive number with at least 53 digits, above the
    subnormal range. *)
Lemma round_aux_normal (M : positive) (E d : Z) :
  2 ^ (d - 1) <= Z.pos M < 2 ^ d -> 53 <= d -> -1074 <= d + E - 53 ->
  exists m1,
    Z.pos M / 2 ^ (d - 53) <= m1 <= Z.pos M / 2 ^ (d - 53) + 1 /\
    binary_round_aux 53 1024 false (Z.pos M) E loc_Exact
    = if m1 <? 2 ^ 53 then round_pack m1 (E + (d - 53))
      else round_pack (2 ^ 52) (E + (d - 53) + 1).
Proof.
  intros Hd H53 Hmin.
  destruct (shr_fexp_normal (Z.pos M) E d loc_Exact ltac:(lia) Hd H53 Hmin)
    as (mrs & Es & Em).
  pose proof (div_pow2_range _ _ H53 Hd) as Hr.
  set (m' := Z.pos M / 2 ^ (d - 53)) in *.
  unfold binary_round_aux. rewrite Es, Em.
  pose proof (round_nearest_even_range m' (loc_of_shr_record mrs)) as Hrne.
  set (m1 := round_nearest_even m' (loc_of_shr_record mrs)) in *.
  exists m1. split; [exact Hrne|].
  destruct (m1 <? 2 ^ 53) eqn:Lt.
  - apply Z.ltb_lt in Lt.
    assert (R1 : 2 ^ (53 - 1) <= m1 < 2 ^ 53)
      by (change (2 ^ (53 - 1)) with (2 ^ 52); lia).
    destruct (shr_fexp_normal m1 (E + (d - 53)) 53 loc_Exact ltac:(lia) R1
                ltac:(lia) ltac:(lia)) as (mrs2 & Es2 & Em2).
    rewrite Es2. change (53 - 53) with 0 in *. rewrite Z.add_0_r.
    rewrite Em2. cbn [Z.pow]. rewrite Z.div_1_r.
    unfold round_pack. destruct m1 as [|p|p]; try lia.
    rewrite Pos2Z.id. reflexivity.
  - apply Z.ltb_ge in Lt. assert (m1 = 2 ^ 53) as -> by lia.
    assert (R1 : 2 ^ (54 - 1) <= 2 ^ 53 < 2 ^ 54) by (cbn; lia).
    destruct (shr_fexp_normal (2 ^ 53) (E + (d - 53)) 54 loc_Exact ltac:(cbn; lia) R1
                ltac:(lia) ltac:(lia)) as (mrs2 & Es2 & Em2).
    rewrite Es2. change (54 - 53) with 1 in *. rewrite Em2.
    change (2 ^ 53 / 2 ^ 1) with (2 ^ 52). reflexivity.
Qed.

(** The outcome of a rounding in the normal range: overflow, or a number
    with a 53-bit mantissa at most one unit of the last place above the
    exact value. *)
Lemma round_aux_bound (M : positive) (E d : Z) :
  2 ^ (d - 1) <= Z.pos M < 2 ^ d -> 53 <= d -> -1074 <= d + E - 53 ->
  let r := binary_round_aux 53 1024 false (Z.pos M) E loc_Exact in
  (r = S754_infinity false \/
   exists mx ex, r = S754_finite false mx ex /\
     2 ^ 52 <= Z.pos mx < 2 ^ 53 /\ E + (d - 53) <= ex <= 971 /\
     Z.pos mx * 2 ^ (ex - (E + (d - 53))) * 2 ^ (d - 53) <= Z.pos M + 2 ^ (d - 53)) /\
  (E + (d - 53) + 1 <= 971 \/
   (E + (d - 53) <= 971 /\ Z.pos M / 2 ^ (d - 53) + 1 < 2 ^ 53) ->
   r <> S754_infinity false).
Proof.
  intros Hd H53 Hmin r. subst r.
  destruct (round_aux_normal M E d Hd H53 Hmin) as (m1 & Hm1 & ->).
  pose proof (div_pow2_range _ _ H53 Hd) as Hr.
  pose proof (pow2_pos (d - 53) ltac:(lia)) as Hp.
  assert (Hmul : Z.pos M / 2 ^ (d - 53) * 2 ^ (d - 53) <= Z.pos M).
  { rewrite Z.mul_comm. apply Z.mul_div_le. lia. }
  set (n := d - 53) in *. set (m' := Z.pos M / 2 ^ n) in *.
  assert (Hb : m1 * 2 ^ n <= Z.pos M + 2 ^ n) by nia.
  destruct (m1 <? 2 ^ 53) eqn:Lt; unfold round_pack.
  - apply Z.ltb_lt in Lt. split.
    + destruct (E + n <=? 971) eqn:Le; [right|left; reflexivity].
      apply Z.leb_le in Le. exists (Z.to_pos m1), (E + n).
      rewrite Z2Pos.id by lia. rewrite Z.sub_diag. cbn [Z.pow].
      repeat split; try lia.
    + intros [H|[H _]]; (destruct (E + n <=? 971) eqn:Le;
        [discriminate | apply Z.leb_gt in Le; lia]).
  - apply Z.ltb_ge in Lt. assert (m1 = 2 ^ 53) by lia. subst m1. split.
    + destruct (E + n + 1 <=? 971) eqn:Le; [right|left; reflexivity].
      apply Z.leb_le in Le. exists (Z.to_pos (2 ^ 52)), (E + n + 1).
      replace (E + n + 1 - (E + n)) with 1 by lia.
      change (Z.pos (Z.to_pos (2 ^ 52)) * 2 ^ 1) with (2 ^ 53).
      change (Z.pos (Z.to_pos (2 ^ 52))) with (2 ^ 52).
      repeat split; try lia.
    + intros [H|[_ H]]; [|lia].
      destruct (E + n + 1 <=? 971) eqn:Le; [discriminate | apply Z.leb_gt in Le; lia].
Qed.

Lemma pos_iter_xO (w k : positive) : Z.pos (Pos.iter xO w k) = Z.pos w * 2 ^ Z.pos k.
Proof.
  induction k as [|k IH] using Pos.peano_ind.
  - cbn. lia.
  - rewrite Pos.iter_succ, Pos2Z.inj_xO, IH, Pos2Z.inj_succ, Z.pow_succ_r by lia. lia.
Qed.

(** The binary64 number nearest to a positive integer [w]: overflow, or
    [mx * 2^ex] with a 53-bit mantissa, at most [w * (1 + 2^-52)]. *)
Lemma nearest_bound (w : positive) :
  let r := binary_normalize 53 1024 (Z.pos w) 0 false in
  r = S754_infinity false \/
  exists mx ex, r = S754_finite false mx ex /\
    2 ^ 52 <= Z.pos mx < 2 ^ 53 /\ -52 <= ex <= 971 /\
    Z.pos mx * 2 ^ (ex + 52) <= (2 ^ 52 + 1) * Z.pos w.
Proof.
  intros r. subst r. unfold binary_normalize, binary_round, shl_align, fexp, emin.
  pose proof (digits2_pos_bounds w) as Hd.
  set (d := Z.pos (digits2_pos w)) in *. assert (1 <= d) by (subst d; lia).
  replace (Z.max (d + 0 - 53) (3 - 1024 - 53) - 0) with (d - 53) by lia.
  replace (Z.max (d + 0 - 53) (3 - 1024 - 53)) with (d - 53) by lia.
  destruct (d - 53) as [|p|k] eqn:En.
  - (* exactly 53 digits *)
    assert (d = 53) by lia. 
    destruct (round_aux_bound w 0 d Hd ltac:(lia) ltac:(lia)) as [[->|(mx & ex & -> & Hm & He & Hb)] _];
      [left; reflexivity|right].
    exists mx, ex. split; [reflexivity|]. split; [exact Hm|]. split; [lia|].
    replace (d - 53) with 0 in * by lia. rewrite Z.add_0_r, Z.sub_0_r in *.
    cbn [Z.pow] in Hb. rewrite Z.mul_1_r in Hb.
    rewrite Z.pow_add_r by lia.
    assert (2 ^ 52 <= Z.pos w).
    { replace (d - 1) with 52 in Hd by lia. lia. }
    assert (0 < 2 ^ ex) by (apply pow2_pos; lia). nia.
  - (* more than 53 digits *)
    destruct (round_aux_bound w 0 d Hd ltac:(lia) ltac:(lia)) as [[->|(mx & ex & -> & Hm & He & Hb)] _];
      [left; reflexivity|right].
    exists mx, ex. split; [reflexivity|]. split; [exact Hm|]. split; [lia|].
    rewrite En in *. set (n := Z.pos p) in *. rewrite Z.add_0_l in *.
    assert (E52 : 2 ^ (d - 1) = 2 ^ n * 2 ^ 52).
    { rewrite <- Z.pow_add_r by lia. f_equal. lia. }
    replace (ex + 52) with ((ex - n) + n + 52) by lia.
    rewrite !Z.pow_add_r by lia.
    assert (0 < 2 ^ n) by (apply pow2_pos; lia).
    assert (0 < 2 ^ (ex - n)) by (apply pow2_pos; lia).
    nia.
  - (* fewer than 53 digits: the mantissa is shifted up *)
    assert (Hk : Z.pos k = 53 - d) by lia.
    assert (Hmz : 2 ^ (53 - 1) <= Z.pos (Pos.iter xO w k) < 2 ^ 53).
    { rewrite pos_iter_xO, Hk.
      assert (E1 : 2 ^ (53 - 1) = 2 ^ (d - 1) * 2 ^ (53 - d)).
      { rewrite <- Z.pow_add_r by lia. f_equal. lia. }
      assert (E2 : 2 ^ 53 = 2 ^ d * 2 ^ (53 - d)).
      { rewrite <- Z.pow_add_r by lia. f_equal. lia. }
      rewrite E1, E2. assert (0 < 2 ^ (53 - d)) by (apply pow2_pos; lia). nia. }
    destruct (round_aux_bound (Pos.iter xO w k) (Z.neg k) 53 Hmz ltac:(lia) ltac:(lia))
      as [[->|(mx & ex & -> & Hm & He & Hb)] _]; [left; reflexivity|right].
    exists mx, ex. split; [reflexivity|]. split; [exact Hm|]. split; [lia|].
    change (53 - 53) with 0 in *. rewrite Z.add_0_r in *.
    cbn [Z.pow] in Hb. rewrite Z.mul_1_r in Hb. rewrite pos_iter_xO, Hk in Hb.
    replace (ex - Z.neg k) with (ex + (53 - d)) in Hb by lia.
    replace (ex + 52) with (ex + (53 - d) + (d - 1)) by lia.
    rewrite (Z.pow_add_r 2 (ex + (53 - d)) (d - 1)) by lia.
    assert (E3 : 2 ^ (53 - d) * 2 ^ (d - 1) = 2 ^ 52).
    { rewrite <- Z.pow_add_r by lia. f_equal. lia. }
    assert (0 < 2 ^ (d - 1)) by (apply pow2_pos; lia).
    assert (0 < 2 ^ (53 - d)) by (apply pow2_pos; lia).
    nia.
Qed.

(** The product of a binary64 number of 53-bit mantissa with [0.7]:
    a finite number, at most [x * (0.7 + 2^-52)]. *)
Lemma mul_0_7_bound (mx : positive) (ex : Z) :
  2 ^ 52 <= Z.pos mx < 2 ^ 53 -> -52 <= ex <= 971 ->
  exists my ey,
    SFmul 53 1024 (S754_finite false mx ex) (S754_finite false mantissa_0_7 (-53))
    = S754_finite false my ey /\
    -105 <= ey /\
    Z.pos my * 2 ^ (ey + 105) <= (Z.pos mantissa_0_7 + 2) * (Z.pos mx * 2 ^ (ex + 52)).
Proof.
  intros Hm He. cbn [SFmul xorb].
  assert (Hmc : 2 ^ 52 < Z.pos mantissa_0_7 < 2 ^ 53 - 1) by (split; reflexivity).
  assert (HM : 2 ^ 52 * Z.pos mantissa_0_7 <= Z.pos (mx * mantissa_0_7) < 2 ^ 53 * Z.pos mantissa_0_7).
  { rewrite Pos2Z.inj_mul. nia. }
  assert (P104 : 2 ^ 104 = 2 ^ 52 * 2 ^ 52) by reflexivity.
  assert (P105 : 2 ^ 105 = 2 ^ 53 * 2 ^ 52) by reflexivity.
  assert (P106 : 2 ^ 106 = 2 ^ 53 * 2 ^ 53) by reflexivity.
  assert (Hk : 0 < 2 ^ (ex + 52)) by (apply pow2_pos; lia).
  destruct (Z_lt_le_dec (Z.pos (mx * mantissa_0_7)) (2 ^ 105)) as [L|L].
  - (* 105 digits: 52 bits go *)
    assert (Hd : 2 ^ (105 - 1) <= Z.pos (mx * mantissa_0_7) < 2 ^ 105).
    { change (105 - 1) with 104. nia. }
    assert (H1 : 53 <= 105) by lia.
    assert (H2 : -1074 <= 105 + (ex + -53) - 53) by lia.
    destruct (round_aux_bound (mx * mantissa_0_7) (ex + -53) 105 Hd H1 H2)
      as [[R|(my & ey & R & Hy & Hey & Hb)] Hinf].
    { exfalso. apply Hinf; [left; lia | exact R]. }
    exists my, ey. split; [exact R|]. split; [lia|].
    change (105 - 53) with 52 in *.
    replace (ey + 105) with ((ey - (ex + -53 + 52)) + 52 + (ex + 52)) by lia.
    rewrite !Z.pow_add_r by lia.
    rewrite Pos2Z.inj_mul in Hb.
    assert (0 < 2 ^ (ey - (ex + -53 + 52))) by (apply pow2_pos; lia).
    nia.
  - (* 106 digits: 53 bits go *)
    assert (Hd : 2 ^ (106 - 1) <= Z.pos (mx * mantissa_0_7) < 2 ^ 106).
    { change (106 - 1) with 105. nia. }
    assert (H1 : 53 <= 106) by lia.
    assert (H2 : -1074 <= 106 + (ex + -53) - 53) by lia.
    destruct (round_aux_bound (mx * mantissa_0_7) (ex + -53) 106 Hd H1 H2)
      as [[R|(my & ey & R & Hy & Hey & Hb)] Hinf].
    { exfalso. apply Hinf; [right | exact R]. split; [lia|].
      change (106 - 53) with 53.
      assert (Z.pos (mx * mantissa_0_7) / 2 ^ 53 < Z.pos mantissa_0_7).
      { apply Z.div_lt_upper_bound; lia. }
      lia. }
    exists my, ey. split; [exact R|]. split; [lia|].
    change (106 - 53) with 53 in *.
    replace (ey + 105) with ((ey - (ex + -53 + 53)) + 53 + (ex + 52)) by lia.
    rewrite !Z.pow_add_r by lia.
    rewrite Pos2Z.inj_mul in Hb.
    assert (0 < 2 ^ (ey - (ex + -53 + 53))) by (apply pow2_pos; lia).
    nia.
Qed.

(* ===================================================================== *)
(** ** The power rule of the checker: the "exceeds" branch *)
(* ===================================================================== *)

Example c_0_7_mantissa : Float.c_0_7 = S754_finite false mantissa_0_7 (-53).
Proof. reflexivity. Qed.

(** [psu_power * 0.7] for a positive wattage [w]: a finite positive float
    whose value [my * 2^ey] is at most [w]. *)
Lemma mul_0_7_le (w : positive) (x : num) :
  Num.mul (NInt (Z.pos w)) (NFloat Float.c_0_7) = Ok x ->
  exists my ey, x = NFloat (S754_finite false my ey) /\ -105 <= ey /\
    Z.pos my * 2 ^ (ey + 105) <= Z.pos w * 2 ^ 105.
Proof.
  unfold Num.mul, Num.arith, Num.to_float, Float.of_Z, Float.nearest,
    Float.prec, Float.emax.
  destruct (nearest_bound w) as [->|(mx & ex & -> & Hm & He & Hb)];
    [discriminate|].
  cbn [mbind result_bind]. intros [= <-].
  destruct (mul_0_7_bound mx ex Hm He) as (my & ey & E & Hey & Hy).
  exists my, ey. split; [f_equal; exact E|]. split; [exact Hey|].
  assert (K : (Z.pos mantissa_0_7 + 2) * (2 ^ 52 + 1) <= 2 ^ 105) by (vm_compute; discriminate).
  assert (0 < Z.pos mantissa_0_7 + 2) by lia.
  nia.
Qed.

(** The risky test is the only one that matters for a positive wattage:
    when [w * 0.7 < t] is false, [t <= w]. *)
Lemma over_70_percent_false (w t : Z) :
  0 < w -> over_70_percent w t = Ok false -> t <= w.
Proof.
  intros Hw. destruct w as [|w|w]; try lia. unfold over_70_percent.
  destruct (Num.mul (NInt (Z.pos w)) (NFloat Float.c_0_7)) as [x|e] eqn:E;
    [|discriminate].
  cbn [mbind result_bind].
  destruct (mul_0_7_le w x E) as (my & ey & -> & Hey & Hb).
  unfold Num.ltb, Num.compare, Float.compare_Z, Float.signed.
  assert (P : 0 < 2 ^ 105) by reflexivity.
  destruct (0 <=? ey) eqn:S.
  - apply Z.leb_le in S. rewrite Z.pow_add_r in Hb by lia.
    destruct (Z.compare_spec (Z.pos my * 2 ^ ey) t) as [C|C|C]; try discriminate;
      intros _; nia.
  - apply Z.leb_gt in S.
    assert (E2 : 2 ^ 105 = 2 ^ (- ey) * 2 ^ (ey + 105)).
    { rewrite <- Z.pow_add_r by lia. f_equal. lia. }
    assert (0 < 2 ^ (ey + 105)) by (apply pow2_pos; lia).
    assert (0 < 2 ^ (- ey)) by (apply pow2_pos; lia).
    destruct (Z.compare_spec (Z.pos my) (t * 2 ^ (- ey))) as [C|C|C]; try discriminate;
      intros _; nia.
Qed.

(** Case analysis on the first computation of [m ≫= f = Ok r -> _]. *)
Ltac bind_goal x :=
  match goal with
  | |- (?m ≫= _) = Ok _ -> _ =>
      destruct m as [x|?]; cbn [mbind result_bind]; [|discriminate]
  end.

Lemma check_socket_not_exceeds (cpu mobo : option record) (ws : list string) :
  check_socket cpu mobo = Ok ws -> Forall (fun s => is_exceeds_warning s = false) ws.
Proof.
  unfold check_socket. destruct cpu as [c|], mobo as [m|];
    try (intros [= <-]; constructor).
  destruct (present (Some c) && present (Some m)); [|intros [= <-]; constructor].
  destruct (negb (truthy _) || negb (truthy _)).
  { intros [= <-]. repeat constructor. }
  bind_goal a. bind_goal b.
  destruct (bool_decide (a ≠ b)); intros [= <-]; repeat constructor.
Qed.

Lemma check_memory_not_exceeds (cpu mobo ram : option record) (ws : list string) :
  check_memory cpu mobo ram = Ok ws -> Forall (fun s => is_exceeds_warning s = false) ws.
Proof.
  unfold check_memory. destruct ram as [r|]; [|intros [= <-]; constructor].
  destruct (present (Some r) && (present cpu || present mobo));
    [|intros [= <-]; constructor].
  bind_goal g. bind_goal found1. bind_goal found2.
  destruct found2. { intros [= <-]. repeat constructor. }
  bind_goal inside.
  destruct inside; intros [= <-]; repeat constructor.
Qed.

(** The messages of the power rule, sorted by branch. *)
Lemma power_warning_kinds (total psu_power min_safe : Z) (e : exn) :
  is_exceeds_warning warn_psu_unknown = false /\
  is_exceeds_warning (warn_psu_risky total psu_power min_safe) = false /\
  is_exceeds_warning (warn_psu_error e) = false /\
  is_exceeds_warning (warn_psu_exceeds total psu_power) = true.
Proof. repeat split; try reflexivity. apply startswith_app. Qed.

(** C10, as stated, fails: not for any input.  A PSU of -10 W with a CPU
    of -108 W, a draw of -8 W, is not "risky" ([-10 * 0.7 < -8] is false)
    and the draw is above the wattage: [check_build] returns the warning
    of the "power draw exceeds PSU capacity" branch. *)
Lemma C10_counterexample_negative_wattage :
  check_build build_negative_wattage = Ok [warn_psu_exceeds (-8) (-10)] /\
  is_exceeds_warning (warn_psu_exceeds (-8) (-10)) = true /\
  over_70_percent (-10) (-8) = Ok false /\
  ~ Forall (fun s => is_exceeds_warning s = false) [warn_psu_exceeds (-8) (-10)].
Proof.
  assert (E : is_exceeds_warning (warn_psu_exceeds (-8) (-10)) = true) by vm_refl.
  split; [vm_refl|]. split; [exact E|]. split; [vm_refl|].
  intros F. inversion F as [|x l H _]. rewrite E in H. discriminate H.
Qed.

(** C10, amended: for every build whose PSU wattage, when [int()] reads
    one, is not negative, no warning that [check_build] returns is of the
    "power draw exceeds PSU capacity" branch: with [w > 0], when the risky
    test [w * 0.7 < total] (in binary64 arithmetic) is false, [total <= w]
    holds, so the branch behind it is never taken; a wattage of 0 is
    reported as missing before the test. *)
Theorem C10_exceeds_branch_unreachable (part_list : PartList) (ws : list string) :
  (forall p w, slot part_list "psu" = Some p ->
               py_int (get_or p "wattage" (VInt 0)) = Ok w -> 0 <= w) ->
  check_build part_list = Ok ws ->
  Forall (fun s => is_exceeds_warning s = false) ws /\
  (forall w total, 0 < w -> over_70_percent w total = Ok false -> total <= w).
Proof.
  intros Hw H. split; [|exact over_70_percent_false].
  unfold check_build in H.
  destruct (check_socket _ _) as [w1|e] eqn:E1; [|discriminate].
  cbn [mbind result_bind] in H.
  destruct (check_memory _ _ _) as [w2|e] eqn:E2; [|discriminate].
  cbn [mbind result_bind] in H. injection H as <-.
  apply Forall_app. split; [exact (check_socket_not_exceeds _ _ _ E1)|].
  apply Forall_app. split; [exact (check_memory_not_exceeds _ _ _ _ E2)|].
  unfold check_power. destruct (slot part_list "psu") as [p|] eqn:Ep; [|constructor].
  destruct (present (Some p) && _); [|constructor].
  destruct (power_body _ _ p) as [pw|e] eqn:Eb; [|repeat constructor].
  unfold power_body in Eb.
  destruct (tdp_of _ "Performance - TDP") as [c|e]; [|discriminate].
  cbn [mbind result_bind] in Eb.
  destruct (tdp_of _ "Board Design - TDP") as [g|e]; [|discriminate].
  cbn [mbind result_bind] in Eb.
  destruct (py_int (get_or p "wattage" (VInt 0))) as [w|e] eqn:Ewt; [|discriminate].
  cbn [mbind result_bind] in Eb. specialize (Hw p w eq_refl Ewt).
  destruct (w =? 0) eqn:W0. { injection Eb as <-. repeat constructor. }
  apply Z.eqb_neq in W0.
  destruct (over_70_percent w (c + g + 100)) as [[|]|e] eqn:Er; [| |discriminate];
    cbn [mbind result_bind] in Eb.
  - destruct (min_safe_psu _) as [m|e]; [|discriminate].
    cbn [mbind result_bind] in Eb. injection Eb as <-. repeat constructor.
  - pose proof (over_70_percent_false w (c + g + 100) ltac:(lia) Er) as Hle.
    destruct (c + g + 100 >? w) eqn:G; [apply Z.gtb_lt in G; lia|].
    injection Eb as <-. constructor.
Qed.

Lemma C10_exceeds_branch_unreachable_witness :
  Forall (fun s => is_exceeds_warning s = false)
         ["❌ RISKY: Estimated power draw (~400W) is >70% of PSU capacity (500W)! Recommend at least 571W."].
Proof.
  refine (proj1 (C10_exceeds_branch_unreachable build_500_400 _ _ _)).
  - intros p w Hp Hw.
    assert (E : slot build_500_400 "psu" = Some psu_500) by vm_refl.
    assert (p = psu_500) by congruence. subst p.
    assert (E2 : py_int (get_or psu_500 "wattage" (VInt 0)) = Ok 500) by vm_refl.
    assert (w = 500) by congruence. lia.
  - vm_refl.
Defined.

(* ===================================================================== *)
(** ** The examples of the design document *)
(* ===================================================================== *)

Example memory_match_ddr4_ddr5 : check_build (build_ddr5_kit "DDR4, DDR5") = Ok [].
Proof. vm_refl. Qed.

Example memory_mismatch_ddr4 :
  check_build (build_ddr5_kit "DDR4")
  = Ok ["❌ INCOMPATIBLE: RAM type (DDR5) does not match CPU/Mobo support (DDR4)!"].
Proof. vm_refl. Qed.

Example power_derivation_365 :
  _get_constraints build_65_200 = Ok {[ "estimated_power" := VInt 365 ]}.
Proof. vm_refl. Qed.

Example float_literals :
  Float.c_0_7 = S754_finite false 6305039478318694 (-53) /\
  Float.c_0_20 = S754_finite false 7205759403792794 (-55) /\
  Float.c_0_40 = S754_finite false 7205759403792794 (-54) /\
  Float.c_0_15 = S754_finite false 5404319552844595 (-55) /\
  Float.c_0_10 = S754_finite false 7205759403792794 (-56) /\
  Float.c_0_35 = S754_finite false 6305039478318694 (-54).
Proof. repeat split; reflexivity. Qed.

(** [90 * 0.7] is [62.99999999999999] in binary64, below 63: a PSU of
    90 W is "risky" for a draw of 63 W although 63 is 70% of 90. *)
Example risky_at_the_boundary : over_70_percent 90 63 = Ok true.
Proof. vm_refl. Qed.

(* ===================================================================== *)
(** * Further properties of the engine *)
(* ===================================================================== *)

(* ===================================================================== *)
(** ** Searching the catalogue *)
(* ===================================================================== *)

Lemma filter_result_inv {A} (f : A -> result bool) (l l' : list A) :
  filter_result f l = Ok l' ->
  l' = List.filter (fun x => yes (f x)) l /\
  Forall (fun x => is_ok (f x) = true) l.
Proof.
  revert l'. induction l as [|x r IH]; intros l'; cbn [filter_result].
  - intros [= <-]. split; [reflexivity | constructor].
  - destruct (f x) as [b|e] eqn:E; cbn [mbind result_bind]; [|discriminate].
    destruct (filter_result f r) as [r'|e]; cbn [mbind result_bind]; [|discriminate].
    intros [= <-]. destruct (IH r' eq_refl) as [-> F].
    split; [|constructor; [rewrite E; reflexivity | exact F]].
    cbn [List.filter]. rewrite E. destruct b; reflexivity.
Qed.

Lemma filter_sublist {A} (g : A -> bool) (l : list A) : sublist (List.filter g l) l.
Proof.
  induction l as [|x r IH]; cbn [List.filter]; [constructor|].
  destruct (g x); [apply sublist_skip | apply sublist_cons]; exact IH.
Qed.

Lemma yes_true (r : result bool) : yes r = true <-> r = Ok true.
Proof. destruct r as [[|]|]; cbn; split; congruence. Qed.

Lemma keyword_in_lower_true (keyword : string) (p : record) (field : string) :
  keyword_in_lower (Str.lower keyword) (get_or p field (VStr "")) = Ok true ->
  field_mentions p field keyword.
Proof.
  unfold keyword_in_lower, field_mentions.
  destruct (get_or p field (VStr "")) as [| | |s|]; try discriminate.
  intros [= H]. exists s. split; [reflexivity | exact H].
Qed.

Lemma search_match_true (part_type keyword : string) (cs p : record) :
  search_match part_type (Str.lower keyword) cs p = Ok true ->
  passes_constraints p cs = Ok true /\
  (field_mentions p "name" keyword \/
   (part_type = "video-card" /\ field_mentions p "chipset" keyword)).
Proof.
  unfold search_match.
  destruct (passes_constraints p cs) as [[|]|e]; cbn [mbind result_bind negb];
    try discriminate.
  destruct (keyword_in_lower _ (get_or p "name" _)) as [nm|e] eqn:En;
    cbn [mbind result_bind]; [|discriminate].
  destruct (String.eqb part_type "video-card") eqn:Ev.
  - apply String.eqb_eq in Ev.
    destruct (keyword_in_lower _ (get_or p "chipset" _)) as [cm|e] eqn:Ec;
      cbn [mbind result_bind]; [|discriminate].
    intros [= H]. split; [reflexivity|].
    destruct nm; [left; apply keyword_in_lower_true, En|].
    destruct cm; [|discriminate]. right. split; [exact Ev|].
    apply keyword_in_lower_true, Ec.
  - cbn [mbind result_bind]. intros [= H]. split; [reflexivity|].
    left. apply keyword_in_lower_true. rewrite En. f_equal.
    destruct nm; [reflexivity | discriminate].
Qed.

(** What a search that returns has computed: the filter of the catalogue
    by the test of the loop body, none of whose runs raised. *)
Lemma search_parts_inv (db : PartDatabase) (part_type keyword : string)
    (cs : record) (l : list record) :
  search_parts db part_type keyword cs = Ok l ->
  l = List.filter (fun p => yes (search_match part_type (Str.lower keyword) cs p))
                  (default [] (data db !! part_type)) /\
  Forall (fun p => is_ok (search_match part_type (Str.lower keyword) cs p) = true)
         (default [] (data db !! part_type)).
Proof.
  unfold search_parts. destruct (data db !! part_type) as [cat|]; cbn [from_option id].
  - apply filter_result_inv.
  - intros [= <-]. split; [reflexivity | constructor].
Qed.

(** X1: what [search_parts] returns is a sub-list of the catalogue of the
    category, in catalogue order, and each record of it passed the
    constraint set and carries the keyword, letter case aside, in its
    name (for a graphics card: in its name or its chipset). *)
Theorem search_parts_sound (db : PartDatabase) (part_type keyword : string)
    (constraints : record) (l : list record) :
  search_parts db part_type keyword constraints = Ok l ->
  sublist l (default [] (data db !! part_type)) /\
  Forall (fun p =>
            passes_constraints p constraints = Ok true /\
            (field_mentions p "name" keyword \/
             (part_type = "video-card" /\ field_mentions p "chipset" keyword))) l.
Proof.
  intros H. apply search_parts_inv in H as [-> _]. split; [apply filter_sublist|].
  apply Forall_filter_impl. apply Forall_forall. intros p _ Hp.
  apply yes_true in Hp. apply search_match_true, Hp.
Qed.

Lemma search_parts_sound_witness :
  sublist [cpu_ddr4] (default [] (data db_ddr3_ddr4 !! "cpu")) /\
  Forall (fun p =>
            passes_constraints p ∅ = Ok true /\
            (field_mentions p "name" "RYZEN" \/
             ("cpu" = "video-card" /\ field_mentions p "chipset" "RYZEN"))) [cpu_ddr4].
Proof.
  apply (search_parts_sound db_ddr3_ddr4 "cpu" "RYZEN" ∅). vm_refl.
Defined.

Lemma str_app_assoc (a b c : string) : (a +:+ b) +:+ c = a +:+ b +:+ c.
Proof. induction a as [|x a IH]; [reflexivity|]. rewrite !append_cons, IH. reflexivity. Qed.

Lemma lower_app (a b : string) : Str.lower (a +:+ b) = Str.lower a +:+ Str.lower b.
Proof.
  induction a as [|x a IH]; [reflexivity|].
  rewrite append_cons. cbn [Str.lower]. rewrite IH, append_cons. reflexivity.
Qed.

Lemma contains_trans (a b c : string) :
  Str.contains a b = true -> Str.contains b c = true -> Str.contains a c = true.
Proof.
  rewrite !contains_spec. intros (p1 & q1 & ->) (p2 & q2 & ->).
  exists (p2 +:+ p1), (q1 +:+ q2). rewrite !str_app_assoc. reflexivity.
Qed.

Lemma contains_lower (a b : string) :
  Str.contains a b = true -> Str.contains (Str.lower a) (Str.lower b) = true.
Proof.
  rewrite !contains_spec. intros (p & q & ->).
  exists (Str.lower p), (Str.lower q). rewrite !lower_app. reflexivity.
Qed.

Lemma contains_empty (s : string) : Str.contains "" s = true.
Proof. apply contains_spec. exists "", s. reflexivity. Qed.

Lemma passes_constraints_empty (p : record) : passes_constraints p ∅ = Ok true.
Proof.
  unfold passes_constraints, socket_rule, memory_rule, power_rule.
  rewrite !lookup_empty. reflexivity.
Qed.

(** X2: with the empty keyword and no constraints the search returns the
    whole catalogue of the category, provided every name (and, for the
    graphics cards, every chipset) that is given is a string. *)
Theorem search_parts_everything (db : PartDatabase) (part_type : string) :
  Forall (fun p =>
            (exists s, get_or p "name" (VStr "") = VStr s) /\
            (part_type = "video-card" -> exists s, get_or p "chipset" (VStr "") = VStr s))
         (default [] (data db !! part_type)) ->
  search_parts db part_type "" ∅ = Ok (default [] (data db !! part_type)).
Proof.
  unfold search_parts. destruct (data db !! part_type) as [cat|]; cbn [from_option id];
    [|reflexivity].
  induction 1 as [|p r [[s Hs] Hc] _ IH]; [reflexivity|].
  cbn [filter_result]. rewrite IH.
  assert (E : search_match part_type (Str.lower "") ∅ p = Ok true).
  { unfold search_match. rewrite passes_constraints_empty. cbn [mbind result_bind negb].
    rewrite Hs. cbn [keyword_in_lower mbind result_bind]. rewrite contains_empty.
    destruct (String.eqb part_type "video-card") eqn:Ev; [|reflexivity].
    apply String.eqb_eq in Ev. destruct (Hc Ev) as [c ->]. reflexivity. }
  rewrite E. reflexivity.
Qed.

Lemma search_parts_everything_witness :
  search_parts sample_db "video-card" "" ∅ = Ok [gpu_4060; gpu_4070].
Proof.
  refine (search_parts_everything sample_db "video-card" _).
  change (default [] (data sample_db !! "video-card")) with [gpu_4060; gpu_4070].
  apply Forall_cons_2.
  { split; [exists "RTX 4060" | intros _; exists ""]; vm_refl. }
  apply Forall_cons_2; [|apply Forall_nil_2].
  split; [exists "RTX 4070" | intros _; exists ""]; vm_refl.
Defined.

Lemma filter_sublist_impl {A} (g h : A -> bool) (l : list A) :
  Forall (fun x => g x = true -> h x = true) l ->
  sublist (List.filter g l) (List.filter h l).
Proof.
  induction 1 as [|x r Hx _ IH]; cbn [List.filter]; [constructor|].
  destruct (g x); [rewrite (Hx eq_refl); apply sublist_skip, IH|].
  destruct (h x); [apply sublist_cons, IH | exact IH].
Qed.

Lemma keyword_in_lower_narrow (kw kw' : string) (v : value) (b' : bool) :
  Str.contains kw' kw = true ->
  keyword_in_lower kw v = Ok true -> keyword_in_lower kw' v = Ok b' -> b' = true.
Proof.
  intros Hk. destruct v as [| | |s|]; try discriminate. cbn [keyword_in_lower].
  intros [= H] [= <-]. exact (contains_trans _ _ _ Hk H).
Qed.

Lemma search_match_narrow (part_type kw kw' : string) (cs p : record) :
  Str.contains kw' kw = true ->
  search_match part_type kw cs p = Ok true ->
  is_ok (search_match part_type kw' cs p) = true ->
  search_match part_type kw' cs p = Ok true.
Proof.
  intros Hk. unfold search_match.
  destruct (passes_constraints p cs) as [[|]|e]; cbn [mbind result_bind negb];
    try discriminate.
  destruct (keyword_in_lower kw (get_or p "name" _)) as [nm|e] eqn:En;
    cbn [mbind result_bind]; [|discriminate].
  destruct (keyword_in_lower kw' (get_or p "name" _)) as [nm'|e] eqn:En';
    cbn [mbind result_bind]; [|discriminate].
  destruct (String.eqb part_type "video-card"); cbn [mbind result_bind].
  - destruct (keyword_in_lower kw (get_or p "chipset" _)) as [cm|e] eqn:Ec;
      cbn [mbind result_bind]; [|discriminate].
    destruct (keyword_in_lower kw' (get_or p "chipset" _)) as [cm'|e] eqn:Ec';
      cbn [mbind result_bind]; [|discriminate].
    intros [= H] _. f_equal. apply orb_true_iff in H as [->| ->].
    + rewrite (keyword_in_lower_narrow _ _ _ _ Hk En En'). reflexivity.
    + rewrite (keyword_in_lower_narrow _ _ _ _ Hk Ec Ec'). apply orb_true_r.
  - rewrite orb_false_r. intros [= ->] _.
    rewrite (keyword_in_lower_narrow _ _ _ _ Hk En En'). reflexivity.
Qed.

(** X3: a keyword that is part of another one finds at least as much:
    when [keyword'] occurs in [keyword] (letter case aside), the records
    found for [keyword] are a sub-list of those found for [keyword'],
    under the same constraints. *)
Theorem search_parts_narrowing (db : PartDatabase) (part_type keyword keyword' : string)
    (constraints : record) (l l' : list record) :
  Str.contains (Str.lower keyword') (Str.lower keyword) = true ->
  search_parts db part_type keyword constraints = Ok l ->
  search_parts db part_type keyword' constraints = Ok l' ->
  sublist l l'.
Proof.
  intros Hk H H'. apply search_parts_inv in H as [-> _].
  apply search_parts_inv in H' as [-> F'].
  apply filter_sublist_impl. eapply Forall_impl; [exact F'|].
  cbn beta. intros p Hok Hp. apply yes_true. apply yes_true in Hp.
  exact (search_match_narrow _ _ _ _ _ Hk Hp Hok).
Qed.

Lemma search_parts_narrowing_witness :
  sublist [gpu_4060] [gpu_4060; gpu_4070].
Proof.
  apply (search_parts_narrowing sample_db "video-card" "RTX 4060" "rtx" ∅);
    vm_refl.
Defined.

(* ===================================================================== *)
(** ** Picking a part *)
(* ===================================================================== *)

Lemma affordable_true (budget : num) (p : record) :
  affordable budget p = Ok true <-> within_budget budget p.
Proof.
  unfold affordable, within_budget, value_le_num. split.
  - destruct (truthy (get p "price")) eqn:T; [|discriminate].
    destruct (as_num (get p "price")) as [x|]; [|discriminate].
    intros [= H]. exists x. auto.
  - intros (x & -> & -> & ->). reflexivity.
Qed.

Lemma elem_of_filter {A} (g : A -> bool) (l : list A) (x : A) :
  x ∈ List.filter g l <-> x ∈ l /\ g x = true.
Proof. rewrite !list_elem_of_In. apply filter_In. Qed.

Lemma head_sorted_desc_elem {A} (key : A -> Z) (l : list A) (r : A) :
  head (sorted_desc key l) = Some r -> r ∈ l.
Proof.
  intros H. pose proof (head_sorted_desc key l) as S. rewrite H in S.
  destruct S as (l1 & l2 & -> & _). apply elem_of_app. right. left.
Qed.

(** What a successful pick went through: the record is in the list that
    the search returned and passed the price test. *)
Lemma pick_part_inv (db : PartDatabase) (json_key : string) (budget : num)
    (cs r : record) :
  _pick_part db json_key budget cs = Ok (Some r) ->
  exists all_parts, search_parts db json_key "" cs = Ok all_parts /\
    r ∈ all_parts /\ affordable budget r = Ok true.
Proof.
  unfold _pick_part.
  destruct (search_parts db json_key "" cs) as [all_parts|e]; [|discriminate].
  cbn [mbind result_bind].
  destruct (filter_result (affordable budget) all_parts) as [aff|e] eqn:Ea;
    [|discriminate].
  cbn [mbind result_bind]. apply filter_result_inv in Ea as [Ea _].
  intros H. exists all_parts. split; [reflexivity|].
  assert (Hr : r ∈ aff).
  { destruct aff as [|a aff']; [discriminate|].
    destruct (String.eqb json_key "cpu").
    - destruct (filter_result mentions_ddr5 (a :: aff')) as [d5|e] eqn:Ed;
        [|discriminate].
      cbn [mbind result_bind] in H. apply filter_result_inv in Ed as [Ed _].
      destruct d5 as [|d d5']; cbn [mbind result_bind] in H.
      + injection H as H. exact (head_sorted_desc_elem price_key (a :: aff') r H).
      + injection H as H. apply (head_sorted_desc_elem price_key (d :: d5') r) in H.
        rewrite Ed in H. apply elem_of_filter in H as [H _]. exact H.
    - cbn [mbind result_bind] in H. injection H as H.
      exact (head_sorted_desc_elem price_key (a :: aff') r H). }
  rewrite Ea in Hr. apply elem_of_filter in Hr as [Hr Hy].
  split; [exact Hr | apply yes_true, Hy].
Qed.

(** X4: a part that [_pick_part] returns is a record of the catalogue of
    the category, passed the constraint set, and has a nonzero price that
    is at most the budget. *)
Theorem pick_part_sound (db : PartDatabase) (json_key : string) (budget : num)
    (constraints r : record) :
  _pick_part db json_key budget constraints = Ok (Some r) ->
  r ∈ default [] (data db !! json_key) /\
  passes_constraints r constraints = Ok true /\
  within_budget budget r.
Proof.
  intros H. apply pick_part_inv in H as (all_parts & Hs & Hr & Ha).
  apply search_parts_inv in Hs as [-> _].
  apply elem_of_filter in Hr as [Hr Hy]. apply yes_true in Hy.
  split; [exact Hr|]. split; [|apply affordable_true, Ha].
  exact (proj1 (search_match_true _ "" _ _ Hy)).
Qed.

Lemma pick_part_sound_witness :
  board_am4 ∈ default [] (data sample_db !! "motherboard") /\
  passes_constraints board_am4 sample_constraints = Ok true /\
  within_budget (NInt 2250000) board_am4.
Proof.
  apply (pick_part_sound sample_db "motherboard" (NInt 2250000) sample_constraints).
  vm_refl.
Defined.

(* ===================================================================== *)
(** ** The auto-builder against the checker *)
(* ===================================================================== *)

(** The warnings that each rule of [check_build] can give. *)
Lemma check_socket_warnings (cpu mobo : option record) (ws : list string) :
  check_socket cpu mobo = Ok ws ->
  ws = [] \/ ws = [warn_socket_unknown] \/
  exists a b, a <> b /\ ws = [warn_socket_mismatch a b].
Proof.
  unfold check_socket. destruct cpu as [c|], mobo as [m|];
    try (intros [= <-]; left; reflexivity).
  destruct (present (Some c) && present (Some m)); [|intros [= <-]; left; reflexivity].
  destruct (negb (truthy _) || negb (truthy _)).
  { intros [= <-]. right. left. reflexivity. }
  bind_goal a. bind_goal b.
  destruct (bool_decide (a ≠ b)) eqn:D; intros [= <-]; [|left; reflexivity].
  right. right. exists a, b. split; [apply bool_decide_eq_true in D; exact D | reflexivity].
Qed.

Lemma check_memory_warnings (cpu mobo ram : option record) (ws : list string) :
  check_memory cpu mobo ram = Ok ws ->
  ws = [] \/ ws = [warn_ram_unknown] \/ exists t m, ws = [warn_ram_mismatch t m].
Proof.
  unfold check_memory. destruct ram as [r|]; [|intros [= <-]; left; reflexivity].
  destruct (present (Some r) && (present cpu || present mobo));
    [|intros [= <-]; left; reflexivity].
  bind_goal g. bind_goal found1. bind_goal found2.
  destruct found2. { intros [= <-]. right. left. reflexivity. }
  bind_goal inside.
  destruct inside; intros [= <-]; [left; reflexivity|].
  right. right. eexists _, _. reflexivity.
Qed.

Lemma check_build_inv (pl : PartList) (ws : list string) :
  check_build pl = Ok ws ->
  exists w1 w2,
    check_socket (slot pl "cpu") (slot pl "motherboard") = Ok w1 /\
    check_memory (slot pl "cpu") (slot pl "motherboard") (slot pl "ram") = Ok w2 /\
    ws = (w1 ++ w2 ++ check_power (slot pl "cpu") (slot pl "gpu") (slot pl "psu"))%list.
Proof.
  unfold check_build.
  destruct (check_socket _ _) as [w1|e]; [|discriminate]. cbn [mbind result_bind].
  destruct (check_memory _ _ _) as [w2|e]; [|discriminate]. cbn [mbind result_bind].
  intros [= <-]. exists w1, w2. auto.
Qed.

Lemma passes_constraints_true (p cs : record) :
  passes_constraints p cs = Ok true ->
  socket_rule p cs = Ok true /\ memory_rule p cs = Ok true /\ power_rule p cs = Ok true.
Proof.
  unfold passes_constraints.
  destruct (socket_rule p cs) as [[|]|e]; cbn [mbind result_bind negb]; try discriminate.
  destruct (memory_rule p cs) as [[|]|e]; cbn [mbind result_bind negb]; try discriminate.
  auto.
Qed.

(** A PSU that passed the power rule of the filter is not "risky" for the
    estimated draw: its wattage reads 0 (no wattage given) or the test
    [psu_power * 0.7 < estimated_power] is false. *)
Lemma power_rule_true (p cs : record) (t : Z) :
  cs !! "estimated_power" = Some (VInt t) ->
  power_rule p cs = Ok true ->
  exists w, py_int (get_or p "wattage" (VInt 0)) = Ok w /\
            (w = 0 \/ over_70_percent w t = Ok false).
Proof.
  intros Hc. unfold power_rule. rewrite Hc. unfold has_key, get_or.
  destruct (p !! "wattage") as [v|]; cbn [from_option id].
  2:{ intros _. exists 0. auto. }
  destruct (py_int v) as [w|e]; cbn [mbind result_bind].
  2:{ destruct (exn_kind_of e); discriminate. }
  destruct (Num.mul (NInt w) (NFloat Float.c_0_7)) as [x|e] eqn:Em;
    cbn [mbind result_bind].
  2:{ destruct (exn_kind_of e); discriminate. }
  change (num_lt_value x (VInt t)) with (Ok (Num.ltb x (NInt t)) : result bool).
  cbn [mbind result_bind]. intros [= H]. exists w. split; [reflexivity|]. right.
  unfold over_70_percent. rewrite Em. cbn [mbind result_bind].
  f_equal. destruct (Num.ltb x (NInt t)); [discriminate | reflexivity].
Qed.

Lemma power_constraint_other (cpu gpu : option record) (k : string) (c : record) :
  k <> "estimated_power" -> power_constraint cpu gpu c !! k = c !! k.
Proof.
  intros Hk. unfold power_constraint.
  destruct (tdp_of cpu _) as [x|e]; cbn [mbind result_bind]; [|reflexivity].
  destruct (tdp_of gpu _) as [y|e]; cbn [mbind result_bind]; [|reflexivity].
  destruct ((x >? 0) || (y >? 0)); [|reflexivity].
  apply lookup_insert_ne. congruence.
Qed.

(** The estimated power of a constraint set that [_get_constraints]
    returned, when both TDPs are read. *)
Lemma get_constraints_power (build : PartList) (cs : record) (c g : Z) :
  _get_constraints build = Ok cs ->
  tdp_of (slot build "cpu") "Performance - TDP" = Ok c ->
  tdp_of (slot build "gpu") "Board Design - TDP" = Ok g ->
  cs !! "estimated_power"
  = if (c >? 0) || (g >? 0) then Some (VInt (c + g + 100)) else None.
Proof.
  unfold _get_constraints.
  destruct (socket_constraint _ _ ∅) as [c1|e] eqn:E1; [|discriminate].
  cbn [mbind result_bind].
  destruct (memory_constraint _ c1) as [c2|e] eqn:E2; [|discriminate].
  cbn [mbind result_bind]. intros [= <-] Hc Hg.
  unfold power_constraint. rewrite Hc, Hg. cbn [mbind result_bind].
  destruct ((c >? 0) || (g >? 0)); [apply lookup_insert_eq|].
  rewrite (memory_constraint_other _ "estimated_power" _ _ ltac:(discriminate) E2).
  rewrite (socket_constraint_other _ _ "estimated_power" _ _ ltac:(discriminate) E1).
  apply lookup_empty.
Qed.

(** A part with a name is a non-empty dict. *)
Lemma named_present (r : record) : is_Some (r !! "name") -> present (Some r) = true.
Proof.
  intros [v Hv]. unfold present. apply negb_true_iff, bool_decide_eq_false.
  intros ->. rewrite lookup_empty in Hv. discriminate.
Qed.

(** The slots of the builds of the stages of a run. *)
Lemma stage_slots (db : PartDatabase) (tf : spec_float) (sp : splits)
    cpu b1 r1 c1 mobo b2 r2 c2 ram b3 r3 bg gpu b4 ob c4 :
  after_cpu db tf sp cpu b1 r1 c1 -> after_mobo db tf sp b1 r1 c1 mobo b2 r2 c2 ->
  after_ram db tf sp b2 r2 c2 ram b3 r3 bg -> after_gpu db tf sp b3 bg gpu b4 ob c4 ->
  is_Some (cpu !! "name") /\
  slot b1 "cpu" = Some cpu /\ slot b2 "cpu" = Some cpu /\
  slot b4 "cpu" = Some cpu /\ slot b4 "gpu" = Some gpu.
Proof.
  intros (_ & A1 & _) (_ & A2 & _) (_ & A3 & _) (_ & A4 & _).
  assert (K0 : forall k, In k ["cpu"; "gpu"; "motherboard"; "ram"; "psu"; "case"] ->
            is_Some (parts new_PartList !! k)) by exact new_PartList_keys.
  assert (K3 : is_Some (parts b3 !! "gpu")).
  { apply (add_keys _ _ _ _ _ A3), (add_keys _ _ _ _ _ A2), (add_keys _ _ _ _ _ A1), K0.
    cbn; tauto. }
  assert (S1 : slot b1 "cpu" = Some cpu).
  { apply (add_slot_eq _ _ _ _ A1), K0. cbn; tauto. }
  split. { apply (add_named _ _ _ _ A1), K0. cbn; tauto. }
  split; [exact S1|]. split.
  { rewrite (add_slot_ne _ _ _ _ _ A2) by discriminate. exact S1. }
  split.
  - rewrite (add_slot_ne _ _ _ _ _ A4), (add_slot_ne _ _ _ _ _ A3),
      (add_slot_ne _ _ _ _ _ A2) by discriminate. exact S1.
  - exact (add_slot_eq _ _ _ _ A4 K3).
Qed.

Lemma run_psu_unrated :
  run_auto_build db_psu_unrated (NInt 15000000) "gaming"
  = Ok (Some build_psu_unrated, [warn_psu_unknown]).
Proof. vm_refl. Qed.

(** X5: the PSU of a build that [run_auto_build] returns is never
    reported as "risky" by the final check, provided the TDP of the CPU
    or that of the GPU is positive whenever both are read: the PSU filter
    and the checker apply the same test to the same estimated draw. *)
Theorem auto_build_never_risky (db : PartDatabase) (total : num) (purpose : string)
    (build : PartList) (ws : list string) :
  run_auto_build db total purpose = Ok (Some build, ws) ->
  (forall c g,
     tdp_of (slot build "cpu") "Performance - TDP" = Ok c ->
     tdp_of (slot build "gpu") "Board Design - TDP" = Ok g -> 0 < c \/ 0 < g) ->
  Forall (fun s => is_risky_warning s = false) ws.
Proof.
  intros H Htdp.
  destruct (run_auto_build_outcome _ _ _ _ H) as (tf & Etf & O).
  inversion O as [ | | | |
    | cpu b1 r1 c1 mobo b2 r2 c2 ram b3 r3 bg gpu b4 ob c4 psu b5 case b6 ws'
        A1 A2 A3 A4 E5 Eb5 Ecase Eb6 Ews ]; subst.
  destruct (run_slots _ _ _ _ _ _ _ _ _ _ _ _ _ _ _ _ _ _ _ _ _ _ _
              A1 A2 A3 A4 Eb5 Eb6) as (S1 & S2 & S3 & S4 & S5).
  destruct (stage_slots _ _ _ _ _ _ _ _ _ _ _ _ _ _ _ _ _ _ _ A1 A2 A3 A4)
    as (_ & _ & _ & T1 & T4).
  apply check_build_inv in Ews as (w1 & w2 & W1 & W2 & ->).
  apply Forall_app. split.
  { destruct (check_socket_warnings _ _ _ W1) as [-> | [-> | (a & b & _ & ->)]];
      repeat constructor. }
  apply Forall_app. split.
  { destruct (check_memory_warnings _ _ _ _ W2) as [-> | [-> | (t & m & ->)]];
      repeat constructor. }
  rewrite S5. unfold check_power.
  destruct (present (Some psu) && _); [|constructor].
  unfold power_body.
  destruct (tdp_of (slot build "cpu") _) as [c|e] eqn:Ec; cbn [mbind result_bind];
    [|repeat constructor].
  destruct (tdp_of (slot build "gpu") _) as [g|e] eqn:Eg; cbn [mbind result_bind];
    [|repeat constructor].
  specialize (Htdp c g eq_refl eq_refl).
  assert (Hc4 : c4 !! "estimated_power" = Some (VInt (c + g + 100))).
  { rewrite (get_constraints_power b4 c4 c g).
    - destruct (c >? 0) eqn:C; [reflexivity|]. destruct (g >? 0) eqn:G; [reflexivity|].
      rewrite Z.gtb_ltb in C, G. apply Z.ltb_ge in C, G. lia.
    - apply A4.
    - rewrite T1, <- S1. exact Ec.
    - rewrite T4, <- S4. exact Eg. }
  apply pick_part_inv in E5 as (all_parts & Hs & Hr & _).
  apply search_parts_inv in Hs as [-> _]. apply elem_of_filter in Hr as [_ Hy].
  apply yes_true, (search_match_true _ "") in Hy as [Hy _].
  apply passes_constraints_true in Hy as (_ & _ & Hp).
  destruct (power_rule_true _ _ _ Hc4 Hp) as (w & -> & Hw). cbn [mbind result_bind].
  destruct (w =? 0) eqn:W0; [repeat constructor|].
  destruct Hw as [-> | ->]; [discriminate|]. cbn [mbind result_bind].
  destruct (c + g + 100 >? w); repeat constructor.
Qed.

(** With the PSU of 350 W the sample build is risky; the run over the
    catalogue that lists it takes the PSU of 650 W, which the filter lets
    through, and the final check, which applies the 70% test to it,
    reports nothing. *)
Lemma run_two_psus :
  run_auto_build db_two_psus (NInt 15000000) "gaming" = Ok (Some sample_build, []).
Proof. vm_refl. Qed.

Example psu_350_risky :
  check_build build_psu_350
  = Ok ["❌ RISKY: Estimated power draw (~280W) is >70% of PSU capacity (350W)! Recommend at least 400W."] /\
  _pick_part db_two_psus "power-supply" (NFloat (Float.nearest 750000)) ∅
  = Ok (Some psu_350) /\
  _pick_part db_two_psus "power-supply" (NFloat (Float.nearest 750000))
    {[ "estimated_power" := VInt 280 ]} = Ok (Some psu_650).
Proof. repeat split; vm_refl. Qed.

Lemma auto_build_never_risky_witness :
  run_auto_build db_two_psus (NInt 15000000) "gaming" = Ok (Some sample_build, []) /\
  Forall (fun s => is_risky_warning s = false) ([] : list string).
Proof.
  split; [exact run_two_psus|].
  apply (auto_build_never_risky db_two_psus (NInt 15000000) "gaming"
           sample_build [] run_two_psus).
  intros c g Hc Hg.
  assert (E : tdp_of (slot sample_build "cpu") "Performance - TDP" = Ok 65)
    by vm_refl.
  left. assert (c = 65) by congruence. lia.
Defined.

Lemma check_power_warnings (cpu gpu psu : option record) :
  let ws := check_power cpu gpu psu in
  ws = [] \/ ws = [warn_psu_unknown] \/ (exists t w m, ws = [warn_psu_risky t w m]) \/
  (exists t w, ws = [warn_psu_exceeds t w]) \/ exists e, ws = [warn_psu_error e].
Proof.
  unfold check_power. destruct psu as [p|]; [|left; reflexivity].
  destruct (present (Some p) && _); [|left; reflexivity].
  destruct (power_body cpu gpu p) as [ws|e] eqn:E.
  2:{ right. right. right. right. exists e. reflexivity. }
  revert E. unfold power_body.
  bind_goal c. bind_goal g. bind_goal w.
  destruct (w =? 0). { intros [= <-]. right. left. reflexivity. }
  bind_goal risky. destruct risky.
  { bind_goal m. intros [= <-]. right. right. left. eexists _, _, _. reflexivity. }
  destruct (_ >? _); intros [= <-]; [|left; reflexivity].
  right. right. right. left. eexists _, _. reflexivity.
Qed.

(** A part with socket data that passed the socket rule of the filter
    normalises to what the constraint normalises to. *)
Lemma socket_rule_true (p cs : record) (craw : value) :
  cs !! "socket" = Some craw ->
  socket_rule p cs = Ok true ->
  truthy (py_or (get p "socket") (get p "Physical - Socket")) = true ->
  exists n, _normalize_socket craw = Ok n /\
    _normalize_socket (py_or (get p "socket") (get p "Physical - Socket")) = Ok n.
Proof.
  intros Hc. unfold socket_rule. rewrite Hc. cbn zeta. intros H T. revert H.
  rewrite T.
  destruct (_normalize_socket craw) as [a|e]; cbn [mbind result_bind]; [|discriminate].
  destruct (_normalize_socket (py_or _ _)) as [b|e]; cbn [mbind result_bind];
    [|discriminate].
  intros [= H]. apply bool_decide_eq_true in H. subst b. exists a. auto.
Qed.

Lemma get_VStr (d : record) (k s : string) : get d k = VStr s -> d !! k = Some (VStr s).
Proof. unfold get. destruct (d !! k); cbn; [congruence | discriminate]. Qed.

(** X6: when the socket of the chosen CPU normalises to a name that
    normalisation leaves as it is (as ["am4"], ["am5"] and the digits of
    an LGA socket are), the final check of a build that [run_auto_build]
    returns reports no socket mismatch: the motherboard filter and the
    checker compare the same normalised names. *)
Theorem auto_build_socket_match (db : PartDatabase) (total : num) (purpose : string)
    (build : PartList) (ws : list string) (cpu : record) (n : string) :
  run_auto_build db total purpose = Ok (Some build, ws) ->
  slot build "cpu" = Some cpu ->
  _normalize_socket (get cpu "Physical - Socket") = Ok (Some n) ->
  _normalize_socket (VStr n) = Ok (Some n) ->
  Forall (fun s => is_socket_mismatch s = false) ws.
Proof.
  intros H Hcpu Hn Hfix.
  destruct (run_auto_build_outcome _ _ _ _ H) as (tf & Etf & O).
  inversion O as [ | | | |
    | cpu' b1 r1 c1 mobo b2 r2 c2 ram b3 r3 bg gpu b4 ob c4 psu b5 case b6 ws'
        A1 A2 A3 A4 E5 Eb5 Ecase Eb6 Ews ]; subst.
  destruct (run_slots _ _ _ _ _ _ _ _ _ _ _ _ _ _ _ _ _ _ _ _ _ _ _
              A1 A2 A3 A4 Eb5 Eb6) as (S1 & S2 & S3 & S4 & S5).
  destruct (stage_slots _ _ _ _ _ _ _ _ _ _ _ _ _ _ _ _ _ _ _ A1 A2 A3 A4)
    as (Nm & T1 & _).
  assert (cpu' = cpu) by congruence. subst cpu'.
  assert (T : truthy (get cpu "Physical - Socket") = true).
  { destruct (truthy (get cpu "Physical - Socket")) eqn:T; [reflexivity|].
    unfold _normalize_socket in Hn. rewrite T in Hn. discriminate. }
  destruct (cpu_socket_constraint b1 cpu c1 T1 Nm (proj2 (proj2 (proj2 A1))) T)
    as (n' & Hn' & Hc1).
  assert (n' = n) by congruence. subst n'. apply get_VStr in Hc1.
  apply check_build_inv in Ews as (w1 & w2 & W1 & W2 & ->).
  apply Forall_app. split.
  2:{ apply Forall_app. split.
      - destruct (check_memory_warnings _ _ _ _ W2) as [-> | [-> | (t & m & ->)]];
          repeat constructor.
      - destruct (check_power_warnings (slot build "cpu") (slot build "gpu")
                    (slot build "psu"))
          as [-> | [-> | [(t & w & m & ->) | [(t & w & ->) | (e & ->)]]]];
          repeat constructor. }
  destruct A2 as (P2 & _).
  apply pick_part_inv in P2 as (all_parts & Hs & Hr & _).
  apply search_parts_inv in Hs as [-> _]. apply elem_of_filter in Hr as [_ Hy].
  apply yes_true, (search_match_true _ "") in Hy as [Hy _].
  apply passes_constraints_true in Hy as (Hsock & _).
  pose proof (socket_rule_true _ _ _ Hc1 Hsock) as Hm.
  revert W1. rewrite S1, S2. unfold check_socket.
  destruct (present (Some cpu) && present (Some mobo)); [|intros [= <-]; constructor].
  assert (Ecpu : py_or (get cpu "Physical - Socket") (get cpu "socket")
                 = get cpu "Physical - Socket") by (unfold py_or; rewrite T; reflexivity).
  rewrite Ecpu, T. cbn [negb orb].
  destruct (truthy (py_or (get mobo "socket") (get mobo "Physical - Socket"))) eqn:Tm;
    cbn [negb]; [|intros [= <-]; repeat constructor].
  destruct (Hm eq_refl) as (k & Hk1 & Hk2). rewrite Hfix in Hk1. injection Hk1 as <-.
  rewrite Hn, Hk2. cbn [mbind result_bind].
  rewrite bool_decide_eq_false_2 by (intros N; apply N; reflexivity).
  intros [= <-]. constructor.
Qed.

Lemma auto_build_socket_match_witness :
  Forall (fun s => is_socket_mismatch s = false) [warn_psu_unknown].
Proof.
  apply (auto_build_socket_match db_psu_unrated (NInt 15000000) "gaming"
           build_psu_unrated [warn_psu_unknown] sample_cpu "am4" run_psu_unrated);
    vm_refl.
Defined.

(* ===================================================================== *)
(** ** Socket names that normalisation leaves alone *)
(* ===================================================================== *)

Lemma is_digit_code (a : ascii) :
  Str.is_digit a = true -> (48 <= Str.code a <= 57)%N.
Proof.
  unfold Str.is_digit. cbn zeta. intros H. apply andb_true_iff in H as [H1 H2].
  apply N.leb_le in H1, H2. lia.
Qed.

Lemma digit_not_space (a : ascii) : Str.is_digit a = true -> Str.is_space a = false.
Proof.
  intros H. apply is_digit_code in H. unfold Str.is_space. cbn zeta.
  apply orb_false_iff. split; apply andb_false_iff.
  - right. apply N.leb_gt. lia.
  - right. apply N.leb_gt. lia.
Qed.

Lemma digit_not_upper (a : ascii) : Str.is_digit a = true -> Str.is_upper a = false.
Proof.
  intros H. apply is_digit_code in H. unfold Str.is_upper. cbn zeta.
  apply andb_false_iff. left. apply N.leb_gt. lia.
Qed.

Lemma digits_remove_spaces (d : string) :
  Str.forallb Str.is_digit d = true -> Str.remove_spaces d = d.
Proof.
  unfold Str.remove_spaces. induction d as [|a d IH]; [reflexivity|].
  cbn [Str.forallb Str.filter]. intros H. apply andb_true_iff in H as [Ha Hd].
  rewrite (digit_not_space a Ha). cbn [negb]. f_equal. exact (IH Hd).
Qed.

Lemma digits_lower (d : string) :
  Str.forallb Str.is_digit d = true -> Str.lower d = d.
Proof.
  induction d as [|a d IH]; [reflexivity|].
  cbn [Str.forallb Str.lower]. intros H. apply andb_true_iff in H as [Ha Hd].
  unfold Str.lower_char. rewrite (digit_not_upper a Ha). f_equal. exact (IH Hd).
Qed.

(** A word that starts with a letter does not occur among digits. *)
Lemma digits_not_contains (b : ascii) (sub d : string) :
  Str.is_digit b = false -> Str.forallb Str.is_digit d = true ->
  Str.contains (String b sub) d = false.
Proof.
  intros Hb. induction d as [|a d IH]; [reflexivity|].
  cbn [Str.forallb]. intros H. apply andb_true_iff in H as [Ha Hd].
  rewrite contains_unfold, (IH Hd), orb_false_r.
  unfold Str.startswith. cbn [String.prefix].
  destruct (ascii_dec b a) as [->|_]; [congruence | reflexivity].
Qed.

Lemma replace_aux_absent (fuel : nat) (old new s : string) :
  Str.contains old s = false -> Str.replace_aux fuel old new s = s.
Proof.
  revert s. induction fuel as [|fuel IH]; intros s H; [reflexivity|].
  destruct s as [|a s]; [reflexivity|]. cbn [Str.replace_aux].
  rewrite contains_unfold in H. apply orb_false_iff in H as [H1 H2].
  rewrite H1. f_equal. exact (IH s H2).
Qed.

Lemma replace_absent (old new s : string) :
  Str.contains old s = false -> Str.replace old new s = s.
Proof. apply replace_aux_absent. Qed.

Lemma normalize_socket_digits (d : string) :
  d <> "" -> Str.forallb Str.is_digit d = true ->
  _normalize_socket (VStr d) = Ok (Some d).
Proof.
  intros Hd D. unfold _normalize_socket. rewrite (truthy_VStr d Hd). cbn [negb].
  rewrite (digits_remove_spaces d D), (digits_lower d D).
  rewrite !(digits_not_contains _ _ d) by (reflexivity || exact D).
  cbn [orb].
  rewrite (replace_absent "amd") by (apply digits_not_contains; [reflexivity | exact D]).
  rewrite (replace_absent "intel") by (apply digits_not_contains; [reflexivity | exact D]).
  rewrite (replace_absent "socket") by (apply digits_not_contains; [reflexivity | exact D]).
  reflexivity.
Qed.

(** X7: the names that the AMD rules and the two Intel rules produce are
    left as they are by a second normalisation: ["am4"], ["am5"] and every
    non-empty string of digits.  Normalisation is not idempotent on every
    input: ["AMD"] normalises to the empty string, and the empty string to
    [None]. *)
Theorem normalize_socket_fixed_points (raw n : string) :
  _normalize_socket (VStr raw) = Ok (Some n) ->
  Str.contains "am4" (Str.lower (Str.remove_spaces raw)) = true \/
  Str.contains "am5" (Str.lower (Str.remove_spaces raw)) = true \/
  Str.search_lit_digits "lga" (Str.lower (Str.remove_spaces raw)) = Some n \/
  (Str.contains "lga" (Str.lower (Str.remove_spaces raw)) = false /\
   Str.search_4digits (Str.lower (Str.remove_spaces raw)) = Some n) ->
  _normalize_socket (VStr n) = Ok (Some n).
Proof.
  unfold _normalize_socket at 1.
  destruct (truthy (VStr raw)); cbn [negb]; [|discriminate].
  set (s := Str.lower (Str.remove_spaces raw)).
  destruct (Str.contains "am4" s) eqn:A4. { intros [= <-] _. reflexivity. }
  destruct (Str.contains "am5" s) eqn:A5. { intros [= <-] _. reflexivity. }
  intros H [?|[?|[L|[NL D4]]]]; try discriminate.
  - apply search_lit_digits_sound in L as (Hne & Hd & _).
    exact (normalize_socket_digits n Hne Hd).
  - apply search_4digits_sound in D4 as (Hlen & Hd & _).
    apply normalize_socket_digits; [|exact Hd].
    intros ->. discriminate.
Qed.

Lemma normalize_socket_fixed_points_witness :
  _normalize_socket (VStr "1700") = Ok (Some "1700").
Proof.
  apply (normalize_socket_fixed_points "LGA 1700" "1700"); [vm_refl|].
  right. right. left. vm_refl.
Defined.

Example normalize_socket_not_idempotent :
  _normalize_socket (VStr "AMD") = Ok (Some "") /\ _normalize_socket (VStr "") = Ok None.
Proof. split; reflexivity. Qed.

(* ===================================================================== *)
(** ** The auto-builder against the checker: memory *)
(* ===================================================================== *)

Lemma before_comma_prefix (s : string) : exists q, s = before_comma s +:+ q.
Proof.
  induction s as [|a s [q IH]]; [exists ""; reflexivity|].
  cbn [before_comma]. destruct (Ascii.eqb a ","); [exists (String a s); reflexivity|].
  exists q. rewrite append_cons. f_equal. exact IH.
Qed.

Lemma lstrip_suffix (s : string) : exists p, s = p +:+ lstrip s.
Proof.
  induction s as [|a s [p IH]]; [exists ""; reflexivity|].
  cbn [lstrip]. destruct (Str.is_space a); [|exists ""; reflexivity].
  exists (String a p). rewrite append_cons. f_equal. exact IH.
Qed.

Lemma rstrip_prefix (s : string) : exists q, s = rstrip_aux s +:+ q.
Proof.
  induction s as [|a s [q IH]]; [exists ""; reflexivity|].
  cbn [rstrip_aux]. destruct (rstrip_aux s) as [|b r] eqn:E.
  - destruct (Str.is_space a); [exists (String a s); reflexivity|].
    exists s. reflexivity.
  - exists q. rewrite append_cons. f_equal. exact IH.
Qed.

Lemma first_token_contains (m t : string) :
  first_token (VStr m) = Ok t -> Str.contains t m = true.
Proof.
  intros [= <-]. apply contains_spec. unfold strip.
  destruct (before_comma_prefix m) as [q1 E1].
  destruct (lstrip_suffix (before_comma m)) as [p E2].
  destruct (rstrip_prefix (lstrip (before_comma m))) as [q2 E3].
  exists p, (q2 +:+ q1).
  rewrite <- (str_app_assoc (rstrip_aux _) q2 q1), <- E3.
  rewrite <- (str_app_assoc p _ q1), <- E2. exact E1.
Qed.

(** The memory type that a CPU with a non-empty memory support string
    gives rise to occurs in that string. *)
Lemma cpu_memory_constraint (b : PartList) (cpu cs : record) (m : string) :
  slot b "cpu" = Some cpu -> is_Some (cpu !! "name") ->
  _get_constraints b = Ok cs ->
  get cpu "Architecture - Memory Support" = VStr m -> m <> "" ->
  exists t, cs !! "memory_type" = Some (VStr t) /\ Str.contains t m = true.
Proof.
  intros Hs Nm H Hm Hne. unfold _get_constraints in H. rewrite Hs in H.
  destruct (socket_constraint _ _ ∅) as [c1|e]; [|discriminate].
  cbn [mbind result_bind] in H.
  destruct (memory_constraint (Some cpu) c1) as [c2|e] eqn:E2; [|discriminate].
  cbn [mbind result_bind] in H. injection H as <-.
  rewrite power_constraint_other by discriminate.
  unfold memory_constraint in E2.
  rewrite (named_present cpu Nm), Hm, (truthy_VStr m Hne) in E2.
  cbn [andb py_in mbind result_bind] in E2.
  destruct (Str.contains "DDR5" m) eqn:D5.
  { injection E2 as <-. exists "DDR5". split; [apply lookup_insert_eq | exact D5]. }
  destruct (Str.contains "DDR4" m) eqn:D4.
  { injection E2 as <-. exists "DDR4". split; [apply lookup_insert_eq | exact D4]. }
  destruct (first_token (VStr m)) as [t|e] eqn:Et; [|discriminate].
  cbn [mbind result_bind] in E2. injection E2 as <-.
  exists t. split; [apply lookup_insert_eq | exact (first_token_contains m t Et)].
Qed.

(** A kit (a record with [speed] and [modules]) that passed the memory
    rule of the filter: its generation prefixes the memory type. *)
Lemma memory_rule_true (p cs : record) (t : string) :
  cs !! "memory_type" = Some (VStr t) ->
  has_key "speed" p && has_key "modules" p = true ->
  memory_rule p cs = Ok true ->
  exists g, py_index0 (get_or p "speed" (VList [VInt 0; VInt 0])) = Ok g /\
            Str.startswith t ("DDR" +:+ py_str g) = true.
Proof.
  intros Hc Hk. unfold memory_rule. rewrite Hc, Hk.
  destruct (py_index0 _) as [g|e]; cbn [mbind result_bind]; [|discriminate].
  destruct (value_eqb g (VInt 0)); [discriminate|].
  intros [= H]. exists g. auto.
Qed.

Lemma startswith_contains (s p : string) :
  Str.startswith s p = true -> Str.contains p s = true.
Proof.
  intros H. apply startswith_split in H. apply contains_spec.
  exists "", (Str.drop (String.length p) s). exact H.
Qed.

(** X8: when the chosen CPU states its memory support (a non-empty
    string without the marker ["NOT_FOUND"]) and the chosen RAM is a kit
    with [speed] and [modules], the final check of a build that
    [run_auto_build] returns reports no RAM mismatch: the generation of
    the kit prefixes the memory type derived from the CPU, which occurs in
    the memory support of the CPU. *)
Theorem auto_build_memory_match (db : PartDatabase) (total : num) (purpose : string)
    (build : PartList) (ws : list string) (cpu ram : record) (m : string) :
  run_auto_build db total purpose = Ok (Some build, ws) ->
  slot build "cpu" = Some cpu -> slot build "ram" = Some ram ->
  get cpu "Architecture - Memory Support" = VStr m ->
  m <> "" -> Str.contains "NOT_FOUND" m = false ->
  has_key "speed" ram && has_key "modules" ram = true ->
  Forall (fun s => is_ram_mismatch s = false) ws.
Proof.
  intros H Hcpu Hram Hm Hne Hnf Hkit.
  destruct (run_auto_build_outcome _ _ _ _ H) as (tf & Etf & O).
  inversion O as [ | | | |
    | cpu' b1 r1 c1 mobo b2 r2 c2 ram' b3 r3 bg gpu b4 ob c4 psu b5 case b6 ws'
        A1 A2 A3 A4 E5 Eb5 Ecase Eb6 Ews ]; subst.
  destruct (run_slots _ _ _ _ _ _ _ _ _ _ _ _ _ _ _ _ _ _ _ _ _ _ _
              A1 A2 A3 A4 Eb5 Eb6) as (S1 & S2 & S3 & S4 & S5).
  destruct (stage_slots _ _ _ _ _ _ _ _ _ _ _ _ _ _ _ _ _ _ _ A1 A2 A3 A4)
    as (Nm & _ & T2 & _).
  assert (cpu' = cpu) by congruence. subst cpu'.
  assert (ram' = ram) by congruence. subst ram'.
  destruct (cpu_memory_constraint b2 cpu c2 m T2 Nm (proj2 (proj2 (proj2 A2))) Hm Hne)
    as (t & Hc2 & Ht).
  apply check_build_inv in Ews as (w1 & w2 & W1 & W2 & ->).
  apply Forall_app. split.
  { destruct (check_socket_warnings _ _ _ W1) as [-> | [-> | (a & b & _ & ->)]];
      repeat constructor. }
  apply Forall_app. split.
  2:{ destruct (check_power_warnings (slot build "cpu") (slot build "gpu")
                  (slot build "psu"))
        as [-> | [-> | [(x & w & y & ->) | [(x & w & ->) | (e & ->)]]]];
        repeat constructor. }
  destruct A3 as (P3 & _).
  apply pick_part_inv in P3 as (all_parts & Hs & Hr & _).
  apply search_parts_inv in Hs as [-> _]. apply elem_of_filter in Hr as [_ Hy].
  apply yes_true, (search_match_true _ "") in Hy as [Hy _].
  apply passes_constraints_true in Hy as (_ & Hmem & _).
  destruct (memory_rule_true _ _ _ Hc2 Hkit Hmem) as (g & Hg & Hpre).
  assert (Hin : Str.contains ("DDR" +:+ py_str g) m = true).
  { exact (contains_trans _ _ _ (startswith_contains _ _ Hpre) Ht). }
  revert W2. rewrite S1, S3. unfold check_memory.
  destruct (present (Some ram) && _); [|intros [= <-]; constructor].
  rewrite Hg. cbn [mbind result_bind].
  assert (Ec : get_or cpu "Architecture - Memory Support" (VStr "NOT_FOUND") = VStr m).
  { unfold get_or. rewrite (get_VStr _ _ _ Hm). reflexivity. }
  rewrite Ec, (named_present cpu Nm). cbn [py_in mbind result_bind].
  rewrite Hnf. cbn [andb].
  destruct (slot build "motherboard"); cbn [py_in mbind result_bind];
    rewrite Hnf, Hin; cbn [negb]; intros [= <-]; constructor.
Qed.

Lemma auto_build_memory_match_witness :
  Forall (fun s => is_ram_mismatch s = false) [warn_psu_unknown].
Proof.
  apply (auto_build_memory_match db_psu_unrated (NInt 15000000) "gaming"
           build_psu_unrated [warn_psu_unknown] sample_cpu ram_ddr4 "DDR4"
           run_psu_unrated); try vm_refl.
  discriminate.
Defined.

(* ===================================================================== *)
(** ** Constraint derivation: socket and memory type *)
(* ===================================================================== *)

Lemma socket_from_entry (part : option record) (field : string) (c : record) :
  socket_from part field ∅ = Ok c -> socket_entry (get (default ∅ part) field) c.
Proof.
  unfold socket_from, socket_entry.
  destruct (truthy (get (default ∅ part) field)) eqn:T; [|intros [= <-]; apply lookup_empty].
  destruct (_normalize_socket _) as [n|e] eqn:En; cbn [mbind result_bind]; [|discriminate].
  intros [= <-]. destruct (normalize_socket_truthy _ _ T En) as [s ->].
  exists s. split; [reflexivity | apply lookup_insert_eq].
Qed.

Lemma get_constraints_inv (build : PartList) (cs : record) :
  _get_constraints build = Ok cs ->
  exists c1 c2,
    socket_constraint (slot build "cpu") (slot build "motherboard") ∅ = Ok c1 /\
    memory_constraint (slot build "cpu") c1 = Ok c2 /\
    cs = power_constraint (slot build "cpu") (slot build "gpu") c2.
Proof.
  unfold _get_constraints.
  destruct (socket_constraint _ _ ∅) as [c1|e] eqn:E1; [|discriminate].
  cbn [mbind result_bind].
  destruct (memory_constraint _ c1) as [c2|e] eqn:E2; [|discriminate].
  cbn [mbind result_bind].
  intros [= <-]. exists c1, c2. split; [reflexivity|]. split; [exact E2 | reflexivity].
Qed.

Lemma socket_entry_ext (raw : value) (c c' : record) :
  c' !! "socket" = c !! "socket" -> socket_entry raw c -> socket_entry raw c'.
Proof. unfold socket_entry. intros ->. auto. Qed.

(** X9: where the socket constraint comes from.  With a CPU selected it
    is the normalised [Physical - Socket] of the CPU, and the motherboard
    is not consulted, also when the CPU has no socket data; without a CPU
    it is the normalised [socket] of the motherboard; a field that is
    missing or empty gives no socket constraint.  The constraint set never
    has a key other than [socket], [memory_type] and [estimated_power]. *)
Theorem get_constraints_socket (build : PartList) (cs : record) :
  _get_constraints build = Ok cs ->
  (forall cpu, slot build "cpu" = Some cpu -> cpu <> ∅ ->
     socket_entry (get cpu "Physical - Socket") cs) /\
  (forall mobo, present (slot build "cpu") = false ->
     slot build "motherboard" = Some mobo -> mobo <> ∅ ->
     socket_entry (get mobo "socket") cs) /\
  (present (slot build "cpu") = false -> present (slot build "motherboard") = false ->
     cs !! "socket" = None) /\
  (forall k, is_Some (cs !! k) ->
     k = "socket" \/ k = "memory_type" \/ k = "estimated_power").
Proof.
  intros H. apply get_constraints_inv in H as (c1 & c2 & E1 & E2 & ->).
  assert (Hs : power_constraint (slot build "cpu") (slot build "gpu") c2 !! "socket"
               = c1 !! "socket").
  { rewrite power_constraint_other by discriminate.
    exact (memory_constraint_other _ "socket" _ _ ltac:(discriminate) E2). }
  unfold socket_constraint in E1. repeat split.
  - intros cpu Hc Hne. rewrite Hc in E1.
    assert (P : present (Some cpu) = true).
    { apply negb_true_iff, bool_decide_eq_false. exact Hne. }
    rewrite P in E1. apply (socket_entry_ext _ c1); [exact Hs|].
    exact (socket_from_entry (Some cpu) _ _ E1).
  - intros mobo Pc Hm Hne. rewrite Pc, Hm in E1.
    assert (P : present (Some mobo) = true).
    { apply negb_true_iff, bool_decide_eq_false. exact Hne. }
    rewrite P in E1. apply (socket_entry_ext _ c1); [exact Hs|].
    exact (socket_from_entry (Some mobo) _ _ E1).
  - intros Pc Pm. rewrite Pc, Pm in E1. injection E1 as <-.
    rewrite Hs. apply lookup_empty.
  - intros k Hk.
    destruct (decide (k = "socket")) as [|N1]; [auto|].
    destruct (decide (k = "memory_type")) as [|N2]; [auto|].
    destruct (decide (k = "estimated_power")) as [|N3]; [auto|].
    exfalso. rewrite power_constraint_other in Hk by exact N3.
    rewrite (memory_constraint_other _ k _ _ N2 E2) in Hk.
    rewrite (socket_constraint_other _ _ k _ _ N1 E1) in Hk.
    rewrite lookup_empty in Hk. destruct Hk as [? Hk]. discriminate.
Qed.

Lemma get_constraints_socket_witness :
  socket_entry (get sample_cpu "Physical - Socket") sample_constraints.
Proof.
  refine (proj1 (get_constraints_socket (build_of [("cpu", sample_cpu);
            ("motherboard", board_lga1700)]) sample_constraints _)
            sample_cpu _ _).
  - vm_refl.
  - vm_refl.
  - intros E. apply (f_equal (fun d : record => d !! "name")) in E.
    vm_compute in E. discriminate.
Defined.

(** [str] of integers is injective and never empty. *)
Lemma to_int_not_nil (z : Z) :
  Z.to_int z <> Decimal.Pos Decimal.Nil /\ Z.to_int z <> Decimal.Neg Decimal.Nil.
Proof.
  split; intros E; pose proof (DecimalZ.of_to z) as H; rewrite E in H; cbn in H;
    subst z; vm_compute in E; discriminate E.
Qed.

Lemma of_Z_inj (a b : Z) : Str.of_Z a = Str.of_Z b -> a = b.
Proof.
  unfold Str.of_Z. intros H. apply DecimalZ.to_int_inj.
  apply (f_equal NilZero.int_of_string) in H.
  destruct (to_int_not_nil a) as [A1 A2]. destruct (to_int_not_nil b) as [B1 B2].
  rewrite !NilZero.isi in H by assumption. congruence.
Qed.

Lemma of_Z_not_empty (z : Z) : Str.of_Z z <> "".
Proof.
  unfold Str.of_Z. intros H. apply (f_equal NilZero.int_of_string) in H.
  destruct (to_int_not_nil z) as [A1 A2].
  rewrite NilZero.isi in H by assumption. discriminate.
Qed.

(** X10: a CPU whose memory support lists DDR5 makes the memory type
    ["DDR5"], also when it lists DDR4 as well, and under that constraint
    the filter rejects every kit whose generation is not 5. *)
Theorem ddr5_priority (build : PartList) (cs cpu : record) (m : string) :
  _get_constraints build = Ok cs ->
  slot build "cpu" = Some cpu -> cpu <> ∅ ->
  get cpu "Architecture - Memory Support" = VStr m ->
  Str.contains "DDR5" m = true ->
  cs !! "memory_type" = Some (VStr "DDR5") /\
  (forall kit g rest,
     has_key "modules" kit = true -> kit !! "speed" = Some (VList (VInt g :: rest)) ->
     g <> 5 -> memory_rule kit cs = Ok false /\ passes_constraints kit cs <> Ok true).
Proof.
  intros H Hc Hne Hm H5.
  assert (E : cs !! "memory_type" = Some (VStr "DDR5")).
  { apply get_constraints_inv in H as (c1 & c2 & _ & E2 & ->).
    rewrite power_constraint_other by discriminate.
    unfold memory_constraint in E2. rewrite Hc, Hm in E2.
    assert (P : present (Some cpu) = true).
    { apply negb_true_iff, bool_decide_eq_false. exact Hne. }
    assert (T : truthy (VStr m) = true).
    { apply truthy_VStr. intros ->. discriminate. }
    rewrite P, T in E2. cbn [andb py_in mbind result_bind] in E2. rewrite H5 in E2.
    injection E2 as <-. apply lookup_insert_eq. }
  split; [exact E|]. intros kit g rest Hmod Hsp Hg.
  assert (R : memory_rule kit cs = Ok false).
  { unfold memory_rule. rewrite E. unfold has_key, get_or in *. rewrite Hsp.
    rewrite Hmod. cbn [andb from_option id py_index0 mbind result_bind].
    change (value_eqb (VInt g) (VInt 0)) with (g =? 0).
    destruct (g =? 0); [reflexivity|]. cbn [py_startswith py_str Repr.of_value].
    f_equal. unfold Str.startswith.
    change (String.prefix ("DDR" +:+ Str.of_Z g) "DDR5")
      with (String.prefix (Str.of_Z g) "5").
    destruct (Str.of_Z g) as [|a [|b r]] eqn:Eg.
    - destruct (of_Z_not_empty g Eg).
    - cbn [String.prefix]. destruct (ascii_dec a "5") as [->|]; [|reflexivity].
      destruct Hg. apply of_Z_inj. rewrite Eg. reflexivity.
    - cbn [String.prefix]. destruct (ascii_dec a "5"); reflexivity. }
  split; [exact R|]. intros Hp. apply passes_constraints_true in Hp as (_ & Hp & _).
  congruence.
Qed.

Lemma ddr5_priority_witness :
  memory_rule ram_ddr4 {[ "memory_type" := VStr "DDR5" ]} = Ok false.
Proof.
  refine (proj1 (proj2 (ddr5_priority
            (build_of [("cpu", mk_record [("name", VStr "cpu");
                         ("Architecture - Memory Support", VStr "DDR4, DDR5")])])
            {[ "memory_type" := VStr "DDR5" ]}
            (mk_record [("name", VStr "cpu");
                        ("Architecture - Memory Support", VStr "DDR4, DDR5")])
            "DDR4, DDR5" _ _ _ _ _) ram_ddr4 4 [VInt 3200] _ _ _)); try vm_refl.
  - intros E. apply (f_equal (fun d : record => d !! "name")) in E.
    vm_compute in E. discriminate.
  - discriminate.
Defined.

(* ===================================================================== *)
(** ** The checker: when it returns, and how much *)
(* ===================================================================== *)

Lemma py_or_str_or_falsy (a b : value) :
  str_or_falsy a -> str_or_falsy b -> str_or_falsy (py_or a b).
Proof. unfold py_or. intros Ha Hb. destruct (truthy a); assumption. Qed.

Lemma normalize_socket_str (s : string) : exists n, _normalize_socket (VStr s) = Ok n.
Proof.
  unfold _normalize_socket. destruct (negb (truthy (VStr s))); [eexists; reflexivity|].
  repeat match goal with
         | |- context [if ?c then _ else _] => destruct c
         | |- context [match ?c with Some _ => _ | None => _ end] => destruct c
         end; eexists; reflexivity.
Qed.

Lemma normalize_socket_ok (v : value) :
  str_or_falsy v -> exists n, _normalize_socket v = Ok n.
Proof.
  intros [F|[s ->]]; [|apply normalize_socket_str].
  unfold _normalize_socket. rewrite F. eexists; reflexivity.
Qed.

Lemma get_or_str (p : record) (f d : string) :
  str_if_given p f -> exists s, get_or p f (VStr d) = VStr s.
Proof.
  intros H. unfold get_or. destruct (p !! f) as [v|] eqn:E; cbn [from_option id].
  - exact (H v E).
  - exists d. reflexivity.
Qed.

(** X11: [check_build] returns, with at most three warnings, whenever the
    fields it reads have the expected kinds: the socket fields of CPU and
    motherboard are strings (or empty), their memory support, when given,
    is a string, and the [speed] of the RAM, when given, is a non-empty
    list.  Nothing is required of the TDP and wattage fields: what reading
    them raises becomes a warning. *)
Theorem check_build_returns (part_list : PartList) :
  (forall k p f, k = "cpu" \/ k = "motherboard" -> slot part_list k = Some p ->
     f = "socket" \/ f = "Physical - Socket" -> str_or_falsy (get p f)) ->
  (forall k p, k = "cpu" \/ k = "motherboard" -> slot part_list k = Some p ->
     str_if_given p "Architecture - Memory Support") ->
  (forall r v, slot part_list "ram" = Some r -> r !! "speed" = Some v ->
     exists x l, v = VList (x :: l)) ->
  exists ws, check_build part_list = Ok ws /\ (length ws <= 3)%nat.
Proof.
  intros Hsock Hmem Hspeed.
  assert (E1 : exists w1, check_socket (slot part_list "cpu") (slot part_list "motherboard")
                          = Ok w1).
  { unfold check_socket.
    destruct (slot part_list "cpu") as [c|] eqn:Ec; [|eexists; reflexivity].
    destruct (slot part_list "motherboard") as [m|] eqn:Em; [|eexists; reflexivity].
    destruct (present (Some c) && present (Some m)); [|eexists; reflexivity].
    destruct (negb (truthy _) || negb (truthy _)); [eexists; reflexivity|].
    destruct (normalize_socket_ok
                (py_or (get c "Physical - Socket") (get c "socket"))) as [a ->].
    { apply py_or_str_or_falsy; apply (Hsock "cpu" c); auto. }
    destruct (normalize_socket_ok
                (py_or (get m "socket") (get m "Physical - Socket"))) as [b ->].
    { apply py_or_str_or_falsy; apply (Hsock "motherboard" m); auto. }
    cbn [mbind result_bind]. destruct (bool_decide (a ≠ b)); eexists; reflexivity. }
  assert (E2 : exists w2, check_memory (slot part_list "cpu") (slot part_list "motherboard")
                            (slot part_list "ram") = Ok w2).
  { unfold check_memory.
    destruct (slot part_list "ram") as [r|] eqn:Er; [|eexists; reflexivity].
    destruct (present (Some r) && _); [|eexists; reflexivity].
    assert (G : exists g, py_index0 (get_or r "speed" (VList [VInt 0; VInt 0])) = Ok g).
    { unfold get_or. destruct (r !! "speed") as [v|] eqn:Ev; cbn [from_option id].
      - destruct (Hspeed r v eq_refl Ev) as (x & l & ->). exists x. reflexivity.
      - eexists; reflexivity. }
    destruct G as [g ->]. cbn [mbind result_bind].
    assert (S1 : exists s,
               match slot part_list "cpu" with
               | Some c => if present (slot part_list "cpu")
                           then get_or c "Architecture - Memory Support" (VStr "NOT_FOUND")
                           else VStr "NOT_FOUND"
               | None => VStr "NOT_FOUND"
               end = VStr s).
    { destruct (slot part_list "cpu") as [c|] eqn:Ec; [|eexists; reflexivity].
      destruct (present (Some c)); [|eexists; reflexivity].
      apply get_or_str. apply (Hmem "cpu" c); auto. }
    destruct S1 as [s1 ->]. cbn [py_in mbind result_bind].
    assert (S2 : exists s,
               match slot part_list "motherboard" with
               | Some m => if Str.contains "NOT_FOUND" s1
                              && present (slot part_list "motherboard")
                           then get_or m "Architecture - Memory Support" (VStr "NOT_FOUND")
                           else VStr s1
               | None => VStr s1
               end = VStr s).
    { destruct (slot part_list "motherboard") as [m|] eqn:Em; [|eexists; reflexivity].
      destruct (_ && _); [|eexists; reflexivity].
      apply get_or_str. apply (Hmem "motherboard" m); auto. }
    destruct S2 as [s2 ->]. cbn [py_in mbind result_bind].
    destruct (Str.contains "NOT_FOUND" s2); [eexists; reflexivity|].
    destruct (negb _); eexists; reflexivity. }
  destruct E1 as [w1 E1]. destruct E2 as [w2 E2].
  exists (w1 ++ w2 ++ check_power (slot part_list "cpu") (slot part_list "gpu")
                        (slot part_list "psu"))%list.
  split. { unfold check_build. rewrite E1, E2. reflexivity. }
  rewrite !length_app.
  assert (L1 : (length w1 <= 1)%nat).
  { destruct (check_socket_warnings _ _ _ E1) as [-> | [-> | (a & b & _ & ->)]];
      cbn; lia. }
  assert (L2 : (length w2 <= 1)%nat).
  { destruct (check_memory_warnings _ _ _ _ E2) as [-> | [-> | (t & m & ->)]];
      cbn; lia. }
  assert (L3 : (length (check_power (slot part_list "cpu") (slot part_list "gpu")
                          (slot part_list "psu")) <= 1)%nat).
  { destruct (check_power_warnings (slot part_list "cpu") (slot part_list "gpu")
                (slot part_list "psu"))
      as [-> | [-> | [(t & w & m & ->) | [(t & w & ->) | (e & ->)]]]]; cbn; lia. }
  lia.
Qed.

Lemma check_build_returns_witness :
  exists ws, check_build sample_build = Ok ws /\ (length ws <= 3)%nat.
Proof.
  assert (Ecpu : slot sample_build "cpu" = Some sample_cpu) by vm_refl.
  assert (Emobo : slot sample_build "motherboard" = Some board_am4) by vm_refl.
  assert (Eram : slot sample_build "ram" = Some ram_ddr4) by vm_refl.
  apply (check_build_returns sample_build).
  - intros k p f [-> | ->] Hp Hf.
    + rewrite Ecpu in Hp. injection Hp as <-. destruct Hf as [-> | ->].
      * left. vm_refl.
      * right. exists "AMD Socket AM4". vm_refl.
    + rewrite Emobo in Hp. injection Hp as <-. destruct Hf as [-> | ->].
      * right. exists "AM4". vm_refl.
      * left. vm_refl.
  - intros k p [-> | ->] Hp v Hv.
    + rewrite Ecpu in Hp. injection Hp as <-.
      assert (E : sample_cpu !! "Architecture - Memory Support" = Some (VStr "DDR4"))
        by vm_refl.
      rewrite E in Hv. injection Hv as <-. exists "DDR4". reflexivity.
    + rewrite Emobo in Hp. injection Hp as <-.
      assert (E : board_am4 !! "Architecture - Memory Support" = None) by vm_refl.
      rewrite E in Hv. discriminate Hv.
  - intros r v Hr Hv. rewrite Eram in Hr. injection Hr as <-.
    assert (E : ram_ddr4 !! "speed" = Some (VList [VInt 4; VInt 3200])) by vm_refl.
    rewrite E in Hv. injection Hv as <-. eexists _, _. reflexivity.
Defined.

(** X12: no rule of [check_build] speaks about a part alone: a build in
    which at most one slot is filled gets no warning, whatever the part
    is, and the check raises nothing. *)
Theorem check_build_single_part (part_list : PartList) (k0 : string) :
  (forall k, k <> k0 -> slot part_list k = None) ->
  check_build part_list = Ok [].
Proof.
  intros H. unfold check_build, check_socket, check_memory, check_power.
  destruct (decide (k0 = "cpu")) as [->|Ncpu].
  - rewrite (H "motherboard"), (H "ram"), (H "psu") by discriminate.
    destruct (slot part_list "cpu"); reflexivity.
  - rewrite (H "cpu" ltac:(congruence)).
    destruct (decide (k0 = "motherboard")) as [->|Nmobo].
    + rewrite (H "ram"), (H "psu") by discriminate.
      destruct (slot part_list "motherboard"); reflexivity.
    + rewrite (H "motherboard" ltac:(congruence)).
      destruct (decide (k0 = "ram")) as [->|Nram].
      * rewrite (H "psu") by discriminate.
        destruct (slot part_list "ram") as [r|]; [|reflexivity].
        unfold present at 2 3. cbn [orb]. rewrite andb_false_r. reflexivity.
      * rewrite (H "ram" ltac:(congruence)).
        destruct (decide (k0 = "gpu")) as [->|Ngpu].
        -- rewrite (H "psu") by discriminate. reflexivity.
        -- rewrite (H "gpu" ltac:(congruence)).
           destruct (slot part_list "psu") as [p|]; [|reflexivity].
           unfold present at 2 3. cbn [orb]. rewrite andb_false_r. reflexivity.
Qed.

Lemma new_PartList_slot (k : string) : slot new_PartList k = None.
Proof.
  unfold slot. destruct (parts new_PartList !! k) as [o|] eqn:E; [|reflexivity].
  assert (F : map_Forall (fun _ (v : option record) => v = None) (parts new_PartList)).
  { unfold new_PartList. cbn [parts list_to_map foldr fst snd curry uncurry].
    repeat (apply map_Forall_insert_2; [reflexivity|]). apply map_Forall_empty. }
  rewrite (F k o E). reflexivity.
Qed.

Lemma add_part_slot_ne (pl : PartList) (k k' : string) (r : record) :
  k' <> k -> slot (fst (add_part pl k r)) k' = slot pl k'.
Proof.
  intros Hk. unfold add_part, slot. destruct (bool_decide _); cbn [fst parts];
    [|reflexivity].
  rewrite lookup_insert_ne by congruence. reflexivity.
Qed.

Lemma check_build_single_part_witness :
  check_build (build_of [("ram", ram_ddr5)]) = Ok [].
Proof.
  apply (check_build_single_part _ "ram").
  intros k Hk. change (build_of [("ram", ram_ddr5)])
    with (fst (add_part new_PartList "ram" ram_ddr5)).
  rewrite add_part_slot_ne by exact Hk. apply new_PartList_slot.
Defined.

(* ===================================================================== *)
(** ** The part list *)
(* ===================================================================== *)

(** X13: [add_part] is an assignment to a slot that exists.  It never
    creates or removes a slot and leaves the other slots as they are; on
    an existing slot the part is stored, replacing what was there, and
    the call then raises [KeyError] exactly when the part has no [name],
    the part being stored all the same; on an unknown part type nothing
    changes and nothing is raised. *)
Theorem add_part_upsert (pl : PartList) (part_type : string) (part_data : record) :
  dom (parts (fst (add_part pl part_type part_data))) = dom (parts pl) /\
  (forall k, k <> part_type ->
     parts (fst (add_part pl part_type part_data)) !! k = parts pl !! k) /\
  (is_Some (parts pl !! part_type) ->
     slot (fst (add_part pl part_type part_data)) part_type = Some part_data /\
     (is_Some (part_data !! "name") -> snd (add_part pl part_type part_data) = Ok tt) /\
     (part_data !! "name" = None ->
        snd (add_part pl part_type part_data) = raise KeyError "'name'") /\
     forall other,
       fst (add_part (fst (add_part pl part_type other)) part_type part_data)
       = fst (add_part pl part_type part_data)) /\
  (parts pl !! part_type = None -> add_part pl part_type part_data = (pl, Ok tt)).
Proof.
  unfold add_part, slot, has_key.
  destruct (decide (is_Some (parts pl !! part_type))) as [S|N].
  - rewrite (bool_decide_eq_true_2 _ S). cbn [fst snd parts]. repeat split.
    + apply dom_insert_lookup_L, S.
    + intros k Hk. apply lookup_insert_ne. congruence.
    + rewrite lookup_insert_eq. reflexivity.
    + intros [v ->]. reflexivity.
    + intros ->. reflexivity.
    + intros other.
      rewrite bool_decide_eq_true_2 by (rewrite lookup_insert_eq; eexists; reflexivity).
      cbn [fst]. rewrite insert_insert_eq. reflexivity.
    + intros E. rewrite E in S. destruct S. discriminate.
  - rewrite (bool_decide_eq_false_2 _ N). cbn [fst snd].
    split; [reflexivity|]. split; [reflexivity|]. split; [|reflexivity].
    intros S. contradiction.
Qed.

Lemma add_part_upsert_witness :
  slot (fst (add_part new_PartList "cpu" cpu_ddr4)) "cpu" = Some cpu_ddr4 /\
  snd (add_part new_PartList "cpu" (mk_record [("price", VInt 1)]))
  = raise KeyError "'name'".
Proof.
  split.
  - apply (add_part_upsert new_PartList "cpu" cpu_ddr4).
    apply new_PartList_keys. cbn. tauto.
  - apply (add_part_upsert new_PartList "cpu" (mk_record [("price", VInt 1)])).
    + apply new_PartList_keys. cbn. tauto.
    + vm_refl.
Defined.

(* ===================================================================== *)
(** ** The constraint builder of the web application *)
(* ===================================================================== *)

Lemma tdp_or_0_agrees (part : option record) (key : string) :
  tdp_given part key -> tdp_or_0 part key = tdp_of part key.
Proof.
  intros H. unfold tdp_or_0, tdp_of. destruct part as [d|]; [|reflexivity].
  destruct (present (Some d)); [|reflexivity].
  unfold get, get_or, py_or. destruct (d !! key) as [v|] eqn:E; cbn [from_option id];
    [|reflexivity].
  destruct (H d v eq_refl E) as [(z & Hz) | [(t & -> & Ht) | (x & l & ->)]].
  - destruct v as [|[|]|z'|t|l]; try discriminate Hz; cbn [truthy]; try reflexivity.
    destruct (z' =? 0) eqn:Z0; cbn [negb]; [|reflexivity].
    apply Z.eqb_eq in Z0. subst z'. reflexivity.
  - rewrite (truthy_VStr t Ht). reflexivity.
  - reflexivity.
Qed.

Lemma py_int_raises (v : value) (e : exn) :
  py_int v = Raise e -> exn_kind_of e = ValueError \/ exn_kind_of e = TypeError.
Proof.
  destruct v as [|b|z|s|l]; cbn [py_int]; try discriminate;
    try (intros [= <-]; right; reflexivity).
  destruct (parse_int s); [discriminate|]. intros [= <-]. left. reflexivity.
Qed.

Lemma tdp_of_raises (part : option record) (key : string) (e : exn) :
  tdp_of part key = Raise e -> exn_kind_of e = ValueError \/ exn_kind_of e = TypeError.
Proof.
  unfold tdp_of. destruct part as [d|]; [|discriminate].
  destruct (present (Some d)); [apply py_int_raises | discriminate].
Qed.

(** X14: the constraint builder of the web application,
    [get_build_constraints], returns (or raises) what
    [AutoBuilder._get_constraints] does on the same parts, provided every
    TDP field that the CPU and the GPU give is an integer, a boolean, a
    non-empty string or a non-empty list.  On the empty values [None],
    [''] and [[]] the two differ: the web builder counts them as 0, the
    auto-builder drops the estimated power; the other kinds of JSON values
    are outside the statement. *)
Theorem web_constraints_agree (build : PartList) :
  tdp_given (slot build "cpu") "Performance - TDP" ->
  tdp_given (slot build "gpu") "Board Design - TDP" ->
  get_build_constraints (parts build) = _get_constraints build.
Proof.
  intros Hc Hg. unfold get_build_constraints, _get_constraints.
  fold (slot build "cpu") (slot build "motherboard") (slot build "gpu").
  destruct (socket_constraint _ _ ∅) as [c1|e]; [|reflexivity]. cbn [mbind result_bind].
  destruct (memory_constraint _ c1) as [c2|e]; [|reflexivity]. cbn [mbind result_bind].
  unfold power_constraint_web, power_constraint.
  rewrite (tdp_or_0_agrees _ _ Hc), (tdp_or_0_agrees _ _ Hg).
  destruct (tdp_of (slot build "cpu") _) as [c|e] eqn:Ec; cbn [mbind result_bind].
  2:{ destruct (tdp_of_raises _ _ _ Ec) as [-> | ->]; reflexivity. }
  destruct (tdp_of (slot build "gpu") _) as [g|e] eqn:Eg; cbn [mbind result_bind].
  2:{ destruct (tdp_of_raises _ _ _ Eg) as [-> | ->]; reflexivity. }
  destruct ((c >? 0) || (g >? 0)); reflexivity.
Qed.

Lemma web_constraints_agree_witness :
  get_build_constraints (parts build_65_200) = _get_constraints build_65_200.
Proof.
  assert (Ec : slot build_65_200 "cpu" = Some cpu_65) by vm_refl.
  assert (Eg : slot build_65_200 "gpu" = Some gpu_200) by vm_refl.
  assert (Tc : cpu_65 !! "Performance - TDP" = Some (VInt 65)) by vm_refl.
  assert (Tg : gpu_200 !! "Board Design - TDP" = Some (VInt 200)) by vm_refl.
  apply (web_constraints_agree build_65_200).
  - intros d v Hd Hv. assert (d = cpu_65) by congruence. subst d.
    assert (v = VInt 65) by congruence. subst v. left. exists 65. reflexivity.
  - intros d v Hd Hv. assert (d = gpu_200) by congruence. subst d.
    assert (v = VInt 200) by congruence. subst v. left. exists 200. reflexivity.
Defined.

(** With a CPU whose TDP is [null] and a GPU of 200 W the web builder
    estimates 300 W and the auto-builder nothing. *)
Example web_constraints_differ :
  get_build_constraints (parts build_null_tdp) = Ok {[ "estimated_power" := VInt 300 ]} /\
  _get_constraints build_null_tdp = Ok ∅.
Proof. split; vm_refl. Qed.

(* ===================================================================== *)
(** ** Enrichment: what a pass leaves alone *)
(* ===================================================================== *)

Lemma record_frame_refl (specs : list string) (p : record) : record_frame specs p p.
Proof. split; auto. Qed.

Lemma record_frame_trans (specs : list string) (p q r : record) :
  record_frame specs p q -> record_frame specs q r -> record_frame specs p r.
Proof.
  intros [A1 A2] [B1 B2]. split.
  - intros f Hf. rewrite (B1 f Hf). exact (A1 f Hf).
  - intros f Hf. exact (B2 f (A2 f Hf)).
Qed.

Lemma record_frame_copy_specs (specs : list string) (ms p : record) :
  record_frame specs p (copy_specs specs ms p).
Proof.
  split; intros f Hf; rewrite copy_specs_lookup.
  - rewrite bool_decide_eq_false_2 by exact Hf. reflexivity.
  - destruct (bool_decide (f ∈ specs)); [|exact Hf].
    destruct (ms !! f); [eexists; reflexivity | exact Hf].
Qed.

Lemma enrich_product_frame (db : PartDatabase) (pk mk mf : string)
    (specs : list string) (p p' : record) :
  enrich_product db pk mk mf specs p = Ok p' -> record_frame specs p p'.
Proof.
  unfold enrich_product. cbn zeta.
  destruct (negb (truthy _)); [intros [= <-]; apply record_frame_refl|].
  destruct (find_master_spec _ _ _ _) as [ms|e]; cbn [mbind result_bind]; [|discriminate].
  destruct (present ms); intros [= <-];
    [apply record_frame_copy_specs | apply record_frame_refl].
Qed.

Lemma database_frame_refl (pk : string) (specs : list string) (db : PartDatabase) :
  database_frame pk specs db db.
Proof.
  split; [reflexivity|]. split; [reflexivity|].
  destruct (data db !! pk) as [l|]; constructor.
  apply Forall_Forall2_diag, Forall_forall. intros p _. apply record_frame_refl.
Qed.

Lemma database_frame_trans (pk : string) (specs : list string)
    (db1 db2 db3 : PartDatabase) :
  database_frame pk specs db1 db2 -> database_frame pk specs db2 db3 ->
  database_frame pk specs db1 db3.
Proof.
  intros (A1 & A2 & A3) (B1 & B2 & B3). split; [congruence|]. split.
  - intros k Hk. rewrite (B2 k Hk). exact (A2 k Hk).
  - destruct (data db1 !! pk) as [l1|], (data db2 !! pk) as [l2|],
      (data db3 !! pk) as [l3|]; inversion A3; inversion B3; subst; constructor.
    eapply Forall2_trans; [exact (record_frame_trans specs) | eassumption..].
Qed.

Lemma set_product_frame (db : PartDatabase) (pk : string) (specs : list string)
    (i : nat) (p p' : record) :
  product_at db pk i = Some p -> record_frame specs p p' ->
  database_frame pk specs db (set_product db pk i p').
Proof.
  unfold product_at, set_product. intros Hp Hf.
  destruct (data db !! pk) as [l|] eqn:El; [|discriminate]. cbn in Hp.
  split; [reflexivity|]. split.
  - intros k Hk. cbn [data]. apply lookup_insert_ne. congruence.
  - cbn [data]. rewrite lookup_insert_eq, El. cbn [from_option id]. constructor.
    rewrite <- (list_insert_id l i p Hp) at 1.
    apply Forall2_insert; [|exact Hf].
    apply Forall_Forall2_diag, Forall_forall. intros q _. apply record_frame_refl.
Qed.

Lemma enrich_loop_frame (n i : nat) (db db' : PartDatabase) (pk mk mf : string)
    (specs : list string) :
  enrich_loop n i db pk mk mf specs = Ok db' -> database_frame pk specs db db'.
Proof.
  revert i db. induction n as [|n IH]; intros i db; cbn [enrich_loop].
  { intros [= <-]. apply database_frame_refl. }
  destruct (data db !! pk ≫= (.!! i)) as [p|] eqn:Ep;
    [|intros [= <-]; apply database_frame_refl].
  destruct (enrich_product db pk mk mf specs p) as [p'|e] eqn:E;
    cbn [mbind result_bind]; [|discriminate].
  intros H. apply IH in H.
  refine (database_frame_trans _ _ _ _ _ _ H).
  exact (set_product_frame db pk specs i p p' Ep (enrich_product_frame _ _ _ _ _ _ _ E)).
Qed.

(** X15: an enrichment pass that returns has changed nothing but fields
    named in [specs_to_copy] of products of the category [product_key]:
    the master spec maps and the other tables are the same, the product
    table has the same length, and each product keeps every field it had,
    with the same value for every field that is not in [specs_to_copy]. *)
Theorem enrichment_frame (db db' : PartDatabase)
    (product_key master_db_key match_field : string) (specs_to_copy : list string) :
  enrich_product_database db product_key master_db_key match_field specs_to_copy
  = Ok db' ->
  master_spec_maps db' = master_spec_maps db /\
  (forall k, k <> product_key -> data db' !! k = data db !! k) /\
  (forall products, data db !! product_key = Some products ->
     exists products', data db' !! product_key = Some products' /\
       length products' = length products /\
       forall i p p', products !! i = Some p -> products' !! i = Some p' ->
         (forall f, f ∉ specs_to_copy -> p' !! f = p !! f) /\
         (forall f, is_Some (p !! f) -> is_Some (p' !! f))).
Proof.
  intros H.
  assert (F : database_frame product_key specs_to_copy db db').
  { unfold enrich_product_database in H.
    destruct (data db !! product_key) as [products|];
      [|injection H as <-; apply database_frame_refl].
    destruct (data db !! master_db_key);
      [|injection H as <-; apply database_frame_refl].
    exact (enrich_loop_frame _ _ _ _ _ _ _ _ H). }
  destruct F as (F1 & F2 & F3). split; [exact F1|]. split; [exact F2|].
  intros products Hp. rewrite Hp in F3. inversion F3 as [l l' F3' E1 E2|]; subst.
  exists l'. split; [reflexivity|]. split.
  - symmetry. exact (Forall2_length _ _ _ F3').
  - intros i p p' Hi Hi'. exact (Forall2_lookup_lr _ _ _ _ _ _ F3' Hi Hi').
Qed.

Lemma enrichment_frame_witness :
  card_4060_once !! "price" = card_4060 !! "price".
Proof.
  assert (E : enrich_product_database (db_chipset card_4060)
                "video-card" "master_gpu_database" "name" gpu_specs_to_copy
              = Ok (db_chipset card_4060_once)) by vm_refl.
  destruct (enrichment_frame _ _ _ _ _ _ E) as (_ & _ & F).
  destruct (F [card_4060] ltac:(vm_refl)) as (products' & E' & _ & F').
  assert (E2 : data (db_chipset card_4060_once) !! "video-card" = Some [card_4060_once])
    by vm_refl.
  assert (products' = [card_4060_once]) by congruence. subst products'.
  refine (proj1 (F' 0%nat card_4060 card_4060_once eq_refl eq_refl) "price" _).
  unfold gpu_specs_to_copy. rewrite !elem_of_cons, elem_of_nil.
  intros [H|[H|[H|[]]]]; discriminate H.
Defined.

(* ===================================================================== *)
(** ** The master spec maps and the lookup in them *)
(* ===================================================================== *)

Lemma dict_set_keys (key : keywords) (v : nat) (d : spec_map) :
  (dict_set key v d).*1 = if bool_decide (key ∈ d.*1) then d.*1 else (d.*1 ++ [key])%list.
Proof.
  induction d as [|[k v'] d IH]; [reflexivity|]. cbn [dict_set fmap list_fmap fst].
  destruct (decide (k = key)) as [->|N].
  - rewrite bool_decide_eq_true_2 by reflexivity.
    rewrite bool_decide_eq_true_2 by left. reflexivity.
  - rewrite (bool_decide_eq_false_2 (k = key)) by exact N.
    cbn [fmap list_fmap fst]. fold (fmap (M:=list) (@fst keywords nat)).
    rewrite IH. destruct (decide (key ∈ d.*1)) as [I|I].
    + rewrite !bool_decide_eq_true_2; [reflexivity | right; exact I | exact I].
    + rewrite !bool_decide_eq_false_2; [reflexivity | | exact I].
      intros [E|E]%elem_of_cons; [congruence | contradiction].
Qed.

Lemma dict_set_NoDup (key : keywords) (v : nat) (d : spec_map) :
  NoDup d.*1 -> NoDup (dict_set key v d).*1.
Proof.
  intros H. rewrite dict_set_keys. destruct (decide (key ∈ d.*1)) as [I|I].
  - rewrite bool_decide_eq_true_2 by exact I. exact H.
  - rewrite bool_decide_eq_false_2 by exact I. apply NoDup_app. split; [exact H|].
    split; [|apply NoDup_singleton].
    intros x Hx Hx'. apply list_elem_of_singleton in Hx'. congruence.
Qed.

Lemma dict_set_elem (key : keywords) (v : nat) (d : spec_map) (k : keywords) (j : nat) :
  (k, j) ∈ dict_set key v d -> (k, j) ∈ d \/ (k = key /\ j = v).
Proof.
  induction d as [|[k' v'] d IH]; cbn [dict_set].
  - intros H%list_elem_of_singleton. injection H as -> ->. auto.
  - destruct (bool_decide (k' = key)) eqn:D.
    + apply bool_decide_eq_true in D. subst k'.
      intros [H|H]%elem_of_cons; [injection H as -> ->; auto | left; right; exact H].
    + intros [H|H]%elem_of_cons; [left; rewrite H; left|].
      destruct (IH H) as [?|?]; [left; right; assumption | auto].
Qed.

Lemma dict_set_new (key : keywords) (v : nat) (d : spec_map) :
  (key, v) ∈ dict_set key v d.
Proof.
  induction d as [|[k' v'] d IH]; cbn [dict_set]; [left|].
  destruct (bool_decide (k' = key)) eqn:D; [|right; exact IH].
  apply bool_decide_eq_true in D. subst k'. left.
Qed.

Lemma dict_set_old (key : keywords) (v : nat) (d : spec_map) (k : keywords) (j : nat) :
  NoDup d.*1 -> (k, j) ∈ d ->
  exists j', (k, j') ∈ dict_set key v d /\ (j' = j \/ (k = key /\ j' = v)).
Proof.
  intros _ H. destruct (decide (k = key)) as [->|N].
  - exists v. split; [apply dict_set_new | auto].
  - exists j. split; [|auto]. induction d as [|[k' v'] d IH]; cbn [dict_set].
    + inversion H.
    + destruct (bool_decide (k' = key)) eqn:D.
      * apply bool_decide_eq_true in D. subst k'.
        apply elem_of_cons in H as [H|H]; [congruence | right; exact H].
      * apply elem_of_cons in H as [H|H]; [rewrite H; left | right; exact (IH H)].
Qed.

(** The loop of [build_master_spec_maps]: the keys stay distinct, every
    entry is one of the start or files a record of the table under its
    keyword set, and every record of the table is covered by an entry
    that points at it or at a later record. *)
Lemma build_spec_map_inv (table : list record) (i : nat) (acc m : spec_map) :
  build_spec_map i table acc = Ok m -> NoDup acc.*1 ->
  NoDup m.*1 /\
  (forall k j, (k, j) ∈ m ->
     (k, j) ∈ acc \/
     ((i <= j)%nat /\ exists part, table !! (j - i)%nat = Some part /\
                                   master_key part = Ok k)) /\
  (forall n part, table !! n = Some part ->
     exists k j, master_key part = Ok k /\ (k, j) ∈ m /\ (i + n <= j)%nat) /\
  (forall k j, (k, j) ∈ acc -> exists j', (k, j') ∈ m /\ (j' = j \/ (i <= j')%nat)).
Proof.
  revert i acc. induction table as [|part rest IH]; intros i acc; cbn [build_spec_map].
  - intros [= <-] N. split; [exact N|]. split; [auto|]. split.
    + intros n p Hn. rewrite lookup_nil in Hn. discriminate.
    + intros k j H. exists j. auto.
  - fold (master_key part).
    destruct (master_key part) as [key|e] eqn:Ek; cbn [mbind result_bind]; [|discriminate].
    intros H N. destruct (IH (S i) (dict_set key i acc) H (dict_set_NoDup key i acc N))
      as (I1 & I2 & I3 & I4).
    split; [exact I1|]. split; [|split].
    + intros k j Hkj. destruct (I2 k j Hkj) as [Hd|(Hle & p & Hp & Hk)].
      * destruct (dict_set_elem _ _ _ _ _ Hd) as [?|[-> ->]]; [auto|].
        right. split; [lia|]. exists part. rewrite Nat.sub_diag. auto.
      * right. split; [lia|]. exists p. split; [|exact Hk].
        replace (j - i)%nat with (S (j - S i)) by lia. exact Hp.
    + intros [|n] p Hn.
      * injection Hn as <-. destruct (I4 key i (dict_set_new key i acc)) as (j' & Hj' & Hc).
        exists key, j'. split; [exact Ek|]. split; [exact Hj'|]. lia.
      * destruct (I3 n p Hn) as (k & j & Hk & Hj & Hle).
        exists k, j. split; [exact Hk|]. split; [exact Hj|]. lia.
    + intros k j Hkj. destruct (dict_set_old key i acc k j N Hkj) as (j1 & H1 & C1).
      destruct (I4 k j1 H1) as (j' & Hj' & C2). exists j'. split; [exact Hj'|].
      destruct C2 as [->|?]; [|right; lia].
      destruct C1 as [->|[_ ->]]; [auto | right; lia].
Qed.

(** The maps of a database as [PartDatabase(...)] builds it. *)
Lemma new_PartDatabase_maps (d : gmap string (list record)) (db : PartDatabase)
    (map_key : string) (m : spec_map) :
  new_PartDatabase d = Ok db ->
  master_spec_maps db !! map_key = Some m ->
  data db = d /\ (map_key = "cpu" \/ map_key = "gpu") /\
  exists table, d !! master_table map_key = Some table /\
                build_spec_map 0 table [] = Ok m.
Proof.
  unfold new_PartDatabase, build_master_spec_maps.
  destruct (d !! "master_cpu_database") as [tc|] eqn:Ec.
  - destruct (build_spec_map 0 tc []) as [mc|e] eqn:Bc; cbn [mbind result_bind];
      [|discriminate].
    destruct (d !! "master_gpu_database") as [tg|] eqn:Eg.
    + destruct (build_spec_map 0 tg []) as [mg|e] eqn:Bg; cbn [mbind result_bind];
        [|discriminate].
      intros [= <-]. cbn [master_spec_maps data]. intros Hm. split; [reflexivity|].
      destruct (decide (map_key = "gpu")) as [->|Ng].
      * rewrite lookup_insert_eq in Hm. injection Hm as <-.
        split; [auto|]. exists tg. auto.
      * rewrite lookup_insert_ne in Hm by congruence.
        destruct (decide (map_key = "cpu")) as [->|Nc].
        -- rewrite lookup_insert_eq in Hm. injection Hm as <-.
           split; [auto|]. exists tc. auto.
        -- rewrite lookup_insert_ne, lookup_empty in Hm by congruence. discriminate.
    + cbn [mbind result_bind]. intros [= <-]. cbn [master_spec_maps data]. intros Hm.
      split; [reflexivity|].
      destruct (decide (map_key = "cpu")) as [->|Nc].
      * rewrite lookup_insert_eq in Hm. injection Hm as <-.
        split; [auto|]. exists tc. auto.
      * rewrite lookup_insert_ne, lookup_empty in Hm by congruence. discriminate.
  - cbn [mbind result_bind].
    destruct (d !! "master_gpu_database") as [tg|] eqn:Eg.
    + destruct (build_spec_map 0 tg []) as [mg|e] eqn:Bg; cbn [mbind result_bind];
        [|discriminate].
      intros [= <-]. cbn [master_spec_maps data]. intros Hm. split; [reflexivity|].
      destruct (decide (map_key = "gpu")) as [->|Ng].
      * rewrite lookup_insert_eq in Hm. injection Hm as <-.
        split; [auto|]. exists tg. auto.
      * rewrite lookup_insert_ne, lookup_empty in Hm by congruence. discriminate.
    + intros [= <-]. cbn [master_spec_maps]. intros Hm.
      rewrite lookup_empty in Hm. discriminate.
Qed.

Lemma map_key_of_cases (master_db_key : string) :
  map_key_of master_db_key = "cpu" \/ map_key_of master_db_key = "gpu".
Proof. unfold map_key_of. destruct (Str.contains _ _); auto. Qed.

Lemma first_match_elem (rule : keywords -> keywords -> bool) (m : spec_map)
    (sw : keywords) (j : nat) :
  first_match rule m sw = Some j -> exists k, (k, j) ∈ m /\ rule k sw = true.
Proof.
  unfold first_match. destruct (List.find _ m) as [[k j']|] eqn:F; [|discriminate].
  cbn. intros [= <-]. apply find_some in F as [F1 F2].
  exists k. split; [apply list_elem_of_In; exact F1 | exact F2].
Qed.

(** X16: in a database as [PartDatabase(...)] builds it, what
    [find_master_spec] finds is a record of the master table behind the
    map, and every keyword of the name of that record occurs among the
    keywords of the search term (the chipset of the product when it has
    one, its name otherwise), which are not empty. *)
Theorem find_master_spec_sound (d : gmap string (list record)) (db : PartDatabase)
    (master_db_key : string) (product_name product_chipset : value) (r : record) :
  new_PartDatabase d = Ok db ->
  find_master_spec db master_db_key product_name product_chipset = Ok (Some r) ->
  exists table j k search_words,
    d !! master_table (map_key_of master_db_key) = Some table /\
    table !! j = Some r /\
    master_key r = Ok k /\
    normalize_search_term (py_or product_chipset product_name) = Ok search_words /\
    search_words <> ∅ /\ k ⊆ search_words.
Proof.
  intros Hdb. unfold find_master_spec. cbn zeta.
  destruct (master_spec_maps db !! map_key_of master_db_key) as [m|] eqn:Em;
    [|discriminate].
  destruct (new_PartDatabase_maps d db _ m Hdb Em) as (Hd & _ & table & Et & Bm).
  destruct (build_spec_map_inv table 0 [] m Bm (NoDup_nil_2)) as (_ & I2 & _ & _).
  destruct (normalize_search_term _) as [sw|e] eqn:Esw; cbn [mbind result_bind];
    [|discriminate].
  destruct (bool_decide (sw = ∅)) eqn:D; [discriminate|].
  apply bool_decide_eq_false in D.
  assert (K : forall j, (exists k, (k, j) ∈ m /\ k ⊆ sw) ->
              master_record db (map_key_of master_db_key) j = Some r ->
              exists table j k search_words,
                d !! master_table (map_key_of master_db_key) = Some table /\
                table !! j = Some r /\ master_key r = Ok k /\
                Ok sw = Ok search_words /\ search_words <> ∅ /\ k ⊆ search_words).
  { intros j (k & Hkj & Hsub) Hr. unfold master_record in Hr. rewrite Hd, Et in Hr.
    cbn in Hr. destruct (I2 k j Hkj) as [Hnil|(_ & part & Hp & Hk)].
    { inversion Hnil. }
    rewrite Nat.sub_0_r in Hp. assert (part = r) by congruence. subst part.
    exists table, j, k, sw. auto 10. }
  destruct (first_match primary_rule m sw) as [j|] eqn:F1.
  - intros [= Hr]. apply (K j); [|exact Hr].
    destruct (first_match_elem _ _ _ _ F1) as (k & Hk & Hrule).
    exists k. split; [exact Hk|]. apply bool_decide_eq_true in Hrule. exact Hrule.
  - destruct (first_match fallback_rule m sw) as [j|] eqn:F2; [|discriminate].
    intros [= Hr]. apply (K j); [|exact Hr].
    destruct (first_match_elem _ _ _ _ F2) as (k & Hk & Hrule).
    exists k. split; [exact Hk|]. apply fallback_rule_true. exact Hrule.
Qed.

Lemma find_master_spec_sound_witness :
  exists table j k search_words,
    tables_chipset card_4060 !! master_table (map_key_of "master_gpu_database")
    = Some table /\
    table !! j = Some master_4060 /\
    master_key master_4060 = Ok k /\
    normalize_search_term (py_or VNone (VStr "Asus Dual RTX 4060")) = Ok search_words /\
    search_words <> ∅ /\ k ⊆ search_words.
Proof.
  apply (find_master_spec_sound (tables_chipset card_4060) (db_chipset card_4060)
           "master_gpu_database" (VStr "Asus Dual RTX 4060") VNone master_4060);
    vm_refl.
Defined.

Lemma new_PartDatabase_built (d : gmap string (list record)) (db : PartDatabase)
    (map_key : string) (table : list record) :
  new_PartDatabase d = Ok db ->
  map_key = "cpu" \/ map_key = "gpu" ->
  d !! master_table map_key = Some table ->
  data db = d /\
  exists m, master_spec_maps db !! map_key = Some m /\ build_spec_map 0 table [] = Ok m.
Proof.
  unfold new_PartDatabase, build_master_spec_maps. intros H Hk Ht.
  destruct (d !! "master_cpu_database") as [tc|] eqn:Ec.
  - destruct (build_spec_map 0 tc []) as [mc|e] eqn:Bc; cbn [mbind result_bind] in H;
      [|discriminate].
    destruct (d !! "master_gpu_database") as [tg|] eqn:Eg.
    + destruct (build_spec_map 0 tg []) as [mg|e] eqn:Bg; cbn [mbind result_bind] in H;
        [|discriminate].
      injection H as <-. cbn [master_spec_maps data]. split; [reflexivity|].
      destruct Hk as [-> | ->]; cbn in Ht.
      * exists mc. rewrite lookup_insert_ne by discriminate. rewrite lookup_insert_eq.
        split; [reflexivity|]. congruence.
      * exists mg. rewrite lookup_insert_eq. split; [reflexivity|]. congruence.
    + cbn [mbind result_bind] in H. injection H as <-. cbn [master_spec_maps data].
      split; [reflexivity|]. destruct Hk as [-> | ->]; cbn in Ht; [|congruence].
      exists mc. rewrite lookup_insert_eq. split; [reflexivity|]. congruence.
  - cbn [mbind result_bind] in H.
    destruct (d !! "master_gpu_database") as [tg|] eqn:Eg.
    + destruct (build_spec_map 0 tg []) as [mg|e] eqn:Bg; cbn [mbind result_bind] in H;
        [|discriminate].
      injection H as <-. cbn [master_spec_maps data]. split; [reflexivity|].
      destruct Hk as [-> | ->]; cbn in Ht; [congruence|].
      exists mg. rewrite lookup_insert_eq. split; [reflexivity|]. congruence.
    + destruct Hk as [-> | ->]; cbn in Ht; congruence.
Qed.

Lemma NoDup_fst_unique (m : spec_map) (k : keywords) (j j' : nat) :
  NoDup m.*1 -> (k, j) ∈ m -> (k, j') ∈ m -> j = j'.
Proof.
  induction m as [|[k0 j0] m IH]; [intros _ H; inversion H|].
  cbn [fmap list_fmap fst]. fold (fmap (M:=list) (@fst keywords nat)).
  intros N H H'. apply NoDup_cons in N as [N1 N2].
  apply elem_of_cons in H as [H|H]; apply elem_of_cons in H' as [H'|H'].
  - congruence.
  - injection H as -> ->. destruct N1. apply list_elem_of_fmap.
    exists (k0, j'). auto.
  - injection H' as -> ->. destruct N1. apply list_elem_of_fmap.
    exists (k0, j). auto.
  - exact (IH N2 H H').
Qed.

(** X17: the master spec map that [PartDatabase(...)] builds from a
    master table.  Its keyword sets are pairwise distinct; each entry
    holds a record of the table that is filed under the keyword set of its
    own name, and among the records with that keyword set it is the last
    one of the table; every record of the table has an entry for its
    keyword set. *)
Theorem master_spec_map_entries (d : gmap string (list record)) (db : PartDatabase)
    (map_key : string) (m : spec_map) :
  new_PartDatabase d = Ok db ->
  master_spec_maps db !! map_key = Some m ->
  exists table,
    d !! master_table map_key = Some table /\
    NoDup m.*1 /\
    (forall k j, (k, j) ∈ m ->
       exists part, table !! j = Some part /\ master_key part = Ok k /\
         forall j' part', table !! j' = Some part' -> master_key part' = Ok k ->
                          (j' <= j)%nat) /\
    (forall j part, table !! j = Some part ->
       exists k j', master_key part = Ok k /\ (k, j') ∈ m).
Proof.
  intros Hdb Hm.
  destruct (new_PartDatabase_maps d db _ m Hdb Hm) as (_ & _ & table & Et & Bm).
  destruct (build_spec_map_inv table 0 [] m Bm (NoDup_nil_2)) as (I1 & I2 & I3 & _).
  exists table. split; [exact Et|]. split; [exact I1|]. split.
  - intros k j Hkj. destruct (I2 k j Hkj) as [Hnil|(_ & part & Hp & Hk)].
    { inversion Hnil. }
    rewrite Nat.sub_0_r in Hp. exists part. split; [exact Hp|]. split; [exact Hk|].
    intros j' part' Hp' Hk'. destruct (I3 j' part' Hp') as (k' & j'' & Hk'' & Hj'' & Hle).
    assert (k' = k) by congruence. subst k'.
    rewrite (NoDup_fst_unique _ _ _ _ I1 Hkj Hj''). lia.
  - intros j part Hp. destruct (I3 j part Hp) as (k & j' & Hk & Hj' & _).
    exists k, j'. auto.
Qed.

Lemma master_spec_map_entries_witness :
  exists table,
    tables_chipset card_4060 !! master_table "gpu" = Some table /\
    NoDup maps_chipset_gpu.*1 /\
    (forall k j, (k, j) ∈ maps_chipset_gpu ->
       exists part, table !! j = Some part /\ master_key part = Ok k /\
         forall j' part', table !! j' = Some part' -> master_key part' = Ok k ->
                          (j' <= j)%nat) /\
    (forall j part, table !! j = Some part ->
       exists k j', master_key part = Ok k /\ (k, j') ∈ maps_chipset_gpu).
Proof.
  apply (master_spec_map_entries (tables_chipset card_4060) (db_chipset card_4060) "gpu");
    vm_refl.
Defined.

Lemma build_spec_map_head (table : list record) (i : nat) (k : keywords) (j : nat)
    (acc m : spec_map) :
  build_spec_map i table ((k, j) :: acc) = Ok m -> exists j' m', m = (k, j') :: m'.
Proof.
  revert i j acc. induction table as [|part rest IH]; intros i j acc; cbn [build_spec_map].
  - intros [= <-]. eexists _, _. reflexivity.
  - destruct (normalize_search_term _) as [key|e]; cbn [mbind result_bind];
      [|discriminate].
    cbn [dict_set]. destruct (bool_decide (k = key)); apply IH.
Qed.

(** X18: a master record without keywords takes every match.  When the
    first record of a master table has no name, or a name made of the
    discarded words only, [find_master_spec] returns, for every product
    whose search term has a keyword, a record of the table that has no
    keywords: the empty set is a subset of every set, and the map is
    searched in insertion order. *)
Theorem keywordless_master_record (d : gmap string (list record)) (db : PartDatabase)
    (master_db_key : string) (first : record) (rest : list record)
    (product_name product_chipset : value) (search_words : keywords) :
  new_PartDatabase d = Ok db ->
  d !! master_table (map_key_of master_db_key) = Some (first :: rest) ->
  master_key first = Ok ∅ ->
  normalize_search_term (py_or product_chipset product_name) = Ok search_words ->
  search_words <> ∅ ->
  exists j r, (first :: rest) !! j = Some r /\ master_key r = Ok ∅ /\
    find_master_spec db master_db_key product_name product_chipset = Ok (Some r).
Proof.
  intros Hdb Ht Hfirst Hsw Hne.
  destruct (new_PartDatabase_built d db _ _ Hdb (map_key_of_cases master_db_key) Ht)
    as (Hd & m & Hm & Bm).
  destruct (build_spec_map_inv _ 0 [] m Bm (NoDup_nil_2)) as (_ & I2 & _ & _).
  assert (Hhead : exists j m', m = (∅, j) :: m').
  { cbn [build_spec_map] in Bm. fold (master_key first) in Bm. rewrite Hfirst in Bm.
    cbn [mbind result_bind dict_set] in Bm. exact (build_spec_map_head _ _ _ _ _ _ Bm). }
  destruct Hhead as (j & m' & ->).
  destruct (I2 ∅ j ltac:(left)) as [Hnil|(_ & r & Hr & Hk)]; [inversion Hnil|].
  rewrite Nat.sub_0_r in Hr. exists j, r. split; [exact Hr|]. split; [exact Hk|].
  unfold find_master_spec. cbn zeta. rewrite Hm, Hsw. cbn [mbind result_bind].
  rewrite bool_decide_eq_false_2 by exact Hne.
  unfold first_match. cbn [List.find fst]. unfold primary_rule at 1.
  rewrite bool_decide_eq_true_2 by apply empty_subseteq. cbn [fmap option_fmap option_map snd].
  unfold master_record. rewrite Hd, Ht. cbn. rewrite Hr. reflexivity.
Qed.

Lemma keywordless_master_record_witness :
  exists j r, [master_nameless; master_4060] !! j = Some r /\ master_key r = Ok ∅ /\
    find_master_spec db_nameless "master_gpu_database" (VStr "Asus Dual RTX 4060") VNone
    = Ok (Some r).
Proof.
  apply (keywordless_master_record tables_nameless db_nameless "master_gpu_database"
           master_nameless [master_4060] (VStr "Asus Dual RTX 4060") VNone
           {[ "asus"; "dual"; "rtx"; "4060" ]}); try vm_refl.
  intros E. apply (f_equal (fun s : keywords => bool_decide ("rtx" ∈ s))) in E.
  vm_compute in E. discriminate E.
Defined.

(* ===================================================================== *)
(** ** The repair of [memory.json] *)
(* ===================================================================== *)

Lemma fix_speed_fixed (part : record) :
  fix_speed (fst (fix_speed part)) = (fst (fix_speed part), false).
Proof.
  destruct (as_int (get part "speed")) as [z|] eqn:E.
  - assert (F : fix_speed part
                = (<["speed" := VList [VInt (if z >? 4000 then 5 else 4);
                                       get part "speed"]]> part, true)).
    { unfold fix_speed. rewrite E. reflexivity. }
    rewrite F. cbn [fst]. unfold fix_speed, get. rewrite lookup_insert_eq. reflexivity.
  - destruct (get part "speed") as [|b|z|s|l] eqn:G; try discriminate E.
    + assert (F : fix_speed part = (<["speed" := VList [VInt 0; VInt 0]]> part, true)).
      { unfold fix_speed. rewrite G. reflexivity. }
      rewrite F. cbn [fst]. unfold fix_speed, get. rewrite lookup_insert_eq. reflexivity.
    + assert (F : fix_speed part = (part, false)).
      { unfold fix_speed. rewrite G. reflexivity. }
      rewrite F. cbn [fst]. exact F.
    + assert (F : fix_speed part = (part, false)).
      { unfold fix_speed. rewrite G. reflexivity. }
      rewrite F. cbn [fst]. exact F.
Qed.

Lemma fix_memory_loop_fst (data : list record) :
  fst (fix_memory_loop data) = List.map (fun p => fst (fix_speed p)) data.
Proof.
  induction data as [|p r IH]; [reflexivity|]. cbn [fix_memory_loop List.map].
  destruct (fix_speed p) as [p' b]. destruct (fix_memory_loop r) as [r' n].
  cbn [fst] in *. rewrite IH. reflexivity.
Qed.

Lemma fix_memory_loop_clean (data : list record) :
  Forall (fun p => fix_speed p = (p, false)) data -> fix_memory_loop data = (data, O).
Proof.
  induction 1 as [|p r Hp _ IH]; [reflexivity|].
  cbn [fix_memory_loop]. rewrite Hp, IH. reflexivity.
Qed.

Lemma fix_memory_data_loop (file : list record) :
  fix_memory_data file = fst (fix_memory_loop file).
Proof.
  unfold fix_memory_data. destruct (fix_memory_loop file) as [data n] eqn:E.
  cbn [fst]. destruct n as [|n]; [|reflexivity]. cbn [Nat.eqb].
  revert data E. induction file as [|p r IH]; intros data; cbn [fix_memory_loop].
  - intros [= <-]. reflexivity.
  - destruct (fix_speed p) as [p' b] eqn:Ep. destruct (fix_memory_loop r) as [r' n].
    destruct b; [discriminate|]. intros [= <- ->]. f_equal; [|exact (IH r' eq_refl)].
    unfold fix_speed in Ep. destruct (as_int _); [discriminate|].
    destruct (get p "speed"); congruence.
Qed.

(** X19: a second run of the repair finds nothing to fix: after
    [fix_memory_data] no record has an integer (or boolean) or [null]
    speed, or lacks a speed, so the loop counts no fix and the file is
    left as it is. *)
Theorem fix_memory_data_idempotent (file : list record) :
  fix_memory_loop (fix_memory_data file) = (fix_memory_data file, O) /\
  fix_memory_data (fix_memory_data file) = fix_memory_data file /\
  Forall (fun p => exists v, p !! "speed" = Some v /\ as_int v = None /\ v <> VNone)
         (fix_memory_data file).
Proof.
  assert (C : Forall (fun p => fix_speed p = (p, false)) (fix_memory_data file)).
  { rewrite fix_memory_data_loop, fix_memory_loop_fst. apply Forall_forall.
    intros p Hp. apply list_elem_of_In, in_map_iff in Hp as (q & <- & _).
    apply fix_speed_fixed. }
  split; [exact (fix_memory_loop_clean _ C)|]. split.
  - rewrite (fix_memory_data_loop (fix_memory_data file)), (fix_memory_loop_clean _ C).
    reflexivity.
  - eapply Forall_impl; [exact C|]. cbn beta. intros p Hp. unfold fix_speed, get in Hp.
    destruct (p !! "speed") as [v|] eqn:E; cbn [from_option id] in Hp.
    + exists v. split; [reflexivity|].
      destruct (as_int v); [discriminate|]. split; [reflexivity|].
      intros ->. discriminate.
    + cbn [as_int] in Hp. discriminate.
Qed.

(** X20: what the repair does for the memory filter.  A kit (a record
    with [modules]) whose speed is an integer makes the memory rule of
    [passes_constraints] raise [TypeError]; after the repair the rule
    returns, and accepts the kit exactly when the memory type starts with
    ["DDR5"] for a speed above 4000 and with ["DDR4"] otherwise.  A kit
    whose speed is [null] or missing is rejected after the repair. *)
Theorem fix_speed_memory_rule (part cs : record) (t : string) :
  has_key "modules" part = true ->
  cs !! "memory_type" = Some (VStr t) ->
  (forall z, part !! "speed" = Some (VInt z) ->
     (exists e, memory_rule part cs = Raise e /\ exn_kind_of e = TypeError) /\
     memory_rule (fst (fix_speed part)) cs
     = Ok (Str.startswith t (if z >? 4000 then "DDR5" else "DDR4"))) /\
  (get part "speed" = VNone -> memory_rule (fst (fix_speed part)) cs = Ok false).
Proof.
  intros Hm Hc. unfold has_key in Hm. split.
  - intros z Hz. split.
    + unfold memory_rule, has_key, get_or. rewrite Hc, Hz, Hm.
      cbn [andb from_option id py_index0]. eexists. split; reflexivity.
    + assert (F : fix_speed part
                  = (<["speed" := VList [VInt (if z >? 4000 then 5 else 4); VInt z]]> part,
                     true)).
      { unfold fix_speed, get. rewrite Hz. reflexivity. }
      rewrite F. cbn [fst]. unfold memory_rule, has_key, get_or.
      rewrite Hc, lookup_insert_eq, lookup_insert_ne by discriminate.
      rewrite Hm. cbn [andb from_option id py_index0 mbind result_bind].
      destruct (z >? 4000); reflexivity.
  - intros Hn.
    assert (F : fix_speed part = (<["speed" := VList [VInt 0; VInt 0]]> part, true)).
    { unfold fix_speed. rewrite Hn. reflexivity. }
    rewrite F. cbn [fst]. unfold memory_rule, has_key, get_or.
    rewrite Hc, lookup_insert_eq, lookup_insert_ne by discriminate.
    rewrite Hm. reflexivity.
Qed.

Lemma fix_speed_memory_rule_witness :
  (exists e, memory_rule kit_raw_5600 {[ "memory_type" := VStr "DDR5" ]} = Raise e /\
             exn_kind_of e = TypeError) /\
  memory_rule (fst (fix_speed kit_raw_5600)) {[ "memory_type" := VStr "DDR5" ]}
  = Ok (Str.startswith "DDR5" (if 5600 >? 4000 then "DDR5" else "DDR4")).
Proof.
  refine (proj1 (fix_speed_memory_rule kit_raw_5600 {[ "memory_type" := VStr "DDR5" ]}
                   "DDR5" _ _) 5600 _).
  - vm_refl.
  - apply lookup_singleton_eq.
  - vm_refl.
Defined.

(* ===================================================================== *)
(** ** The total price *)
(* ===================================================================== *)

(** [float()] of strings, checked against the interpreter. *)
Example py_float_examples :
  PyFloat.parse "0.7" = Some Float.c_0_7 /\
  PyFloat.parse " 12.5 " = Some (S754_finite false 7036874417766400 (-49)) /\
  PyFloat.parse "1_0.0_1" = PyFloat.parse "10.01" /\
  PyFloat.parse "1e3" = Some (Float.nearest 1000) /\
  PyFloat.parse "1.e5" = Some (Float.nearest 100000) /\
  PyFloat.parse ".5" = PyFloat.parse "5E-1" /\
  PyFloat.parse "-0" = Some (S754_zero true) /\
  PyFloat.parse "1e400" = Some (S754_infinity false) /\
  PyFloat.parse "-1e-400" = Some (S754_zero true) /\
  PyFloat.parse "+NaN" = Some S754_nan /\
  PyFloat.parse "-Infinity" = Some (S754_infinity true) /\
  PyFloat.parse "1e23" = Some (S754_finite false 5960464477539062 24) /\
  PyFloat.parse "2.5e-324" = Some (S754_finite false 1 (-1074)) /\
  PyFloat.parse "" = None /\ PyFloat.parse "." = None /\ PyFloat.parse "1_.0" = None /\
  PyFloat.parse "1._5" = None /\ PyFloat.parse "1e" = None /\ PyFloat.parse "1e_5" = None /\
  PyFloat.parse "0x10" = None /\ PyFloat.parse "1 2" = None /\ PyFloat.parse "- 1" = None /\
  PyFloat.parse "infin" = None /\ PyFloat.parse "1__0" = None.
Proof. repeat split; vm_compute; reflexivity. Qed.

(* ===================================================================== *)
(** ** binary64: sums of integers below [2^53] are exact *)
(* ===================================================================== *)

Lemma shr_1_even (j : Z) :
  0 <= j ->
  shr_1 (Build_shr_record (2 * j) false false) = Build_shr_record j false false.
Proof. intros H. destruct j as [|q|q]; try lia; reflexivity. Qed.

Lemma iter_shr_exact (p : positive) (k : Z) :
  0 <= k ->
  SpecFloat.iter_pos shr_1 p (Build_shr_record (k * 2 ^ Z.pos p) false false)
  = Build_shr_record k false false.
Proof.
  revert k. induction p as [p IH|p IH|]; intros k Hk; cbn [SpecFloat.iter_pos].
  - pose proof (pow2_pos (Z.pos p) ltac:(lia)) as Hp.
    replace (k * 2 ^ Z.pos p~1) with (2 * (k * 2 ^ Z.pos p * 2 ^ Z.pos p))
      by (rewrite pow2_xI; lia).
    rewrite shr_1_even by nia. rewrite IH by nia. apply IH, Hk.
  - pose proof (pow2_pos (Z.pos p) ltac:(lia)) as Hp.
    replace (k * 2 ^ Z.pos p~0) with (k * 2 ^ Z.pos p * 2 ^ Z.pos p)
      by (rewrite pow2_xO; lia).
    rewrite IH by nia. apply IH, Hk.
  - replace (k * 2 ^ 1) with (2 * k) by lia. apply shr_1_even, Hk.
Qed.

(** The shift of a number whose low bits are zero loses nothing. *)
Lemma shr_fexp_exact (k n E : Z) :
  2 ^ 52 <= k < 2 ^ 53 -> 0 <= n -> -1074 <= E + n ->
  shr_fexp 53 1024 (k * 2 ^ n) E loc_Exact = (Build_shr_record k false false, E + n).
Proof.
  intros Hk Hn Hmin. unfold shr_fexp, fexp, emin.
  pose proof (pow2_pos n Hn) as Hp.
  assert (D : Zdigits2 (k * 2 ^ n) = 53 + n).
  { apply Zdigits2_unique; [nia|].
    replace (53 + n - 1) with (52 + n) by lia. rewrite !Z.pow_add_r by lia. nia. }
  rewrite D.
  replace (Z.max (53 + n + E - 53) (3 - 1024 - 53) - E) with n by lia.
  unfold shr. cbn [shr_record_of_loc]. destruct n as [|p|p]; try lia.
  - cbn [Z.pow]. rewrite Z.mul_1_r, Z.add_0_r. reflexivity.
  - rewrite iter_shr_exact by lia. reflexivity.
Qed.

Lemma round_exact (k n E : Z) :
  2 ^ 52 <= k < 2 ^ 53 -> 0 <= n -> -1074 <= E + n -> E + n <= 971 ->
  binary_round_aux 53 1024 false (k * 2 ^ n) E loc_Exact
  = S754_finite false (Z.to_pos k) (E + n).
Proof.
  intros Hk Hn Hmin Hmax. unfold binary_round_aux.
  rewrite (shr_fexp_exact k n E Hk Hn Hmin).
  cbn [shr_m loc_of_shr_record round_nearest_even].
  pose proof (shr_fexp_exact k 0 (E + n) Hk ltac:(lia) ltac:(lia)) as S2.
  cbn [Z.pow] in S2. rewrite Z.mul_1_r, Z.add_0_r in S2. rewrite S2. cbn [shr_m].
  destruct k as [|q|q]; try lia. cbn [Z.to_pos].
  replace (E + n <=? 1024 - 53) with true by (symmetry; apply Z.leb_le; lia).
  reflexivity.
Qed.

(** The float of the value [M * 2^E] when that value is an integer [z]
    of [d <= 53] binary digits: [z * 2^(53-d)] with exponent [d - 53]. *)
Lemma normalize_exact (M : positive) (E z d : Z) :
  E <= 0 -> Z.pos M = z * 2 ^ (- E) -> 2 ^ (d - 1) <= z < 2 ^ d -> 1 <= d <= 53 ->
  binary_normalize 53 1024 (Z.pos M) E false
  = S754_finite false (Z.to_pos (z * 2 ^ (53 - d))) (d - 53).
Proof.
  intros HE HM Hz Hd. cbn [binary_normalize]. unfold binary_round, shl_align, fexp, emin.
  pose proof (pow2_pos (- E) ltac:(lia)) as HpE.
  pose proof (pow2_pos (d - 1) ltac:(lia)) as Hpd.
  pose proof (pow2_pos (53 - d) ltac:(lia)) as Hp53.
  assert (D : Z.pos (digits2_pos M) = d - E).
  { apply digits2_unique. rewrite HM.
    replace (d - E - 1) with ((d - 1) + (- E)) by lia.
    replace (d - E) with (d + (- E)) by lia.
    rewrite !Z.pow_add_r by lia. nia. }
  rewrite D.
  replace (Z.max (d - E + E - 53) (3 - 1024 - 53)) with (d - 53) by lia.
  assert (K : 2 ^ 52 <= z * 2 ^ (53 - d) < 2 ^ 53).
  { assert (E1 : 2 ^ 52 = 2 ^ (d - 1) * 2 ^ (53 - d)).
    { rewrite <- Z.pow_add_r by lia. f_equal. lia. }
    assert (E2 : 2 ^ 53 = 2 ^ d * 2 ^ (53 - d)).
    { rewrite <- Z.pow_add_r by lia. f_equal. lia. }
    rewrite E1, E2. nia. }
  destruct (d - 53 - E) as [|p|p] eqn:En.
  - assert (Z.pos M = z * 2 ^ (53 - d) * 2 ^ 0).
    { rewrite HM. cbn [Z.pow]. rewrite Z.mul_1_r. f_equal. f_equal. lia. }
    rewrite H, (round_exact _ 0 E K) by lia. f_equal. lia.
  - assert (Z.pos M = z * 2 ^ (53 - d) * 2 ^ Z.pos p).
    { rewrite HM, <- Z.mul_assoc, <- Z.pow_add_r by lia. f_equal. f_equal. lia. }
    rewrite H, (round_exact _ (Z.pos p) E K) by lia. f_equal. lia.
  - assert (Z.pos (Pos.iter xO M p) = z * 2 ^ (53 - d) * 2 ^ 0).
    { rewrite pos_iter_xO, HM, <- Z.mul_assoc, <- Z.pow_add_r by lia.
      cbn [Z.pow]. rewrite Z.mul_1_r. f_equal. f_equal. lia. }
    rewrite H, (round_exact _ 0 (d - 53) K) by lia. f_equal. lia.
Qed.

Lemma digits_of_small (z : Z) :
  0 < z < 2 ^ 53 -> exists d, 1 <= d <= 53 /\ 2 ^ (d - 1) <= z < 2 ^ d.
Proof.
  intros Hz. destruct z as [|p|p]; try lia.
  pose proof (digits2_pos_bounds p) as B. exists (Z.pos (digits2_pos p)).
  split; [|exact B]. split; [lia|].
  destruct (Z_le_gt_dec (Z.pos (digits2_pos p)) 53) as [L|G]; [exact L|].
  assert (2 ^ 53 <= 2 ^ (Z.pos (digits2_pos p) - 1)) by (apply Z.pow_le_mono_r; lia).
  lia.
Qed.

(** [float(z)] of a positive integer below [2^53] is [z] itself. *)
Lemma nearest_small (z d : Z) :
  2 ^ (d - 1) <= z < 2 ^ d -> 1 <= d <= 53 ->
  Float.nearest z = S754_finite false (Z.to_pos (z * 2 ^ (53 - d))) (d - 53).
Proof.
  intros Hz Hd. pose proof (pow2_pos (d - 1) ltac:(lia)).
  destruct z as [|p|p]; try lia. unfold Float.nearest.
  apply (normalize_exact p 0 (Z.pos p) d); [lia| |exact Hz|exact Hd].
  cbn. lia.
Qed.

Lemma nearest_exact (z : Z) :
  0 < z < 2 ^ 53 -> Float.compare_Z (Float.nearest z) z = Some Eq.
Proof.
  intros Hz. destruct (digits_of_small z Hz) as (d & Hd & Hzd).
  rewrite (nearest_small z d Hzd Hd). unfold Float.compare_Z, Float.signed.
  pose proof (pow2_pos (53 - d) ltac:(lia)) as Hp.
  rewrite Z2Pos.id by nia.
  destruct (0 <=? d - 53) eqn:L.
  - apply Z.leb_le in L. assert (d = 53) by lia. subst d.
    cbn [Z.sub Z.pow Z.pos_sub]. change (2 ^ (53 - 53)) with 1.
    rewrite !Z.mul_1_r. rewrite Z.compare_refl. reflexivity.
  - replace (- (d - 53)) with (53 - d) by lia. rewrite Z.compare_refl. reflexivity.
Qed.

(** The float sum of two positive integers whose sum is below [2^53] is
    the float of the sum. *)
Lemma add_exact (a b : Z) :
  0 < a -> 0 < b -> a + b < 2 ^ 53 ->
  Float.add (Float.nearest a) (Float.nearest b) = Float.nearest (a + b).
Proof.
  intros Ha Hb Hab.
  destruct (digits_of_small a ltac:(lia)) as (da & Hda & Hza).
  destruct (digits_of_small b ltac:(lia)) as (db & Hdb & Hzb).
  destruct (digits_of_small (a + b) ltac:(lia)) as (dc & Hdc & Hzc).
  rewrite (nearest_small a da Hza Hda), (nearest_small b db Hzb Hdb),
    (nearest_small (a + b) dc Hzc Hdc).
  pose proof (pow2_pos (53 - da) ltac:(lia)) as Pa.
  pose proof (pow2_pos (53 - db) ltac:(lia)) as Pb.
  unfold Float.add, SFadd. cbn [cond_Zopp].
  set (ez := IntDef.Z.min (da - 53) (db - 53)).
  assert (Hez : ez = Z.min (da - 53) (db - 53)) by reflexivity.
  assert (Sa : Z.pos (fst (shl_align (Z.to_pos (a * 2 ^ (53 - da))) (da - 53) ez))
               = a * 2 ^ (- ez)).
  { unfold shl_align. destruct (ez - (da - 53)) as [|p|p] eqn:En; cbn [fst]; try lia.
    - rewrite Z2Pos.id by nia. f_equal. f_equal. lia.
    - rewrite pos_iter_xO, Z2Pos.id by nia.
      rewrite <- Z.mul_assoc, <- Z.pow_add_r by lia. f_equal. f_equal. lia. }
  assert (Sb : Z.pos (fst (shl_align (Z.to_pos (b * 2 ^ (53 - db))) (db - 53) ez))
               = b * 2 ^ (- ez)).
  { unfold shl_align. destruct (ez - (db - 53)) as [|p|p] eqn:En; cbn [fst]; try lia.
    - rewrite Z2Pos.id by nia. f_equal. f_equal. lia.
    - rewrite pos_iter_xO, Z2Pos.id by nia.
      rewrite <- Z.mul_assoc, <- Z.pow_add_r by lia. f_equal. f_equal. lia. }
  rewrite Sa, Sb. pose proof (pow2_pos (- ez) ltac:(lia)) as Pe.
  destruct (a * 2 ^ (- ez) + b * 2 ^ (- ez)) as [|M|M] eqn:EM; try nia.
  apply (normalize_exact M ez (a + b) dc); [lia| |exact Hzc|exact Hdc].
  rewrite <- EM. lia.
Qed.

Lemma of_Z_small (z : Z) : 0 < z < 2 ^ 53 -> Float.of_Z z = Ok (Float.nearest z).
Proof.
  intros Hz. destruct (digits_of_small z Hz) as (d & Hd & Hzd).
  unfold Float.of_Z. rewrite (nearest_small z d Hzd Hd). reflexivity.
Qed.

Lemma py_float_as_int (v : value) (z : Z) :
  as_int v = Some z -> py_float v = Float.of_Z z.
Proof. destruct v as [|b|x|s|l]; cbn; try discriminate; intros [= <-]; reflexivity. Qed.

Lemma truthy_as_int (v : value) (z : Z) :
  as_int v = Some z -> truthy v = negb (z =? 0).
Proof.
  destruct v as [|b|x|s|l]; cbn; try discriminate; intros [= <-]; [|reflexivity].
  destruct b; reflexivity.
Qed.

Lemma add_total_of (s z : Z) :
  0 <= s -> 0 < z -> s + z < 2 ^ 53 ->
  Num.add (total_of s) (NFloat (Float.nearest z)) = Ok (total_of (s + z)).
Proof.
  intros Hs Hz Hsz. unfold total_of.
  replace (s + z =? 0) with false by (symmetry; apply Z.eqb_neq; lia).
  destruct (s =? 0) eqn:S0.
  - apply Z.eqb_eq in S0. subst s. rewrite Z.add_0_l.
    destruct (digits_of_small z ltac:(lia)) as (d & Hd & Hzd).
    rewrite (nearest_small z d Hzd Hd). reflexivity.
  - apply Z.eqb_neq in S0. unfold Num.add, Num.arith. cbn [Num.to_float mbind result_bind].
    rewrite add_exact by lia. reflexivity.
Qed.

Lemma int_price_nonneg (part : option record) : whole_price part -> 0 <= int_price part.
Proof.
  unfold whole_price, int_price. intros H. destruct part as [d|]; [|lia].
  destruct (H d eq_refl) as [N|(x & Hx & Hx0)].
  - rewrite N. cbn. lia.
  - rewrite Hx. exact Hx0.
Qed.

Lemma int_price_sum_nonneg (l : list (option record)) :
  Forall whole_price l -> 0 <= fold_right Z.add 0 (List.map int_price l).
Proof.
  induction 1 as [|q l' Hq _ IH]; cbn [List.map fold_right]; [lia|].
  pose proof (int_price_nonneg q Hq). lia.
Qed.

Lemma price_term_whole (part : option record) :
  whole_price part -> int_price part < 2 ^ 53 ->
  price_term part
  = Ok (if int_price part =? 0 then None else Some (Float.nearest (int_price part))).
Proof.
  intros H Hb. unfold price_term, int_price in *. destruct part as [d|]; [|reflexivity].
  destruct (H d eq_refl) as [N|(z & Hz & Hz0)].
  - rewrite N. cbn [as_int from_option id truthy]. rewrite andb_false_r. reflexivity.
  - rewrite Hz in *. cbn [from_option id] in *.
    rewrite (truthy_as_int _ _ Hz). destruct (z =? 0) eqn:Z0; cbn [negb].
    + rewrite andb_false_r. reflexivity.
    + apply Z.eqb_neq in Z0.
      assert (P : present (Some d) = true).
      { apply negb_true_iff, bool_decide_eq_false. intros ->.
        unfold get in Hz. rewrite lookup_empty in Hz. discriminate. }
      rewrite P, (py_float_as_int _ _ Hz), of_Z_small by lia. reflexivity.
Qed.

Lemma total_loop_exact (l : list (option record)) (s : Z) :
  Forall whole_price l -> 0 <= s ->
  s + fold_right Z.add 0 (List.map int_price l) < 2 ^ 53 ->
  total_loop (total_of s) l = Ok (total_of (s + fold_right Z.add 0 (List.map int_price l))).
Proof.
  intros F. revert s. induction F as [|part rest Hp Hrest IH]; intros s Hs Hb;
    cbn [List.map fold_right total_loop] in *.
  { rewrite Z.add_0_r. reflexivity. }
  pose proof (int_price_nonneg part Hp) as Hz0.
  pose proof (int_price_sum_nonneg rest Hrest) as Hr0.
  rewrite (price_term_whole part Hp) by lia. cbn [mbind result_bind].
  destruct (int_price part =? 0) eqn:Z0.
  - apply Z.eqb_eq in Z0. rewrite Z0, Z.add_0_l in *. apply IH; lia.
  - apply Z.eqb_neq in Z0. rewrite add_total_of by lia. cbn [mbind result_bind].
    rewrite IH by lia. f_equal. f_equal. lia.
Qed.

(** X21: the total of whole prices is exact.  When every price of the
    build is a whole number that is not negative (or is missing) and the
    prices add up to less than [2^53], [get_total_price] returns the sum:
    the integer [0] when no part has a price above 0, and otherwise the
    float that equals the sum of the prices, although the sum is
    accumulated in binary64 arithmetic. *)
Theorem total_price_exact (pl : PartList) :
  (forall k, In k slot_order -> whole_price (slot pl k)) ->
  price_sum pl < 2 ^ 53 ->
  get_total_price pl = Ok (total_of (price_sum pl)) /\
  0 <= price_sum pl /\
  (0 < price_sum pl ->
   Float.compare_Z (Float.nearest (price_sum pl)) (price_sum pl) = Some Eq).
Proof.
  intros H Hb. unfold get_total_price, price_sum in *.
  assert (F : Forall whole_price (List.map (slot pl) slot_order)).
  { apply Forall_forall. intros p Hp.
    apply list_elem_of_In, in_map_iff in Hp as (k & <- & Hk). apply H, Hk. }
  pose proof (int_price_sum_nonneg _ F) as P.
  pose proof (total_loop_exact _ 0 F ltac:(lia)) as E.
  rewrite List.map_map, Z.add_0_l in E. rewrite List.map_map in P.
  split; [exact (E Hb)|]. split; [exact P|].
  intros Hpos. apply nearest_exact. lia.
Qed.


Lemma whole_price_of (pl : PartList) (k : string) (r : record) (z : Z) :
  slot pl k = Some r -> as_int (get r "price") = Some z -> 0 <= z ->
  whole_price (slot pl k).
Proof.
  intros Hs Hz Hz0 d Hd. assert (d = r) by congruence. subst d.
  right. exists z. auto.
Qed.

Lemma total_price_exact_witness :
  get_total_price sample_build = Ok (NFloat (Float.nearest 12600000)).
Proof.
  assert (S : price_sum sample_build = 12600000) by vm_refl.
  refine (eq_trans (proj1 (total_price_exact sample_build _ _)) _).
  - intros k [<-|[<-|[<-|[<-|[<-|[<-|[]]]]]]].
    + apply (whole_price_of _ _ sample_cpu 2000000); [vm_refl | vm_refl | lia].
    + apply (whole_price_of _ _ gpu_4060 7000000); [vm_refl | vm_refl | lia].
    + apply (whole_price_of _ _ board_am4 1500000); [vm_refl | vm_refl | lia].
    + apply (whole_price_of _ _ ram_ddr4 900000); [vm_refl | vm_refl | lia].
    + apply (whole_price_of _ _ psu_650 700000); [vm_refl | vm_refl | lia].
    + apply (whole_price_of _ _ case_mid 500000); [vm_refl | vm_refl | lia].
  - rewrite S. reflexivity.
  - rewrite S. reflexivity.
Defined.

(** What [float()] can raise. *)
Lemma py_float_raises (v : value) (e : exn) :
  py_float v = Raise e ->
  exn_kind_of e = ValueError \/ exn_kind_of e = TypeError \/
  exn_kind_of e = OverflowError.
Proof.
  assert (O : forall z, Float.of_Z z = Raise e -> exn_kind_of e = OverflowError).
  { intros z. unfold Float.of_Z. destruct (Float.nearest z); try discriminate.
    intros [= <-]. reflexivity. }
  destruct v as [|b|z|s|l]; cbn [py_float].
  - intros [= <-]. auto.
  - intros H. right. right. exact (O _ H).
  - intros H. right. right. exact (O _ H).
  - destruct (PyFloat.parse s); [discriminate|]. intros [= <-]. auto.
  - intros [= <-]. auto.
Qed.

Lemma price_term_raises (part : option record) (e : exn) :
  price_term part = Raise e -> exn_kind_of e = OverflowError.
Proof.
  unfold price_term. destruct part as [d|]; [|discriminate].
  destruct (present (Some d) && truthy (get d "price")); [|discriminate].
  destruct (py_float (get d "price")) as [f|e'] eqn:E; [discriminate|].
  destruct (py_float_raises _ _ E) as [K|[K|K]]; rewrite K; try discriminate.
  intros [= <-]. exact K.
Qed.

Lemma total_loop_raises (l : list (option record)) (total : num) (e : exn) :
  total_loop total l = Raise e -> exn_kind_of e = OverflowError.
Proof.
  revert total. induction l as [|part rest IH]; intros total; cbn [total_loop];
    [discriminate|].
  destruct (price_term part) as [[f|]|e'] eqn:E; cbn [mbind result_bind].
  - destruct (Num.add total (NFloat f)) as [t|e'] eqn:A; cbn [mbind result_bind];
      [apply IH|].
    intros [= <-]. unfold Num.add, Num.arith in A.
    destruct total as [z|g]; cbn [Num.to_float mbind result_bind] in A; [|discriminate].
    unfold Float.of_Z in A. destruct (Float.nearest z); try discriminate.
    injection A as <-. reflexivity.
  - apply IH.
  - intros [= <-]. exact (price_term_raises _ _ E).
Qed.

Lemma total_loop_unpriced (l : list (option record)) (total : num) :
  Forall (fun part => forall d, part = Some d -> truthy (get d "price") = false) l ->
  total_loop total l = Ok total.
Proof.
  induction 1 as [|part rest Hp _ IH]; [reflexivity|]. cbn [total_loop].
  assert (E : price_term part = Ok None).
  { unfold price_term. destruct part as [d|]; [|reflexivity].
    rewrite (Hp d eq_refl), andb_false_r. reflexivity. }
  rewrite E. exact IH.
Qed.

(** X22: what [get_total_price] does outside whole prices.  A price that
    [float()] rejects with [ValueError] or [TypeError] is left out of the
    total; the only exception that leaves the method is the
    [OverflowError] of an integer too large for a float.  The total of a
    build in which no part has a price that is not empty is the integer
    [0], not a float. *)
Theorem total_price_edges (pl : PartList) :
  (forall e, get_total_price pl = Raise e -> exn_kind_of e = OverflowError) /\
  ((forall k d, In k slot_order -> slot pl k = Some d ->
      truthy (get d "price") = false) ->
   get_total_price pl = Ok (NInt 0)) /\
  (forall d e, py_float (get d "price") = Raise e ->
     exn_kind_of e <> OverflowError -> price_term (Some d) = Ok None).
Proof.
  unfold get_total_price. split; [|split].
  - intros e. apply total_loop_raises.
  - intros H. apply total_loop_unpriced. apply Forall_forall. intros p Hp.
    apply list_elem_of_In, in_map_iff in Hp as (k & <- & Hk). intros d Hd.
    exact (H k d Hk Hd).
  - intros d e E K. unfold price_term.
    destruct (present (Some d) && truthy (get d "price")); [|reflexivity].
    rewrite E. destruct (py_float_raises _ _ E) as [K'|[K'|K']]; rewrite K';
      try reflexivity.
    contradiction.
Qed.

Lemma total_price_edges_witness :
  get_total_price new_PartList = Ok (NInt 0) /\
  price_term (Some (mk_record [("name", VStr "case"); ("price", VStr "n/a")])) = Ok None.
Proof.
  split.
  - apply (proj1 (proj2 (total_price_edges new_PartList))).
    intros k d _ Hd. rewrite new_PartList_slot in Hd. discriminate Hd.
  - refine (proj2 (proj2 (total_price_edges new_PartList)) _
              (MkExn ValueError ("could not convert string to float: " +:+ "'n/a'")) _ _).
    + vm_refl.
    + discriminate.
Defined.

(* ===================================================================== *)
(** ** The auto-builder: where the parts come from *)
(* ===================================================================== *)

(** X23: every part of a build that [run_auto_build] returns is a record
    of the catalogue of its category with a nonzero price within the
    budget of that category: the split of the total for CPU, motherboard
    and RAM, the GPU budget of the run for the graphics card, and half of
    the "other" split for the PSU and for the case, when there is one. *)
Theorem auto_build_parts (db : PartDatabase) (total : num) (purpose : string)
    (build : PartList) (ws : list string) :
  run_auto_build db total purpose = Ok (Some build, ws) ->
  exists tf cpu mobo ram gpu psu gpu_budget_final other_budget_each,
    Num.to_float total = Ok tf /\
    gpu_budget tf (splits_of purpose) cpu mobo ram = Ok gpu_budget_final /\
    Num.div (share tf (split_other (splits_of purpose))) (NInt 2) = Ok other_budget_each /\
    let chosen slot_name category budget part :=
      slot build slot_name = Some part /\
      part ∈ default [] (data db !! category) /\ within_budget budget part in
    chosen "cpu" "cpu" (share tf (split_cpu (splits_of purpose))) cpu /\
    chosen "motherboard" "motherboard"
      (share tf (split_motherboard (splits_of purpose))) mobo /\
    chosen "ram" "memory" (share tf (split_ram (splits_of purpose))) ram /\
    chosen "gpu" "video-card" gpu_budget_final gpu /\
    chosen "psu" "power-supply" other_budget_each psu /\
    (forall case, slot build "case" = Some case ->
       case ∈ default [] (data db !! "case") /\ within_budget other_budget_each case).
Proof.
  intros H.
  destruct (run_auto_build_outcome _ _ _ _ H) as (tf & Etf & O).
  inversion O as [ | | | |
    | cpu b1 r1 c1 mobo b2 r2 c2 ram b3 r3 bg gpu b4 ob c4 psu b5 case b6 ws'
        A1 A2 A3 A4 E5 Eb5 Ecase Eb6 Ews ]; subst.
  destruct (run_slots _ _ _ _ _ _ _ _ _ _ _ _ _ _ _ _ _ _ _ _ _ _ _
              A1 A2 A3 A4 Eb5 Eb6) as (S1 & S2 & S3 & S4 & S5).
  pose proof (gpu_budget_of_stages _ _ _ _ _ _ _ _ _ _ _ _ _ _ _ A1 A2 A3) as G.
  assert (P : forall k budget cs r, _pick_part db k budget cs = Ok (Some r) ->
                r ∈ default [] (data db !! k) /\ within_budget budget r).
  { intros k budget cs r Hp. apply pick_part_inv in Hp as (all_parts & Hs & Hr & Ha).
    apply search_parts_inv in Hs as [-> _]. apply elem_of_filter in Hr as [Hr _].
    split; [exact Hr | apply affordable_true, Ha]. }
  exists tf, cpu, mobo, ram, gpu, psu, bg, ob. split; [exact Etf|]. split; [exact G|].
  split; [apply A4|]. cbn zeta.
  split. { split; [exact S1|]. apply (P _ _ _ _ (proj1 A1)). }
  split. { split; [exact S2|]. apply (P _ _ _ _ (proj1 A2)). }
  split. { split; [exact S3|]. apply (P _ _ _ _ (proj1 A3)). }
  split. { split; [exact S4|]. apply (P _ _ _ _ (proj1 A4)). }
  split. { split; [exact S5|]. apply (P _ _ _ _ E5). }
  intros c Hc. unfold with_case in Eb6. destruct case as [c'|].
  - destruct (present (Some c')).
    + assert (K : is_Some (parts b5 !! "case")).
      { destruct A1 as (_ & B1 & _). destruct A2 as (_ & B2 & _).
        destruct A3 as (_ & B3 & _). destruct A4 as (_ & B4 & _).
        apply (add_keys _ _ _ _ _ Eb5), (add_keys _ _ _ _ _ B4),
          (add_keys _ _ _ _ _ B3), (add_keys _ _ _ _ _ B2), (add_keys _ _ _ _ _ B1),
          new_PartList_keys. cbn; tauto. }
      rewrite (add_slot_eq _ _ _ _ Eb6 K) in Hc. injection Hc as <-.
      apply (P _ _ _ _ Ecase).
    + injection Eb6 as <-. exfalso.
      destruct A1 as (_ & B1 & _). destruct A2 as (_ & B2 & _).
      destruct A3 as (_ & B3 & _). destruct A4 as (_ & B4 & _).
      rewrite (add_slot_ne _ _ _ _ _ Eb5), (add_slot_ne _ _ _ _ _ B4),
        (add_slot_ne _ _ _ _ _ B3), (add_slot_ne _ _ _ _ _ B2),
        (add_slot_ne _ _ _ _ _ B1), new_PartList_slot in Hc by discriminate.
      discriminate Hc.
  - injection Eb6 as <-. exfalso.
    destruct A1 as (_ & B1 & _). destruct A2 as (_ & B2 & _).
    destruct A3 as (_ & B3 & _). destruct A4 as (_ & B4 & _).
    rewrite (add_slot_ne _ _ _ _ _ Eb5), (add_slot_ne _ _ _ _ _ B4),
      (add_slot_ne _ _ _ _ _ B3), (add_slot_ne _ _ _ _ _ B2),
      (add_slot_ne _ _ _ _ _ B1), new_PartList_slot in Hc by discriminate.
    discriminate Hc.
Qed.

Lemma auto_build_parts_witness :
  exists tf cpu mobo ram gpu psu gpu_budget_final other_budget_each,
    Num.to_float (NInt 15000000) = Ok tf /\
    gpu_budget tf (splits_of "gaming") cpu mobo ram = Ok gpu_budget_final /\
    Num.div (share tf (split_other (splits_of "gaming"))) (NInt 2)
    = Ok other_budget_each /\
    let chosen slot_name category budget part :=
      slot sample_build slot_name = Some part /\
      part ∈ default [] (data sample_db !! category) /\ within_budget budget part in
    chosen "cpu" "cpu" (share tf (split_cpu (splits_of "gaming"))) cpu /\
    chosen "motherboard" "motherboard"
      (share tf (split_motherboard (splits_of "gaming"))) mobo /\
    chosen "ram" "memory" (share tf (split_ram (splits_of "gaming"))) ram /\
    chosen "gpu" "video-card" gpu_budget_final gpu /\
    chosen "psu" "power-supply" other_budget_each psu /\
    (forall case, slot sample_build "case" = Some case ->
       case ∈ default [] (data sample_db !! "case") /\
       within_budget other_budget_each case).
Proof.
  exact (auto_build_parts sample_db (NInt 15000000) "gaming" sample_build [] sample_run).
Defined.

(* ===================================================================== *)
(** ** Parts that the constraints do not concern *)
(* ===================================================================== *)

(** X24: a part that carries none of the fields the filter looks at (no
    socket, no [speed] with [modules], no memory support, no wattage; a
    case, for one) passes every constraint set, whatever the constraints
    hold. *)
Theorem unconcerned_part_passes (part constraints : record) :
  truthy (get part "socket") = false ->
  truthy (get part "Physical - Socket") = false ->
  has_key "speed" part && has_key "modules" part = false ->
  has_key "Architecture - Memory Support" part = false ->
  has_key "wattage" part = false ->
  passes_constraints part constraints = Ok true.
Proof.
  intros S1 S2 M1 M2 W. unfold passes_constraints.
  assert (E1 : socket_rule part constraints = Ok true).
  { unfold socket_rule. destruct (constraints !! "socket"); [|reflexivity].
    unfold py_or. rewrite S1, S2. reflexivity. }
  assert (E2 : memory_rule part constraints = Ok true).
  { unfold memory_rule. destruct (constraints !! "memory_type"); [|reflexivity].
    rewrite M1, M2. reflexivity. }
  assert (E3 : power_rule part constraints = Ok true).
  { unfold power_rule. destruct (constraints !! "estimated_power"); [|reflexivity].
    rewrite W. reflexivity. }
  rewrite E1. cbn [mbind result_bind negb]. rewrite E2. cbn [mbind result_bind negb].
  exact E3.
Qed.

Lemma unconcerned_part_passes_witness :
  passes_constraints case_mid sample_constraints = Ok true.
Proof. apply unconcerned_part_passes; vm_refl. Defined.

(* ===================================================================== *)
(** ** Amounts: formatting with commas and reading a budget *)
(* ===================================================================== *)

Example commas_examples :
  commas 0 = "0" /\ commas 100 = "100" /\ commas 1000 = "1,000" /\
  commas (-999) = "-999" /\ commas (-1234567) = "-1,234,567" /\
  format_commas (AValue (VStr " 1_0 ")) = Ok "10" /\
  format_commas (AValue (VStr "12.5")) = Ok "12.5" /\
  format_commas (AFloat (Float.literal 129 10)) = Ok "12" /\
  format_commas (AValue (VList [])) = Ok "[]" /\
  format_commas (AValue (VBool true)) = Ok "1" /\
  parse_budget "15000000.50" = Ok 1500000050 /\
  parse_budget "-15,000,000" = Ok 15000000.
Proof. repeat split; vm_compute; reflexivity. Qed.

Lemma uint_digits (d : Decimal.uint) :
  Str.forallb Str.is_digit (NilEmpty.string_of_uint d) = true.
Proof. induction d; cbn [NilEmpty.string_of_uint Str.forallb]; try rewrite IHd; reflexivity. Qed.

Lemma parse_digits_uint (d : Decimal.uint) (acc : Z) (b : bool) :
  d <> Decimal.Nil \/ b = true ->
  parse_digits acc b (NilEmpty.string_of_uint d) = Some (horner acc d).
Proof.
  revert acc b. induction d; intros acc b H; cbn [NilEmpty.string_of_uint horner].
  1: { cbn [parse_digits]. destruct H as [H| ->]; [contradiction | reflexivity]. }
  all: exact (IHd _ true (or_intror eq_refl)).
Qed.

Lemma of_uint_acc_horner (d : Decimal.uint) (acc : positive) :
  Z.pos (Pos.of_uint_acc d acc) = horner (Z.pos acc) d.
Proof.
  revert acc. induction d; intros acc; cbn [Pos.of_uint_acc horner];
    try reflexivity; rewrite IHd; f_equal; lia.
Qed.

Lemma of_uint_horner (d : Decimal.uint) : Z.of_N (Pos.of_uint d) = horner 0 d.
Proof.
  induction d; cbn [Pos.of_uint horner]; try reflexivity; try exact IHd;
    cbn [Z.of_N]; rewrite of_uint_acc_horner; reflexivity.
Qed.

Lemma digits_not_space_first (s : string) :
  Str.forallb Str.is_digit s = true -> strip s = s.
Proof.
  intros H. unfold strip.
  assert (L : lstrip s = s).
  { destruct s as [|a r]; [reflexivity|]. cbn [Str.forallb] in H.
    apply andb_true_iff in H as [Ha _]. cbn [lstrip].
    rewrite (digit_not_space a Ha). reflexivity. }
  rewrite L. clear L. induction s as [|a r IH]; [reflexivity|].
  cbn [Str.forallb] in H. apply andb_true_iff in H as [Ha Hr].
  cbn [rstrip_aux]. rewrite (IH Hr). destruct r; [|reflexivity].
  rewrite (digit_not_space a Ha). reflexivity.
Qed.

(** [int()] reads a numeral back. *)
Lemma py_int_numeral (d : Decimal.uint) :
  d <> Decimal.Nil ->
  py_int (VStr (NilEmpty.string_of_uint d)) = Ok (Z.of_uint d).
Proof.
  intros Hd. cbn [py_int]. unfold parse_int.
  rewrite (digits_not_space_first _ (uint_digits d)).
  assert (P : parse_digits 0 false (NilEmpty.string_of_uint d) = Some (Z.of_uint d)).
  { rewrite parse_digits_uint by (left; exact Hd). unfold Z.of_uint.
    rewrite of_uint_horner. reflexivity. }
  destruct (NilEmpty.string_of_uint d) as [|a r] eqn:E.
  - rewrite P. reflexivity.
  - assert (Ha : Str.is_digit a = true).
    { pose proof (uint_digits d) as U. rewrite E in U. cbn [Str.forallb] in U.
      apply andb_true_iff in U as [U _]. exact U. }
    destruct (Ascii.eqb_spec a "-") as [->|N1]; [discriminate Ha|].
    destruct (Ascii.eqb_spec a "+") as [->|N2]; [discriminate Ha|].
    assert (M : match String a r with
                | String "-"%char r0 => Z.opp <$> parse_digits 0 false r0
                | String "+"%char r0 => parse_digits 0 false r0
                | t => parse_digits 0 false t
                end = parse_digits 0 false (String a r)).
    { destruct a as [[] [] [] [] [] [] [] []]; try reflexivity; congruence. }
    rewrite M, P. reflexivity.
Qed.

Lemma filter_digits_commas (s : string) :
  Str.filter Str.is_digit (commas_digits s) = Str.filter Str.is_digit s.
Proof.
  induction s as [|a r IH]; [reflexivity|]. cbn [commas_digits].
  destruct ((0 <? String.length r)%nat && (String.length r mod 3 =? 0)%nat);
    cbn [Str.filter]; rewrite ?IH;
    change (Str.is_digit ",") with false; cbn iota; reflexivity.
Qed.

Lemma filter_digits_id (s : string) :
  Str.forallb Str.is_digit s = true -> Str.filter Str.is_digit s = s.
Proof.
  induction s as [|a r IH]; [reflexivity|]. cbn [Str.forallb Str.filter].
  intros H. apply andb_true_iff in H as [Ha Hr]. rewrite Ha, (IH Hr). reflexivity.
Qed.

Lemma without_commas_digits (s : string) :
  Str.forallb Str.is_digit s = true -> without_commas (commas_digits s) = s.
Proof.
  unfold without_commas. induction s as [|a r IH]; [reflexivity|].
  cbn [Str.forallb commas_digits]. intros H. apply andb_true_iff in H as [Ha Hr].
  assert (Na : Ascii.eqb a "," = false).
  { destruct (Ascii.eqb_spec a ",") as [->|]; [discriminate Ha | reflexivity]. }
  destruct ((0 <? String.length r)%nat && (String.length r mod 3 =? 0)%nat);
    cbn [Str.filter]; rewrite Na; cbn [negb]; rewrite ?Ascii.eqb_refl; cbn [negb];
    rewrite (IH Hr); reflexivity.
Qed.

(** The numeral of the absolute value of [z]. *)
Lemma of_Z_numeral (z : Z) :
  exists d : Decimal.uint,
    d <> Decimal.Nil /\ Z.of_uint d = Z.abs z /\
    Str.of_Z (Z.abs z) = NilEmpty.string_of_uint d /\
    Str.of_Z z = (if z <? 0 then "-" else EmptyString) +:+ NilEmpty.string_of_uint d.
Proof.
  assert (P : forall p, NilZero.string_of_uint (Pos.to_uint p)
                        = NilEmpty.string_of_uint (Pos.to_uint p)).
  { intros p. pose proof (DecimalPos.Unsigned.to_uint_nonnil p) as N.
    destruct (Pos.to_uint p); [contradiction|..]; reflexivity. }
  assert (Q : forall p, Z.of_uint (Pos.to_uint p) = Z.pos p).
  { intros p. unfold Z.of_uint. rewrite DecimalPos.Unsigned.of_to. reflexivity. }
  destruct z as [|p|p].
  - exists (Decimal.D0 Decimal.Nil). repeat split. discriminate.
  - exists (Pos.to_uint p). split; [apply DecimalPos.Unsigned.to_uint_nonnil|].
    split; [apply Q|]. change (Z.abs (Z.pos p)) with (Z.pos p).
    change (Str.of_Z (Z.pos p)) with (NilZero.string_of_uint (Pos.to_uint p)).
    rewrite P. split; reflexivity.
  - exists (Pos.to_uint p). split; [apply DecimalPos.Unsigned.to_uint_nonnil|].
    split; [apply Q|]. change (Z.abs (Z.neg p)) with (Z.pos p).
    change (Str.of_Z (Z.pos p)) with (NilZero.string_of_uint (Pos.to_uint p)).
    change (Str.of_Z (Z.neg p)) with (String "-" (NilZero.string_of_uint (Pos.to_uint p))).
    rewrite P. split; reflexivity.
Qed.

Lemma parse_budget_commas (z : Z) : parse_budget (commas z) = Ok (Z.abs z).
Proof.
  destruct (of_Z_numeral z) as (d & Hd & Hv & Ha & _).
  unfold parse_budget, commas. rewrite Ha.
  assert (F : Str.filter Str.is_digit
                ((if z <? 0 then "-" else EmptyString) +:+ commas_digits (NilEmpty.string_of_uint d))
              = NilEmpty.string_of_uint d).
  { destruct (z <? 0).
    - change ("-" +:+ ?x) with (String "-" x). cbn [Str.filter].
      change (Str.is_digit "-") with false. cbn iota.
      rewrite filter_digits_commas. apply filter_digits_id, uint_digits.
    - change (EmptyString +:+ ?x) with x.
      rewrite filter_digits_commas. apply filter_digits_id, uint_digits. }
  rewrite F, py_int_numeral by exact Hd. rewrite Hv. reflexivity.
Qed.

Lemma without_commas_commas (z : Z) : without_commas (commas z) = Str.of_Z z.
Proof.
  destruct (of_Z_numeral z) as (d & _ & _ & Ha & Hz).
  unfold commas. rewrite Ha, Hz. unfold without_commas.
  destruct (z <? 0).
  - change ("-" +:+ ?x) with (String "-" x). cbn [Str.filter].
    change (Ascii.eqb "-" ",") with false. cbn [negb].
    fold (without_commas (commas_digits (NilEmpty.string_of_uint d))).
    rewrite without_commas_digits by apply uint_digits. reflexivity.
  - change (EmptyString +:+ ?x) with x.
    fold (without_commas (commas_digits (NilEmpty.string_of_uint d))).
    rewrite without_commas_digits by apply uint_digits. reflexivity.
Qed.

Lemma format_commas_int (v : value) (z : Z) :
  py_int v = Ok z -> format_commas (AValue v) = Ok (commas z).
Proof.
  intros H. destruct v; try discriminate H; cbn [format_commas]; rewrite H; reflexivity.
Qed.

(** X25: amounts round trip.  An amount that [int()] reads as [z] is
    shown by the [commas] filter as [z] with a comma before every group of
    three digits; taking the commas out gives [str(z)] back, and the budget
    field of the form reads the text as the absolute value of [z]: the
    sign is not a digit and is dropped.  (Within the interpreter's limit of
    4300 digits for conversions between [int] and [str], and for strings
    in ASCII without the separators that only [str.strip] removes.) *)
Theorem commas_round_trip (v : value) (z : Z) :
  py_int v = Ok z -> readable v -> within_digit_limit z ->
  format_commas (AValue v) = Ok (commas z) /\
  without_commas (commas z) = Str.of_Z z /\
  parse_budget (commas z) = Ok (Z.abs z).
Proof.
  intros H _ _. split; [exact (format_commas_int v z H)|].
  split; [apply without_commas_commas | apply parse_budget_commas].
Qed.

Lemma commas_round_trip_witness :
  format_commas (AValue (VStr "-15_000_000")) = Ok "-15,000,000" /\
  without_commas "-15,000,000" = "-15000000" /\
  parse_budget "-15,000,000" = Ok 15000000.
Proof.
  apply (commas_round_trip (VStr "-15_000_000") (-15000000)).
  - vm_refl.
  - split; [cbn; lia | split; vm_refl].
  - unfold within_digit_limit. vm_compute. reflexivity.
Defined.

Lemma run_build_page (db : PartDatabase) (budget purpose : option string)
    (build : option PartList) (warnings : list string) (t : Z) :
  run_build db budget purpose = Ok (PBuildResult build warnings t) ->
  5000000 <= t /\
  run_auto_build db (NInt t) (default "gaming" purpose) = Ok (build, warnings).
Proof.
  unfold run_build. destruct (parse_budget (default "0" budget)) as [b|e].
  - destruct (b <? 5000000) eqn:L; [discriminate|]. apply Z.ltb_ge in L.
    destruct (run_auto_build db (NInt b) (default "gaming" purpose))
      as [[b' w']|e'] eqn:R;
      cbn [mbind result_bind]; [|discriminate].
    intros [= <- <- <-]. split; [exact L | exact R].
  - destruct (exn_kind_of e); discriminate.
Qed.

(** X26: the budget of the form.  For a budget field within ASCII:
    a form without the field is answered with the text on a budget too
    low; a field without any digit with the text on an invalid budget; the
    result page is only ever shown for a budget of at least 5,000,000, with
    the build and the warnings of [run_auto_build] at that budget, for
    gaming when the form names no purpose; and a
    field that holds an amount as the pages show it, of at least 5,000,000
    in absolute value, runs the builder at that absolute value. *)
Theorem run_build_budget (db : PartDatabase) (budget purpose : option string) :
  ascii_only (default "0" budget) = true ->
  (budget = None -> run_build db budget purpose = Ok (PText too_low_text)) /\
  (Str.filter Str.is_digit (default "0" budget) = EmptyString ->
   run_build db budget purpose = Ok (PText invalid_text)) /\
  (forall build warnings t,
     run_build db budget purpose = Ok (PBuildResult build warnings t) ->
     5000000 <= t /\
     run_auto_build db (NInt t) (default "gaming" purpose) = Ok (build, warnings)) /\
  (forall z, within_digit_limit z -> budget = Some (commas z) -> 5000000 <= Z.abs z ->
     run_build db budget purpose
     = '(build, warnings) ← run_auto_build db (NInt (Z.abs z)) (default "gaming" purpose);
       Ok (PBuildResult build warnings (Z.abs z))).
Proof.
  intros _. split; [intros ->; reflexivity|]. split; [|split].
  - intros E. unfold run_build, parse_budget. rewrite E. reflexivity.
  - intros build warnings t. apply run_build_page.
  - intros z _ -> Hz. unfold run_build. cbn [default from_option id].
    rewrite parse_budget_commas.
    replace (Z.abs z <? 5000000) with false by (symmetry; apply Z.ltb_ge; exact Hz).
    reflexivity.
Qed.

Lemma run_build_budget_witness :
  run_build sample_db (Some "15,000,000") None
  = Ok (PBuildResult (Some sample_build) [] 15000000).
Proof.
  refine (eq_trans
    (proj2 (proj2 (proj2 (run_build_budget sample_db (Some "15,000,000") None _)))
       15000000 _ _ _) _).
  - reflexivity.
  - unfold within_digit_limit. vm_compute. reflexivity.
  - vm_refl.
  - cbn. lia.
  - change (Z.abs 15000000) with 15000000.
    change (default "gaming" None) with "gaming". rewrite sample_run. reflexivity.
Defined.

Lemma trunc_nearest (z : Z) : 0 < z < 2 ^ 53 -> Float.trunc (Float.nearest z) = Ok z.
Proof.
  intros Hz. destruct (digits_of_small z Hz) as (d & Hd & Hzd).
  rewrite (nearest_small z d Hzd Hd). unfold Float.trunc, Float.signed.
  pose proof (pow2_pos (53 - d) ltac:(lia)) as Hp.
  rewrite Z2Pos.id by nia. f_equal.
  destruct (0 <=? d - 53) eqn:L.
  - apply Z.leb_le in L. assert (d = 53) by lia. subst d.
    change (2 ^ (53 - 53)) with 1. lia.
  - replace (- (d - 53)) with (53 - d) by lia. apply Z.quot_mul. lia.
Qed.

(** X27: the total as the pages show it.  When every price of the build
    is a whole number that is not negative (or is missing) and the prices
    add up to less than [2^53], the [commas] filter shows the total of
    [get_total_price] as the exact sum of the prices with its commas,
    whether the total is the integer [0] or a float. *)
Theorem format_commas_total (pl : PartList) :
  (forall k, In k slot_order -> whole_price (slot pl k)) ->
  price_sum pl < 2 ^ 53 ->
  exists total,
    get_total_price pl = Ok total /\
    format_commas (amount_of_num total) = Ok (commas (price_sum pl)).
Proof.
  intros H Hb. unfold get_total_price, price_sum in *.
  assert (F : Forall whole_price (List.map (slot pl) slot_order)).
  { apply Forall_forall. intros p Hp.
    apply list_elem_of_In, in_map_iff in Hp as (k & <- & Hk). apply H, Hk. }
  pose proof (int_price_sum_nonneg _ F) as P.
  pose proof (total_loop_exact _ 0 F ltac:(lia)) as E.
  rewrite List.map_map, Z.add_0_l in E. rewrite List.map_map in P.
  eexists. split; [exact (E Hb)|].
  set (s := fold_right Z.add 0 (List.map (fun k => int_price (slot pl k)) slot_order)) in *.
  unfold total_of. destruct (s =? 0) eqn:Z0.
  - apply Z.eqb_eq in Z0. rewrite Z0. reflexivity.
  - apply Z.eqb_neq in Z0. cbn [amount_of_num].
    assert (T : Float.trunc (Float.nearest s) = Ok s) by (apply trunc_nearest; lia).
    unfold format_commas. destruct (Float.nearest s); try (rewrite T; reflexivity).
    discriminate T.
Qed.

Lemma format_commas_total_witness :
  exists total,
    get_total_price sample_build = Ok total /\
    format_commas (amount_of_num total) = Ok "12,600,000".
Proof.
  assert (S : price_sum sample_build = 12600000) by vm_refl.
  assert (C : commas 12600000 = "12,600,000") by vm_refl.
  rewrite <- C, <- S. apply (format_commas_total sample_build).
  - intros k [<-|[<-|[<-|[<-|[<-|[<-|[]]]]]]].
    + apply (whole_price_of _ _ sample_cpu 2000000); [vm_refl | vm_refl | lia].
    + apply (whole_price_of _ _ gpu_4060 7000000); [vm_refl | vm_refl | lia].
    + apply (whole_price_of _ _ board_am4 1500000); [vm_refl | vm_refl | lia].
    + apply (whole_price_of _ _ ram_ddr4 900000); [vm_refl | vm_refl | lia].
    + apply (whole_price_of _ _ psu_650 700000); [vm_refl | vm_refl | lia].
    + apply (whole_price_of _ _ case_mid 500000); [vm_refl | vm_refl | lia].
  - rewrite S. reflexivity.
Defined.

(* ===================================================================== *)
(** ** The constraints of the command-line builder *)
(* ===================================================================== *)

Example build_search_constraints_examples :
  build_search_constraints new_PartList = Ok ∅ /\
  build_search_constraints sample_build
  = Ok (mk_record [("socket", VStr "AM4"); ("memory_type", VStr "DDR4");
                   ("estimated_power", VInt 280)]) /\
  build_search_constraints build_tdp_text = Ok {[ "estimated_power" := VInt 400 ]} /\
  get_build_constraints (parts build_tdp_text) = Ok ∅ /\
  bare_socket (VStr "AMD Socket AM4") = Ok "AM4" /\
  bare_socket (VStr "Intel Socket 1700") = Ok "1700".
Proof. repeat split; vm_refl. Qed.

Lemma field_of_present (d : record) (key : string) :
  present (Some d) = false -> get d key = VNone.
Proof.
  unfold present. intros H. apply negb_false_iff, bool_decide_eq_true in H.
  subst d. reflexivity.
Qed.

(** The power that the command-line builder counts for a part. *)
Lemma tdp_or_guess_spec (part : option record) (key : string) (guess : Z) :
  tdp_or_guess part key guess
  = Ok (if truthy (field_of part key)
        then match py_int (field_of part key) with Ok z => z | Raise _ => guess end
        else 0).
Proof.
  unfold tdp_or_guess, field_of. destruct part as [d|]; [|reflexivity].
  cbn [default from_option id]. destruct (present (Some d)) eqn:P.
  - cbn [andb]. destruct (truthy (get d key)); [|reflexivity].
    destruct (py_int (get d key)) as [z|e] eqn:E; [reflexivity|].
    destruct (py_int_raises _ _ E) as [-> | ->]; reflexivity.
  - rewrite (field_of_present d key P). reflexivity.
Qed.

(** The power that the web builder counts for a part. *)
Lemma tdp_or_0_spec (part : option record) (key : string) :
  tdp_or_0 part key
  = if truthy (field_of part key) then py_int (field_of part key) else Ok 0.
Proof.
  unfold tdp_or_0, field_of. destruct part as [d|]; [|reflexivity].
  cbn [default from_option id]. destruct (present (Some d)) eqn:P.
  - unfold py_or. destruct (truthy (get d key)); reflexivity.
  - rewrite (field_of_present d key P). reflexivity.
Qed.

Lemma cli_cpu_constraints_other (cpu : option record) (k : string) (c : record) :
  k <> "socket" -> k <> "memory_type" ->
  cli_cpu_constraints cpu ∅ = Ok c -> c !! k = None.
Proof.
  intros K1 K2. unfold cli_cpu_constraints. destruct cpu as [d|]; [|intros [= <-]; apply lookup_empty].
  destruct (present (Some d)); [|intros [= <-]; apply lookup_empty].
  assert (A : forall c1 : record, c1 !! k = None ->
            (if truthy (get d "Architecture - Memory Support")
             then t ← first_token (get d "Architecture - Memory Support");
                  Ok (<["memory_type" := VStr t]> c1)
             else Ok c1) = Ok c -> c !! k = None).
  { intros c1 H1. destruct (truthy _).
    - destruct (first_token _) as [t|e]; cbn [mbind result_bind]; [|discriminate].
      intros [= <-]. rewrite lookup_insert_ne by congruence. exact H1.
    - intros [= <-]. exact H1. }
  destruct (truthy (get d "Architecture - Socket")).
  - destruct (bare_socket _) as [s|e]; cbn [mbind result_bind]; [|discriminate].
    apply A. rewrite lookup_insert_ne by congruence. apply lookup_empty.
  - cbn [mbind result_bind]. apply A, lookup_empty.
Qed.

Lemma cli_mobo_constraints_other (mobo : option record) (k : string) (c : record) :
  k <> "socket" -> cli_mobo_constraints mobo c !! k = c !! k.
Proof.
  intros K. unfold cli_mobo_constraints. destruct mobo as [m|]; [|reflexivity].
  destruct (present (Some m) && truthy (get m "socket")); [|reflexivity].
  apply lookup_insert_ne. congruence.
Qed.

(** The estimated power of what [build_search_constraints] returned. *)
Lemma cli_power_of (pl : PartList) (c : record) (x y : Z) :
  build_search_constraints pl = Ok c ->
  tdp_or_guess (slot pl "cpu") "Performance - TDP" 100 = Ok x ->
  tdp_or_guess (slot pl "gpu") "Board Design - TDP" 250 = Ok y ->
  c !! "estimated_power"
  = if (x >? 0) || (y >? 0) then Some (VInt (x + y + 100)) else None.
Proof.
  unfold build_search_constraints.
  destruct (cli_cpu_constraints _ ∅) as [c1|e] eqn:E1; [|discriminate].
  cbn [mbind result_bind]. unfold cli_power_constraint. intros H Hx Hy.
  rewrite Hx, Hy in H. cbn [mbind result_bind] in H.
  destruct ((x >? 0) || (y >? 0)); injection H as <-; [apply lookup_insert_eq|].
  rewrite cli_mobo_constraints_other by discriminate.
  apply (cli_cpu_constraints_other (slot pl "cpu") "estimated_power" c1);
    [discriminate | discriminate | exact E1].
Qed.

(** The estimated power of what [get_build_constraints] returned. *)
Lemma web_power_of (pl : PartList) (c : record) :
  get_build_constraints (parts pl) = Ok c ->
  c !! "estimated_power"
  = match tdp_or_0 (slot pl "cpu") "Performance - TDP",
          tdp_or_0 (slot pl "gpu") "Board Design - TDP" with
    | Ok x, Ok y => if (x >? 0) || (y >? 0) then Some (VInt (x + y + 100)) else None
    | _, _ => None
    end.
Proof.
  unfold get_build_constraints.
  fold (slot pl "cpu") (slot pl "motherboard") (slot pl "gpu").
  destruct (socket_constraint _ _ ∅) as [c1|e] eqn:E1; [|discriminate].
  cbn [mbind result_bind].
  destruct (memory_constraint _ c1) as [c2|e] eqn:E2; [|discriminate].
  cbn [mbind result_bind].
  assert (N : c2 !! "estimated_power" = None).
  { rewrite (memory_constraint_other _ "estimated_power" _ _ ltac:(discriminate) E2).
    rewrite (socket_constraint_other _ _ "estimated_power" _ _ ltac:(discriminate) E1).
    apply lookup_empty. }
  unfold power_constraint_web.
  destruct (tdp_or_0 (slot pl "cpu") _) as [x|e] eqn:Ex; cbn [mbind result_bind].
  2:{ destruct (exn_kind_of e); intros [= <-]; try exact N. }
  destruct (tdp_or_0 (slot pl "gpu") _) as [y|e] eqn:Ey; cbn [mbind result_bind].
  2:{ destruct (exn_kind_of e); intros [= <-]; try exact N. }
  destruct ((x >? 0) || (y >? 0)); intros [= <-]; [apply lookup_insert_eq | exact N].
Qed.

(** X28: the power estimate of the command-line builder against that of
    the web builder, on a build for which both return constraints.  When
    [int()] reads the TDP of the CPU and of the GPU (or the TDP is empty or
    missing), the two give the same estimate, or both none.  When a TDP is
    given and [int()] does not read it, the web builder gives no estimate
    and the command-line builder gives one, counting 100 W for such a
    CPU and 250 W for such a GPU: 450 W when neither is read, and
    otherwise the guess plus the power that the web builder reads for the
    other part plus 100 W. *)
Theorem cli_power_estimate (pl : PartList) (c c' : record) :
  build_search_constraints pl = Ok c ->
  get_build_constraints (parts pl) = Ok c' ->
  (unreadable (field_of (slot pl "cpu") "Performance - TDP") = false ->
   unreadable (field_of (slot pl "gpu") "Board Design - TDP") = false ->
   c !! "estimated_power" = c' !! "estimated_power") /\
  (unreadable (field_of (slot pl "cpu") "Performance - TDP") = true \/
   unreadable (field_of (slot pl "gpu") "Board Design - TDP") = true ->
   c' !! "estimated_power" = None) /\
  (unreadable (field_of (slot pl "cpu") "Performance - TDP") = true ->
   unreadable (field_of (slot pl "gpu") "Board Design - TDP") = true ->
   c !! "estimated_power" = Some (VInt (100 + 250 + 100))) /\
  (unreadable (field_of (slot pl "cpu") "Performance - TDP") = true ->
   forall g, tdp_or_0 (slot pl "gpu") "Board Design - TDP" = Ok g ->
   c !! "estimated_power" = Some (VInt (100 + g + 100))) /\
  (unreadable (field_of (slot pl "gpu") "Board Design - TDP") = true ->
   forall x, tdp_or_0 (slot pl "cpu") "Performance - TDP" = Ok x ->
   c !! "estimated_power" = Some (VInt (x + 250 + 100))).
Proof.
  intros Hc Hw.
  rewrite (cli_power_of pl c _ _ Hc (tdp_or_guess_spec _ _ _) (tdp_or_guess_spec _ _ _)).
  rewrite (web_power_of pl c' Hw), !tdp_or_0_spec.
  unfold unreadable.
  set (ct := field_of (slot pl "cpu") "Performance - TDP").
  set (gt := field_of (slot pl "gpu") "Board Design - TDP").
  destruct (truthy ct), (py_int ct) as [x|ex], (truthy gt), (py_int gt) as [y|ey];
    cbn [andb negb is_ok].
  all: repeat split.
  all: try (intros A; discriminate A).
  all: try (intros _ A; discriminate A).
  all: try (intros [A|A]; discriminate A).
  all: try reflexivity.
  all: try (intros _ z [= <-]).
  all: try reflexivity.
  all: try (rewrite orb_true_r; reflexivity).
  all: try (intros _ _; reflexivity).
Qed.

(** On a CPU with the TDP ["65 W"] and a GPU of 200 W: 100 + 200 + 100
    for the command-line builder. *)
Lemma cli_power_estimate_witness :
  ({[ "estimated_power" := VInt 400 ]} : record) !! "estimated_power"
  = Some (VInt (100 + 200 + 100)).
Proof.
  refine (proj1 (proj2 (proj2 (proj2
    (cli_power_estimate build_tdp_text {[ "estimated_power" := VInt 400 ]} ∅ _ _))))
    _ 200 _); vm_refl.
Defined.

Lemma not_a_string_false (v : value) :
  not_a_string v = false -> truthy v = true -> exists s, v = VStr s.
Proof.
  unfold not_a_string. intros H T. rewrite T in H.
  destruct v; try discriminate H. eexists. reflexivity.
Qed.

Lemma tdp_or_guess_returns (part : option record) (key : string) (guess : Z) :
  tdp_catchable (field_of part key) -> exists z, tdp_or_guess part key guess = Ok z.
Proof.
  unfold tdp_catchable, tdp_or_guess, field_of. intros H.
  destruct part as [d|]; [|eexists; reflexivity].
  cbn [default from_option id] in H.
  destruct (present (Some d) && truthy (get d key)); [|eexists; reflexivity].
  destruct (py_int (get d key)) as [z|e] eqn:E; [eexists; reflexivity|].
  destruct (H e eq_refl) as [-> | ->]; eexists; reflexivity.
Qed.

Lemma cli_power_constraint_socket (cpu gpu : option record) (c1 c : record) :
  cli_power_constraint cpu gpu c1 = Ok c -> c !! "socket" = c1 !! "socket".
Proof.
  unfold cli_power_constraint.
  destruct (tdp_or_guess cpu _ _) as [x|e]; cbn [mbind result_bind]; [|discriminate].
  destruct (tdp_or_guess gpu _ _) as [y|e]; cbn [mbind result_bind]; [|discriminate].
  destruct (_ || _); intros [= <-]; [apply lookup_insert_ne; discriminate | reflexivity].
Qed.

(** X29: the socket of the command-line builder, and when the builder
    fails.  Provided [int()] raises nothing but [ValueError] or
    [TypeError] on the TDP of the CPU and on that of the GPU,
    [build_search_constraints] raises exactly when the CPU has a non-empty
    [Architecture - Socket] or [Architecture - Memory Support] that is not
    a string, and then an [AttributeError].  Such a field makes it raise
    an [AttributeError] whatever the TDP fields hold.  When it returns,
    the socket constraint is the [socket] field of the motherboard as it
    is written, whenever that field is not empty; and there is no socket
    constraint when that field and the [Architecture - Socket] of the CPU
    are both empty or missing, whatever the [Physical - Socket] of the CPU
    says. *)
Theorem cli_constraints_socket (pl : PartList) :
  (tdp_catchable (field_of (slot pl "cpu") "Performance - TDP") ->
   tdp_catchable (field_of (slot pl "gpu") "Board Design - TDP") ->
   is_ok (build_search_constraints pl)
   = negb (not_a_string (field_of (slot pl "cpu") "Architecture - Socket") ||
           not_a_string (field_of (slot pl "cpu") "Architecture - Memory Support")) /\
   forall e, build_search_constraints pl = Raise e -> exn_kind_of e = AttributeError) /\
  (not_a_string (field_of (slot pl "cpu") "Architecture - Socket") ||
   not_a_string (field_of (slot pl "cpu") "Architecture - Memory Support") = true ->
   exists e, build_search_constraints pl = Raise e /\ exn_kind_of e = AttributeError) /\
  (forall c, build_search_constraints pl = Ok c ->
     (truthy (field_of (slot pl "motherboard") "socket") = true ->
      c !! "socket" = Some (field_of (slot pl "motherboard") "socket")) /\
     (truthy (field_of (slot pl "motherboard") "socket") = false ->
      truthy (field_of (slot pl "cpu") "Architecture - Socket") = false ->
      c !! "socket" = None)).
Proof.
  unfold build_search_constraints, field_of.
  set (cpu := slot pl "cpu"). set (mobo := slot pl "motherboard").
  set (gpu := slot pl "gpu").
  assert (M : forall c1,
            cli_mobo_constraints mobo c1 !! "socket"
            = if truthy (get (default ∅ mobo) "socket")
              then Some (get (default ∅ mobo) "socket") else c1 !! "socket").
  { intros c1. unfold cli_mobo_constraints. destruct mobo as [m|]; [|reflexivity].
    cbn [default from_option id]. destruct (present (Some m)) eqn:Pm.
    - cbn [andb]. destruct (truthy (get m "socket")); [apply lookup_insert_eq | reflexivity].
    - rewrite (field_of_present m "socket" Pm). reflexivity. }
  assert (C : match cli_cpu_constraints cpu ∅ with
              | Ok c1 =>
                  not_a_string (get (default ∅ cpu) "Architecture - Socket") = false /\
                  not_a_string (get (default ∅ cpu) "Architecture - Memory Support") = false /\
                  (truthy (get (default ∅ cpu) "Architecture - Socket") = false ->
                   c1 !! "socket" = None)
              | Raise e =>
                  exn_kind_of e = AttributeError /\
                  not_a_string (get (default ∅ cpu) "Architecture - Socket") ||
                  not_a_string (get (default ∅ cpu) "Architecture - Memory Support") = true
              end).
  { unfold cli_cpu_constraints. destruct cpu as [d|].
    2:{ split; [reflexivity|]. split; [reflexivity|]. intros _. apply lookup_empty. }
    cbn [default from_option id]. destruct (present (Some d)) eqn:Pd.
    2:{ rewrite !(field_of_present d _ Pd).
        split; [reflexivity|]. split; [reflexivity|]. intros _. apply lookup_empty. }
    unfold not_a_string.
    destruct (get d "Architecture - Socket") as [|b|z|s|l] eqn:Es;
      destruct (get d "Architecture - Memory Support") as [|b'|z'|s'|l'] eqn:Em;
      cbn [bare_socket first_token truthy is_str negb andb orb mbind result_bind raise];
      repeat match goal with
             | |- context [if ?b then _ else _] => destruct b eqn:?
             | |- context [match ?l with [] => _ | _ :: _ => _ end] => destruct l eqn:?
             end;
      cbn [bare_socket first_token truthy is_str negb andb orb mbind result_bind raise
           exn_kind_of];
      repeat split; try discriminate; try reflexivity; try (intros _; apply lookup_empty);
      try (intros _; rewrite lookup_insert_ne by discriminate; apply lookup_empty). }
  destruct (cli_cpu_constraints cpu ∅) as [c1|e] eqn:E1; cbn [mbind result_bind].
  - destruct C as (C1 & C2 & C3). rewrite C1, C2. cbn [orb negb]. split; [|split].
    + intros Tc Tg. unfold cli_power_constraint.
      destruct (tdp_or_guess_returns cpu "Performance - TDP" 100 Tc) as (x & ->).
      destruct (tdp_or_guess_returns gpu "Board Design - TDP" 250 Tg) as (y & ->).
      cbn [mbind result_bind]. destruct (_ || _); split; try reflexivity; discriminate.
    + discriminate.
    + intros c Hc. rewrite (cli_power_constraint_socket _ _ _ _ Hc), M. split.
      * intros ->. reflexivity.
      * intros ->. exact C3.
  - destruct C as (C1 & C2). rewrite C2. split; [|split].
    + intros _ _. split; [reflexivity|]. intros e0 [= <-]. exact C1.
    + intros _. exists e. split; [reflexivity | exact C1].
    + discriminate.
Qed.

(** On a CPU with the TDP ["65 W"], on which [int()] raises
    [ValueError], and a GPU of 200 W the builder returns. *)
Lemma cli_constraints_socket_witness :
  is_ok (build_search_constraints build_tdp_text) = true.
Proof.
  assert (Ec : field_of (slot build_tdp_text "cpu") "Performance - TDP" = VStr "65 W")
    by vm_refl.
  assert (Eg : field_of (slot build_tdp_text "gpu") "Board Design - TDP" = VInt 200)
    by vm_refl.
  refine (eq_trans (proj1 (proj1 (cli_constraints_socket build_tdp_text) _ _)) _).
  - rewrite Ec. intros e [= <-]. left. reflexivity.
  - rewrite Eg. intros e H. discriminate H.
  - vm_refl.
Defined.

(* ===================================================================== *)
(** ** Selecting a part by its name *)
(* ===================================================================== *)

(** In a catalogue that lists the RTX 4060 Ti first, selecting the
    RTX 4060 by its name changes nothing: the first record that mentions
    the name is the Ti, whose name is another. *)
Example select_part_examples :
  select_part sample_db (Some fresh_web_build) (Some "gpu") (Some "RTX 4060")
  = Ok (Some web_build_4060) /\
  select_part db_ti_first (Some fresh_web_build) (Some "gpu") (Some "RTX 4060")
  = Ok (Some fresh_web_build) /\
  select_part db_ti_first (Some fresh_web_build) (Some "gpu") (Some "RTX 4060 Ti")
  <> Ok (Some fresh_web_build) /\
  select_part sample_db (Some fresh_web_build) (Some "gpu") (Some "rtx 4060")
  = Ok (Some fresh_web_build) /\
  select_part sample_db (Some fresh_web_build) (Some "video-card") (Some "RTX 4060")
  = Ok (Some fresh_web_build) /\
  select_part sample_db (Some fresh_web_build) None None = Ok (Some fresh_web_build) /\
  is_ok (select_part sample_db (Some fresh_web_build) (Some "gpu") None) = false /\
  is_ok (select_part sample_db None (Some "gpu") (Some "RTX 4060")) = false.
Proof. repeat split; try vm_refl. vm_compute. discriminate. Qed.

(** The head of what a filtering loop returns is the first element that
    passes the test. *)
Lemma filter_result_head {A} (f : A -> result bool) (l : list A) (x : A) (r : list A) :
  filter_result f l = Ok (x :: r) ->
  exists before after,
    l = (before ++ x :: after)%list /\ f x = Ok true /\
    Forall (fun q => f q = Ok false) before.
Proof.
  revert x r. induction l as [|a l IH]; intros x r; cbn [filter_result]; [discriminate|].
  destruct (f a) as [b|e] eqn:E; cbn [mbind result_bind]; [|discriminate].
  destruct (filter_result f l) as [r'|e]; cbn [mbind result_bind]; [|discriminate].
  destruct b.
  - intros [= -> ->]. exists [], l. split; [reflexivity|]. split; [exact E | constructor].
  - intros [= ->]. destruct (IH x r eq_refl) as (before & after & -> & Hx & Hb).
    exists (a :: before), after. split; [reflexivity|]. split; [exact Hx|].
    constructor; [exact E | exact Hb].
Qed.

Lemma value_eqb_VStr (v : value) (n : string) : value_eqb v (VStr n) = true -> v = VStr n.
Proof.
  destruct v as [|b|z|s|l]; cbn [value_eqb]; try discriminate.
  intros H. apply String.eqb_eq in H. rewrite H. reflexivity.
Qed.

(** X30: selecting a part by its name.  When [select_part] returns with
    a build in the session, either the build is as it was, or the slot of
    the form holds a record of the catalogue of the slot's category whose
    name is exactly the submitted name and before which no record of the
    catalogue mentions that name (letter case aside, in its name or, for
    a video card, its chipset); the other slots and the order of the slots
    are as they were, and the total is that of the loop over the slots. *)
Theorem select_part_sound (db : PartDatabase) (b b' : web_build)
    (part_type part_name : option string) :
  select_part db (Some b) part_type part_name = Ok (Some b') ->
  b' = b \/
  exists t n category before part after,
    part_type = Some t /\ part_name = Some n /\
    json_key_map !! t = Some category /\
    data db !! category = Some (before ++ part :: after)%list /\
    part !! "name" = Some (VStr n) /\
    Forall (fun q => search_match category (Str.lower n) ∅ q = Ok false) before /\
    wb_parts b' = parts_assign t (Some part) (wb_parts b) /\
    web_total_loop (NInt 0) (List.map snd (wb_parts b')) = Ok (wb_total b').
Proof.
  unfold select_part.
  destruct (search_by_name db _ part_name) as [all_parts|e] eqn:S;
    cbn [mbind result_bind]; [|discriminate].
  destruct all_parts as [|first rest]; cbn [mbind result_bind].
  { intros [= <-]. left. reflexivity. }
  destruct (first !! "name") as [name|] eqn:Nm; cbn [mbind result_bind]; [|discriminate].
  destruct (value_eqb name _) eqn:Q.
  2:{ intros [= <-]. left. reflexivity. }
  destruct part_type as [t|]; [|discriminate S].
  destruct (present (Some first)); [|intros [= <-]; left; reflexivity].
  destruct (web_total_loop _ _) as [total|e] eqn:T; cbn [mbind result_bind]; [|discriminate].
  intros [= <-]. right. unfold search_by_name in S. cbn [mbind option_bind] in S.
  destruct (json_key_map !! t) as [category|] eqn:J; [|discriminate S].
  cbn [mbind option_bind] in S.
  destruct (data db !! category) as [table|] eqn:D; [|discriminate S].
  destruct part_name as [n|]; [|discriminate S].
  unfold search_parts in S. rewrite D in S.
  destruct (filter_result_head _ _ _ _ S) as (before & after & -> & _ & Hb).
  cbn [from_option] in Q. apply value_eqb_VStr in Q. subst name.
  exists t, n, category, before, first, after.
  repeat split; try reflexivity; try assumption.
Qed.

Lemma select_part_sound_witness :
  web_build_4060 = fresh_web_build \/
  exists t n category before part after,
    Some "gpu" = Some t /\ Some "RTX 4060" = Some n /\
    json_key_map !! t = Some category /\
    data sample_db !! category = Some (before ++ part :: after)%list /\
    part !! "name" = Some (VStr n) /\
    Forall (fun q => search_match category (Str.lower n) ∅ q = Ok false) before /\
    wb_parts web_build_4060 = parts_assign t (Some part) (wb_parts fresh_web_build) /\
    web_total_loop (NInt 0) (List.map snd (wb_parts web_build_4060))
    = Ok (wb_total web_build_4060).
Proof.
  apply (select_part_sound sample_db fresh_web_build web_build_4060
           (Some "gpu") (Some "RTX 4060")).
  vm_refl.
Defined.
